(** * ForgeSense Intelligence: metric derivation and insight rules

    A shallow embedding of the analyzer and insight-generator classes of the
    repository, and the properties of its specification checked against it.

    Numbers.  The Python code computes on pandas columns of IEEE doubles.
    The embedding keeps the special values that decide the behaviour of the
    code (a missing cell is NaN, a division by zero gives an infinity, every
    comparison with NaN is false) and idealises the finite values as exact
    rationals: rounding error of the binary representation is not modelled,
    and zero carries no sign.  Two computations are given as the doubles
    they are, each operation rounded to the nearest double ([dadd],
    [dmul], [ddiv]): the products with a decimal constant that decide a
    threshold rule at its boundary ([target * 1.15], [best * 1.1]), and
    the two scores of a record in [ScoreDoubles], whose bounds depend on
    the rounding. *)

From Stdlib Require Import QArith Qabs Qminmax Qround Qpower Lqa Lia ZArith.
From Stdlib Require Import List String Bool Permutation Sorted DecimalString.
Import ListNotations.

Open Scope string_scope.
Open Scope list_scope.
Open Scope Q_scope.

(* ================================================================== *)
(** ** Column values *)
(* ================================================================== *)

Module Num.

(** A cell of a numeric column after [pd.to_numeric(errors='coerce')]. *)
Inductive fnum : Type :=
| Fin (q : Q)
| PInf
| NInf
| NaN.

Definition isna (x : fnum) : bool :=
  match x with NaN => true | _ => false end.

Definition notna (x : fnum) : bool := negb (isna x).

(** Equality of values: rational equality on finite values. *)
Definition feq (x y : fnum) : Prop :=
  match x, y with
  | Fin a, Fin b => a == b
  | PInf, PInf => True
  | NInf, NInf => True
  | NaN, NaN => True
  | _, _ => False
  end.

(** The same as a test, for evaluation on examples. *)
Definition feqb (x y : fnum) : bool :=
  match x, y with
  | Fin a, Fin b => Qeq_bool a b
  | PInf, PInf | NInf, NInf | NaN, NaN => true
  | _, _ => false
  end.

(** Two columns hold equal values. *)
Fixpoint same_values (l1 l2 : list fnum) : bool :=
  match l1, l2 with
  | [], [] => true
  | x :: t1, y :: t2 => feqb x y && same_values t1 t2
  | _, _ => false
  end.

Definition Qltb (a b : Q) : bool := negb (Qle_bool b a).

Definition fneg (x : fnum) : fnum :=
  match x with
  | Fin a => Fin (- a)
  | PInf => NInf
  | NInf => PInf
  | NaN => NaN
  end.

Definition fadd (x y : fnum) : fnum :=
  match x, y with
  | NaN, _ | _, NaN => NaN
  | Fin a, Fin b => Fin (a + b)
  | PInf, NInf | NInf, PInf => NaN
  | PInf, _ | _, PInf => PInf
  | NInf, _ | _, NInf => NInf
  end.

Definition fsub (x y : fnum) : fnum := fadd x (fneg y).

(** The infinity of the sign of [a] times [s]; zero times infinity is NaN. *)
Definition signed_inf (a : Q) (s : fnum) : fnum :=
  match 0 ?= a with
  | Lt => s
  | Gt => fneg s
  | Eq => NaN
  end.

Definition fmul (x y : fnum) : fnum :=
  match x, y with
  | NaN, _ | _, NaN => NaN
  | Fin a, Fin b => Fin (a * b)
  | Fin a, PInf | PInf, Fin a => signed_inf a PInf
  | Fin a, NInf | NInf, Fin a => signed_inf a NInf
  | PInf, PInf | NInf, NInf => PInf
  | PInf, NInf | NInf, PInf => NInf
  end.

(** *** Products of doubles *)

(** [2^k] for an integer [k]. *)
Definition pow2 (k : Z) : Q := Qpower 2 k.

(** The integer nearest to [q], the even one of two that are as near. *)
Definition round_half_even (q : Q) : Z :=
  let f := Qfloor q in
  match Qcompare (q - inject_Z f) (1 # 2) with
  | Lt => f
  | Gt => (f + 1)%Z
  | Eq => if Z.even f then f else (f + 1)%Z
  end.

(** The binary exponent of a positive number: [2^k <= q < 2^(k+1)]. *)
Definition exponent (q : Q) : Z :=
  let k := (Z.log2 (Qnum q) - Z.log2 (Zpos (Qden q)))%Z in
  if Qle_bool (pow2 k) q then k else (k - 1)%Z.

(** A positive number rounded to 53 significant bits, with no unit below
    [2^-1074], ties to the even one. *)
Definition rounded (q : Q) : Q :=
  let e := Z.max (exponent q - 52) (-1074) in
  Qred (inject_Z (round_half_even (q / pow2 e)) * pow2 e).

(** The double nearest to a positive number: infinite when the rounded
    value reaches [2^1024]. *)
Definition nearest_double_pos (q : Q) : fnum :=
  let v := rounded q in
  if Qle_bool (pow2 1024) v then PInf else Fin v.

Definition nearest_double (q : Q) : fnum :=
  match Qcompare 0 q with
  | Eq => Fin 0
  | Lt => nearest_double_pos q
  | Gt => fneg (nearest_double_pos (- q))
  end.

(** A decimal constant of the source is the double nearest to it. *)
Definition literal (q : Q) : fnum := nearest_double q.

(** [x * y] on doubles: the double nearest to the exact product. *)
Definition dmul (x y : fnum) : fnum :=
  match x, y with
  | Fin a, Fin b => nearest_double (a * b)
  | _, _ => fmul x y
  end.

(** True division of two float columns: no exception, x/0 is an infinity
    of the sign of x and 0/0 is NaN. *)
Definition fdiv (x y : fnum) : fnum :=
  match x, y with
  | NaN, _ | _, NaN => NaN
  | Fin a, Fin b =>
      if Qeq_bool b 0 then signed_inf a PInf else Fin (a / b)
  | Fin _, PInf | Fin _, NInf => Fin 0
  | PInf, Fin b => if Qle_bool 0 b then PInf else NInf
  | NInf, Fin b => if Qle_bool 0 b then NInf else PInf
  | PInf, _ | NInf, _ => NaN
  end.

(** [x + y], [x - y] and [x / y] on doubles: the double nearest to the
    exact result. *)
Definition dadd (x y : fnum) : fnum :=
  match x, y with
  | Fin a, Fin b => nearest_double (a + b)
  | _, _ => fadd x y
  end.

Definition dsub (x y : fnum) : fnum := dadd x (fneg y).

Definition ddiv (x y : fnum) : fnum :=
  match x, y with
  | Fin a, Fin b =>
      if Qeq_bool b 0 then fdiv x y else nearest_double (a / b)
  | _, _ => fdiv x y
  end.

Definition fabs (x : fnum) : fnum :=
  match x with
  | Fin a => Fin (Qabs a)
  | PInf | NInf => PInf
  | NaN => NaN
  end.

(** [x < y]; false as soon as one side is NaN. *)
Definition flt (x y : fnum) : bool :=
  match x, y with
  | NaN, _ | _, NaN => false
  | Fin a, Fin b => Qltb a b
  | NInf, NInf | PInf, _ => false
  | NInf, _ => true
  | Fin _, PInf => true
  | Fin _, NInf => false
  end.

Definition fgt (x y : fnum) : bool := flt y x.

Definition fmin (x y : fnum) : fnum := if flt y x then y else x.
Definition fmax (x y : fnum) : fnum := if flt x y then y else x.

(** [Series.clip(lo, hi)]: NaN stays NaN. *)
Definition clip (lo hi : Q) (x : fnum) : fnum :=
  match x with
  | NaN => NaN
  | Fin a => Fin (Qmax lo (Qmin hi a))
  | PInf => Fin hi
  | NInf => Fin lo
  end.

(** Aggregates of a column. *)
Definition dropna (l : list fnum) : list fnum := filter notna l.

Definition total (l : list fnum) : fnum := fold_right fadd (Fin 0) l.

(** [Series.sum()]: missing cells are skipped, the empty sum is 0. *)
Definition sum (l : list fnum) : fnum := total (dropna l).

(** [Series.mean()]: missing cells are skipped; NaN when nothing is left. *)
Definition mean (l : list fnum) : fnum :=
  match dropna l with
  | [] => NaN
  | v => fdiv (total v) (Fin (inject_Z (Z.of_nat (List.length v))))
  end.

(** [Series.max()]: missing cells are skipped; NaN when nothing is left. *)
Definition maximum (l : list fnum) : fnum :=
  match dropna l with
  | [] => NaN
  | x :: v => fold_left fmax v x
  end.

(** The value is missing, or finite within [lo, hi]. *)
Definition within (lo hi : Q) (x : fnum) : Prop :=
  match x with
  | Fin a => lo <= a <= hi
  | NaN => True
  | PInf | NInf => False
  end.

(** The value is finite within [lo, hi]. *)
Definition finite_within (lo hi : Q) (x : fnum) : Prop :=
  match x with
  | Fin a => lo <= a <= hi
  | _ => False
  end.

Definition is_finite (x : fnum) : bool :=
  match x with Fin _ => true | _ => false end.

End Num.

Export Num.

(* ================================================================== *)
(** ** Data frames *)
(* ================================================================== *)

Module Frame.

(** One record of the table: the furnace identifier and the numeric cells
    by column name.  A cell of a column the frame does not have is never
    read. *)
Record row : Type := mkRow {
  Furnace : string;
  cell : string -> fnum
}.

Record frame : Type := mkFrame {
  columns : list string;
  rows : list row
}.

(** [c in df.columns] *)
Definition has (df : frame) (c : string) : bool :=
  existsb (String.eqb c) (columns df).

(** [df[c]] *)
Definition col (df : frame) (c : string) : list fnum :=
  map (fun r => cell r c) (rows df).

Definition set_cell (r : row) (c : string) (v : fnum) : row :=
  {| Furnace := Furnace r;
     cell := fun k => if String.eqb k c then v else cell r k |}.

(** [df[c] = f(df)]: the right-hand side is computed row by row on the
    frame as it was before the assignment. *)
Definition assign (c : string) (f : row -> fnum) (df : frame) : frame :=
  {| columns := if has df c then columns df else columns df ++ [c];
     rows := map (fun r => set_cell r c (f r)) (rows df) |}.

(** [df.loc[mask, c] = f(df.loc[mask])]: the rows outside the mask keep
    their cell, and are left missing when the column is new. *)
Definition assign_where (mask : row -> bool) (c : string) (f : row -> fnum)
    (df : frame) : frame :=
  assign c (fun r => if mask r then f r else
                     if has df c then cell r c else NaN) df.

(** [df[df['Furnace'] == furnace]] *)
Definition of_furnace (furnace : string) (df : frame) : frame :=
  {| columns := columns df;
     rows := filter (fun r => String.eqb (Furnace r) furnace) (rows df) |}.

(** [df['Furnace'].unique()]: first occurrences, in order. *)
Fixpoint unique (l : list string) : list string :=
  match l with
  | [] => []
  | x :: t => x :: filter (fun y => negb (String.eqb y x)) (unique t)
  end.

Definition furnaces (df : frame) : list string :=
  unique (map Furnace (rows df)).

(** What a projection of the records sees of a frame. *)
Definition view {A : Type} (p : row -> A) (df : frame) : list A :=
  map p (rows df).

(** The projection does not read the column. *)
Definition ignores {A : Type} (p : row -> A) (c : string) : Prop :=
  forall (r : row) (v : fnum), p (set_cell r c v) = p r.

(** A record given by the cells that have a value. *)
Fixpoint cells (l : list (string * fnum)) (k : string) : fnum :=
  match l with
  | [] => NaN
  | (c, v) :: t => if String.eqb c k then v else cells t k
  end.

Definition record (f : string) (l : list (string * fnum)) : row :=
  {| Furnace := f; cell := cells l |}.

End Frame.

Export Frame.

(* ================================================================== *)
(** ** src/core/complete_analyzer.py *)
(* ================================================================== *)

Module CompleteAnalyzer.

(** *** [_calculate_metrics] *)

Definition ratio (num den : string) (r : row) : fnum :=
  fdiv (cell r num) (cell r den).

(** 1. Production efficiency metrics. *)
Definition production_metrics (df : frame) : frame :=
  let df :=
    if has df "Actual Production Qty" && has df "Cake Production Qty"
    then assign "Yield_Percentage"
           (fun r => fmul (ratio "Actual Production Qty" "Cake Production Qty" r)
                          (Fin 100)) df
    else df in
  let df :=
    if has df "Actual Production Qty" && has df "Input Qty(Ore PLC)(MT)"
    then assign "Ore_Efficiency"
           (ratio "Actual Production Qty" "Input Qty(Ore PLC)(MT)") df
    else df in
  if has df "Actual Production Qty" && has df "Input Qty(Coke PLC)(MT)"
  then assign "Coke_Efficiency"
         (ratio "Actual Production Qty" "Input Qty(Coke PLC)(MT)") df
  else df.

(** 2. Cost metrics: the division is made on every row. *)
Definition cost_metrics (df : frame) : frame :=
  let df :=
    if has df "Total Cost PLC" && has df "Actual Production Qty"
    then assign "Cost_per_Ton" (ratio "Total Cost PLC" "Actual Production Qty") df
    else df in
  if has df "Power Cost" && has df "Actual Production Qty"
  then assign "Power_Cost_per_Ton" (ratio "Power Cost" "Actual Production Qty") df
  else df.

(** 3. Material recovery metrics. *)
Definition recovery_metrics (df : frame) : frame :=
  let df :=
    if has df "MN Recovery PLC" && has df "MN Recovery Feeding"
    then assign "MN_Recovery_Gap"
           (fun r => fsub (cell r "MN Recovery PLC") (cell r "MN Recovery Feeding")) df
    else df in
  if has df "SI Recovery PLC" && has df "SI Recovery Feeding"
  then assign "SI_Recovery_Gap"
         (fun r => fsub (cell r "SI Recovery PLC") (cell r "SI Recovery Feeding")) df
  else df.

(** [((1440 - mins) / 1440) * 100] *)
Definition availability (mins : fnum) : fnum :=
  fmul (fdiv (fsub (Fin 1440) mins) (Fin 1440)) (Fin 100).

(** 4. Operational metrics. *)
Definition operational_metrics (df : frame) : frame :=
  if has df "Total Breakdown Mins"
  then assign "Operational_Availability"
         (fun r => availability (cell r "Total Breakdown Mins")) df
  else df.

(** [(100 - abs(x - target) * slope).clip(0, 100)] *)
Definition sub_score (target slope : Q) (x : fnum) : fnum :=
  clip 0 100 (fsub (Fin 100) (fmul (fabs (fsub x (Fin target))) (Fin slope))).

(** The chemistry parameters of the quality score: column, target, penalty
    slope and weight, in the order of the source. *)
Definition quality_parameters : list (string * Q * Q * Q) :=
  [ ("Grade MN", 70, 5, 0.4);
    ("Grade SI", 17.5, 10, 0.3);
    ("C%", 7, 20, 0.2);
    ("Basicity", 1.35, 40, 0.1) ].

Definition parameter_column (p : string * Q * Q * Q) : string :=
  fst (fst (fst p)).

(** [quality_score = 0], then [quality_score += score * weight] for every
    parameter whose column the frame has. *)
Definition quality_score (df : frame) (r : row) : fnum :=
  fold_left
    (fun acc p =>
       let '(c, target, slope, weight) := p in
       if has df c
       then fadd acc (fmul (sub_score target slope (cell r c)) (Fin weight))
       else acc)
    quality_parameters (Fin 0).

(** 5. Quality score: the column is always written. *)
Definition quality_metrics (df : frame) : frame :=
  assign "Quality_Score" (quality_score df) df.

(** [(100 - (x / mean - 1) * 50).clip(0, 100)] *)
Definition relative_score (m x : fnum) : fnum :=
  clip 0 100 (fsub (Fin 100) (fmul (fsub (fdiv x m) (Fin 1)) (Fin 50))).

(** A sub-score relative to the mean of its own column over the whole
    frame; it takes part only when that mean is positive. *)
Definition relative_component (df : frame) (c : string) (weight : Q)
    : list (Q * (row -> fnum)) :=
  if has df c
  then let m := mean (col df c) in
       if fgt m (Fin 0)
       then [(weight, fun r => relative_score m (cell r c))]
       else []
  else [].

Definition clipped_component (df : frame) (c : string) (weight : Q)
    : list (Q * (row -> fnum)) :=
  if has df c then [(weight, fun r => clip 0 100 (cell r c))] else [].

Definition plain_component (df : frame) (c : string) (weight : Q)
    : list (Q * (row -> fnum)) :=
  if has df c then [(weight, fun r => cell r c)] else [].

(** The blocks of section 6 of the source that apply to the frame, each
    with its weight. *)
Definition performance_components (df : frame) : list (Q * (row -> fnum)) :=
  relative_component df "Cost_per_Ton" 0.3
  ++ relative_component df "Specific Power Consumption" 0.2
  ++ clipped_component df "MN Recovery PLC" 0.2
  ++ clipped_component df "Yield_Percentage" 0.15
  ++ plain_component df "Quality_Score" 0.15.

(** The columns the performance score reads. *)
Definition performance_inputs : list string :=
  [ "Cost_per_Ton"; "Specific Power Consumption"; "MN Recovery PLC";
    "Yield_Percentage"; "Quality_Score" ].

(** [performance_score = 0], then [performance_score += score * weight]. *)
Definition weighted_total (cs : list (Q * (row -> fnum))) (r : row) : fnum :=
  fold_left (fun acc c => fadd acc (fmul (snd c r) (Fin (fst c)))) cs (Fin 0).

(** [weights = 0], then [weights += weight]. *)
Definition weights (cs : list (Q * (row -> fnum))) : Q :=
  fold_left (fun acc c => acc + fst c) cs 0.

(** 6. Overall performance score. *)
Definition performance_metrics (df : frame) : frame :=
  let cs := performance_components df in
  if Qltb 0 (weights cs)
  then assign "Performance_Score"
         (fun r => fdiv (weighted_total cs r) (Fin (weights cs))) df
  else df.

(** The table that the two score steps work on. *)
Definition before_scores (df : frame) : frame :=
  operational_metrics (recovery_metrics (cost_metrics (production_metrics df))).

Definition _calculate_metrics (df : frame) : frame :=
  performance_metrics
    (quality_metrics
       (operational_metrics
          (recovery_metrics
             (cost_metrics
                (production_metrics df))))).

(** *** [_analyze_by_furnace] *)

(** The entries of the per-furnace dictionary that the insight rules and
    the summary read.  The standard deviation, the date range and the
    nested cost and grade tables, which enter only the text of findings,
    are left out. *)
Record analysis : Type := mkAnalysis {
  furnace : string;
  total_records : nat;
  total_production : fnum;
  avg_daily_production : fnum;
  total_cost : fnum;
  avg_cost_per_ton : fnum;
  avg_power_consumption : fnum;
  avg_load_factor : fnum;
  avg_power_factor : fnum;
  avg_mn_recovery : fnum;
  avg_si_recovery : fnum;
  avg_mn_recovery_gap : fnum;
  avg_grade_mn : fnum;
  avg_grade_si : fnum;
  avg_carbon : fnum;
  avg_basicity : fnum;
  avg_quality_score : fnum;
  avg_breakdown_mins : fnum;
  operational_availability : fnum;
  total_breakdown_hours : fnum;
  avg_yield : fnum;
  avg_ore_efficiency : fnum;
  avg_coke_efficiency : fnum;
  performance_score : fnum
}.

(** [data[c].mean() if c in data.columns else 0] *)
Definition mean_or_0 (data : frame) (c : string) : fnum :=
  if has data c then mean (col data c) else Fin 0.

(** The columns read without a membership test: a frame lacking one of
    them raises [KeyError]. *)
Definition required_columns : list string :=
  [ "Actual Production Qty"; "Total Cost PLC"; "Specific Power Consumption";
    "MN Recovery PLC"; "Grade MN"; "Grade SI"; "C%"; "Basicity";
    "Total Breakdown Mins" ].

Definition analyze_furnace (df : frame) (f : string) : analysis :=
  let furnace_data := of_furnace f df in
  {| furnace := f;
     total_records := List.length (rows furnace_data);
     total_production := sum (col furnace_data "Actual Production Qty");
     avg_daily_production := mean (col furnace_data "Actual Production Qty");
     total_cost := sum (col furnace_data "Total Cost PLC");
     avg_cost_per_ton := mean_or_0 furnace_data "Cost_per_Ton";
     avg_power_consumption := mean (col furnace_data "Specific Power Consumption");
     avg_load_factor := mean_or_0 furnace_data "Load Factor";
     avg_power_factor := mean_or_0 furnace_data "Power Factor";
     avg_mn_recovery := mean (col furnace_data "MN Recovery PLC");
     avg_si_recovery := mean_or_0 furnace_data "SI Recovery PLC";
     avg_mn_recovery_gap := mean_or_0 furnace_data "MN_Recovery_Gap";
     avg_grade_mn := mean (col furnace_data "Grade MN");
     avg_grade_si := mean (col furnace_data "Grade SI");
     avg_carbon := mean (col furnace_data "C%");
     avg_basicity := mean (col furnace_data "Basicity");
     avg_quality_score := mean_or_0 furnace_data "Quality_Score";
     avg_breakdown_mins := mean (col furnace_data "Total Breakdown Mins");
     operational_availability := mean_or_0 furnace_data "Operational_Availability";
     total_breakdown_hours :=
       fdiv (sum (col furnace_data "Total Breakdown Mins")) (Fin 60);
     avg_yield := mean_or_0 furnace_data "Yield_Percentage";
     avg_ore_efficiency := mean_or_0 furnace_data "Ore_Efficiency";
     avg_coke_efficiency := mean_or_0 furnace_data "Coke_Efficiency";
     performance_score := mean_or_0 furnace_data "Performance_Score" |}.

(** [self.furnace_analysis]: one entry per furnace, in order of first
    appearance; [None] stands for the [KeyError] of a missing column. *)
Definition _analyze_by_furnace (df : frame) : option (list (string * analysis)) :=
  if forallb (has df) required_columns
  then Some (map (fun f => (f, analyze_furnace df f)) (furnaces df))
  else None.

(** *** [get_furnace_summary] *)

Record summary_row : Type := mkSummary {
  s_Furnace : string;
  Total_Production_MT : fnum;
  Avg_Daily_Production_MT : fnum;
  Avg_Cost_per_Ton : fnum;
  Avg_Power_kWh_MT : fnum;
  Avg_MN_Recovery : fnum;
  Avg_SI_Recovery : fnum;
  Avg_Grade_MN : fnum;
  Avg_Grade_SI : fnum;
  Avg_Carbon : fnum;
  Avg_Breakdown_Mins : fnum;
  Operational_Availability : fnum;
  Performance_Score : fnum
}.

Definition get_furnace_summary (furnace_analysis : list (string * analysis))
    : list summary_row :=
  map (fun fa =>
         let '(f, a) := fa in
         {| s_Furnace := f;
            Total_Production_MT := total_production a;
            Avg_Daily_Production_MT := avg_daily_production a;
            Avg_Cost_per_Ton := avg_cost_per_ton a;
            Avg_Power_kWh_MT := avg_power_consumption a;
            Avg_MN_Recovery := avg_mn_recovery a;
            Avg_SI_Recovery := avg_si_recovery a;
            Avg_Grade_MN := avg_grade_mn a;
            Avg_Grade_SI := avg_grade_si a;
            Avg_Carbon := avg_carbon a;
            Avg_Breakdown_Mins := avg_breakdown_mins a;
            Operational_Availability := operational_availability a;
            Performance_Score := performance_score a |})
      furnace_analysis.

End CompleteAnalyzer.

(* ------------------------------------------------------------------ *)
(** ** complete_analyzer.py: the two scores in double precision *)
(* ------------------------------------------------------------------ *)

(** Sections 5 and 6 of [_calculate_metrics] on one record as the code
    computes them: every operation gives the double nearest to the exact
    result.  The cells are doubles.  The means of the cost and of the
    power column, which pandas adds up in an order of its own, are
    given. *)
Module ScoreDoubles.

Import CompleteAnalyzer.

(** [(100 - abs(x - target) * slope).clip(0, 100)] *)
Definition sub_score (target slope : Q) (x : fnum) : fnum :=
  clip 0 100
    (dsub (Fin 100)
          (dmul (fabs (dsub x (literal target))) (Fin slope))).

(** [quality_score = 0], then [quality_score += score * weight] for every
    parameter whose column the frame has. *)
Definition quality_score (df : frame) (r : row) : fnum :=
  fold_left
    (fun acc p =>
       let '(c, target, slope, weight) := p in
       if has df c
       then dadd acc (dmul (sub_score target slope (cell r c))
                           (literal weight))
       else acc)
    quality_parameters (Fin 0).

(** [(100 - (x / mean - 1) * 50).clip(0, 100)] *)
Definition relative_score (m x : fnum) : fnum :=
  clip 0 100
    (dsub (Fin 100) (dmul (dsub (ddiv x m) (Fin 1)) (Fin 50))).

Definition relative_component (df : frame) (c : string) (m : fnum)
    (weight : Q) : list (Q * (row -> fnum)) :=
  if has df c
  then if fgt m (Fin 0)
       then [(weight, fun r => relative_score m (cell r c))]
       else []
  else [].

(** The blocks of section 6 that apply to the frame, each with its
    weight. *)
Definition performance_components (df : frame) (cost_mean power_mean : fnum)
    : list (Q * (row -> fnum)) :=
  relative_component df "Cost_per_Ton" cost_mean 0.3
  ++ relative_component df "Specific Power Consumption" power_mean 0.2
  ++ clipped_component df "MN Recovery PLC" 0.2
  ++ clipped_component df "Yield_Percentage" 0.15
  ++ plain_component df "Quality_Score" 0.15.

(** [performance_score = 0], then [performance_score += score * weight]. *)
Definition weighted_total (cs : list (Q * (row -> fnum))) (r : row) : fnum :=
  fold_left (fun acc c => dadd acc (dmul (snd c r) (literal (fst c))))
            cs (Fin 0).

(** [weights = 0], then [weights += weight]. *)
Definition weights (cs : list (Q * (row -> fnum))) : fnum :=
  fold_left (fun acc c => dadd acc (literal (fst c))) cs (Fin 0).

(** [performance_score / weights] when [weights > 0]; nothing is written
    otherwise. *)
Definition performance_score (df : frame) (cost_mean power_mean : fnum)
    (r : row) : option fnum :=
  let cs := performance_components df cost_mean power_mean in
  if fgt (weights cs) (Fin 0)
  then Some (ddiv (weighted_total cs r) (weights cs))
  else None.

(** 5. The column of the quality score. *)
Definition quality_metrics (df : frame) : frame :=
  assign "Quality_Score" (quality_score df) df.

(** The quality score and the performance score of every record of a
    table that has gone through the steps 1 to 4. *)
Definition scores (df : frame) (cost_mean power_mean : fnum)
    : list (fnum * option fnum) :=
  let scored := quality_metrics df in
  map (fun r => (cell r "Quality_Score",
                 performance_score scored cost_mean power_mean r))
      (rows scored).

End ScoreDoubles.

(* ================================================================== *)
(** ** accurate_analyzer.py *)
(* ================================================================== *)

Module AccurateAnalyzer.

(** [df[c] > 0] as a row mask. *)
Definition positive (c : string) (r : row) : bool := fgt (cell r c) (Fin 0).

(** The metric part of [_analyze_data] that the furnace averages read:
    the cost per ton is written only on the rows with a positive
    production. *)
Definition cost_per_ton (df : frame) : frame :=
  if has df "Total Cost PLC" && has df "Actual Production Qty"
  then assign_where (positive "Actual Production Qty") "Cost_per_Ton_Accurate"
         (CompleteAnalyzer.ratio "Total Cost PLC" "Actual Production Qty") df
  else df.

Definition yield_percentage (df : frame) : frame :=
  if has df "Actual Production Qty" && has df "Cake Production Qty"
  then assign_where (positive "Cake Production Qty") "Yield_Percentage"
         (fun r => fmul (CompleteAnalyzer.ratio "Actual Production Qty"
                           "Cake Production Qty" r) (Fin 100)) df
  else df.

Definition ore_efficiency (df : frame) : frame :=
  if has df "Actual Production Qty" && has df "Input Qty(Ore PLC)(MT)"
  then assign_where (positive "Input Qty(Ore PLC)(MT)") "Ore_Efficiency"
         (CompleteAnalyzer.ratio "Actual Production Qty" "Input Qty(Ore PLC)(MT)") df
  else df.

Definition operational_availability (df : frame) : frame :=
  if has df "Total Breakdown Mins"
  then assign "Operational_Availability"
         (fun r => CompleteAnalyzer.availability (cell r "Total Breakdown Mins")) df
  else df.

(** The table of [_analyze_data], without the power cost per ton (a
    column no average reads). *)
Definition analysis_df (df : frame) : frame :=
  operational_availability (ore_efficiency (yield_percentage (cost_per_ton df))).

(** [data.loc[data['Actual Production Qty'] > 0, c].mean()] *)
Definition mean_where_produced (data : frame) (c : string) : fnum :=
  mean (map (fun r => cell r c)
            (filter (positive "Actual Production Qty") (rows data))).

(** ['avg_cost_per_ton'] of [_analyze_by_furnace]. *)
Definition avg_cost_per_ton (df : frame) (f : string) : fnum :=
  let furnace_data := of_furnace f df in
  if has furnace_data "Cost_per_Ton_Accurate"
  then mean_where_produced furnace_data "Cost_per_Ton_Accurate"
  else Fin 0.

End AccurateAnalyzer.

(* ================================================================== *)
(** ** fixed_analyzer.py *)
(* ================================================================== *)

Module FixedAnalyzer.

(** [x * 100] *)
Definition times100 (x : fnum) : fnum := fmul x (Fin 100).

(** [df[c] = df[c] * k] *)
Definition scale (c : string) (k : Q) (df : frame) : frame :=
  assign c (fun r => fmul (cell r c) (Fin k)) df.

(** Corrections 1 to 4: the recovery columns are multiplied by 100
    whenever they are there. *)
Definition fix_recovery (c : string) (df : frame) : frame :=
  if has df c then scale c 100 df else df.

(** Corrections 5 and 6: multiplied by 100 when the largest value of the
    column is below the bound. *)
Definition fix_small (c : string) (bound : Q) (df : frame) : frame :=
  if has df c
  then if flt (maximum (col df c)) (Fin bound) then scale c 100 df else df
  else df.

(** Correction 7: furnace power (and auxiliary power with it) from MW to
    kWh. *)
Definition fix_power (df : frame) : frame :=
  if has df "Furnace Power Consumption"
  then if flt (maximum (col df "Furnace Power Consumption")) (Fin 1000)
       then let avg_power := mean (col df "Furnace Power Consumption") in
            if flt avg_power (Fin 100)
            then let df := scale "Furnace Power Consumption" 1000 df in
                 if has df "Aux power Consumption"
                 then scale "Aux power Consumption" 1000 df
                 else df
            else df
       else df
  else df.

(** The unit corrections of [_clean_and_fix_data], applied to the table
    after the numeric coercion. *)
Definition unit_corrections (df : frame) : frame :=
  fix_power
    (fix_small "Recovery Liquid Metal" 1
       (fix_small "Load Factor" 10
          (fix_recovery "SI Recovery Feeding"
             (fix_recovery "MN Recovery Feeding"
                (fix_recovery "SI Recovery PLC"
                   (fix_recovery "MN Recovery PLC" df)))))).

End FixedAnalyzer.

(* ================================================================== *)
(** ** src/core/capacity_calculator.py *)
(* ================================================================== *)

Module CapacityCalculator.

Record FurnaceCapacity : Type := mkCapacity {
  furnace_id : string;
  mva_capacity : fnum;
  design_capacity_mt : fnum;
  optimal_power_kwh_mt : fnum;
  target_mn_recovery : fnum;
  target_si_recovery : fnum;
  target_cost_mt : fnum
}.

(** The numeric entries of one [results] dictionary. *)
Record results : Type := mkResults {
  furnace : string;
  total_production : fnum;
  avg_daily_production : fnum;
  capacity_utilization : fnum;
  total_cost : fnum;
  avg_cost_mt : fnum;
  cost_vs_target : fnum;
  avg_power_mt : fnum;
  power_vs_optimal : fnum;
  avg_mn_recovery : fnum;
  mn_recovery_gap : fnum;
  avg_breakdown_mins : fnum;
  operational_availability : fnum
}.

(** The dictionary that the body of the loop of [_calculate_all_metrics]
    builds for one furnace; [None] when the furnace has no record.  The
    loop, [CapacityResults.metrics_loop], stores it only for a table with
    the columns that the body reads, and raises [KeyError] otherwise. *)
Definition furnace_results (df : frame) (capacity : FurnaceCapacity)
    : option results :=
  let furnace_data := of_furnace (furnace_id capacity) df in
  match rows furnace_data with
  | [] => None
  | _ =>
    let production := col furnace_data "Actual Production Qty" in
    let cost := col furnace_data "Total Cost PLC" in
    let power := col furnace_data "Specific Power Consumption" in
    let recovery := col furnace_data "MN Recovery PLC" in
    let breakdown := col furnace_data "Total Breakdown Mins" in
    Some
      {| furnace := furnace_id capacity;
         total_production := sum production;
         avg_daily_production := mean production;
         capacity_utilization :=
           fmul (fdiv (mean production) (design_capacity_mt capacity)) (Fin 100);
         total_cost := sum cost;
         avg_cost_mt := fdiv (sum cost) (sum production);
         cost_vs_target :=
           fmul (fsub (fdiv (fdiv (sum cost) (sum production))
                            (target_cost_mt capacity)) (Fin 1)) (Fin 100);
         avg_power_mt := mean power;
         power_vs_optimal :=
           fmul (fsub (fdiv (mean power) (optimal_power_kwh_mt capacity)) (Fin 1))
                (Fin 100);
         avg_mn_recovery := mean recovery;
         mn_recovery_gap := fsub (target_mn_recovery capacity) (mean recovery);
         avg_breakdown_mins := mean breakdown;
         operational_availability :=
           fmul (fdiv (fsub (Fin 1440) (mean breakdown)) (Fin 1440)) (Fin 100) |}
  end.

End CapacityCalculator.

(* ================================================================== *)
(** ** Findings *)
(* ================================================================== *)

Module Finding.

(** A value substituted in the texts of a finding: a number, a name, or a
    name with its number.  The texts themselves are formatted from these
    values and are not reproduced. *)
Inductive datum : Type :=
| DNum (x : fnum)
| DStr (s : string)
| DNamed (name : string) (x : fnum).

(** The insight dictionary built by the generators. *)
Record finding : Type := mkFinding {
  category : string;
  severity : string;
  furnace : option string;
  title : string;
  financial_impact : option fnum;
  data : list (string * datum)
}.

(** An exception that ends a call. *)
Inductive exn : Type := KeyError | TypeError | ValueError.

Inductive result (A : Type) : Type :=
| Ok (a : A)
| Raise (e : exn).

Arguments Ok {A} a.
Arguments Raise {A} e.

Definition bind {A B : Type} (m : result A) (k : A -> result B) : result B :=
  match m with
  | Ok a => k a
  | Raise e => Raise e
  end.

(** The list holds a finding of the category and severity for the furnace. *)
Definition emits (cat sev f : string) (out : list finding) : Prop :=
  exists i : finding,
    In i out /\ category i = cat /\ severity i = sev /\ furnace i = Some f.

(** The list holds a finding with the title for the furnace. *)
Definition emits_titled (ttl f : string) (out : list finding) : Prop :=
  exists i : finding, In i out /\ title i = ttl /\ furnace i = Some f.

(** [Series.idxmin()] and [Series.idxmax()]: the position of the first
    occurrence of the extreme value, missing cells skipped; nothing when
    every cell is missing. *)
Fixpoint first_best (better : fnum -> fnum -> bool) (l : list fnum) (i : nat)
    (best : option (nat * fnum)) : option (nat * fnum) :=
  match l with
  | [] => best
  | x :: t =>
      let best' :=
        if isna x then best
        else match best with
             | None => Some (i, x)
             | Some (_, b) => if better x b then Some (i, x) else best
             end in
      first_best better t (S i) best'
  end.


Definition idxmin (l : list fnum) : option nat :=
  option_map fst (first_best flt l 0%nat None).

Definition idxmax (l : list fnum) : option nat :=
  option_map fst (first_best fgt l 0%nat None).

End Finding.

Export Finding.

Notation "x <- m ;; k" := (bind m (fun x => k))
  (at level 61, m at next level, right associativity).

Infix "+++" := String.append (at level 60, right associativity).

(* ================================================================== *)
(** ** src/intelligence/comprehensive_insights.py *)
(* ================================================================== *)

Module ComprehensiveInsights.

Import CompleteAnalyzer.

(** [analyzer.targets], as [_calculate_targets] fills it. *)
Record targets : Type := mkTargets {
  t_Yield_Percentage : fnum;
  t_Cost_per_Ton : fnum;
  t_Specific_Power_Consumption : fnum;
  t_MN_Recovery_PLC : fnum;
  t_SI_Recovery_PLC : fnum;
  t_Breakdown_Mins : fnum;
  t_Operational_Availability : fnum;
  t_Ore_Efficiency : fnum;
  t_Coke_Efficiency : fnum
}.

(** *** [_generate_cost_insights] *)

Definition cost_insight (tg : targets) (fa : string * analysis) : list finding :=
  let '(furnace_id, a) := fa in
  let current_cost := avg_cost_per_ton a in
  let target_cost := t_Cost_per_Ton tg in
  if fgt current_cost (dmul target_cost (literal 1.15))
  then [ {| category := "cost";
            severity := "high";
            Finding.furnace := Some furnace_id;
            title := "High Production Cost - " +++ furnace_id;
            financial_impact :=
              Some (fmul (fmul (fsub current_cost target_cost)
                               (avg_daily_production a)) (Fin 30));
            data := [ ("Current Cost", DNum current_cost);
                      ("Target Cost", DNum target_cost) ] |} ]
  else [].

Definition _generate_cost_insights (tg : targets)
    (furnace_analysis : list (string * analysis)) : list finding :=
  flat_map (cost_insight tg) furnace_analysis.

(** *** [_generate_recovery_insights] *)

Definition mn_recovery_insight (tg : targets) (fa : string * analysis)
    : list finding :=
  let '(furnace_id, a) := fa in
  let current_mn := avg_mn_recovery a in
  let target_mn := t_MN_Recovery_PLC tg in
  if flt current_mn (fsub target_mn (Fin 5))
  then [ {| category := "recovery";
            severity := "high";
            Finding.furnace := Some furnace_id;
            title := "Low Manganese Recovery - " +++ furnace_id;
            financial_impact := None;
            data := [ ("Current Recovery", DNum current_mn);
                      ("Target Recovery", DNum target_mn);
                      ("Slag Basicity", DNum (avg_basicity a));
                      ("Recovery Gap (PLC-Feeding)",
                       DNum (avg_mn_recovery_gap a)) ] |} ]
  else [].

Definition si_recovery_insight (tg : targets) (fa : string * analysis)
    : list finding :=
  let '(furnace_id, a) := fa in
  let current_si := avg_si_recovery a in
  if fgt current_si (Fin 0)
  then let target_si := t_SI_Recovery_PLC tg in
       if flt current_si (fsub target_si (Fin 5))
       then [ {| category := "recovery";
                 severity := "medium";
                 Finding.furnace := Some furnace_id;
                 title := "Low Silicon Recovery - " +++ furnace_id;
                 financial_impact := None;
                 data := [ ("Current Recovery", DNum current_si);
                           ("Target Recovery", DNum target_si) ] |} ]
       else []
  else [].

Definition _generate_recovery_insights (tg : targets)
    (furnace_analysis : list (string * analysis)) : list finding :=
  flat_map (fun fa => mn_recovery_insight tg fa ++ si_recovery_insight tg fa)
           furnace_analysis.

(** *** [_generate_quality_insights] *)

Record quality_param : Type := mkParam {
  param_name : string;
  analysis_key : analysis -> fnum;
  optimal : Q * Q;
  critical : Q * Q
}.

Definition quality_params : list quality_param :=
  [ mkParam "Grade MN" avg_grade_mn (68, 72) (65, 75);
    mkParam "Grade SI" avg_grade_si (16, 18) (15, 20);
    mkParam "C%" avg_carbon (6.5, 7.5) (6, 8);
    mkParam "Basicity" avg_basicity (1.3, 1.4) (1.2, 1.5) ].

(** [x < band[0] or x > band[1]] *)
Definition outside (band : Q * Q) (x : fnum) : bool :=
  flt x (Fin (fst band)) || fgt x (Fin (snd band)).

(** [f'{param_name} Deviation - {furnace_id}'] *)
Definition deviation_title (p : quality_param) (furnace_id : string)
    : string :=
  param_name p +++ " Deviation - " +++ furnace_id.

Definition deviation_insight (furnace_id : string) (a : analysis)
    (p : quality_param) : list finding :=
  let current_value := analysis_key p a in
  if fgt current_value (Fin 0)
  then if outside (optimal p) current_value
       then [ {| category := "quality";
                 severity := if outside (critical p) current_value
                             then "high" else "medium";
                 Finding.furnace := Some furnace_id;
                 title := deviation_title p furnace_id;
                 financial_impact := None;
                 data := [ ("Current Value", DNum current_value);
                           ("Deviation",
                            DNum (fmin
                                    (fabs (fsub current_value
                                                (Fin (fst (optimal p)))))
                                    (fabs (fsub current_value
                                                (Fin (snd (optimal p))))))) ] |} ]
       else []
  else [].

Definition quality_score_insight (furnace_id : string) (a : analysis)
    : list finding :=
  let quality_score := avg_quality_score a in
  if flt quality_score (Fin 70)
  then [ {| category := "quality";
            severity := "medium";
            Finding.furnace := Some furnace_id;
            title := "Low Overall Quality Score - " +++ furnace_id;
            financial_impact := None;
            data := [ ("Quality Score", DNum quality_score) ] |} ]
  else [].

Definition _generate_quality_insights
    (furnace_analysis : list (string * analysis)) : list finding :=
  flat_map (fun fa =>
              let '(furnace_id, a) := fa in
              flat_map (deviation_insight furnace_id a) quality_params
              ++ quality_score_insight furnace_id a)
           furnace_analysis.

(** *** [_generate_comparative_insights] *)

(** [(metric_col, display_name, lower_is_better)] *)
Definition comparison_metrics : list ((summary_row -> fnum) * string * bool) :=
  [ (Avg_Cost_per_Ton, "Cost per Ton", true);
    (Avg_Power_kWh_MT, "Power Consumption", true);
    (Avg_MN_Recovery, "MN Recovery", false);
    (Operational_Availability, "Availability", false);
    (Performance_Score, "Performance Score", false) ].

(** [abs((worst - best) / best) * 100] *)
Definition gap_pct (best_value worst_value : fnum) : fnum :=
  fmul (fabs (fdiv (fsub worst_value best_value) best_value)) (Fin 100).

(** The benchmarking finding of a metric. *)
Definition gap_finding (display_name : string)
    (best_furnace worst_furnace : summary_row) (best_value worst_value : fnum)
    : finding :=
  {| category := "comparative";
     severity := "high";
     Finding.furnace := None;
     title := display_name +++ " Performance Gap";
     financial_impact := None;
     data :=
       [ ("Best Performer", DNamed (s_Furnace best_furnace) best_value);
         ("Worst Performer", DNamed (s_Furnace worst_furnace) worst_value);
         ("Performance Gap", DNum (gap_pct best_value worst_value)) ] |}.

(** One turn of the loop over the metrics.  A column with no value at all
    has no extreme position, and reading the row at that position raises. *)
Definition compare_metric (furnace_summary : list summary_row)
    (m : (summary_row -> fnum) * string * bool) : result (list finding) :=
  let '(metric_col, display_name, lower_is_better) := m in
  let column := map metric_col furnace_summary in
  let best_idx := if lower_is_better then idxmin column else idxmax column in
  let worst_idx := if lower_is_better then idxmax column else idxmin column in
  match best_idx, worst_idx with
  | Some bi, Some wi =>
      match nth_error furnace_summary bi, nth_error furnace_summary wi with
      | Some best_furnace, Some worst_furnace =>
          let best_value := metric_col best_furnace in
          let worst_value := metric_col worst_furnace in
          if fgt best_value (Fin 0)
          then if fgt (gap_pct best_value worst_value) (Fin 20)
               then Ok [ gap_finding display_name best_furnace worst_furnace
                           best_value worst_value ]
               else Ok []
          else Ok []
      | _, _ => Raise TypeError
      end
  | _, _ => Raise TypeError
  end.

Fixpoint compare_all (furnace_summary : list summary_row)
    (ms : list ((summary_row -> fnum) * string * bool)) : result (list finding) :=
  match ms with
  | [] => Ok []
  | m :: ms' =>
      found <- compare_metric furnace_summary m ;;
      rest <- compare_all furnace_summary ms' ;;
      Ok (found ++ rest)
  end.

Definition _generate_comparative_insights (furnace_summary : list summary_row)
    : result (list finding) :=
  if (List.length furnace_summary <? 2)%nat
  then Ok []
  else compare_all furnace_summary comparison_metrics.

End ComprehensiveInsights.

(* ================================================================== *)
(** ** src/intelligence/insights_final.py *)
(* ================================================================== *)

Module InsightsFinal.

(** [str.replace(old, new)] for a non-empty [old]; [skip] counts the
    characters of a replaced occurrence still to be passed over. *)
Fixpoint replace_from (old new : string) (skip : nat) (s : string) : string :=
  match s with
  | EmptyString => EmptyString
  | String c t =>
      match skip with
      | S k => replace_from old new k t
      | O => if String.prefix old s
             then new +++ replace_from old new (String.length old - 1) t
             else String c (replace_from old new 0 t)
      end
  end.

Definition replace (old new s : string) : string := replace_from old new 0 s.

(** [needle in s] *)
Fixpoint contains (needle s : string) : bool :=
  String.prefix needle s
  || match s with
     | EmptyString => false
     | String _ t => contains needle t
     end.

(** [self.targets] of [__init__]. *)
Definition default_targets : list (string * fnum) :=
  [ ("cost_per_ton", Fin 50000);
    ("Specific Power Consumption", Fin 2500);
    ("MN Recovery PLC", Fin 80);
    ("SI Recovery PLC", Fin 45);
    ("yield_percentage", Fin 95);
    ("ore_efficiency", Fin 0.55);
    ("Load Factor", Fin 85);
    ("Power Factor", Fin 0.95) ].

(** [targets.get(key)] *)
Fixpoint get (targets : list (string * fnum)) (key : string) : option fnum :=
  match targets with
  | [] => None
  | (k, v) :: t => if String.eqb k key then Some v else get t key
  end.

(** A row of [processor.get_furnace_summary()]: the furnace and the
    columns of the group statistics that the generators read. *)
Record furnace_row : Type := mkFurnaceRow {
  Furnace : string;
  cost_per_ton_mean : fnum;
  MN_Recovery_PLC_mean : fnum;
  SI_Recovery_PLC_mean : fnum;
  Actual_Production_Qty_sum : fnum
}.

(** *** [_generate_cost_insights] *)

(** The loop over the furnaces; [self.targets['cost_per_ton']] is read
    inside it and raises [KeyError] when the key is not there. *)
Fixpoint furnace_cost_insights (targets : list (string * fnum))
    (furnace_summary : list furnace_row) : result (list finding) :=
  match furnace_summary with
  | [] => Ok []
  | furnace_row :: rest =>
      let avg_cost := cost_per_ton_mean furnace_row in
      if isna avg_cost
      then furnace_cost_insights targets rest
      else
        match get targets "cost_per_ton" with
        | None => Raise KeyError
        | Some target_cost =>
            let found :=
              if fgt avg_cost (dmul target_cost (literal 1.15))
              then [ {| category := "cost";
                        severity := "high";
                        furnace := Some (Furnace furnace_row);
                        title := "High Operating Cost - " +++ Furnace furnace_row;
                        financial_impact := None;
                        data :=
                          [ ("avg_cost", DNum avg_cost);
                            ("target_cost", DNum target_cost);
                            ("percent_above",
                             DNum (fmul (fdiv (fsub avg_cost target_cost)
                                              target_cost) (Fin 100))) ] |} ]
              else [] in
            more <- furnace_cost_insights targets rest ;;
            Ok (found ++ more)
        end
  end.

Definition cost_columns : list string :=
  [ "Ore Cost PLC"; "Coke Cost PLC"; "Power Cost"; "Fluxes PLC" ].

(** The cost driver analysis that ends the function: the component with
    the largest column total, reported when the totals add up to a
    positive amount. *)
Definition cost_driver_insight (df : frame) : list finding :=
  let available_costs := filter (has df) cost_columns in
  match available_costs with
  | [] => []
  | _ =>
      let total_costs := map (fun c => sum (col df c)) available_costs in
      let max_component :=
        match idxmax total_costs with
        | Some i => nth i available_costs ""
        | None => ""
        end in
      let max_value := maximum total_costs in
      let total_all := sum total_costs in
      if fgt total_all (Fin 0)
      then [ {| category := "cost";
                severity := "medium";
                furnace := None;
                title := "Primary Cost Driver Identified";
                financial_impact := None;
                data :=
                  [ ("max_component",
                     DNamed max_component
                            (fmul (fdiv max_value total_all) (Fin 100))) ] |} ]
      else []
  end.

(** [df] is [processor.processed_df] and [furnace_summary] is
    [processor.get_furnace_summary()]. *)
Definition _generate_cost_insights (targets : list (string * fnum))
    (df : frame) (furnace_summary : list furnace_row) : result (list finding) :=
  if negb (has df "cost_per_ton") then Ok []
  else match furnace_summary with
       | [] => Ok []
       | _ =>
           high <- furnace_cost_insights targets furnace_summary ;;
           Ok (high ++ cost_driver_insight df)
       end.

(** *** [_generate_recovery_insights] *)

(** [not target_value] *)
Definition falsy (target_value : option fnum) : bool :=
  match target_value with
  | None => true
  | Some (Fin q) => Qeq_bool q 0
  | Some _ => false
  end.

Definition recovery_mean (recovery_metric : string) (r : furnace_row) : fnum :=
  if String.eqb recovery_metric "MN Recovery PLC"
  then MN_Recovery_PLC_mean r
  else SI_Recovery_PLC_mean r.

Definition recovery_insight (recovery_metric : string) (target_value : fnum)
    (furnace_row : furnace_row) : list finding :=
  let avg_recovery := recovery_mean recovery_metric furnace_row in
  if isna avg_recovery then []
  else if flt avg_recovery (fmul target_value (Fin 0.9))
  then let material := if contains "MN" recovery_metric
                       then "Manganese" else "Silicon" in
       [ {| category := "recovery";
            severity := "high";
            furnace := Some (Furnace furnace_row);
            title := "Low " +++ material +++ " Recovery - " +++ Furnace furnace_row;
            financial_impact := None;
            data :=
              [ ("avg_recovery", DNum avg_recovery);
                ("target_value", DNum target_value);
                ("percent_below",
                 DNum (fmul (fdiv (fsub target_value avg_recovery)
                                  target_value) (Fin 100))) ] |} ]
  else [].

Definition recovery_insights_for (targets : list (string * fnum))
    (df : frame) (furnace_summary : list furnace_row)
    (recovery_metric : string) : list finding :=
  if negb (has df recovery_metric) then []
  else match furnace_summary with
       | [] => []
       | _ =>
           let target_key := replace " PLC" "" recovery_metric in
           let target_value := get targets target_key in
           if falsy target_value then []
           else match target_value with
                | Some t => flat_map (recovery_insight recovery_metric t)
                                     furnace_summary
                | None => []
                end
       end.

Definition _generate_recovery_insights (targets : list (string * fnum))
    (df : frame) (furnace_summary : list furnace_row) : list finding :=
  flat_map (recovery_insights_for targets df furnace_summary)
           [ "MN Recovery PLC"; "SI Recovery PLC" ].

End InsightsFinal.

(* ================================================================== *)
(** ** src/intelligence/insights_engine.py *)
(* ================================================================== *)

Module InsightsEngine.

(** A row of [furnace_stats], the table grouped by furnace: the means of
    three columns and the total production, each rounded to two
    decimals by the grouping. *)
Record stats_row : Type := mkStats {
  Furnace : string;
  cost_per_ton : fnum;
  Specific_Power_Consumption : fnum;
  MN_Recovery_PLC : fnum;
  Actual_Production_Qty : fnum
}.

(** A value that is zero, a positive number of the normal range of the
    doubles, infinite above, or missing.  The grouping rounds the values
    to two decimals, which leaves no positive number below that range. *)
Definition not_negative (x : fnum) : Prop :=
  match x with
  | Fin q => q == 0 \/ pow2 (-1022) <= q
  | NInf => False
  | _ => True
  end.

(** [worst[c] > best[c] * factor] between the rows of the smallest and of
    the largest value of the column; reading the row of a column without
    any value raises. *)
Definition compare_column (furnace_stats : list stats_row)
    (metric : stats_row -> fnum) (factor : Q) (sev ttl : string)
    : result (list finding) :=
  let column := map metric furnace_stats in
  match idxmin column, idxmax column with
  | Some bi, Some wi =>
      match nth_error furnace_stats bi, nth_error furnace_stats wi with
      | Some best, Some worst =>
          if fgt (metric worst) (dmul (metric best) (literal factor))
          then Ok [ {| category := "comparative";
                       severity := sev;
                       furnace := None;
                       title := ttl;
                       financial_impact := None;
                       data :=
                         [ ("best", DNamed (Furnace best) (metric best));
                           ("worst", DNamed (Furnace worst) (metric worst));
                           ("gap_pct",
                            DNum (fmul (fdiv (fsub (metric worst) (metric best))
                                             (metric best)) (Fin 100))) ] |} ]
          else Ok []
      | _, _ => Raise KeyError
      end
  | _, _ => Raise KeyError
  end.

(** The function from the grouped table on; [df] is the table before the
    grouping, whose columns are tested first, and grouping raises
    [KeyError] when an aggregated column is not there.  The findings of
    this class carry their kind under the key ['type']. *)
Definition _analyze_comparative (df : frame) (furnace_stats : list stats_row)
    : result (list finding) :=
  if negb (has df "Furnace") || negb (has df "cost_per_ton") then Ok []
  else if negb (forallb (has df) [ "Specific Power Consumption";
                                   "MN Recovery PLC";
                                   "Actual Production Qty" ])
  then Raise KeyError
  else if (List.length furnace_stats <? 2)%nat then Ok []
  else
    cost <- compare_column furnace_stats cost_per_ton 1.1 "high"
              "Significant Cost Variance Between Furnaces" ;;
    power <- compare_column furnace_stats Specific_Power_Consumption 1.15
               "medium" "Power Efficiency Gap" ;;
    Ok (cost ++ power).

End InsightsEngine.

(* ================================================================== *)
(** ** src/intelligence/advanced_insights.py *)
(* ================================================================== *)

Module AdvancedInsights.

(** An insight dictionary as [_categorize_insights] reads it: the keys it
    looks up may be absent, and the financial impact is a text.  The
    constant texts of the synthetic insight (impact, recommendation,
    confidence, action items) are left out. *)
Record insight : Type := mkInsight {
  category : option string;
  severity : option string;
  furnace : option string;
  title : string;
  description : string;
  financial_impact : option string
}.

(** [insight.get('severity') == 'high'] *)
Definition is_high (i : insight) : bool :=
  match severity i with
  | Some s => String.eqb s "high"
  | None => false
  end.

(** [insight.get('furnace', 'General')] *)
Definition furnace_of (i : insight) : string :=
  match furnace i with
  | Some f => f
  | None => "General"
  end.

(** [furnace_issues[furnace].append(insight)], with the list created at
    the first insight of the furnace; the dictionary keeps the order of
    insertion. *)
Fixpoint add_issue (f : string) (i : insight)
    (issues : list (string * list insight)) : list (string * list insight) :=
  match issues with
  | [] => [(f, [i])]
  | (g, l) :: t =>
      if String.eqb g f then (g, l ++ [i]) :: t
      else (g, l) :: add_issue f i t
  end.

Definition furnace_issues (insights : list insight)
    : list (string * list insight) :=
  fold_left (fun issues i =>
               if is_high i then add_issue (furnace_of i) i issues else issues)
            insights [].

Definition string_of_nat (n : nat) : string :=
  NilZero.string_of_uint (Nat.to_uint n).

(** The synthetic insight; the warning sign that opens its title in the
    source is left out. *)
Definition critical_insight (f : string) (issues : list insight) : insight :=
  {| category := Some "critical";
     severity := Some "high";
     furnace := Some f;
     title := "Multiple Critical Issues - " +++ f;
     description :=
       f +++ " has " +++ string_of_nat (List.length issues)
         +++ " high-priority issues requiring immediate attention";
     financial_impact := None |}.

(** One turn of the loop over the furnaces with high-severity problems:
    the insight appended, if any. *)
Definition critical_for_entry (fi : string * list insight) : list insight :=
  let '(f, issues) := fi in
  if (2 <=? List.length issues)%nat && negb (String.eqb f "General")
  then [critical_insight f issues]
  else [].

(** The insights appended for the furnaces with several high-severity
    problems. *)
Definition critical_insights (insights : list insight) : list insight :=
  flat_map critical_for_entry (furnace_issues insights).

(** The keys of [categories], in the order of the dictionary. *)
Inductive bucket : Type :=
| Critical_Issues
| Cost_Optimization
| Power_Efficiency
| Material_Recovery
| Quality_Control
| Operations
| Performance_Benchmarking.

Definition bucket_eqb (a b : bucket) : bool :=
  match a, b with
  | Critical_Issues, Critical_Issues
  | Cost_Optimization, Cost_Optimization
  | Power_Efficiency, Power_Efficiency
  | Material_Recovery, Material_Recovery
  | Quality_Control, Quality_Control
  | Operations, Operations
  | Performance_Benchmarking, Performance_Benchmarking => true
  | _, _ => false
  end.

Definition buckets : list bucket :=
  [ Critical_Issues; Cost_Optimization; Power_Efficiency; Material_Recovery;
    Quality_Control; Operations; Performance_Benchmarking ].

(** The chain of tests that picks the list an insight is appended to. *)
Definition bucket_of (i : insight) : bucket :=
  let category := match category i with Some c => c | None => "operations" end in
  if is_high i && negb (String.eqb category "critical") then Critical_Issues
  else if String.eqb category "cost" then Cost_Optimization
  else if String.eqb category "power" then Power_Efficiency
  else if String.eqb category "recovery" then Material_Recovery
  else if String.eqb category "quality" then Quality_Control
  else if String.eqb category "capacity" || String.eqb category "operations"
  then Operations
  else if String.eqb category "comparative" then Performance_Benchmarking
  else Operations.

(** [severity_order.get(x.get('severity', 'low'), 0)] *)
Definition severity_order (x : insight) : nat :=
  let s := match severity x with Some s => s | None => "low" end in
  if String.eqb s "high" then 3
  else if String.eqb s "medium" then 2
  else if String.eqb s "low" then 1
  else 0.

(** The second component of the sort key: the text of the financial
    impact, or the integer 0. *)
Inductive impact_key : Type :=
| KZero
| KText (s : string).

Definition sort_key (x : insight) : nat * impact_key :=
  (severity_order x,
   match financial_impact x with
   | Some s => KText s
   | None => KZero
   end).

(** [a < b] on two keys, as Python compares tuples: the first components
    that differ decide; a text and an integer differ and have no order. *)
Definition key_lt (a b : nat * impact_key) : result bool :=
  if negb (fst a =? fst b)%nat then Ok (fst a <? fst b)%nat
  else match snd a, snd b with
       | KZero, KZero => Ok false
       | KText s, KText t => Ok (String.ltb s t)
       | _, _ => Raise TypeError
       end.

(** [list.sort(key=..., reverse=True)]: a stable sort in descending order
    of the keys.  An element is put in front of the sorted rest and moves
    behind the elements with a larger key.  Whatever the order in which a
    comparison sort compares, it raises exactly when two elements with
    keys without an order have to be told apart, which is when insertion
    does. *)
Fixpoint insert_desc (x : insight) (sorted : list insight)
    : result (list insight) :=
  match sorted with
  | [] => Ok [x]
  | y :: t =>
      below <- key_lt (sort_key x) (sort_key y) ;;
      if below
      then rest <- insert_desc x t ;; Ok (y :: rest)
      else Ok (x :: y :: t)
  end.

Fixpoint sort_desc (l : list insight) : result (list insight) :=
  match l with
  | [] => Ok []
  | x :: t => sorted <- sort_desc t ;; insert_desc x sorted
  end.

Fixpoint sort_all (bs : list (bucket * list insight))
    : result (list (bucket * list insight)) :=
  match bs with
  | [] => Ok []
  | (b, l) :: t =>
      sorted <- sort_desc l ;;
      rest <- sort_all t ;;
      Ok ((b, sorted) :: rest)
  end.

(** The high-severity insights counted for a furnace, in order. *)
Definition issues_of (f : string) (insights : list insight) : list insight :=
  filter (fun i => is_high i && String.eqb (furnace_of i) f) insights.

(** The dictionary of issues by furnace holds, for each key, the high
    insights of that furnace in order, and each key once. *)
Definition issues_table (insights : list insight)
    (d : list (string * list insight)) : Prop :=
  NoDup (map fst d)
  /\ forall (f : string) (l : list insight),
       In (f, l) d <-> l = issues_of f insights /\ l <> [].

(** The insight carries the furnace under its key ['furnace']. *)
Definition refers_to (f : string) (i : insight) : bool :=
  match furnace i with
  | Some g => String.eqb g f
  | None => false
  end.

(** The keys of the two insights have an order. *)
Definition comparable (x y : insight) : Prop :=
  severity_order x <> severity_order y
  \/ (financial_impact x = None <-> financial_impact y = None).

(** The list of a key of the returned dictionary. *)
Definition bucket_list (b : bucket) (cats : list (bucket * list insight))
    : list insight :=
  List.concat (map snd (filter (fun c => bucket_eqb (fst c) b) cats)).

(** [self.insights] once the synthetic insights are appended. *)
Definition with_critical (insights : list insight) : list insight :=
  insights ++ critical_insights insights.

(** The lists of [categories] before they are sorted. *)
Definition categorized (insights : list insight)
    : list (bucket * list insight) :=
  map (fun b => (b, filter (fun i => bucket_eqb (bucket_of i) b) insights))
      buckets.

(** The function: the insights it leaves in [self.insights], and the
    dictionary it returns or the exception of a sort. *)
Definition _categorize_insights (insights : list insight)
    : list insight * result (list (bucket * list insight)) :=
  let insights := with_critical insights in
  (insights, sort_all (categorized insights)).

End AdvancedInsights.

(* ================================================================== *)
(** ** src/core/complete_analyzer.py: columns and groups *)
(* ================================================================== *)

Module CompleteAnalyzerGroups.

Import CompleteAnalyzer.

(** The columns that [_calculate_metrics] assigns. *)
Definition derived_columns : list string :=
  [ "Yield_Percentage"; "Ore_Efficiency"; "Coke_Efficiency";
    "Cost_per_Ton"; "Power_Cost_per_Ton";
    "MN_Recovery_Gap"; "SI_Recovery_Gap";
    "Operational_Availability"; "Quality_Score"; "Performance_Score" ].

End CompleteAnalyzerGroups.

(* ------------------------------------------------------------------ *)
(** ** complete_analyzer.py: the furnaces of a table with blank cells *)
(* ------------------------------------------------------------------ *)

Module BlankFurnaces.

Import CompleteAnalyzer.

(** A table whose column [Furnace] may have blank cells.  A record is
    given by its Furnace cell, [None] for a blank one (NaN), and its
    numeric cells. *)
Record table : Type := mkTable {
  t_columns : list string;
  t_records : list (option string * (string -> fnum))
}.

(** The values of a column are the same for [unique()]: the blank cells
    are one value. *)
Definition same_value (a b : option string) : bool :=
  match a, b with
  | Some x, Some y => String.eqb x y
  | None, None => true
  | _, _ => false
  end.

(** [df['Furnace'].unique()]: first occurrences, in order; NaN is kept
    as a value. *)
Fixpoint unique (l : list (option string)) : list (option string) :=
  match l with
  | [] => []
  | x :: t => x :: filter (fun y => negb (same_value y x)) (unique t)
  end.

(** [df['Furnace'] == furnace] on one cell: NaN equals nothing, not even
    NaN. *)
Definition equals (cell furnace : option string) : bool :=
  match cell, furnace with
  | Some x, Some y => String.eqb x y
  | _, _ => false
  end.

(** The entry of a value holds the value itself under ['furnace']; the
    record of the analysis holds a text, and the blank value is written
    there as pandas prints it. *)
Definition text (furnace : option string) : string :=
  match furnace with
  | Some f => f
  | None => "nan"
  end.

(** [df[df['Furnace'] == furnace]] *)
Definition furnace_data (furnace : option string) (t : table) : frame :=
  {| columns := t_columns t;
     rows := map (fun kc => {| Furnace := text furnace; cell := snd kc |})
                 (filter (fun kc => equals (fst kc) furnace)
                         (t_records t)) |}.

(** [_analyze_by_furnace]: one entry for each value of the column, NaN
    among them; the entry of a value is computed on the records whose
    cell equals it. *)
Definition _analyze_by_furnace (t : table)
    : option (list (option string * analysis)) :=
  if forallb (fun c => existsb (String.eqb c) (t_columns t))
             required_columns
  then Some (map (fun furnace =>
                    (furnace,
                     analyze_furnace (furnace_data furnace t)
                                     (text furnace)))
                 (unique (map fst (t_records t))))
  else None.

(** A table without blank Furnace cells. *)
Definition of_frame (df : frame) : table :=
  {| t_columns := columns df;
     t_records := map (fun r => (Some (Furnace r), cell r)) (rows df) |}.

(** The Furnace cell of the record is filled. *)
Definition filled (kc : option string * (string -> fnum)) : bool :=
  match fst kc with
  | Some _ => true
  | None => false
  end.

End BlankFurnaces.

(* ================================================================== *)
(** ** Exceptions and lists of Python *)
(* ================================================================== *)

Module Python.

(** The exceptions that end a call: those of [exn], and three more. *)
Inductive exception : Type :=
| Builtin (e : exn)
| UnboundLocalError
| AttributeError
| ZeroDivisionError.

Inductive outcome (A : Type) : Type :=
| Returns (a : A)
| Raises (e : exception).

Arguments Returns {A} a.
Arguments Raises {A} e.

Definition and_then {A B : Type} (m : outcome A) (k : A -> outcome B)
    : outcome B :=
  match m with
  | Returns a => k a
  | Raises e => Raises e
  end.

Definition of_result {A : Type} (m : result A) : outcome A :=
  match m with
  | Ok a => Returns a
  | Raise e => Raises (Builtin e)
  end.

(** [sorted(l, key=key, reverse=True)] for keys with a total order: the
    elements in descending order of their keys, those of equal keys in
    their order in [l].  An element is put in front of the sorted rest
    and moves behind the elements with a larger key. *)
Fixpoint insert_reverse {A : Type} (lt : A -> A -> bool) (x : A)
    (sorted : list A) : list A :=
  match sorted with
  | [] => [x]
  | y :: t => if lt x y then y :: insert_reverse lt x t else x :: y :: t
  end.

Definition sorted_reverse {A : Type} (lt : A -> A -> bool) (l : list A)
    : list A :=
  fold_right (insert_reverse lt) [] l.

(** [l[:limit]]: a negative limit counts from the end. *)
Definition up_to {A : Type} (limit : Z) (l : list A) : list A :=
  if (0 <=? limit)%Z
  then firstn (Z.to_nat limit) l
  else firstn (List.length l - Z.to_nat (- limit)) l.

(** [severity_order.get(severity, 0)] *)
Definition severity_order (severity : string) : nat :=
  if String.eqb severity "high" then 3
  else if String.eqb severity "medium" then 2
  else if String.eqb severity "low" then 1
  else 0.

(** [max(0, x)] of the builtin [max]: [x] replaces 0 only when [x > 0]
    holds. *)
Definition max0 (x : fnum) : fnum := if fgt x (Fin 0) then x else Fin 0.

(** A dictionary with text keys, in the order of insertion.
    [d[k] = v] replaces the value of a key that is there and appends a
    new key; [d.get(k)] finds the value of the key, if any. *)
Fixpoint set_item {V : Type} (k : string) (v : V) (d : list (string * V))
    : list (string * V) :=
  match d with
  | [] => [(k, v)]
  | (k', v') :: t =>
      if String.eqb k' k then (k', v) :: t else (k', v') :: set_item k v t
  end.

Fixpoint get_item {V : Type} (d : list (string * V)) (k : string)
    : option V :=
  match d with
  | [] => None
  | (k', v) :: t => if String.eqb k' k then Some v else get_item t k
  end.

End Python.

Export Python.

Notation "x <~ m ;; k" := (and_then m (fun x => k))
  (at level 61, m at next level, right associativity).

(* ================================================================== *)
(** ** src/core/capacity_calculator.py: results and savings *)
(* ================================================================== *)

Module CapacityResults.

Import CapacityCalculator.

(** The capacity under the key of the dictionary: the loop names the
    furnace by the key. *)
Definition with_id (furnace_id : string) (c : FurnaceCapacity)
    : FurnaceCapacity :=
  {| furnace_id := furnace_id;
     mva_capacity := mva_capacity c;
     design_capacity_mt := design_capacity_mt c;
     optimal_power_kwh_mt := optimal_power_kwh_mt c;
     target_mn_recovery := target_mn_recovery c;
     target_si_recovery := target_si_recovery c;
     target_cost_mt := target_cost_mt c |}.

(** The columns that the loop reads without a membership test. *)
Definition required_columns : list string :=
  [ "Actual Production Qty"; "Total Cost PLC"; "Specific Power Consumption";
    "Power Cost"; "MN Recovery PLC"; "Total Breakdown Mins" ].

(** The loop of [_calculate_all_metrics] over the items of
    [self.capacities], filling [self.results]. *)
Fixpoint metrics_loop (df : frame)
    (capacities : list (string * FurnaceCapacity))
    (results : list (string * CapacityCalculator.results))
    : result (list (string * CapacityCalculator.results)) :=
  match capacities with
  | [] => Ok results
  | (furnace_id, capacity) :: rest =>
      if negb (has df "Furnace") then Raise KeyError
      else match furnace_results df (with_id furnace_id capacity) with
           | None => metrics_loop df rest results
           | Some r =>
               if forallb (has df) required_columns
               then metrics_loop df rest (set_item furnace_id r results)
               else Raise KeyError
           end
  end.

Definition _calculate_all_metrics (df : frame)
    (capacities : list (string * FurnaceCapacity))
    : result (list (string * results)) :=
  metrics_loop df capacities [].

(** [self.results.get(furnace_id, {})]: nothing stands for the empty
    dictionary. *)
Definition get_furnace_performance
    (results : list (string * CapacityCalculator.results))
    (furnace_id : string) : option CapacityCalculator.results :=
  get_item results furnace_id.

(** *** [calculate_potential_savings] *)

Record savings : Type := mkSavings {
  cost_saving_per_ton : fnum;
  annual_cost_saving : fnum;
  power_saving_per_ton : fnum;
  annual_power_saving : fnum;
  recovery_gap : fnum;
  potential_mn_improvement : fnum
}.

(** The body of the loop for a furnace that has results. *)
Definition savings_of (df : frame) (furnace_id : string)
    (capacity : FurnaceCapacity) (perf : results) : savings :=
  let furnace_data := of_furnace furnace_id df in
  let total_production := sum (col furnace_data "Actual Production Qty") in
  let len := Fin (inject_Z (Z.of_nat (List.length (rows furnace_data)))) in
  let cost_saving_mt :=
    max0 (fsub (avg_cost_mt perf) (target_cost_mt capacity)) in
  let power_saving_mt :=
    max0 (fsub (avg_power_mt perf) (optimal_power_kwh_mt capacity)) in
  let recovery_gap :=
    max0 (fsub (target_mn_recovery capacity) (avg_mn_recovery perf)) in
  {| cost_saving_per_ton := cost_saving_mt;
     annual_cost_saving :=
       fdiv (fmul (fmul cost_saving_mt total_production) (Fin 365)) len;
     power_saving_per_ton := power_saving_mt;
     annual_power_saving :=
       fdiv (fmul (fmul (fmul power_saving_mt total_production) (Fin 8))
                  (Fin 365))
            (fmul (Fin 1000) len);
     recovery_gap := recovery_gap;
     potential_mn_improvement :=
       if has furnace_data "MN Feeding"
       then fmul (fdiv recovery_gap (Fin 100))
                 (sum (col furnace_data "MN Feeding"))
       else Fin 0 |}.

Definition calculate_potential_savings (df : frame)
    (capacities : list (string * FurnaceCapacity))
    (results : list (string * CapacityCalculator.results))
    : list (string * savings) :=
  fold_left
    (fun saved fc =>
       let '(furnace_id, capacity) := fc in
       match get_item results furnace_id with
       | None => saved
       | Some perf =>
           set_item furnace_id (savings_of df furnace_id capacity perf) saved
       end)
    capacities [].

(** The value is a number that is not negative, or plus infinity. *)
Definition not_negative (x : fnum) : Prop :=
  match x with
  | Fin q => 0 <= q
  | PInf => True
  | NInf | NaN => False
  end.

End CapacityResults.

(* ================================================================== *)
(** ** complete_analyzer.py and comprehensive_insights.py: the grades *)
(* ================================================================== *)

Module Grades.

(** A number of Python: an [int], or a float of numpy. *)
Inductive number : Type :=
| Int (n : Z)
| Float (x : fnum).

Definition as_float (a : number) : fnum :=
  match a with
  | Int n => Fin (inject_Z n)
  | Float x => x
  end.

(** [a - b] *)
Definition sub (a b : number) : number :=
  match a, b with
  | Int x, Int y => Int (x - y)
  | _, _ => Float (fsub (as_float a) (as_float b))
  end.

(** [a / b]: the division of two [int] raises on a divisor 0; as soon as
    one side is a float of numpy the division is that of the floats. *)
Definition div (a b : number) : outcome number :=
  match a, b with
  | Int x, Int y =>
      if (y =? 0)%Z then Raises ZeroDivisionError
      else Returns (Float (Fin (inject_Z x / inject_Z y)))
  | _, _ => Returns (Float (fdiv (as_float a) (as_float b)))
  end.

Definition number_lt (a b : number) : bool := flt (as_float a) (as_float b).

(** A table with the column [GRADE]: each record goes with its grade. *)
Record graded : Type := mkGraded {
  g_columns : list string;
  g_records : list (string * row)
}.

(** [df[df['GRADE'] == grade]] *)
Definition of_grade (grade : string) (t : graded) : frame :=
  {| columns := g_columns t;
     rows := map snd (filter (fun gr => String.eqb (fst gr) grade)
                             (g_records t)) |}.

(** The entries of the analysis of a grade that the insights read. *)
Record grade_entry : Type := mkGradeEntry {
  grade : string;
  total_production : fnum;
  avg_cost_per_ton : number
}.

(** The average cost is the total cost by the total production, and the
    [int] 0 for a grade without production. *)
Definition analyze_grade (t : graded) (grade : string) : grade_entry :=
  let grade_data := of_grade grade t in
  let production := sum (col grade_data "Actual Production Qty") in
  {| grade := grade;
     total_production := production;
     avg_cost_per_ton :=
       if fgt production (Fin 0)
       then Float (fdiv (sum (col grade_data "Total Cost PLC")) production)
       else Int 0 |}.

(** The columns read without a membership test. *)
Definition required_columns : list string :=
  [ "Actual Production Qty"; "Total Cost PLC"; "Furnace"; "Grade MN";
    "Grade SI"; "C%"; "DATE" ].

(** [_analyze_by_grade]: [self.grade_analysis], one entry for each grade
    in order of first appearance. *)
Definition _analyze_by_grade (t : graded)
    : result (list (string * grade_entry)) :=
  match unique (map fst (g_records t)) with
  | [] => Ok []
  | grades =>
      if forallb (fun c => existsb (String.eqb c) (g_columns t))
                 required_columns
      then Ok (map (fun g => (g, analyze_grade t g)) grades)
      else Raise KeyError
  end.

(** [_generate_grade_based_insights] of the comprehensive engine.  The
    costs are sorted in descending order (the order of [sorted_reverse]
    is that of the sort when no cost is NaN); the first is the highest
    and the last the lowest. *)
Definition _generate_grade_based_insights
    (grade_analysis : list (string * grade_entry)) : outcome (list finding) :=
  let grade_costs := map snd grade_analysis in
  if (1 <? List.length grade_costs)%nat
  then
    match sorted_reverse
            (fun x y => number_lt (avg_cost_per_ton x) (avg_cost_per_ton y))
            grade_costs with
    | [] => Returns []
    | highest_cost :: rest =>
        let lowest_cost := last rest highest_cost in
        quotient <~ div (sub (avg_cost_per_ton highest_cost)
                             (avg_cost_per_ton lowest_cost))
                        (avg_cost_per_ton lowest_cost) ;;
        let cost_difference := fmul (as_float quotient) (Fin 100) in
        if fgt cost_difference (Fin 20)
        then Returns
               [ {| category := "grade";
                    severity := "high";
                    Finding.furnace := None;
                    title := "Significant Cost Variation by Grade";
                    financial_impact := None;
                    data :=
                      [ ("Highest Cost Grade",
                         DNamed (grade highest_cost)
                                (as_float (avg_cost_per_ton highest_cost)));
                        ("Lowest Cost Grade",
                         DNamed (grade lowest_cost)
                                (as_float (avg_cost_per_ton lowest_cost)));
                        ("Cost Difference", DNum cost_difference) ] |} ]
        else Returns []
    end
  else Returns [].

(** The value is a number or is missing. *)
Definition finite_or_missing (x : fnum) : Prop := x <> PInf /\ x <> NInf.

End Grades.

(* ================================================================== *)
(** ** src/core/processor.py: metrics and scores *)
(* ================================================================== *)

Module Processor.

(** [x >= y] and [x <= y]; false as soon as one side is NaN. *)
Definition fge (x y : fnum) : bool :=
  negb (isna x) && negb (isna y) && negb (flt x y).

Definition fle (x y : fnum) : bool := fge y x.

(** [np.where((x >= lo) & (x <= hi), 100 - abs(x - target) * slope, 0)] *)
Definition band_score (lo hi target slope : Q) (x : fnum) : fnum :=
  if fge x (Fin lo) && fle x (Fin hi)
  then fsub (Fin 100) (fmul (fabs (fsub x (Fin target))) (Fin slope))
  else Fin 0.

(** [df[c] = df[num] / df[den]], when the two columns are there. *)
Definition ratio_column (num den c : string) (df : frame) : frame :=
  if has df num && has df den
  then assign c (CompleteAnalyzer.ratio num den) df
  else df.

(** 1. Cost metrics. *)
Definition cost_metrics (df : frame) : frame :=
  ratio_column "Power Cost" "Actual Production Qty" "power_cost_per_ton"
    (ratio_column "Total Cost PLC" "Actual Production Qty" "cost_per_ton" df).

(** 2. Efficiency metrics. *)
Definition efficiency_metrics (df : frame) : frame :=
  let df :=
    if has df "Actual Production Qty" && has df "Cake Production Qty"
    then assign "yield_percentage"
           (fun r => fmul (CompleteAnalyzer.ratio "Actual Production Qty"
                             "Cake Production Qty" r) (Fin 100)) df
    else df in
  ratio_column "Actual Production Qty" "Input Qty(Coke PLC)(MT)"
    "coke_efficiency"
    (ratio_column "Actual Production Qty" "Input Qty(Ore PLC)(MT)"
       "ore_efficiency" df).

(** 3. Quality scores. *)
Definition grade_mn_score (x : fnum) : fnum := band_score 65 75 70 10 x.

Definition basicity_score (x : fnum) : fnum := band_score 1.2 1.5 1.35 40 x.

Definition quality_scores (df : frame) : frame :=
  let df :=
    if has df "Grade MN"
    then assign "grade_mn_score" (fun r => grade_mn_score (cell r "Grade MN")) df
    else df in
  if has df "Basicity"
  then assign "basicity_score" (fun r => basicity_score (cell r "Basicity")) df
  else df.

(** 4. The components of the performance score: the cost and the power
    relative to the mean of their column and clipped, the recovery as it
    is. *)
Definition score_components (df : frame) : list (row -> fnum) :=
  (if has df "cost_per_ton"
   then [fun r => CompleteAnalyzer.relative_score
                    (mean (col df "cost_per_ton")) (cell r "cost_per_ton")]
   else [])
  ++ (if has df "MN Recovery PLC"
      then [fun r => cell r "MN Recovery PLC"]
      else [])
  ++ (if has df "Specific Power Consumption"
      then [fun r => CompleteAnalyzer.relative_score
                       (mean (col df "Specific Power Consumption"))
                       (cell r "Specific Power Consumption")]
      else []).

(** [pd.DataFrame(score_components).mean()]: for each record the mean of
    its components, the missing ones skipped. *)
Definition performance_score (df : frame) : frame :=
  match score_components df with
  | [] => df
  | cs => assign "performance_score"
            (fun r => mean (map (fun c => c r) cs)) df
  end.

Definition _calculate_all_metrics (df : frame) : frame :=
  performance_score (quality_scores (efficiency_metrics (cost_metrics df))).

(** The value is no number of the band from [lo] to [hi]: it is missing,
    infinite, or a number below [lo] or above [hi]. *)
Definition outside (lo hi : Q) (x : fnum) : Prop :=
  match x with
  | Fin q => q < lo \/ hi < q
  | _ => True
  end.

End Processor.

(* ================================================================== *)
(** ** src/intelligence/advanced_insights.py: the generators *)
(* ================================================================== *)

Module AdvancedRules.

Import CapacityCalculator CapacityResults.

(** The engine reads a calculator, that is its table [df], its
    capacities and its results, and has capacities of its own.  The
    insights are built as findings; the texts formatted from their
    numbers are not reproduced, but for the financial impact, which the
    sort compares. *)

(** ['avg_load_factor'] of the results: [None] without the column. *)
Definition avg_load_factor (df : frame) (furnace_id : string) : option fnum :=
  let furnace_data := of_furnace furnace_id df in
  if has furnace_data "Load Factor"
  then Some (mean (col furnace_data "Load Factor"))
  else None.

(** ['design_capacity_mt'] of the results: that of the capacity of the
    calculator, under which the results of the furnace were computed. *)
Definition design_capacity (calc_capacities : list (string * FurnaceCapacity))
    (furnace : string) : fnum :=
  match get_item calc_capacities furnace with
  | Some c => design_capacity_mt c
  | None => Fin 0
  end.

(** *** [_generate_capacity_insights] *)

Definition capacity_insight (calc_capacities : list (string * FurnaceCapacity))
    (fr : string * results) : list finding :=
  let '(furnace, row) := fr in
  let capacity_util := capacity_utilization row in
  let avg_production := avg_daily_production row in
  if flt capacity_util (Fin 70)
  then [ {| category := "capacity";
            severity := "high";
            Finding.furnace := Some furnace;
            title := "Low Capacity Utilization - " +++ furnace;
            financial_impact :=
              Some (fmul (fmul (fsub (design_capacity calc_capacities furnace)
                                     avg_production) (Fin 50000)) (Fin 30));
            data := [ ("Utilization", DNum capacity_util);
                      ("Actual average", DNum avg_production) ] |} ]
  else if fgt capacity_util (Fin 110)
  then [ {| category := "capacity";
            severity := "medium";
            Finding.furnace := Some furnace;
            title := "Potential Overloading - " +++ furnace;
            financial_impact := None;
            data := [ ("Utilization", DNum capacity_util) ] |} ]
  else [].

(** The rows of [get_comparative_analysis()] are the results, in their
    order; the ranks it adds are not read. *)
Definition _generate_capacity_insights
    (calc_capacities : list (string * FurnaceCapacity))
    (results : list (string * CapacityCalculator.results)) : list finding :=
  flat_map (capacity_insight calc_capacities) results.

(** *** [_generate_cost_insights] *)

(** The main cost driver enters the texts only. *)
Definition cost_insight (results : list (string * CapacityCalculator.results))
    (fc : string * FurnaceCapacity) : list finding :=
  let '(furnace_id, capacity) := fc in
  match get_furnace_performance results furnace_id with
  | None => []
  | Some perf =>
      let current_cost := avg_cost_mt perf in
      let target_cost := target_cost_mt capacity in
      if fgt (cost_vs_target perf) (Fin 15)
      then [ {| category := "cost";
                severity := "high";
                Finding.furnace := Some furnace_id;
                title := "High Production Cost - " +++ furnace_id;
                financial_impact :=
                  Some (fmul (fmul (fsub current_cost target_cost)
                                   (avg_daily_production perf)) (Fin 30));
                data := [ ("current_cost", DNum current_cost);
                          ("target_cost", DNum target_cost);
                          ("cost_vs_target", DNum (cost_vs_target perf)) ] |} ]
      else []
  end.

Definition _generate_cost_insights
    (results : list (string * CapacityCalculator.results))
    (capacities : list (string * FurnaceCapacity)) : list finding :=
  flat_map (cost_insight results) capacities.

(** *** [_generate_power_insights] *)

(** The load factor of the results is [None] on a table without the
    column, and its comparison with 75 raises [TypeError]. *)
Fixpoint _generate_power_insights (df : frame)
    (results : list (string * CapacityCalculator.results))
    (capacities : list (string * FurnaceCapacity)) : outcome (list finding) :=
  match capacities with
  | [] => Returns []
  | (furnace_id, capacity) :: rest =>
      match get_furnace_performance results furnace_id with
      | None => _generate_power_insights df results rest
      | Some perf =>
          let current_power := avg_power_mt perf in
          let high :=
            if fgt (power_vs_optimal perf) (Fin 20)
            then [ {| category := "power";
                      severity := "high";
                      Finding.furnace := Some furnace_id;
                      title := "High Power Consumption - " +++ furnace_id;
                      financial_impact := None;
                      data :=
                        [ ("current_power", DNum current_power);
                          ("optimal_power",
                           DNum (optimal_power_kwh_mt capacity));
                          ("power_vs_optimal",
                           DNum (power_vs_optimal perf)) ] |} ]
            else [] in
          match avg_load_factor df furnace_id with
          | None => Raises (Builtin TypeError)
          | Some load_factor =>
              let low :=
                if flt load_factor (Fin 75)
                then [ {| category := "power";
                          severity := "medium";
                          Finding.furnace := Some furnace_id;
                          title := "Low Load Factor - " +++ furnace_id;
                          financial_impact := None;
                          data := [ ("load_factor", DNum load_factor) ] |} ]
                else [] in
              more <~ _generate_power_insights df results rest ;;
              Returns (high ++ low ++ more)
          end
      end
  end.

(** *** [_generate_recovery_insights] *)

(** The first statement of the loop calls
    [self.calculator.get_furnage_performance], a name the calculator
    does not have: the first turn raises [AttributeError], and the rest
    of the body is never reached. *)
Definition _generate_recovery_insights
    (capacities : list (string * FurnaceCapacity)) : outcome (list finding) :=
  match capacities with
  | [] => Returns []
  | _ :: _ => Raises AttributeError
  end.

(** *** [_generate_quality_insights] *)

Definition quality_insight (df : frame) (furnace_id : string)
    (p : ComprehensiveInsights.quality_param) : list finding :=
  let furnace_data := of_furnace furnace_id df in
  let param := ComprehensiveInsights.param_name p in
  if has furnace_data param
  then let avg_value := mean (col furnace_data param) in
       if ComprehensiveInsights.outside (ComprehensiveInsights.optimal p)
            avg_value
       then [ {| category := "quality";
                 severity :=
                   if ComprehensiveInsights.outside
                        (ComprehensiveInsights.critical p) avg_value
                   then "high" else "medium";
                 Finding.furnace := Some furnace_id;
                 title := param +++ " Deviation - " +++ furnace_id;
                 financial_impact := None;
                 data := [ ("avg_value", DNum avg_value) ] |} ]
       else []
  else [].

(** The parameters and their ranges are those of
    [ComprehensiveInsights.quality_params]. *)
Definition _generate_quality_insights (df : frame)
    (capacities : list (string * FurnaceCapacity)) : list finding :=
  flat_map (fun fc =>
              flat_map (quality_insight df (fst fc))
                       ComprehensiveInsights.quality_params)
           capacities.

(** *** [_generate_operational_insights] *)

(** The dominant kind of breakdown enters the texts only; the production
    is read without a membership test. *)
Fixpoint _generate_operational_insights (df : frame)
    (capacities : list (string * FurnaceCapacity)) : result (list finding) :=
  match capacities with
  | [] => Ok []
  | (furnace_id, _) :: rest =>
      let furnace_data := of_furnace furnace_id df in
      if has furnace_data "Total Breakdown Mins"
         && fgt (mean (col furnace_data "Total Breakdown Mins")) (Fin 120)
      then if has furnace_data "Actual Production Qty"
           then more <- _generate_operational_insights df rest ;;
                Ok ({| category := "operations";
                       severity := "high";
                       Finding.furnace := Some furnace_id;
                       title := "High Breakdown Time - " +++ furnace_id;
                       financial_impact := None;
                       data :=
                         [ ("avg_breakdown",
                            DNum (mean (col furnace_data
                                          "Total Breakdown Mins"))) ] |}
                    :: more)
           else Raise KeyError
      else _generate_operational_insights df rest
  end.

(** *** [_generate_comparative_insights] *)

(** One turn of the loop over the metrics: the rows of the best and of
    the worst value are read for each of them, and an insight is built
    for the two metrics where lower is better. *)
Definition compare_metric
    (comparative : list (string * CapacityCalculator.results))
    (m : (CapacityCalculator.results -> fnum) * string * bool)
    : result (list finding) :=
  let '(metric, display_name, lower_is_better) := m in
  let column := map (fun fr => metric (snd fr)) comparative in
  let best_idx := if lower_is_better then idxmin column else idxmax column in
  let worst_idx := if lower_is_better then idxmax column else idxmin column in
  match best_idx, worst_idx with
  | Some bi, Some wi =>
      match nth_error comparative bi, nth_error comparative wi with
      | Some best_furnace, Some worst_furnace =>
          if lower_is_better
          then let best := metric (snd best_furnace) in
               let worst := metric (snd worst_furnace) in
               let gap_pct := fmul (fdiv (fsub worst best) best) (Fin 100) in
               if fgt gap_pct (Fin 20)
               then Ok [ {| category := "comparative";
                            severity := "high";
                            Finding.furnace := None;
                            title := display_name +++ " Performance Gap";
                            financial_impact := None;
                            data :=
                              [ ("best", DNamed (fst best_furnace) best);
                                ("worst", DNamed (fst worst_furnace) worst);
                                ("gap_pct", DNum gap_pct) ] |} ]
               else Ok []
          else Ok []
      | _, _ => Raise TypeError
      end
  | _, _ => Raise TypeError
  end.

Definition metrics_comparison
    : list ((CapacityCalculator.results -> fnum) * string * bool) :=
  [ (avg_cost_mt, "Cost per Ton", true);
    (avg_power_mt, "Power Consumption", true);
    (avg_mn_recovery, "MN Recovery", false);
    (capacity_utilization, "Capacity Utilization", false) ].

Fixpoint compare_all (comparative : list (string * CapacityCalculator.results))
    (ms : list ((CapacityCalculator.results -> fnum) * string * bool))
    : result (list finding) :=
  match ms with
  | [] => Ok []
  | m :: ms' =>
      found <- compare_metric comparative m ;;
      rest <- compare_all comparative ms' ;;
      Ok (found ++ rest)
  end.

Definition _generate_comparative_insights
    (results : list (string * CapacityCalculator.results))
    : result (list finding) :=
  if (List.length results <? 2)%nat
  then Ok []
  else compare_all results metrics_comparison.

(** The finding names the furnace under its key ['furnace']. *)
Definition names (f : string) (i : finding) : bool :=
  match Finding.furnace i with
  | Some g => String.eqb g f
  | None => false
  end.

(** *** [generate_all_insights] *)

(** The dictionary of a finding; [amount] is the formatting [:,.0f] of
    the amount of a financial impact, with the currency sign before
    it. *)
Definition as_insight (amount : fnum -> string) (i : finding)
    : AdvancedInsights.insight :=
  {| AdvancedInsights.category := Some (category i);
     AdvancedInsights.severity := Some (severity i);
     AdvancedInsights.furnace := Finding.furnace i;
     AdvancedInsights.title := title i;
     AdvancedInsights.description := "";
     AdvancedInsights.financial_impact :=
       match financial_impact i with
       | Some x =>
           Some (if String.eqb (category i) "capacity"
                 then "Potential loss: " +++ amount x +++ "/month"
                 else "Potential monthly savings: " +++ amount x)
       | None => None
       end |}.

Definition generate_all_insights (amount : fnum -> string) (df : frame)
    (calc_capacities : list (string * FurnaceCapacity))
    (results : list (string * CapacityCalculator.results))
    (capacities : list (string * FurnaceCapacity))
    : outcome (list (AdvancedInsights.bucket * list AdvancedInsights.insight)) :=
  let capacity := _generate_capacity_insights calc_capacities results in
  let cost := _generate_cost_insights results capacities in
  power <~ _generate_power_insights df results capacities ;;
  recovery <~ _generate_recovery_insights capacities ;;
  let quality := _generate_quality_insights df capacities in
  operational <~ of_result (_generate_operational_insights df capacities) ;;
  comparative <~ of_result (_generate_comparative_insights results) ;;
  of_result
    (snd (AdvancedInsights._categorize_insights
            (map (as_insight amount)
                 (capacity ++ cost ++ power ++ recovery ++ quality
                  ++ operational ++ comparative)))).

End AdvancedRules.

(* ================================================================== *)
(** ** accurate_analyzer.py: cleaning and analysis *)
(* ================================================================== *)

Module AccurateAnalysis.

Import AccurateAnalyzer.

(** [df[c] = df[c].fillna(0)] *)
Definition fillna0 (c : string) (df : frame) : frame :=
  assign c (fun r => if isna (cell r c) then Fin 0 else cell r c) df.

(** [_clean_data], on a table whose key columns are numeric already:
    the missing breakdown minutes become 0. *)
Definition _clean_data (df : frame) : frame :=
  if has df "Total Breakdown Mins"
  then fillna0 "Total Breakdown Mins" df
  else df.

(** [df.empty] *)
Definition empty (df : frame) : bool :=
  match rows df, columns df with
  | [], _ | _, [] => true
  | _, _ => false
  end.

(** The mask [production_mask], a local variable assigned in the block
    of the cost per ton only. *)
Definition production_mask (df : frame) : option (row -> bool) :=
  if has df "Total Cost PLC" && has df "Actual Production Qty"
  then Some (positive "Actual Production Qty")
  else None.

(** The block of the power cost per ton, which reads the mask. *)
Definition power_cost_per_ton (mask : option (row -> bool)) (df : frame)
    : outcome frame :=
  if has df "Power Cost" && has df "Actual Production Qty"
  then match mask with
       | Some production_mask =>
           Returns (assign_where production_mask "Power_Cost_per_Ton"
                      (CompleteAnalyzer.ratio "Power Cost"
                         "Actual Production Qty") df)
       | None => Raises UnboundLocalError
       end
  else Returns df.

(** The columns read without a membership test by [_analyze_by_furnace]
    and by [_calculate_overall_stats]. *)
Definition furnace_columns : list string :=
  [ "Actual Production Qty"; "Total Cost PLC"; "Total Breakdown Mins";
    "Specific Power Consumption"; "MN Recovery PLC"; "Grade MN"; "Grade SI";
    "C%"; "Basicity" ].

Definition overall_columns : list string :=
  [ "Actual Production Qty"; "Total Cost PLC"; "Specific Power Consumption";
    "MN Recovery PLC"; "Total Breakdown Mins" ].

(** [_analyze_data]: nothing is set for an empty table; otherwise the
    table [self.analysis_df], when the two analyses that follow find
    their columns. *)
Definition _analyze_data (df : frame) : outcome (option frame) :=
  if empty df then Returns None
  else
    let mask := production_mask df in
    df_analysis <~ power_cost_per_ton mask (cost_per_ton df) ;;
    let df_analysis :=
      operational_availability
        (ore_efficiency (yield_percentage df_analysis)) in
    if has df_analysis "Furnace"
       && negb (forallb (has df_analysis) furnace_columns)
    then Raises (Builtin KeyError)
    else if negb (forallb (has df_analysis) overall_columns)
    then Raises (Builtin KeyError)
    else Returns (Some df_analysis).

(** [AccurateFurnaceAnalyzer(df)]: the table [self.analysis_df]. *)
Definition analyzer (df : frame) : outcome (option frame) :=
  _analyze_data (_clean_data df).

End AccurateAnalysis.

(* ================================================================== *)
(** ** fixed_analyzer.py: analysis of the corrected table *)
(* ================================================================== *)

Module FixedAnalysis.

Import AccurateAnalyzer FixedAnalyzer.

(** [df.loc[mask, c] = df.loc[mask, num] / df.loc[mask, den]] with
    [mask = df[den] > 0], when the two columns are there. *)
Definition masked_ratio (num den c : string) (df : frame) : frame :=
  if has df num && has df den
  then assign_where (positive den) c (CompleteAnalyzer.ratio num den) df
  else df.

(** 3. The total power: furnace power, plus auxiliary power if any. *)
Definition total_power (df : frame) : frame :=
  if has df "Furnace Power Consumption"
  then if has df "Aux power Consumption"
       then assign "Total_Power_kWh"
              (fun r => fadd (cell r "Furnace Power Consumption")
                             (cell r "Aux power Consumption")) df
       else assign "Total_Power_kWh"
              (fun r => cell r "Furnace Power Consumption") df
  else df.

(** The table [self.analysis_df] of [_analyze_fixed_data]; the block of
    the yield is that of accurate_analyzer.py. *)
Definition analysis_df (df : frame) : frame :=
  let df := masked_ratio "Total Cost PLC" "Actual Production Qty"
              "Cost_per_Ton_Corrected" df in
  let df := masked_ratio "Power Cost" "Actual Production Qty"
              "Power_Cost_per_Ton" df in
  let df := total_power df in
  let df := masked_ratio "Total_Power_kWh" "Actual Production Qty"
              "Power_per_Ton_kWh" df in
  let df := AccurateAnalyzer.yield_percentage df in
  let df := masked_ratio "Actual Production Qty" "Input Qty(Ore PLC)(MT)"
              "Ore_Efficiency" df in
  masked_ratio "Actual Production Qty" "Input Qty(Coke PLC)(MT)"
    "Coke_Efficiency" df.

(** [df.drop('Unnamed: 0', axis=1)] *)
Definition drop (c : string) (df : frame) : frame :=
  {| columns := filter (fun k => negb (String.eqb k c)) (columns df);
     rows := rows df |}.

(** [_clean_and_fix_data], on a table whose key columns are numeric
    already. *)
Definition _clean_and_fix_data (df : frame) : frame :=
  unit_corrections
    (if has df "Unnamed: 0" then drop "Unnamed: 0" df else df).

(** ['avg_mn_recovery'] of [_analyze_by_furnace_fixed]. *)
Definition avg_mn_recovery (df : frame) (f : string) : fnum :=
  mean (col (of_furnace f df) "MN Recovery PLC").

(** No cell of the table is an infinity. *)
Definition no_infinity (df : frame) : Prop :=
  forall (r : row) (c : string),
    In r (rows df) -> cell r c <> PInf /\ cell r c <> NInf.

End FixedAnalysis.

(* ================================================================== *)
(** ** src/intelligence/insights_engine.py: the rules by furnace *)
(* ================================================================== *)

Module EngineRules.

(** [self.targets] of [__init__]. *)
Definition default_targets : list (string * fnum) :=
  [ ("cost_per_ton", Fin 70000);
    ("Specific Power Consumption", Fin 2500);
    ("MN Recovery PLC", Fin 80);
    ("SI Recovery PLC", Fin 45);
    ("operational_availability", Fin 90);
    ("Load Factor", Fin 85) ].

(** [((target - avg) / target) * 100] *)
Definition percent_below (target avg : fnum) : fnum :=
  fmul (fdiv (fsub target avg) target) (Fin 100).

(** [((avg - target) / target) * 100] *)
Definition percent_above (target avg : fnum) : fnum :=
  fmul (fdiv (fsub avg target) target) (Fin 100).

(** *** [_analyze_recovery] *)

(** The insight of a furnace below target.  Its impact text formats the
    material loss with [:,.1f]. *)
Definition recovery_finding (target : fnum) (furnace : string)
    (furnace_data : frame) : finding :=
  let avg_mn_recovery := mean (col furnace_data "MN Recovery PLC") in
  {| category := "recovery";
     severity := if fgt (percent_below target avg_mn_recovery) (Fin 5)
                 then "high" else "medium";
     Finding.furnace := Some furnace;
     title := "Low Manganese Recovery - " +++ furnace;
     financial_impact := None;
     data :=
       [ ("metric", DStr "MN Recovery PLC");
         ("value", DNum avg_mn_recovery);
         ("target", DNum target);
         ("percent_below", DNum (percent_below target avg_mn_recovery));
         ("material_loss",
          DNum (fmul (fdiv (fsub target avg_mn_recovery) (Fin 100))
                     (sum (col furnace_data "MN Feeding")))) ] |}.

(** The loop over the furnaces.  The target is read inside it.  Without
    the column [MN Feeding] the value formatted with [:,.1f] is the text
    ["N/A"], which raises [ValueError]. *)
Fixpoint recovery_loop (targets : list (string * fnum)) (df : frame)
    (fs : list string) : result (list finding) :=
  match fs with
  | [] => Ok []
  | furnace :: rest =>
      let furnace_data := of_furnace furnace df in
      let avg_mn_recovery := mean (col furnace_data "MN Recovery PLC") in
      match InsightsFinal.get targets "MN Recovery PLC" with
      | None => Raise KeyError
      | Some target =>
          if flt avg_mn_recovery target
          then if has furnace_data "MN Feeding"
               then more <- recovery_loop targets df rest ;;
                    Ok (recovery_finding target furnace furnace_data :: more)
               else Raise ValueError
          else recovery_loop targets df rest
      end
  end.

Definition _analyze_recovery (targets : list (string * fnum)) (df : frame)
    : result (list finding) :=
  if negb (has df "MN Recovery PLC") then Ok []
  else if negb (has df "Furnace") then Raise KeyError
  else recovery_loop targets df (furnaces df).

(** *** [get_top_insights] *)

Definition less_severe (x y : finding) : bool :=
  (severity_order (severity x) <? severity_order (severity y))%nat.

Definition get_top_insights (insights : list finding) (limit : Z)
    : list finding :=
  up_to limit (sorted_reverse less_severe insights).

End EngineRules.

(* ================================================================== *)
(** ** src/intelligence/insights_final.py: the categories *)
(* ================================================================== *)

Module FinalRules.

(** The keys of [categories], in the order of the dictionary. *)
Inductive bucket : Type :=
| Cost_Optimization
| Power_Efficiency
| Material_Recovery
| Product_Quality
| Operations_Management
| Performance_Benchmarking
| Trend_Analysis.

Definition bucket_eqb (a b : bucket) : bool :=
  match a, b with
  | Cost_Optimization, Cost_Optimization
  | Power_Efficiency, Power_Efficiency
  | Material_Recovery, Material_Recovery
  | Product_Quality, Product_Quality
  | Operations_Management, Operations_Management
  | Performance_Benchmarking, Performance_Benchmarking
  | Trend_Analysis, Trend_Analysis => true
  | _, _ => false
  end.

Definition buckets : list bucket :=
  [ Cost_Optimization; Power_Efficiency; Material_Recovery; Product_Quality;
    Operations_Management; Performance_Benchmarking; Trend_Analysis ].

(** [category_mapping.get(category, 'Operations Management')] *)
Definition category_mapping (category : string) : bucket :=
  if String.eqb category "cost" then Cost_Optimization
  else if String.eqb category "power" then Power_Efficiency
  else if String.eqb category "recovery" then Material_Recovery
  else if String.eqb category "quality" then Product_Quality
  else if String.eqb category "operations" then Operations_Management
  else if String.eqb category "comparative" then Performance_Benchmarking
  else if String.eqb category "trend" then Trend_Analysis
  else Operations_Management.

Definition less_severe (x y : finding) : bool :=
  (severity_order (severity x) <? severity_order (severity y))%nat.

(** The insights appended to the list of a category. *)
Definition appended (insights : list finding) (b : bucket) : list finding :=
  filter (fun i => bucket_eqb (category_mapping (category i)) b) insights.

Definition _categorize_insights (insights : list finding)
    : list (bucket * list finding) :=
  map (fun b => (b, sorted_reverse less_severe (appended insights b))) buckets.

End FinalRules.

(* ================================================================== *)
(** ** src/intelligence/comprehensive_insights.py: further rules *)
(* ================================================================== *)

Module ComprehensiveRules.

Import CompleteAnalyzer ComprehensiveInsights.

(** *** [_generate_power_insights] *)

Definition high_power_finding (tg : targets) (furnace_id : string)
    (a : analysis) : finding :=
  {| category := "power";
     severity := "high";
     Finding.furnace := Some furnace_id;
     title := "High Power Consumption - " +++ furnace_id;
     financial_impact := None;
     data := [ ("Current Power", DNum (avg_power_consumption a));
               ("Target Power", DNum (t_Specific_Power_Consumption tg));
               ("Load Factor", DNum (avg_load_factor a));
               ("Power Factor", DNum (avg_power_factor a)) ] |}.

Definition low_power_factor_finding (furnace_id : string)
    (power_factor : fnum) : finding :=
  {| category := "power";
     severity := "medium";
     Finding.furnace := Some furnace_id;
     title := "Low Power Factor - " +++ furnace_id;
     financial_impact := None;
     data := [ ("Current Power Factor", DNum power_factor) ] |}.

(** The loop over the furnaces.  The local variable [power_factor] is
    assigned only in the branch of a high power consumption and is read
    after it on every turn: it is unbound until a first furnace takes
    the branch, and keeps the value of the last one that did. *)
Fixpoint power_loop (tg : targets) (furnace_analysis : list (string * analysis))
    (power_factor : option fnum) : outcome (list finding) :=
  match furnace_analysis with
  | [] => Returns []
  | (furnace_id, a) :: rest =>
      let current_power := avg_power_consumption a in
      let target_power := t_Specific_Power_Consumption tg in
      let high := fgt current_power (fmul target_power (Fin 1.2)) in
      let power_factor :=
        if high then Some (avg_power_factor a) else power_factor in
      match power_factor with
      | None => Raises UnboundLocalError
      | Some pf =>
          more <~ power_loop tg rest power_factor ;;
          Returns
            ((if high then [high_power_finding tg furnace_id a] else [])
             ++ (if flt pf (Fin 0.9)
                 then [low_power_factor_finding furnace_id pf] else [])
             ++ more)
      end
  end.

Definition _generate_power_insights (tg : targets)
    (furnace_analysis : list (string * analysis)) : outcome (list finding) :=
  power_loop tg furnace_analysis None.

(** *** [_generate_efficiency_insights] *)

Definition ore_insight (tg : targets) (fa : string * analysis) : list finding :=
  let '(furnace_id, a) := fa in
  let ore_eff := avg_ore_efficiency a in
  let target_ore_eff := t_Ore_Efficiency tg in
  if flt ore_eff (fmul target_ore_eff (Fin 0.9))
  then [ {| category := "efficiency";
            severity := "medium";
            Finding.furnace := Some furnace_id;
            title := "Low Ore Efficiency - " +++ furnace_id;
            financial_impact := None;
            data := [ ("Current Efficiency", DNum ore_eff);
                      ("Target Efficiency", DNum target_ore_eff) ] |} ]
  else [].

Definition coke_insight (tg : targets) (fa : string * analysis)
    : list finding :=
  let '(furnace_id, a) := fa in
  let coke_eff := avg_coke_efficiency a in
  let target_coke_eff := t_Coke_Efficiency tg in
  if fgt coke_eff (Fin 0) && flt coke_eff (fmul target_coke_eff (Fin 0.9))
  then [ {| category := "efficiency";
            severity := "medium";
            Finding.furnace := Some furnace_id;
            title := "Low Coke Efficiency - " +++ furnace_id;
            financial_impact := None;
            data := [ ("Current Efficiency", DNum coke_eff);
                      ("Target Efficiency", DNum target_coke_eff) ] |} ]
  else [].

Definition _generate_efficiency_insights (tg : targets)
    (furnace_analysis : list (string * analysis)) : list finding :=
  flat_map (fun fa => ore_insight tg fa ++ coke_insight tg fa) furnace_analysis.

(** *** [_categorize_insights] *)

(** The keys of [categories], in the order of the dictionary. *)
Inductive bucket : Type :=
| CRITICAL_ISSUES
| COST_OPTIMIZATION
| POWER_EFFICIENCY
| MATERIAL_RECOVERY
| PRODUCT_QUALITY
| PRODUCTION_EFFICIENCY
| OPERATIONAL_EXCELLENCE
| PERFORMANCE_BENCHMARKING
| TREND_ANALYSIS.

Definition bucket_eqb (a b : bucket) : bool :=
  match a, b with
  | CRITICAL_ISSUES, CRITICAL_ISSUES
  | COST_OPTIMIZATION, COST_OPTIMIZATION
  | POWER_EFFICIENCY, POWER_EFFICIENCY
  | MATERIAL_RECOVERY, MATERIAL_RECOVERY
  | PRODUCT_QUALITY, PRODUCT_QUALITY
  | PRODUCTION_EFFICIENCY, PRODUCTION_EFFICIENCY
  | OPERATIONAL_EXCELLENCE, OPERATIONAL_EXCELLENCE
  | PERFORMANCE_BENCHMARKING, PERFORMANCE_BENCHMARKING
  | TREND_ANALYSIS, TREND_ANALYSIS => true
  | _, _ => false
  end.

Definition buckets : list bucket :=
  [ CRITICAL_ISSUES; COST_OPTIMIZATION; POWER_EFFICIENCY; MATERIAL_RECOVERY;
    PRODUCT_QUALITY; PRODUCTION_EFFICIENCY; OPERATIONAL_EXCELLENCE;
    PERFORMANCE_BENCHMARKING; TREND_ANALYSIS ].

(** The chain of tests that picks the list an insight is appended to; the
    insight is a dictionary as [AdvancedInsights.insight] has it. *)
Definition bucket_of (i : AdvancedInsights.insight) : bucket :=
  let severity :=
    match AdvancedInsights.severity i with Some s => s | None => "medium" end in
  let category :=
    match AdvancedInsights.category i with Some c => c | None => "" end in
  if String.eqb severity "high"
     && match AdvancedInsights.financial_impact i with
        | Some _ => true
        | None => false
        end
  then CRITICAL_ISSUES
  else if String.eqb category "cost" then COST_OPTIMIZATION
  else if String.eqb category "power" then POWER_EFFICIENCY
  else if String.eqb category "recovery" then MATERIAL_RECOVERY
  else if String.eqb category "quality" then PRODUCT_QUALITY
  else if String.eqb category "production" || String.eqb category "efficiency"
          || String.eqb category "capacity"
  then PRODUCTION_EFFICIENCY
  else if String.eqb category "operations" then OPERATIONAL_EXCELLENCE
  else if String.eqb category "comparative" then PERFORMANCE_BENCHMARKING
  else if String.eqb category "trend" then TREND_ANALYSIS
  else if String.eqb category "grade" then COST_OPTIMIZATION
  else OPERATIONAL_EXCELLENCE.

(** The lists of [categories] before they are sorted. *)
Definition categorized (insights : list AdvancedInsights.insight)
    : list (bucket * list AdvancedInsights.insight) :=
  map (fun b => (b, filter (fun i => bucket_eqb (bucket_of i) b) insights))
      buckets.

(** The sort of each list, with the key of [AdvancedInsights.sort_key]:
    the two files have the same key function. *)
Fixpoint sort_lists {B : Type}
    (bs : list (B * list AdvancedInsights.insight))
    : result (list (B * list AdvancedInsights.insight)) :=
  match bs with
  | [] => Ok []
  | (b, l) :: t =>
      sorted <- AdvancedInsights.sort_desc l ;;
      rest <- sort_lists t ;;
      Ok ((b, sorted) :: rest)
  end.

Definition _categorize_insights (insights : list AdvancedInsights.insight)
    : result (list (bucket * list AdvancedInsights.insight)) :=
  sort_lists (categorized insights).

End ComprehensiveRules.

(* ------------------------------------------------------------------ *)
(** ** Cost drivers of a furnace and the main one *)
(* ------------------------------------------------------------------ *)

Module CostDrivers.

(** [s.replace(old, new)] for a non-empty [old]: the occurrences of
    [old] are replaced from the left; [skip] counts the characters of
    the occurrence just replaced that are still to be passed over. *)
Fixpoint replace_from (old new : string) (skip : nat) (s : string) : string :=
  match s with
  | EmptyString => EmptyString
  | String c rest =>
      match skip with
      | S k => replace_from old new k rest
      | O =>
          if String.prefix old s
          then new +++ replace_from old new (String.length old - 1) rest
          else String c (replace_from old new 0 rest)
      end
  end.

Definition replace (old new s : string) : string := replace_from old new 0 s.

Definition cost_columns : list string :=
  [ "Ore Cost PLC"; "Coke Cost PLC"; "Power Cost"; "Fluxes PLC";
    "Undersize Cost PLC" ].

(** The entry of a cost column. *)
Record driver : Type := mkDriver {
  amount : fnum;
  percentage : fnum;
  per_ton : fnum
}.

Definition driver_of (furnace_data : frame) (c : string) : driver :=
  let col_cost := sum (col furnace_data c) in
  {| amount := col_cost;
     percentage :=
       fmul (fdiv col_cost (sum (col furnace_data "Total Cost PLC")))
            (Fin 100);
     per_ton :=
       fdiv col_cost (sum (col furnace_data "Actual Production Qty")) |}.

(** The loop over the cost columns.  [_get_cost_breakdown] and
    [identify_cost_drivers] have the same loop and differ in the key
    under which an entry is stored.  The production column is read only
    for a column that is there, and only when the total cost is
    positive. *)
Fixpoint drivers_loop (key : string -> string) (furnace_data : frame)
    (cols : list string) (breakdown : list (string * driver))
    : result (list (string * driver)) :=
  match cols with
  | [] => Ok breakdown
  | c :: rest =>
      if has furnace_data c
      then if fgt (sum (col furnace_data "Total Cost PLC")) (Fin 0)
           then if has furnace_data "Actual Production Qty"
                then drivers_loop key furnace_data rest
                       (set_item (key c) (driver_of furnace_data c) breakdown)
                else Raise KeyError
           else drivers_loop key furnace_data rest breakdown
      else drivers_loop key furnace_data rest breakdown
  end.

(** [col.replace(' Cost PLC', '').replace(' PLC', '')] *)
Definition breakdown_key (c : string) : string :=
  replace " PLC" "" (replace " Cost PLC" "" c).

(** [_get_cost_breakdown] of the complete analyzer. *)
Definition _get_cost_breakdown (furnace_data : frame)
    : result (list (string * driver)) :=
  if has furnace_data "Total Cost PLC"
  then drivers_loop breakdown_key furnace_data cost_columns []
  else Raise KeyError.

(** [identify_cost_drivers] of the capacity calculator. *)
Definition identify_cost_drivers (df : frame) (furnace_id : string)
    : result (list (string * driver)) :=
  if has df "Furnace"
  then let furnace_data := of_furnace furnace_id df in
       if has furnace_data "Total Cost PLC"
       then drivers_loop (fun c => c) furnace_data cost_columns []
       else Raise KeyError
  else Raise KeyError.

(** The search of the main cost driver in the cost rules of the
    comprehensive and of the advanced engine: [main_driver] and
    [main_percentage] start as [None] and 0, and an entry replaces them
    when its percentage is greater. *)
Definition main_driver_step (found : option string * fnum)
    (entry : string * driver) : option string * fnum :=
  if fgt (percentage (snd entry)) (snd found)
  then (Some (fst entry), percentage (snd entry))
  else found.

Definition main_cost_driver (cost_drivers : list (string * driver))
    : option string * fnum :=
  fold_left main_driver_step cost_drivers (None, Fin 0).

(** The keys of a list are pairwise different, as a test. *)
Fixpoint distinct (l : list string) : bool :=
  match l with
  | [] => true
  | k :: t => negb (existsb (String.eqb k) t) && distinct t
  end.

End CostDrivers.

(* ================================================================== *)
(** ** The furnace averages as the specification words them *)
(* ================================================================== *)

Module Spec.

(** The member records of a furnace group. *)
Definition records_of (f : string) (df : frame) : list row :=
  filter (fun r => String.eqb (Frame.Furnace r) f) (rows df).

(** The cost per ton of one record: total cost divided by production. *)
Definition cost_per_ton (r : row) : fnum :=
  fdiv (cell r "Total Cost PLC") (cell r "Actual Production Qty").

(** Mean of ratios: the arithmetic mean of the cost per ton of the
    records that have one. *)
Definition mean_of_ratios (records : list row) : fnum :=
  mean (map cost_per_ton records).

(** Ratio of sums: the total cost of the group divided by its total
    production. *)
Definition ratio_of_sums (records : list row) : fnum :=
  fdiv (sum (map (fun r => cell r "Total Cost PLC") records))
       (sum (map (fun r => cell r "Actual Production Qty") records)).

End Spec.

(* ================================================================== *)
(** ** The two scores as the specification words them *)
(* ================================================================== *)

Module ScoreSpec.

(** A number clamped to [0, 100]. *)
Definition clamp (x : Q) : Q := Qmax 0 (Qmin 100 x).

(** The sub-score of a chemistry parameter: 100 less [slope] for each
    unit of distance from the target, clamped. *)
Definition sub_score (target slope x : Q) : Q :=
  clamp (100 - Qabs (x - target) * slope).

(** The quality score: the sub-scores of the parameters present, weighted
    0.4, 0.3, 0.2 and 0.1. *)
Definition quality (present : string -> bool) (x : string -> Q) : Q :=
  (if present "Grade MN" then 0.4 * sub_score 70 5 (x "Grade MN") else 0)
  + (if present "Grade SI"
     then 0.3 * sub_score 17.5 10 (x "Grade SI") else 0)
  + (if present "C%" then 0.2 * sub_score 7 20 (x "C%") else 0)
  + (if present "Basicity"
     then 0.1 * sub_score 1.35 40 (x "Basicity") else 0).

(** The sub-score of a value relative to the mean [m] of its column: 100
    at the mean, 50 less for each mean above it, clamped. *)
Definition relative (m x : Q) : Q := clamp (100 - (x / m - 1) * 50).

Definition weighted_sum (parts : list (Q * Q)) : Q :=
  fold_right (fun p acc => fst p * snd p + acc) 0 parts.

Definition weight_sum (parts : list (Q * Q)) : Q :=
  fold_right (fun p acc => fst p + acc) 0 parts.

(** A weighted blend of sub-scores, normalized by the sum of the weights
    that take part. *)
Definition blend (parts : list (Q * Q)) : Q :=
  weighted_sum parts / weight_sum parts.

(** The parts of the performance score with their weights: the cost and
    the power relative to the mean of their column (given with the mean
    when they take part), the recovery and the yield clamped, and the
    quality score. *)
Definition performance_parts (cost power : option (Q * Q))
    (recovery yield : option Q) (quality_score : Q) : list (Q * Q) :=
  (match cost with Some (m, x) => [(0.3, relative m x)] | None => [] end)
  ++ (match power with Some (m, x) => [(0.2, relative m x)] | None => [] end)
  ++ (match recovery with Some x => [(0.2, clamp x)] | None => [] end)
  ++ (match yield with Some x => [(0.15, clamp x)] | None => [] end)
  ++ [(0.15, quality_score)].

Definition performance (cost power : option (Q * Q))
    (recovery yield : option Q) (quality_score : Q) : Q :=
  blend (performance_parts cost power recovery yield quality_score).

End ScoreSpec.

(* ================================================================== *)
(** ** Sample tables *)
(* ================================================================== *)

Module Samples.

(** One record with a breakdown of two days' worth of minutes. *)
Definition long_breakdown : frame :=
  {| columns := [ "Furnace"; "Total Breakdown Mins" ];
     rows := [ record "F1" [ ("Total Breakdown Mins", Fin 2880) ] ] |}.

(** Two furnaces, three records, with chemistry, cost and production. *)
Definition two_furnaces : frame :=
  {| columns := [ "Furnace"; "Actual Production Qty"; "Cake Production Qty";
                  "Total Cost PLC"; "Specific Power Consumption";
                  "MN Recovery PLC"; "Grade MN"; "Grade SI"; "C%"; "Basicity";
                  "Total Breakdown Mins" ];
     rows :=
       [ record "F1" [ ("Actual Production Qty", Fin 1);
                       ("Cake Production Qty", Fin 2);
                       ("Total Cost PLC", Fin 100);
                       ("Specific Power Consumption", Fin 2400);
                       ("MN Recovery PLC", Fin 73);
                       ("Grade MN", Fin 69); ("Grade SI", Fin 17);
                       ("C%", Fin 7); ("Basicity", Fin 1.3);
                       ("Total Breakdown Mins", Fin 720) ];
         record "F1" [ ("Actual Production Qty", Fin 4);
                       ("Cake Production Qty", Fin 5);
                       ("Total Cost PLC", Fin 100);
                       ("Specific Power Consumption", Fin 2600);
                       ("MN Recovery PLC", Fin 75);
                       ("Grade MN", Fin 71); ("Grade SI", Fin 18);
                       ("C%", Fin 6.5); ("Basicity", Fin 1.4);
                       ("Total Breakdown Mins", Fin 0) ];
         record "F2" [ ("Actual Production Qty", Fin 0);
                       ("Cake Production Qty", Fin 1);
                       ("Total Cost PLC", Fin 100);
                       ("Specific Power Consumption", Fin 2500);
                       ("MN Recovery PLC", Fin 80);
                       ("Grade MN", Fin 70); ("Grade SI", Fin 17.5);
                       ("C%", Fin 7); ("Basicity", Fin 1.35);
                       ("Total Breakdown Mins", Fin 60) ] ] |}.

(** Targets for the table above; 62.5 is the first quartile of its cost
    per ton column. *)
Definition targets : ComprehensiveInsights.targets :=
  {| ComprehensiveInsights.t_Yield_Percentage := Fin 95;
     ComprehensiveInsights.t_Cost_per_Ton := Fin 62.5;
     ComprehensiveInsights.t_Specific_Power_Consumption := Fin 2500;
     ComprehensiveInsights.t_MN_Recovery_PLC := Fin 80;
     ComprehensiveInsights.t_SI_Recovery_PLC := Fin 45;
     ComprehensiveInsights.t_Breakdown_Mins := Fin 60;
     ComprehensiveInsights.t_Operational_Availability := Fin 90;
     ComprehensiveInsights.t_Ore_Efficiency := Fin 0.55;
     ComprehensiveInsights.t_Coke_Efficiency := Fin 4 |}.

(** The analysis of a furnace with the given averages of cost per ton,
    manganese recovery and manganese grade. *)
Definition entry (f : string) (cost mn_recovery grade_mn : fnum)
    : string * CompleteAnalyzer.analysis :=
  (f,
   {| CompleteAnalyzer.furnace := f;
      CompleteAnalyzer.total_records := 10;
      CompleteAnalyzer.total_production := Fin 1000;
      CompleteAnalyzer.avg_daily_production := Fin 100;
      CompleteAnalyzer.total_cost := Fin 60000000;
      CompleteAnalyzer.avg_cost_per_ton := cost;
      CompleteAnalyzer.avg_power_consumption := Fin 2500;
      CompleteAnalyzer.avg_load_factor := Fin 85;
      CompleteAnalyzer.avg_power_factor := Fin 0.95;
      CompleteAnalyzer.avg_mn_recovery := mn_recovery;
      CompleteAnalyzer.avg_si_recovery := Fin 45;
      CompleteAnalyzer.avg_mn_recovery_gap := Fin 0;
      CompleteAnalyzer.avg_grade_mn := grade_mn;
      CompleteAnalyzer.avg_grade_si := Fin 17;
      CompleteAnalyzer.avg_carbon := Fin 7;
      CompleteAnalyzer.avg_basicity := Fin 1.35;
      CompleteAnalyzer.avg_quality_score := Fin 90;
      CompleteAnalyzer.avg_breakdown_mins := Fin 30;
      CompleteAnalyzer.operational_availability := Fin 97;
      CompleteAnalyzer.total_breakdown_hours := Fin 5;
      CompleteAnalyzer.avg_yield := Fin 95;
      CompleteAnalyzer.avg_ore_efficiency := Fin 0.55;
      CompleteAnalyzer.avg_coke_efficiency := Fin 4;
      CompleteAnalyzer.performance_score := Fin 80 |}).

(** Targets with a cost of 40000 per ton and a recovery of 80. *)
Definition targets_40000 : ComprehensiveInsights.targets :=
  {| ComprehensiveInsights.t_Yield_Percentage := Fin 95;
     ComprehensiveInsights.t_Cost_per_Ton := Fin 40000;
     ComprehensiveInsights.t_Specific_Power_Consumption := Fin 2500;
     ComprehensiveInsights.t_MN_Recovery_PLC := Fin 80;
     ComprehensiveInsights.t_SI_Recovery_PLC := Fin 45;
     ComprehensiveInsights.t_Breakdown_Mins := Fin 60;
     ComprehensiveInsights.t_Operational_Availability := Fin 90;
     ComprehensiveInsights.t_Ore_Efficiency := Fin 0.55;
     ComprehensiveInsights.t_Coke_Efficiency := Fin 4 |}.

(** Furnace F1 exactly at 1.15 times the target cost, F2 at 1.1501 times
    it; F1 with a recovery of 73, F2 of 71; F2 without a manganese
    grade. *)
Definition at_the_boundary : list (string * CompleteAnalyzer.analysis) :=
  [ entry "F1" (Fin 46000) (Fin 73) (Fin 70);
    entry "F2" (Fin 46004) (Fin 71) (Fin 0) ].

(** Two rows of the summary of the processor: against the target of 50000
    of insights_final, F1 is below 1.15 times the target and F2 at 1.1501
    times it. *)
Definition summary_at_the_boundary : list InsightsFinal.furnace_row :=
  [ InsightsFinal.mkFurnaceRow "F1" (Fin 57000) (Fin 73) (Fin 45) (Fin 1000);
    InsightsFinal.mkFurnaceRow "F2" (Fin 57505) (Fin 71) (Fin 45) (Fin 1000) ].

(** A processed table of the processor with the columns the generators
    of insights_final test. *)
Definition processed : frame :=
  {| columns := [ "Furnace"; "cost_per_ton"; "MN Recovery PLC";
                  "SI Recovery PLC" ];
     rows := [] |}.





(** The table of insights_engine and its grouping: F1 at 100 per ton, F2
    at 115, a gap of 15 percent. *)
Definition engine_table : frame :=
  {| columns := [ "Furnace"; "cost_per_ton"; "Specific Power Consumption";
                  "MN Recovery PLC"; "Actual Production Qty" ];
     rows := [ record "F1" [ ("cost_per_ton", Fin 100);
                             ("Specific Power Consumption", Fin 2500);
                             ("MN Recovery PLC", Fin 80);
                             ("Actual Production Qty", Fin 10) ];
               record "F2" [ ("cost_per_ton", Fin 115);
                             ("Specific Power Consumption", Fin 2600);
                             ("MN Recovery PLC", Fin 80);
                             ("Actual Production Qty", Fin 10) ] ] |}.


(** Raw recoveries given as fractions, with a load factor in percent. *)
Definition fractions : frame :=
  {| columns := [ "Furnace"; "MN Recovery PLC"; "Load Factor" ];
     rows := [ record "F1" [ ("MN Recovery PLC", Fin 0.80);
                             ("Load Factor", Fin 85) ];
               record "F1" [ ("MN Recovery PLC", Fin 0.82);
                             ("Load Factor", Fin 80) ];
               record "F1" [ ("MN Recovery PLC", Fin 0.81);
                             ("Load Factor", Fin 90) ] ] |}.

(** Raw recoveries already in percent. *)
Definition percents : frame :=
  {| columns := [ "Furnace"; "MN Recovery PLC"; "Load Factor" ];
     rows := [ record "F1" [ ("MN Recovery PLC", Fin 80);
                             ("Load Factor", Fin 0.85) ] ] |}.

(** A load factor of five percent given as a fraction. *)
Definition low_load : frame :=
  {| columns := [ "Furnace"; "Load Factor" ];
     rows := [ record "F1" [ ("Load Factor", Fin 0.05) ] ] |}.

(** Insights of the advanced engine: a high-severity one of a category
    for a furnace, without a financial impact. *)
Definition high_insight (cat f : string) : AdvancedInsights.insight :=
  {| AdvancedInsights.category := Some cat;
     AdvancedInsights.severity := Some "high";
     AdvancedInsights.furnace := Some f;
     AdvancedInsights.title := cat +++ " - " +++ f;
     AdvancedInsights.description := "";
     AdvancedInsights.financial_impact := None |}.

(** The cost insight, which carries a financial impact. *)
Definition cost_insight (f : string) : AdvancedInsights.insight :=
  {| AdvancedInsights.category := Some "cost";
     AdvancedInsights.severity := Some "high";
     AdvancedInsights.furnace := Some f;
     AdvancedInsights.title := "High Production Cost - " +++ f;
     AdvancedInsights.description := "";
     AdvancedInsights.financial_impact :=
       Some "Potential monthly savings: 30,000,000" |}.

(** Furnace F1 with high power consumption and low recovery. *)
Definition two_high_F1 : list AdvancedInsights.insight :=
  [ high_insight "power" "F1"; high_insight "recovery" "F1" ].

(** Furnace F1 with a high cost and a high power consumption. *)
Definition cost_and_power_F1 : list AdvancedInsights.insight :=
  [ cost_insight "F1"; high_insight "power" "F1" ].

(** The capacity parameters of furnace F1. *)
Definition capacity_F1 : CapacityCalculator.FurnaceCapacity :=
  {| CapacityCalculator.furnace_id := "F1";
     CapacityCalculator.mva_capacity := Fin 9;
     CapacityCalculator.design_capacity_mt := Fin 5;
     CapacityCalculator.optimal_power_kwh_mt := Fin 2500;
     CapacityCalculator.target_mn_recovery := Fin 80;
     CapacityCalculator.target_si_recovery := Fin 45;
     CapacityCalculator.target_cost_mt := Fin 50 |}.

End Samples.

(* ================================================================== *)
(** ** Further sample tables *)
(* ================================================================== *)

Module Examples.

(** Two furnaces with their manganese recovery, and no column of the
    manganese fed. *)
Definition low_recovery : frame :=
  {| columns := [ "Furnace"; "MN Recovery PLC" ];
     rows := [ record "F1" [ ("MN Recovery PLC", Fin 82) ];
               record "F2" [ ("MN Recovery PLC", Fin 70) ] ] |}.

(** The table of two furnaces with one more record, whose breakdown
    minutes are missing. *)
Definition missing_breakdown : frame :=
  {| columns := columns Samples.two_furnaces;
     rows :=
       rows Samples.two_furnaces
       ++ [ record "F2" [ ("Actual Production Qty", Fin 2);
                          ("Cake Production Qty", Fin 3);
                          ("Total Cost PLC", Fin 100);
                          ("Specific Power Consumption", Fin 2500);
                          ("MN Recovery PLC", Fin 78);
                          ("Grade MN", Fin 70); ("Grade SI", Fin 17);
                          ("C%", Fin 7); ("Basicity", Fin 1.35) ] ] |}.

(** The table of two furnaces with a power cost of 40 on every record. *)
Definition with_power_cost : frame :=
  assign "Power Cost" (fun _ => Fin 40) Samples.two_furnaces.

(** Capacities configured for F1 and for a furnace F3 that has no
    record; F2 has records and no capacity. *)
Definition capacities_F1_F3 : list (string * CapacityCalculator.FurnaceCapacity) :=
  [ ("F1", Samples.capacity_F1); ("F3", Samples.capacity_F1) ].

(** Two grades, each with one record without production. *)
Definition idle_grades : Grades.graded :=
  {| Grades.g_columns :=
       [ "Furnace"; "DATE"; "GRADE"; "Actual Production Qty";
         "Total Cost PLC"; "Grade MN"; "Grade SI"; "C%" ];
     Grades.g_records :=
       [ ("HC", record "F1" [ ("Actual Production Qty", Fin 0);
                              ("Total Cost PLC", Fin 100);
                              ("Grade MN", Fin 70); ("Grade SI", Fin 17);
                              ("C%", Fin 7) ]);
         ("MC", record "F1" [ ("Actual Production Qty", Fin 0);
                              ("Total Cost PLC", Fin 120);
                              ("Grade MN", Fin 71); ("Grade SI", Fin 17);
                              ("C%", Fin 2) ]) ] |}.


(** The records of a furnace that had costs and no production. *)
Definition costs_without_production : frame :=
  {| columns := [ "Furnace"; "Actual Production Qty"; "Total Cost PLC";
                  "Ore Cost PLC"; "Power Cost" ];
     rows := [ record "F1" [ ("Actual Production Qty", Fin 0);
                             ("Total Cost PLC", Fin 100);
                             ("Ore Cost PLC", Fin 60);
                             ("Power Cost", Fin 40) ];
               record "F1" [ ("Actual Production Qty", Fin 0);
                             ("Total Cost PLC", Fin 50);
                             ("Ore Cost PLC", Fin 30);
                             ("Power Cost", Fin 20) ] ] |}.

(** Grades and basicities inside and outside the bands of the
    processor's quality scores; one grade is missing. *)
Definition grades_in_and_out : frame :=
  {| columns := [ "Furnace"; "Grade MN"; "Basicity" ];
     rows := [ record "F1" [ ("Grade MN", Fin 69); ("Basicity", Fin 1.3) ];
               record "F1" [ ("Grade MN", Fin 64.9); ("Basicity", Fin 1.6) ];
               record "F2" [ ("Basicity", Fin 1.2) ];
               record "F2" [ ("Grade MN", Fin 75); ("Basicity", PInf) ] ] |}.

(** Targets with the default cost of 50000 per ton. *)
Definition targets_50000 : ComprehensiveInsights.targets :=
  {| ComprehensiveInsights.t_Yield_Percentage := Fin 95;
     ComprehensiveInsights.t_Cost_per_Ton := Fin 50000;
     ComprehensiveInsights.t_Specific_Power_Consumption := Fin 2500;
     ComprehensiveInsights.t_MN_Recovery_PLC := Fin 80;
     ComprehensiveInsights.t_SI_Recovery_PLC := Fin 45;
     ComprehensiveInsights.t_Breakdown_Mins := Fin 60;
     ComprehensiveInsights.t_Operational_Availability := Fin 90;
     ComprehensiveInsights.t_Ore_Efficiency := Fin 0.55;
     ComprehensiveInsights.t_Coke_Efficiency := Fin 4 |}.

(** Furnace F1 with an average cost of 57500 per ton, which is 1.15
    times 50000, and F2 with 57000. *)
Definition at_57500 : list (string * CompleteAnalyzer.analysis) :=
  [ Samples.entry "F1" (Fin 57500) (Fin 80) (Fin 70);
    Samples.entry "F2" (Fin 57000) (Fin 80) (Fin 70) ].

(** The same two furnaces as rows of the summary of the processor. *)
Definition summary_at_57500 : list InsightsFinal.furnace_row :=
  [ InsightsFinal.mkFurnaceRow "F1" (Fin 57500) (Fin 80) (Fin 45) (Fin 1000);
    InsightsFinal.mkFurnaceRow "F2" (Fin 57000) (Fin 80) (Fin 45) (Fin 1000) ].

(** The grouping of insights_engine for two furnaces with the same
    negative average cost and the same power consumption. *)
Definition equal_negative_costs : list InsightsEngine.stats_row :=
  [ InsightsEngine.mkStats "F1" (Fin (-100)) (Fin 2500) (Fin 80) (Fin 10);
    InsightsEngine.mkStats "F2" (Fin (-100)) (Fin 2500) (Fin 80) (Fin 10) ].

(** Two records of furnace F1, the second without a manganese grade. *)
Definition missing_grade : frame :=
  {| columns := columns Samples.two_furnaces;
     rows :=
       [ record "F1" [ ("Actual Production Qty", Fin 1);
                       ("Cake Production Qty", Fin 2);
                       ("Total Cost PLC", Fin 100);
                       ("Specific Power Consumption", Fin 2400);
                       ("MN Recovery PLC", Fin 73);
                       ("Grade MN", Fin 69); ("Grade SI", Fin 17);
                       ("C%", Fin 7); ("Basicity", Fin 1.3);
                       ("Total Breakdown Mins", Fin 720) ];
         record "F1" [ ("Actual Production Qty", Fin 4);
                       ("Cake Production Qty", Fin 5);
                       ("Total Cost PLC", Fin 100);
                       ("Specific Power Consumption", Fin 2600);
                       ("MN Recovery PLC", Fin 75);
                       ("Grade SI", Fin 18);
                       ("C%", Fin 6.5); ("Basicity", Fin 1.4);
                       ("Total Breakdown Mins", Fin 0) ] ] |}.

(** The table of two furnaces with a power cost and a load factor of 85
    on every record. *)
Definition with_load_factor : frame :=
  assign "Load Factor" (fun _ => Fin 85) with_power_cost.

(** A capacity for F1 with a design capacity of 5 tons a day and a
    target cost of 30 per ton. *)
Definition capacities_cost_30
    : list (string * CapacityCalculator.FurnaceCapacity) :=
  [ ("F1",
     {| CapacityCalculator.furnace_id := "F1";
        CapacityCalculator.mva_capacity := Fin 9;
        CapacityCalculator.design_capacity_mt := Fin 5;
        CapacityCalculator.optimal_power_kwh_mt := Fin 2500;
        CapacityCalculator.target_mn_recovery := Fin 80;
        CapacityCalculator.target_si_recovery := Fin 45;
        CapacityCalculator.target_cost_mt := Fin 30 |}) ].

(** Two records with a cost and a chemistry at the four targets, and no
    other column that a score reads; the basicity cells hold the double
    of 1.35. *)
Definition cost_and_chemistry : frame :=
  {| columns := [ "Furnace"; "Actual Production Qty"; "Total Cost PLC";
                  "Grade MN"; "Grade SI"; "C%"; "Basicity" ];
     rows :=
       [ record "F1" [ ("Actual Production Qty", Fin 1);
                       ("Total Cost PLC", Fin 50);
                       ("Grade MN", Fin 70); ("Grade SI", Fin 17.5);
                       ("C%", Fin 7); ("Basicity", literal 1.35) ];
         record "F1" [ ("Actual Production Qty", Fin 1);
                       ("Total Cost PLC", Fin 150);
                       ("Grade MN", Fin 70); ("Grade SI", Fin 17.5);
                       ("C%", Fin 7); ("Basicity", literal 1.35) ] ] |}.

(** Three records, the second with a blank Furnace cell. *)
Definition blank_furnace : BlankFurnaces.table :=
  {| BlankFurnaces.t_columns := columns Samples.two_furnaces;
     BlankFurnaces.t_records :=
       [ (Some "F1", cells [ ("Actual Production Qty", Fin 1);
                             ("Total Cost PLC", Fin 100) ]);
         (None, cells [ ("Actual Production Qty", Fin 2);
                        ("Total Cost PLC", Fin 100) ]);
         (Some "F1", cells [ ("Actual Production Qty", Fin 4);
                             ("Total Cost PLC", Fin 100) ]) ] |}.

End Examples.

(* ================================================================== *)
(** * Properties *)
(* ================================================================== *)

(** ** Facts on values and frames *)

Section NumFacts.

Lemma Qltb_lt (a b : Q) : Qltb a b = true <-> a < b.
Proof.
  unfold Qltb. rewrite negb_true_iff.
  split.
  - intros H. apply Qnot_le_lt. intros Hle.
    apply Qle_bool_iff in Hle. congruence.
  - intros H. destruct (Qle_bool b a) eqn:E; [|reflexivity].
    apply Qle_bool_iff in E. exfalso. apply (Qlt_not_le _ _ H E).
Qed.

Lemma Qltb_ge (a b : Q) : Qltb a b = false <-> b <= a.
Proof.
  unfold Qltb. rewrite negb_false_iff. apply Qle_bool_iff.
Qed.

Lemma flt_Fin (a b : Q) : flt (Fin a) (Fin b) = true <-> a < b.
Proof. apply Qltb_lt. Qed.

Lemma fgt_Fin (a b : Q) : fgt (Fin a) (Fin b) = true <-> b < a.
Proof. apply Qltb_lt. Qed.

Lemma flt_nan_r (x : fnum) : flt x NaN = false.
Proof. destruct x; reflexivity. Qed.

Lemma feqb_feq (x y : fnum) : feqb x y = true <-> feq x y.
Proof.
  destruct x, y; simpl; try (split; [discriminate | tauto]);
    try (split; [trivial | reflexivity]).
  apply Qeq_bool_iff.
Qed.

Lemma feq_refl (x : fnum) : feq x x.
Proof. destruct x; simpl; trivial. reflexivity. Qed.

Lemma feq_sym (x y : fnum) : feq x y -> feq y x.
Proof. destruct x, y; simpl; trivial. intros H; symmetry; exact H. Qed.

Lemma feq_trans (x y z : fnum) : feq x y -> feq y z -> feq x z.
Proof.
  destruct x, y, z; simpl; trivial; try tauto.
  intros H1 H2. rewrite H1. exact H2.
Qed.

Lemma clip_within (lo hi : Q) (x : fnum) :
  lo <= hi -> within lo hi (clip lo hi x).
Proof.
  intros Hle. destruct x; simpl; trivial.
  - split.
    + apply Q.le_max_l.
    + apply Q.max_lub; [exact Hle | apply Q.le_min_l].
  - split; [exact Hle | apply Qle_refl].
  - split; [apply Qle_refl | exact Hle].
Qed.

End NumFacts.

(** ** Products of doubles *)

Section DoubleProducts.

Lemma pow2_pos (k : Z) : 0 < pow2 k.
Proof. unfold pow2. apply Qpower_0_lt. reflexivity. Qed.

Lemma pow2_plus (a b : Z) : pow2 (a + b) == pow2 a * pow2 b.
Proof. unfold pow2. apply Qpower_plus. discriminate. Qed.

Lemma pow2_Z (a : Z) : (0 <= a)%Z -> pow2 a == inject_Z (2 ^ a).
Proof.
  intros H. unfold pow2. rewrite Zpower_Qpower by exact H. reflexivity.
Qed.

Lemma pow2_half (k : Z) : pow2 (k - 1) == pow2 k * (1 # 2).
Proof.
  replace (k - 1)%Z with (k + -1)%Z by lia. rewrite pow2_plus. reflexivity.
Qed.

(** Rounding to the nearest integer moves a number by a half at most. *)
Lemma round_half_even_close (q : Q) :
  Qabs (inject_Z (round_half_even q) - q) <= 1 # 2.
Proof.
  unfold round_half_even. cbv zeta.
  pose proof (Qfloor_le q) as L. pose proof (Qlt_floor q) as U.
  rewrite inject_Z_plus in U. change (inject_Z 1) with 1 in U.
  destruct (Qcompare (q - inject_Z (Qfloor q)) (1 # 2)) eqn:C.
  - apply Qeq_alt in C.
    destruct (Z.even (Qfloor q)); rewrite ?inject_Z_plus;
      change (inject_Z 1) with 1; generalize dependent (inject_Z (Qfloor q));
      intros f L U C; apply Qabs_Qle_condition; split; lra.
  - apply Qlt_alt in C. generalize dependent (inject_Z (Qfloor q)).
    intros f L U C. apply Qabs_Qle_condition; split; lra.
  - apply Qgt_alt in C. rewrite inject_Z_plus. change (inject_Z 1) with 1.
    generalize dependent (inject_Z (Qfloor q)).
    intros f L U C. apply Qabs_Qle_condition; split; lra.
Qed.

(** The power of two of the exponent is not above the number. *)
Lemma exponent_le (q : Q) : 0 < q -> pow2 (exponent q) <= q.
Proof.
  intros Hq. unfold exponent. cbv zeta.
  destruct (Qle_bool _ q) eqn:E; [apply Qle_bool_iff; exact E|].
  destruct q as [n d]. cbn [Qnum Qden] in *.
  assert (Hn : (0 < n)%Z).
  { unfold Qlt in Hq. simpl in Hq. lia. }
  set (a := Z.log2 n). set (b := Z.log2 (Z.pos d)).
  assert (Ha : (0 <= a)%Z) by apply Z.log2_nonneg.
  assert (Hb : (0 <= b)%Z) by apply Z.log2_nonneg.
  destruct (Z.log2_spec n Hn) as [A _]. fold a in A.
  destruct (Z.log2_spec (Z.pos d) eq_refl) as [_ B]. fold b in B.
  replace (a - b - 1)%Z with (a + - (b + 1))%Z by lia.
  rewrite pow2_plus. unfold pow2 at 2. rewrite Qpower_opp.
  fold (pow2 (b + 1)). rewrite (pow2_Z a Ha), (pow2_Z (b + 1)) by lia.
  replace (Z.succ b) with (b + 1)%Z in B by lia.
  assert (P : (0 < 2 ^ (b + 1))%Z) by (apply Z.pow_pos_nonneg; lia).
  apply Qle_shift_div_r.
  - change 0 with (inject_Z 0). rewrite <- Zlt_Qlt. exact P.
  - unfold Qle, Qmult, inject_Z. cbn [Qnum Qden].
    rewrite !Z.mul_1_r. nia.
Qed.

(** From the normal range on, rounding moves a number by a relative
    [2^-53] at most. *)
Lemma rounded_close (q : Q) :
  pow2 (-1022) <= q -> Qabs (rounded q - q) <= q * pow2 (-53).
Proof.
  intros Hlo.
  assert (Hq : 0 < q).
  { apply Qlt_le_trans with (pow2 (-1022)); [apply pow2_pos | exact Hlo]. }
  unfold rounded. cbv zeta.
  set (e := Z.max (exponent q - 52) (-1074)).
  assert (He : pow2 e <= q * pow2 (-52)).
  { subst e.
    destruct (Z.max_spec (exponent q - 52) (-1074)) as [[_ ->]|[_ ->]].
    - change (-1074)%Z with (-1022 + -52)%Z. rewrite pow2_plus.
      apply Qmult_le_compat_r; [exact Hlo | apply Qlt_le_weak, pow2_pos].
    - replace (exponent q - 52)%Z with (exponent q + -52)%Z by lia.
      rewrite pow2_plus.
      apply Qmult_le_compat_r;
        [apply exponent_le; exact Hq | apply Qlt_le_weak, pow2_pos]. }
  pose proof (pow2_pos e) as Pe.
  pose proof (round_half_even_close (q / pow2 e)) as R.
  set (m := inject_Z (round_half_even (q / pow2 e))) in *.
  rewrite Qred_correct.
  assert (E : m * pow2 e - q == (m - q / pow2 e) * pow2 e)
    by (field; lra).
  rewrite E, Qabs_Qmult, (Qabs_pos (pow2 e)) by lra.
  change (-53)%Z with (-52 - 1)%Z. rewrite pow2_half.
  generalize dependent (Qabs (m - q / pow2 e)). intros r R.
  generalize dependent (pow2 (-52)). intros c He.
  generalize dependent (pow2 e). intros u He Pu.
  assert (r * u <= (1 # 2) * u) by (apply Qmult_le_compat_r; lra).
  lra.
Qed.


(** Within the normal range it is a number. *)
Lemma nearest_double_pos_close (q : Q) :
  pow2 (-1022) <= q -> q <= pow2 1023 ->
  exists v : Q,
    nearest_double_pos q = Fin v /\ Qabs (v - q) <= q * pow2 (-53).
Proof.
  intros Hlo Hhi.
  assert (Hq : 0 < q).
  { apply Qlt_le_trans with (pow2 (-1022)); [apply pow2_pos | exact Hlo]. }
  pose proof (rounded_close q Hlo) as D.
  unfold nearest_double_pos. cbv zeta.
  assert (O : Qle_bool (pow2 1024) (rounded q) = false).
  { destruct (Qle_bool _ _) eqn:G; [|reflexivity].
    apply Qle_bool_iff in G.
    apply Qabs_Qle_condition in D. destruct D as [_ D].
    change 1024%Z with (1023 + 1)%Z in G. rewrite pow2_plus in G.
    change (pow2 1) with 2 in G.
    assert (S : q * pow2 (-53) < q * 1).
    { apply Qmult_lt_l; [exact Hq|]. vm_compute. reflexivity. }
    generalize dependent (pow2 1023). intros p. intros.
    generalize dependent (q * pow2 (-53)). intros.
    generalize dependent (rounded q). intros. lra. }
  rewrite O. exists (rounded q). split; [reflexivity | exact D].
Qed.

(** A decimal constant between 1 and 2 and the double that stands for
    it. *)
Lemma literal_close (c : Q) :
  1 <= c <= 2 ->
  exists d : Q, literal c = Fin d /\ Qabs (d - c) <= c * pow2 (-53).
Proof.
  intros [Hlo Hhi]. unfold literal, nearest_double.
  assert (Hc : 0 < c) by lra.
  assert (C : (0 ?= c) = Lt) by (apply Qlt_alt; exact Hc).
  rewrite C. apply nearest_double_pos_close.
  - apply Qle_trans with 1; [vm_compute; discriminate | exact Hlo].
  - apply Qle_trans with 2; [exact Hhi | vm_compute; discriminate].
Qed.

(** The product of a positive double and such a constant lies within a
    relative [2^-51] of the exact product. *)
Lemma product_literal_close (c t : Q) :
  1 <= c <= 2 ->
  pow2 (-1000) <= t <= pow2 1000 ->
  exists p : Q,
    dmul (Fin t) (literal c) = Fin p
    /\ Qabs (p - t * c) <= t * c * pow2 (-51).
Proof.
  intros Hc [Hlo Hhi].
  destruct (literal_close c Hc) as (d & Ed & Hd). rewrite Ed. cbn [dmul].
  assert (Ht : 0 < t).
  { apply Qlt_le_trans with (pow2 (-1000)); [apply pow2_pos | exact Hlo]. }
  change (pow2 (-53)) with (1 # 9007199254740992) in Hd.
  apply Qabs_Qle_condition in Hd.
  assert (D : (1 # 2) <= d <= 3) by (split; lra).
  assert (Hx : 0 < t * d) by (apply Qmult_lt_0_compat; lra).
  unfold nearest_double.
  assert (C : (0 ?= t * d) = Lt) by (apply Qlt_alt; exact Hx).
  rewrite C.
  destruct (nearest_double_pos_close (t * d)) as (p & Ep & Hp).
  - change (-1022)%Z with (-1000 + -22)%Z. rewrite pow2_plus.
    assert (pow2 (-22) <= 1 # 2) by (vm_compute; discriminate).
    pose proof (pow2_pos (-1000)). pose proof (pow2_pos (-22)).
    generalize dependent (pow2 (-1000)). generalize dependent (pow2 (-22)).
    intros. nra.
  - change 1023%Z with (1000 + 23)%Z. rewrite pow2_plus.
    assert (3 <= pow2 23) by (vm_compute; discriminate).
    pose proof (pow2_pos 1000).
    generalize dependent (pow2 1000). generalize dependent (pow2 23).
    intros. nra.
  - exists p. split; [exact Ep|].
    apply Qabs_Qle_condition in Hp. apply Qabs_Qle_condition.
    change (pow2 (-53)) with (1 # 9007199254740992) in Hp.
    change (pow2 (-51)) with (1 # 2251799813685248).
    assert (L : t * (c - c * (1 # 9007199254740992)) <= t * d)
      by (apply Qmult_le_l; lra).
    assert (U : t * d <= t * (c + c * (1 # 9007199254740992)))
      by (apply Qmult_le_l; lra).
    assert (P : 0 < t * c) by (apply Qmult_lt_0_compat; lra).
    generalize dependent (t * d). intros x. intros.
    assert (E1 : t * (c - c * (1 # 9007199254740992))
                 == t * c - t * c * (1 # 9007199254740992)) by ring.
    assert (E2 : t * (c + c * (1 # 9007199254740992))
                 == t * c + t * c * (1 # 9007199254740992)) by ring.
    rewrite E1 in L. rewrite E2 in U.
    generalize dependent (t * c). intros y. intros.
    split; lra.
Qed.

Lemma product_1_15_close (t : Q) :
  pow2 (-1000) <= t <= pow2 1000 ->
  exists p : Q,
    dmul (Fin t) (literal 1.15) = Fin p
    /\ Qabs (p - t * 1.15) <= t * 1.15 * pow2 (-51).
Proof. apply product_literal_close. split; vm_compute; discriminate. Qed.

Lemma pow2_le (a b : Z) : (a <= b)%Z -> pow2 a <= pow2 b.
Proof.
  intros H. replace b with (a + (b - a))%Z by lia. rewrite pow2_plus.
  rewrite (pow2_Z (b - a)) by lia.
  assert (P : (1 <= 2 ^ (b - a))%Z).
  { assert (0 < 2 ^ (b - a))%Z by (apply Z.pow_pos_nonneg; lia). lia. }
  rewrite Zle_Qle in P. change (inject_Z 1) with 1 in P.
  pose proof (pow2_pos a).
  generalize dependent (inject_Z (2 ^ (b - a))). intros c Hc.
  generalize dependent (pow2 a). intros u Hu. nra.
Qed.

(** The number is below the next power of two. *)
Lemma exponent_lt (q : Q) : 0 < q -> q < pow2 (exponent q + 1).
Proof.
  intros Hq. unfold exponent. cbv zeta.
  destruct (Qle_bool _ q) eqn:E.
  - destruct q as [n d]. cbn [Qnum Qden] in *.
    assert (Hn : (0 < n)%Z).
    { unfold Qlt in Hq. simpl in Hq. lia. }
    set (a := Z.log2 n). set (b := Z.log2 (Z.pos d)).
    assert (Ha : (0 <= a)%Z) by apply Z.log2_nonneg.
    assert (Hb : (0 <= b)%Z) by apply Z.log2_nonneg.
    destruct (Z.log2_spec n Hn) as [_ A]. fold a in A.
    destruct (Z.log2_spec (Z.pos d) eq_refl) as [B _]. fold b in B.
    replace (a - b + 1)%Z with ((a + 1) + - b)%Z by lia.
    rewrite pow2_plus. unfold pow2 at 2. rewrite Qpower_opp.
    fold (pow2 b). rewrite (pow2_Z (a + 1)), (pow2_Z b) by lia.
    replace (Z.succ a) with (a + 1)%Z in A by lia.
    assert (P : (0 < 2 ^ b)%Z) by (apply Z.pow_pos_nonneg; lia).
    apply Qlt_shift_div_l.
    + change 0 with (inject_Z 0). rewrite <- Zlt_Qlt. exact P.
    + unfold Qlt, Qmult, inject_Z. cbn [Qnum Qden].
      rewrite !Z.mul_1_r. nia.
  - replace (Z.log2 (Qnum q) - Z.log2 (Z.pos (Qden q)) - 1 + 1)%Z
      with (Z.log2 (Qnum q) - Z.log2 (Z.pos (Qden q)))%Z by lia.
    apply Qnot_le_lt. intros H. apply Qle_bool_iff in H. congruence.
Qed.

Lemma exponent_mono (x y : Q) :
  0 < x -> x <= y -> (exponent x <= exponent y)%Z.
Proof.
  intros Hx Hxy.
  destruct (Z_le_gt_dec (exponent x) (exponent y)) as [H|H]; [exact H|].
  exfalso.
  assert (Hy : 0 < y) by lra.
  pose proof (exponent_le x Hx) as L.
  pose proof (exponent_lt y Hy) as U.
  assert (P : pow2 (exponent y + 1) <= pow2 (exponent x))
    by (apply pow2_le; lia).
  generalize dependent (pow2 (exponent y + 1)).
  generalize dependent (pow2 (exponent x)). intros. lra.
Qed.

Lemma round_half_even_Z (n : Z) : round_half_even (inject_Z n) = n.
Proof.
  unfold round_half_even. cbv zeta. rewrite Qfloor_Z.
  assert (E : (inject_Z n - inject_Z n ?= 1 # 2) = Lt).
  { apply Qlt_alt. setoid_replace (inject_Z n - inject_Z n) with 0 by ring.
    reflexivity. }
  rewrite E. reflexivity.
Qed.

Lemma round_half_even_mono (s t : Q) :
  s <= t -> (round_half_even s <= round_half_even t)%Z.
Proof.
  intros Hst. pose proof (Qfloor_resp_le _ _ Hst) as F.
  pose proof (Qfloor_le s) as Ls. pose proof (Qlt_floor s) as Us.
  pose proof (Qfloor_le t) as Lt'. pose proof (Qlt_floor t) as Ut.
  unfold round_half_even. cbv zeta.
  destruct (Z.eq_dec (Qfloor s) (Qfloor t)) as [E|E].
  - rewrite E in *.
    destruct (Qcompare (s - inject_Z (Qfloor t)) (1 # 2)) eqn:Cs;
      destruct (Qcompare (t - inject_Z (Qfloor t)) (1 # 2)) eqn:Ct;
      try (destruct (Z.even (Qfloor t))); try lia;
      exfalso;
      repeat match goal with
             | H : Qcompare _ _ = Eq |- _ => apply Qeq_alt in H
             | H : Qcompare _ _ = Lt |- _ => apply Qlt_alt in H
             | H : Qcompare _ _ = Gt |- _ => apply Qgt_alt in H
             end;
      clear Us Ut F;
      generalize dependent (inject_Z (Qfloor t)); intros; lra.
  - assert (G : (Qfloor s + 1 <= Qfloor t)%Z) by lia.
    destruct (Qcompare (s - inject_Z (Qfloor s)) (1 # 2));
      destruct (Qcompare (t - inject_Z (Qfloor t)) (1 # 2));
      try (destruct (Z.even (Qfloor s)));
      try (destruct (Z.even (Qfloor t))); lia.
Qed.

(** Rounding keeps the order of positive numbers. *)
Lemma rounded_mono (x y : Q) : 0 < x -> x <= y -> rounded x <= rounded y.
Proof.
  intros Hx Hxy. assert (Hy : 0 < y) by lra.
  pose proof (exponent_mono x y Hx Hxy) as He.
  unfold rounded. cbv zeta. rewrite !Qred_correct.
  set (ux := Z.max (exponent x - 52) (-1074)).
  set (uy := Z.max (exponent y - 52) (-1074)).
  pose proof (pow2_pos ux) as Px. pose proof (pow2_pos uy) as Py.
  destruct (Z.eq_dec ux uy) as [E|E].
  - rewrite <- E. apply Qmult_le_compat_r; [|lra].
    rewrite <- Zle_Qle. apply round_half_even_mono.
    apply Qmult_le_compat_r; [exact Hxy|].
    apply Qlt_le_weak, Qinv_lt_0_compat. exact Px.
  - assert (G : (ux < uy)%Z) by (subst ux uy; lia).
    assert (Ey : uy = (exponent y - 52)%Z) by (subst ux uy; lia).
    assert (K : (52 < exponent y - ux)%Z) by lia.
    apply Qle_trans with (pow2 (exponent y)).
    + assert (B : x / pow2 ux <= inject_Z (2 ^ (exponent y - ux))).
      { rewrite <- pow2_Z by lia.
        apply Qle_shift_div_r; [exact Px|].
        rewrite <- pow2_plus.
        replace (exponent y - ux + ux)%Z with (exponent y) by lia.
        apply Qle_trans with (pow2 (exponent x + 1)).
        - apply Qlt_le_weak, exponent_lt. exact Hx.
        - apply pow2_le. subst ux uy. lia. }
      apply round_half_even_mono in B. rewrite round_half_even_Z in B.
      rewrite Zle_Qle in B.
      rewrite <- pow2_Z in B by lia.
      assert (S : pow2 (exponent y) == pow2 (exponent y - ux) * pow2 ux).
      { rewrite <- pow2_plus.
        replace (exponent y - ux + ux)%Z with (exponent y) by lia.
        reflexivity. }
      rewrite S. apply Qmult_le_compat_r; [exact B | lra].
    + assert (B : inject_Z (2 ^ 52) <= y / pow2 uy).
      { rewrite <- pow2_Z by lia.
        apply Qle_shift_div_l; [exact Py|].
        rewrite <- pow2_plus. rewrite Ey.
        replace (52 + (exponent y - 52))%Z with (exponent y) by lia.
        apply exponent_le. exact Hy. }
      apply round_half_even_mono in B. rewrite round_half_even_Z in B.
      rewrite Zle_Qle in B.
      rewrite <- pow2_Z in B by lia.
      assert (S : pow2 (exponent y) == pow2 52 * pow2 uy).
      { rewrite <- pow2_plus.
        replace (52 + uy)%Z with (exponent y) by lia.
        reflexivity. }
      rewrite S. apply Qmult_le_compat_r; [exact B | lra].
Qed.

Lemma rounded_nonneg (x : Q) : 0 < x -> 0 <= rounded x.
Proof.
  intros Hx. unfold rounded. cbv zeta. rewrite Qred_correct.
  set (u := Z.max (exponent x - 52) (-1074)).
  pose proof (pow2_pos u) as Pu.
  assert (B : inject_Z 0 <= x / pow2 u).
  { apply Qle_shift_div_l; [exact Pu|]. change (inject_Z 0) with 0. lra. }
  apply round_half_even_mono in B. rewrite round_half_even_Z in B.
  rewrite Zle_Qle in B. change (inject_Z 0) with 0 in B.
  apply Qmult_le_0_compat; [exact B | lra].
Qed.

(** The nearest double keeps the order of numbers that are not
    negative. *)
Lemma nearest_double_mono (x y b : Q) :
  0 <= x -> x <= y -> nearest_double y = Fin b ->
  exists a : Q, nearest_double x = Fin a /\ 0 <= a <= b.
Proof.
  intros Hx Hxy Hb. unfold nearest_double in *.
  destruct (Qcompare 0 y) eqn:Cy.
  - apply Qeq_alt in Cy. assert (E : (0 ?= x) = Eq) by (apply Qeq_alt; lra).
    rewrite E. injection Hb as <-. exists 0. split; [reflexivity | lra].
  - apply Qlt_alt in Cy. unfold nearest_double_pos in Hb. cbv zeta in Hb.
    destruct (Qle_bool (pow2 1024) (rounded y)) eqn:O; [discriminate|].
    injection Hb as <-.
    destruct (Qcompare 0 x) eqn:Cx.
    + exists 0. split; [reflexivity|]. split; [lra|].
      apply rounded_nonneg. exact Cy.
    + apply Qlt_alt in Cx. pose proof (rounded_mono x y Cx Hxy) as M.
      unfold nearest_double_pos. cbv zeta.
      assert (O' : Qle_bool (pow2 1024) (rounded x) = false).
      { destruct (Qle_bool _ (rounded x)) eqn:G; [|reflexivity].
        apply Qle_bool_iff in G.
        assert (G' : Qle_bool (pow2 1024) (rounded y) = true)
          by (apply Qle_bool_iff; lra).
        congruence. }
      rewrite O'. exists (rounded x). split; [reflexivity|].
      split; [apply rounded_nonneg; exact Cx | exact M].
    + apply Qgt_alt in Cx. lra.
  - apply Qgt_alt in Cy. lra.
Qed.

(** A step of a weighted sum on doubles stays below the same step at the
    largest values. *)
Lemma dadd_dmul_le (A B w wd : Q) (acc s : fnum) :
  literal w = Fin wd -> 0 <= wd ->
  within 0 A acc -> within 0 100 s ->
  dadd (Fin A) (dmul (Fin 100) (literal w)) = Fin B ->
  within 0 B (dadd acc (dmul s (literal w))).
Proof.
  intros Ew Hw Hacc Hs HB. rewrite Ew in *.
  destruct s as [s| | |]; cbn [within] in Hs; try contradiction;
    [|destruct acc; exact I].
  cbn [dmul] in *.
  destruct (nearest_double (100 * wd)) as [c| | |] eqn:Ec;
    try discriminate.
  destruct (nearest_double_mono (s * wd) (100 * wd) c) as (t & Et & Ht).
  - apply Qmult_le_0_compat; lra.
  - apply Qmult_le_compat_r; lra.
  - exact Ec.
  - rewrite Et.
    destruct acc as [a| | |]; cbn [within] in Hacc; try contradiction;
      [|exact I].
    cbn [dadd] in *.
    destruct (nearest_double_mono (a + t) (A + c) B) as (r & Er & Hr);
      [lra | lra | exact HB|].
    rewrite Er. exact Hr.
Qed.

(** The quotient by a positive double likewise. *)
Lemma ddiv_le (P W R : Q) (p : fnum) :
  0 < W -> within 0 P p ->
  ddiv (Fin P) (Fin W) = Fin R ->
  within 0 R (ddiv p (Fin W)).
Proof.
  intros HW Hp HR.
  destruct p as [a| | |]; cbn [within] in Hp; try contradiction; [|exact I].
  cbn [ddiv] in *.
  destruct (Qeq_bool W 0) eqn:Z;
    [apply Qeq_bool_iff in Z; lra|].
  destruct (nearest_double_mono (a / W) (P / W) R) as (r & Er & Hr).
  - apply Qle_shift_div_l; lra.
  - apply Qmult_le_compat_r; [lra|].
    apply Qlt_le_weak, Qinv_lt_0_compat. exact HW.
  - exact HR.
  - rewrite Er. exact Hr.
Qed.

End DoubleProducts.

Section FrameFacts.

Lemma col_assign_same (c : string) (f : row -> fnum) (df : frame) :
  col (assign c f df) c = map f (rows df).
Proof.
  unfold col, assign; simpl. rewrite map_map.
  apply map_ext. intros r. simpl. rewrite String.eqb_refl. reflexivity.
Qed.

Lemma col_assign_other (c c' : string) (f : row -> fnum) (df : frame) :
  String.eqb c' c = false -> col (assign c f df) c' = col df c'.
Proof.
  intros H. unfold col, assign; simpl. rewrite map_map.
  apply map_ext. intros r. simpl. rewrite H. reflexivity.
Qed.

Lemma has_assign (c c' : string) (f : row -> fnum) (df : frame) :
  has (assign c f df) c' = has df c' || String.eqb c' c.
Proof.
  unfold assign, has at 1; simpl.
  destruct (has df c) eqn:E.
  - destruct (String.eqb c' c) eqn:E'.
    + apply String.eqb_eq in E'. subst c'.
      fold (has df c). rewrite E. reflexivity.
    + rewrite orb_false_r. reflexivity.
  - rewrite existsb_app. simpl. rewrite orb_false_r. reflexivity.
Qed.

Lemma has_assign_same (c : string) (f : row -> fnum) (df : frame) :
  has (assign c f df) c = true.
Proof. rewrite has_assign, String.eqb_refl. apply orb_true_r. Qed.

Lemma rows_assign (c : string) (f : row -> fnum) (df : frame) :
  rows (assign c f df) = map (fun r => set_cell r c (f r)) (rows df).
Proof. reflexivity. Qed.

End FrameFacts.

(** ** The steps of [_calculate_metrics] leave the other columns alone *)

Section MetricSteps.

Import CompleteAnalyzer.

Ltac split_tests :=
  repeat match goal with
         | |- context [if ?b then _ else _] => destruct b
         end.

Ltac untouched :=
  intros; split_tests;
  repeat (rewrite col_assign_other by assumption);
  repeat (rewrite has_assign);
  repeat match goal with H : _ = false |- _ => rewrite H end;
  rewrite ?orb_false_r; reflexivity.

Lemma production_metrics_col (df : frame) (c : string) :
  String.eqb c "Yield_Percentage" = false ->
  String.eqb c "Ore_Efficiency" = false ->
  String.eqb c "Coke_Efficiency" = false ->
  col (production_metrics df) c = col df c.
Proof. unfold production_metrics. untouched. Qed.

Lemma production_metrics_has (df : frame) (c : string) :
  String.eqb c "Yield_Percentage" = false ->
  String.eqb c "Ore_Efficiency" = false ->
  String.eqb c "Coke_Efficiency" = false ->
  has (production_metrics df) c = has df c.
Proof. unfold production_metrics. untouched. Qed.

Lemma cost_metrics_col (df : frame) (c : string) :
  String.eqb c "Cost_per_Ton" = false ->
  String.eqb c "Power_Cost_per_Ton" = false ->
  col (cost_metrics df) c = col df c.
Proof. unfold cost_metrics. untouched. Qed.

Lemma cost_metrics_has (df : frame) (c : string) :
  String.eqb c "Cost_per_Ton" = false ->
  String.eqb c "Power_Cost_per_Ton" = false ->
  has (cost_metrics df) c = has df c.
Proof. unfold cost_metrics. untouched. Qed.

Lemma recovery_metrics_col (df : frame) (c : string) :
  String.eqb c "MN_Recovery_Gap" = false ->
  String.eqb c "SI_Recovery_Gap" = false ->
  col (recovery_metrics df) c = col df c.
Proof. unfold recovery_metrics. untouched. Qed.

Lemma recovery_metrics_has (df : frame) (c : string) :
  String.eqb c "MN_Recovery_Gap" = false ->
  String.eqb c "SI_Recovery_Gap" = false ->
  has (recovery_metrics df) c = has df c.
Proof. unfold recovery_metrics. untouched. Qed.

Lemma operational_metrics_has (df : frame) (c : string) :
  String.eqb c "Operational_Availability" = false ->
  has (operational_metrics df) c = has df c.
Proof. unfold operational_metrics. untouched. Qed.

Lemma quality_metrics_col (df : frame) (c : string) :
  String.eqb c "Quality_Score" = false ->
  col (quality_metrics df) c = col df c.
Proof. unfold quality_metrics. untouched. Qed.

Lemma quality_metrics_has (df : frame) (c : string) :
  String.eqb c "Quality_Score" = false ->
  has (quality_metrics df) c = has df c.
Proof. unfold quality_metrics. untouched. Qed.

Lemma performance_metrics_col (df : frame) (c : string) :
  String.eqb c "Performance_Score" = false ->
  col (performance_metrics df) c = col df c.
Proof. unfold performance_metrics. simpl. untouched. Qed.

Lemma performance_metrics_has (df : frame) (c : string) :
  String.eqb c "Performance_Score" = false ->
  has (performance_metrics df) c = has df c.
Proof. unfold performance_metrics. simpl. untouched. Qed.

(** The availability column of the result, from the breakdown minutes of
    the input. *)
Lemma availability_column (df : frame) :
  has df "Total Breakdown Mins" = true ->
  col (_calculate_metrics df) "Operational_Availability"
  = map availability (col df "Total Breakdown Mins").
Proof.
  intros H. unfold _calculate_metrics.
  rewrite performance_metrics_col by reflexivity.
  rewrite quality_metrics_col by reflexivity.
  unfold operational_metrics.
  rewrite recovery_metrics_has, cost_metrics_has, production_metrics_has, H
    by reflexivity.
  rewrite col_assign_same.
  rewrite <- (production_metrics_col df "Total Breakdown Mins")
    by reflexivity.
  rewrite <- (cost_metrics_col _ "Total Breakdown Mins") by reflexivity.
  rewrite <- (recovery_metrics_col _ "Total Breakdown Mins") by reflexivity.
  unfold col. rewrite map_map. reflexivity.
Qed.

End MetricSteps.

(** ** Scores *)

Section Scores.

Import CompleteAnalyzer.

Lemma within_weaken (a b : Q) (x : fnum) :
  a <= b -> within 0 a x -> within 0 b x.
Proof. intros Hab. destruct x; simpl; trivial. lra. Qed.

Lemma weighted_step (a w : Q) (acc x : fnum) :
  0 <= w -> within 0 a acc -> within 0 100 x ->
  within 0 (a + 100 * w) (fadd acc (fmul x (Fin w))).
Proof.
  intros Hw Hacc Hx.
  destruct acc as [p| | |], x as [q| | |]; simpl in *; trivial; try tauto.
  destruct Hacc as [H1 H2], Hx as [H3 H4]. split; nra.
Qed.

Lemma sub_score_within (target slope : Q) (x : fnum) :
  within 0 100 (sub_score target slope x).
Proof. unfold sub_score. apply clip_within. lra. Qed.

Lemma relative_score_within (m x : fnum) :
  within 0 100 (relative_score m x).
Proof. unfold relative_score. apply clip_within. lra. Qed.

(** The fold of the quality score, for any list of parameters. *)
Lemma quality_fold_within (df : frame) (r : row)
    (ps : list (string * Q * Q * Q)) :
  (forall p, In p ps -> 0 <= snd p) ->
  forall (a : Q) (acc : fnum),
    within 0 a acc ->
    within 0 (a + 100 * fold_right (fun p t => snd p + t) 0 ps)
      (fold_left
         (fun acc p =>
            let '(c, target, slope, weight) := p in
            if has df c
            then fadd acc (fmul (sub_score target slope (cell r c)) (Fin weight))
            else acc)
         ps acc).
Proof.
  induction ps as [|[[[c target] slope] weight] ps IH]; intros Hps a acc Hacc.
  - simpl. eapply within_weaken; [|exact Hacc]. lra.
  - simpl fold_left. simpl fold_right.
    assert (Hw : 0 <= weight) by (apply (Hps (c, target, slope, weight)); left; reflexivity).
    assert (Hrest : forall p, In p ps -> 0 <= snd p)
      by (intros p Hp; apply Hps; right; exact Hp).
    assert (Hsum : 0 <= fold_right (fun p t => snd p + t) 0 ps).
    { clear -Hrest. induction ps as [|p ps IH]; simpl; [lra|].
      assert (0 <= snd p) by (apply Hrest; left; reflexivity).
      assert (0 <= fold_right (fun p t => snd p + t) 0 ps)
        by (apply IH; intros q Hq; apply Hrest; right; exact Hq).
      lra. }
    destruct (has df c).
    + eapply within_weaken;
        [|apply (IH Hrest (a + 100 * weight));
          apply weighted_step; [exact Hw | exact Hacc | apply sub_score_within]].
      simpl snd. lra.
    + eapply within_weaken; [|apply (IH Hrest a); exact Hacc].
      simpl snd. nra.
Qed.

Lemma quality_score_within (df : frame) (r : row) :
  within 0 100 (quality_score df r).
Proof.
  unfold quality_score.
  eapply within_weaken;
    [|apply (quality_fold_within df r quality_parameters) with (a := 0)].
  - vm_compute. discriminate.
  - intros p Hp. simpl in Hp.
    repeat (destruct Hp as [<-|Hp]; [simpl; lra|]). contradiction.
  - simpl. lra.
Qed.

Lemma weights_from (cs : list (Q * (row -> fnum))) (a : Q) :
  fold_left (fun acc c => acc + fst c) cs a == a + weights cs.
Proof.
  unfold weights. revert a.
  induction cs as [|c cs IH]; intros a; simpl.
  - lra.
  - rewrite (IH (a + fst c)), (IH (0 + fst c)). lra.
Qed.

Lemma weights_app (cs ds : list (Q * (row -> fnum))) :
  weights (cs ++ ds) == weights cs + weights ds.
Proof.
  unfold weights at 1. rewrite fold_left_app.
  rewrite weights_from. fold (weights cs). lra.
Qed.

Lemma weights_nonneg (cs : list (Q * (row -> fnum))) :
  (forall c, In c cs -> 0 <= fst c) -> 0 <= weights cs.
Proof.
  induction cs as [|c cs IH]; intros H.
  - unfold weights; simpl. lra.
  - change (c :: cs) with ([c] ++ cs). rewrite weights_app.
    assert (0 <= fst c) by (apply H; left; reflexivity).
    assert (0 <= weights cs) by (apply IH; intros d Hd; apply H; right; exact Hd).
    unfold weights at 1; simpl. lra.
Qed.

Lemma weighted_total_within (cs : list (Q * (row -> fnum))) (r : row) :
  (forall c, In c cs -> 0 <= fst c /\ within 0 100 (snd c r)) ->
  within 0 (100 * weights cs) (weighted_total cs r).
Proof.
  intros H. unfold weighted_total, weights.
  assert (G : forall (w : Q) (acc : fnum),
             within 0 (100 * w) acc ->
             within 0 (100 * fold_left (fun acc c => acc + fst c) cs w)
               (fold_left (fun acc c => fadd acc (fmul (snd c r) (Fin (fst c))))
                          cs acc)).
  { induction cs as [|c cs IH]; intros w acc Hacc; simpl.
    - exact Hacc.
    - apply IH.
      + intros d Hd. apply H. right. exact Hd.
      + destruct (H c (or_introl eq_refl)) as [Hw Hx].
        eapply within_weaken;
          [|apply (weighted_step (100 * w) (fst c)); eassumption].
        lra. }
  apply G. simpl. lra.
Qed.

Lemma fdiv_within (w : Q) (x : fnum) :
  0 < w -> within 0 (100 * w) x -> within 0 100 (fdiv x (Fin w)).
Proof.
  intros Hw Hx. destruct x as [a| | |]; simpl in *; trivial; try contradiction.
  destruct (Qeq_bool w 0) eqn:E.
  - apply Qeq_bool_iff in E. lra.
  - simpl. destruct Hx as [H1 H2]. split.
    + apply Qle_shift_div_l; [exact Hw | lra].
    + apply Qle_shift_div_r; [exact Hw | lra].
Qed.

Lemma performance_components_ok (df : frame) (r : row) :
  within 0 100 (cell r "Quality_Score") ->
  forall c, In c (performance_components df) ->
            0 <= fst c /\ within 0 100 (snd c r).
Proof.
  intros Hq c Hc. unfold performance_components in Hc.
  unfold relative_component, clipped_component, plain_component in Hc.
  repeat (apply in_app_or in Hc; destruct Hc as [Hc|Hc]);
    repeat match type of Hc with
           | In _ (if ?b then _ else _) => destruct b
           | In _ (let m := _ in _) => cbv zeta in Hc
           end;
    simpl in Hc; try contradiction;
    destruct Hc as [<-|[]]; simpl; split; try lra;
    try apply relative_score_within; try (apply clip_within; lra);
    exact Hq.
Qed.

Lemma performance_weights_pos (df : frame) :
  has df "Quality_Score" = true -> 0 < weights (performance_components df).
Proof.
  intros H. unfold performance_components.
  rewrite !weights_app.
  unfold plain_component at 1. rewrite H.
  assert (N : forall c w, 0 <= w -> 0 <= weights (relative_component df c w)).
  { intros c w Hw. apply weights_nonneg. intros d Hd.
    unfold relative_component in Hd.
    repeat match type of Hd with
           | In _ (if ?b then _ else _) => destruct b
           | In _ (let m := _ in _) => cbv zeta in Hd
           end; simpl in Hd; try contradiction.
    destruct Hd as [<-|[]]. exact Hw. }
  assert (M : forall c w, 0 <= w -> 0 <= weights (clipped_component df c w)).
  { intros c w Hw. apply weights_nonneg. intros d Hd.
    unfold clipped_component in Hd.
    destruct (has df c); simpl in Hd; try contradiction.
    destruct Hd as [<-|[]]. exact Hw. }
  pose proof (N "Cost_per_Ton" 0.3) as N1.
  pose proof (N "Specific Power Consumption" 0.2) as N2.
  pose proof (M "MN Recovery PLC" 0.2) as M1.
  pose proof (M "Yield_Percentage" 0.15) as M2.
  assert (E : weights [(0.15, fun r : row => cell r "Quality_Score")] == 0.15)
    by reflexivity.
  rewrite E.
  assert (0 <= 0.3) by lra. assert (0 <= 0.2) by lra. assert (0 <= 0.15) by lra.
  specialize (N1 ltac:(assumption)). specialize (N2 ltac:(assumption)).
  specialize (M1 ltac:(assumption)). specialize (M2 ltac:(assumption)).
  lra.
Qed.

(** The blend of one record, whatever the frame. *)
Lemma performance_value_within (df : frame) (r : row) :
  within 0 100 (cell r "Quality_Score") ->
  has df "Quality_Score" = true ->
  within 0 100
    (fdiv (weighted_total (performance_components df) r)
          (Fin (weights (performance_components df)))).
Proof.
  intros Hq Hh. apply fdiv_within.
  - apply performance_weights_pos. exact Hh.
  - apply weighted_total_within. apply performance_components_ok. exact Hq.
Qed.

Lemma clip_finite (lo hi : Q) (x : fnum) :
  isna x = false -> is_finite (clip lo hi x) = true.
Proof. destruct x; simpl; trivial; discriminate. Qed.

Lemma finite_notna (x : fnum) : is_finite x = true -> isna x = false.
Proof. destruct x; simpl; trivial; discriminate. Qed.

Lemma within_is_finite (lo hi : Q) (x : fnum) :
  within lo hi x -> is_finite x = true -> finite_within lo hi x.
Proof. destruct x; simpl; trivial; discriminate. Qed.

Lemma signed_inf_pos (a : Q) (s : fnum) : 0 < a -> signed_inf a s = s.
Proof.
  intros H. unfold signed_inf.
  destruct (0 ?= a) eqn:E; trivial.
  - apply Qeq_alt in E. lra.
  - apply Qgt_alt in E. lra.
Qed.

Lemma sub_score_finite (target slope : Q) (x : fnum) :
  0 < slope -> isna x = false -> is_finite (sub_score target slope x) = true.
Proof.
  intros Hs Hx. unfold sub_score. apply clip_finite.
  destruct x; simpl in *; trivial; try discriminate;
    rewrite (signed_inf_pos slope PInf Hs); reflexivity.
Qed.

Lemma relative_score_finite (m x : fnum) :
  fgt m (Fin 0) = true -> is_finite x = true ->
  is_finite (relative_score m x) = true.
Proof.
  intros Hm Hx. unfold relative_score. apply clip_finite.
  destruct x as [a| | |]; try discriminate.
  destruct m as [b| | |]; simpl in *; try discriminate; trivial.
  apply Qltb_lt in Hm.
  destruct (Qeq_bool b 0) eqn:E; [|reflexivity].
  apply Qeq_bool_iff in E. lra.
Qed.

(** The quality score is a number as soon as the chemistry cells of the
    record that the frame has are numbers. *)
Lemma quality_score_finite (df : frame) (r : row) :
  (forall p, In p quality_parameters ->
             has df (parameter_column p) = true ->
             isna (cell r (parameter_column p)) = false) ->
  finite_within 0 100 (quality_score df r).
Proof.
  intros H. apply within_is_finite; [apply quality_score_within|].
  unfold quality_score.
  assert (G : forall ps acc,
             (forall p, In p ps -> In p quality_parameters) ->
             is_finite acc = true ->
             is_finite
               (fold_left
                  (fun acc p =>
                     let '(c, target, slope, weight) := p in
                     if has df c
                     then fadd acc (fmul (sub_score target slope (cell r c))
                                         (Fin weight))
                     else acc) ps acc) = true).
  { induction ps as [|[[[c target] slope] weight] ps IH]; intros acc Hin Hacc.
    - exact Hacc.
    - simpl. apply IH; [intros p Hp; apply Hin; right; exact Hp|].
      destruct (has df c) eqn:Hc; [|exact Hacc].
      assert (Hq : In (c, target, slope, weight) quality_parameters)
        by (apply Hin; left; reflexivity).
      assert (Hs : 0 < slope).
      { simpl in Hq.
        repeat (destruct Hq as [Hq|Hq]; [inversion Hq; subst; lra|]).
        contradiction. }
      pose proof (sub_score_finite target slope (cell r c) Hs
                    (H _ Hq Hc)) as Hf.
      destruct (sub_score target slope (cell r c)); try discriminate.
      destruct acc; try discriminate. reflexivity. }
  apply G; [tauto | reflexivity].
Qed.

Lemma weighted_total_finite (cs : list (Q * (row -> fnum))) (r : row) :
  (forall c, In c cs -> is_finite (snd c r) = true) ->
  is_finite (weighted_total cs r) = true.
Proof.
  intros H. unfold weighted_total.
  assert (G : forall acc, is_finite acc = true ->
             is_finite (fold_left
                          (fun acc c => fadd acc (fmul (snd c r) (Fin (fst c))))
                          cs acc) = true).
  { induction cs as [|c cs IH]; intros acc Hacc; simpl.
    - exact Hacc.
    - apply IH; [intros d Hd; apply H; right; exact Hd|].
      pose proof (H c (or_introl eq_refl)) as Hc.
      destruct (snd c r); try discriminate.
      destruct acc; try discriminate. reflexivity. }
  apply G. reflexivity.
Qed.

Lemma performance_components_finite (df : frame) (r : row) :
  (forall c, In c performance_inputs ->
             has df c = true -> is_finite (cell r c) = true) ->
  forall c, In c (performance_components df) -> is_finite (snd c r) = true.
Proof.
  intros H c Hc. unfold performance_components in Hc.
  unfold relative_component, clipped_component, plain_component in Hc.
  repeat (apply in_app_or in Hc; destruct Hc as [Hc|Hc]);
    repeat match type of Hc with
           | In _ (if ?b then _ else _) => destruct b eqn:?
           | In _ (let m := _ in _) => cbv zeta in Hc
           end;
    simpl in Hc; try contradiction;
    destruct Hc as [<-|[]]; simpl;
    try (apply relative_score_finite; [assumption|]);
    try (apply clip_finite, finite_notna);
    apply H; try assumption; simpl; tauto.
Qed.

Lemma performance_value_finite (df : frame) (r : row) :
  has df "Quality_Score" = true ->
  within 0 100 (cell r "Quality_Score") ->
  (forall c, In c performance_inputs ->
             has df c = true -> is_finite (cell r c) = true) ->
  finite_within 0 100
    (fdiv (weighted_total (performance_components df) r)
          (Fin (weights (performance_components df)))).
Proof.
  intros Hh Hq H.
  apply within_is_finite; [apply performance_value_within; assumption|].
  pose proof (weighted_total_finite _ r (performance_components_finite df r H)) as F.
  pose proof (performance_weights_pos df Hh) as W.
  destruct (weighted_total (performance_components df) r); try discriminate.
  simpl. destruct (Qeq_bool (weights (performance_components df)) 0) eqn:E;
    [|reflexivity].
  apply Qeq_bool_iff in E. lra.
Qed.

End Scores.

(** ** Operational availability *)

Section Availability.

Import CompleteAnalyzer.

Lemma accurate_availability_column (df : frame) :
  has df "Total Breakdown Mins" = true ->
  col (AccurateAnalyzer.analysis_df df) "Operational_Availability"
  = map availability (col df "Total Breakdown Mins").
Proof.
  intros H. unfold AccurateAnalyzer.analysis_df.
  set (df3 := AccurateAnalyzer.ore_efficiency _).
  assert (Hh : has df3 "Total Breakdown Mins" = true
               /\ col df3 "Total Breakdown Mins" = col df "Total Breakdown Mins").
  { subst df3.
    unfold AccurateAnalyzer.ore_efficiency, AccurateAnalyzer.yield_percentage,
      AccurateAnalyzer.cost_per_ton, assign_where.
    repeat match goal with
           | |- context [if ?b then assign _ _ _ else _] => destruct b
           end;
      repeat rewrite has_assign;
      repeat (rewrite col_assign_other by reflexivity);
      rewrite H; auto. }
  destruct Hh as [Hh Hc].
  unfold AccurateAnalyzer.operational_availability. rewrite Hh.
  rewrite col_assign_same, <- Hc. unfold col. rewrite map_map. reflexivity.
Qed.

(** C6, as the code has it.  In the three places that compute it the
    operational availability is [(1440 - minutes) / 1440 * 100] of the
    total breakdown minutes (of the record in the two analyzers, of the
    furnace average in the capacity calculator); for minutes within
    [0, 1440] it lies within [0, 100]; nothing clamps it: above 1440
    minutes it is negative. *)
Theorem availability_formula_without_clamp :
  (forall df : frame,
     has df "Total Breakdown Mins" = true ->
     col (_calculate_metrics df) "Operational_Availability"
     = map availability (col df "Total Breakdown Mins")
     /\ col (AccurateAnalyzer.analysis_df df) "Operational_Availability"
        = map availability (col df "Total Breakdown Mins"))
  /\ (forall (df : frame) (capacity : CapacityCalculator.FurnaceCapacity)
              (res : CapacityCalculator.results),
        CapacityCalculator.furnace_results df capacity = Some res ->
        CapacityCalculator.operational_availability res
        = availability
            (mean (col (of_furnace (CapacityCalculator.furnace_id capacity) df)
                       "Total Breakdown Mins")))
  /\ (forall m : Q,
        exists a : Q,
          availability (Fin m) = Fin a
          /\ a == (1440 - m) / 1440 * 100
          /\ (0 <= m <= 1440 -> 0 <= a <= 100)
          /\ (1440 < m -> a < 0)).
Proof.
  split; [|split].
  - intros df H. split.
    + apply availability_column. exact H.
    + apply accurate_availability_column. exact H.
  - intros df capacity res H.
    unfold CapacityCalculator.furnace_results in H.
    destruct (rows (of_furnace (CapacityCalculator.furnace_id capacity) df));
      [discriminate|].
    injection H as <-. reflexivity.
  - intros m. exists ((1440 + - m) / 1440 * 100).
    split; [reflexivity|]. split; [unfold Qminus; reflexivity|].
    split; intros H.
    + split.
      * apply Qmult_le_0_compat; [|lra].
        apply Qle_shift_div_l; lra.
      * assert (E : (1440 + - m) / 1440 <= 1)
          by (apply Qle_shift_div_r; lra).
        lra.
    + assert (E : (1440 + - m) / 1440 < 0).
      { unfold Qdiv. setoid_replace 0 with (0 * / 1440) by lra.
        apply Qmult_lt_compat_r; [reflexivity | lra]. }
      lra.
Qed.

Lemma availability_formula_without_clamp_witness :
  col (_calculate_metrics Samples.two_furnaces) "Operational_Availability"
  = map availability (col Samples.two_furnaces "Total Breakdown Mins")
  /\ (exists a : Q, availability (Fin 720) = Fin a /\ 0 <= a <= 100)
  /\ (exists a : Q, availability (Fin 2880) = Fin a /\ a < 0).
Proof.
  destruct availability_formula_without_clamp as (H1 & _ & H3).
  split; [apply (H1 Samples.two_furnaces); reflexivity|].
  split.
  - destruct (H3 720) as (a & Ha & _ & Hr & _).
    exists a. split; [exact Ha | apply Hr; lra].
  - destruct (H3 2880) as (a & Ha & _ & _ & Hn).
    exists a. split; [exact Ha | apply Hn; lra].
Defined.

(** C6 as stated fails: the record with 2880 breakdown minutes gets an
    availability of -100, not 0. *)
Lemma availability_not_clamped :
  exists a : Q,
    col (_calculate_metrics Samples.long_breakdown) "Operational_Availability"
    = [Fin a]
    /\ a == -100 /\ ~ (0 <= a).
Proof.
  eexists. split; [vm_compute; reflexivity|].
  split; [reflexivity | intros H; vm_compute in H; apply H; reflexivity].
Qed.

End Availability.

(** ** Quality and performance scores of the records *)

Section ScoreColumns.

Import CompleteAnalyzer.

Lemma quality_column (df : frame) :
  col (_calculate_metrics df) "Quality_Score"
  = map (quality_score (before_scores df)) (rows (before_scores df)).
Proof.
  unfold _calculate_metrics.
  rewrite performance_metrics_col by reflexivity.
  unfold quality_metrics. apply col_assign_same.
Qed.

Lemma performance_column (df : frame) :
  let scored := quality_metrics (before_scores df) in
  has (_calculate_metrics df) "Performance_Score" = true
  /\ col (_calculate_metrics df) "Performance_Score"
     = map (fun r => fdiv (weighted_total (performance_components scored) r)
                          (Fin (weights (performance_components scored))))
           (rows scored).
Proof.
  intros scored. unfold _calculate_metrics. fold (before_scores df).
  fold scored. unfold performance_metrics.
  assert (Hq : has scored "Quality_Score" = true)
    by (apply has_assign_same).
  pose proof (performance_weights_pos scored Hq) as W.
  apply Qltb_lt in W. cbv zeta. rewrite W.
  split; [apply has_assign_same | apply col_assign_same].
Qed.

Lemma scored_rows_quality (df : frame) (r : row) :
  In r (rows (quality_metrics df)) -> within 0 100 (cell r "Quality_Score").
Proof.
  unfold quality_metrics. rewrite rows_assign.
  intros H. apply in_map_iff in H. destruct H as (r0 & <- & _).
  simpl. apply quality_score_within.
Qed.

(** The quality score of a record whose chemistry cells are numbers is
    the weighted sum that the specification words. *)
Lemma quality_score_formula (df : frame) (r : row) (x : string -> Q) :
  (forall p, In p quality_parameters ->
             has df (parameter_column p) = true ->
             cell r (parameter_column p) = Fin (x (parameter_column p))) ->
  feq (quality_score df r) (Fin (ScoreSpec.quality (has df) x)).
Proof.
  intros H. unfold quality_score, quality_parameters, ScoreSpec.quality.
  cbn [fold_left].
  assert (H1 := H ("Grade MN", 70, 5, 0.4)).
  assert (H2 := H ("Grade SI", 17.5, 10, 0.3)).
  assert (H3 := H ("C%", 7, 20, 0.2)).
  assert (H4 := H ("Basicity", 1.35, 40, 0.1)).
  cbn [parameter_column fst] in H1, H2, H3, H4. clear H.
  destruct (has df "Grade MN");
    [rewrite H1 by (simpl; auto 6) | clear H1];
    (destruct (has df "Grade SI");
     [rewrite H2 by (simpl; auto 6) | clear H2]);
    (destruct (has df "C%");
     [rewrite H3 by (simpl; auto 6) | clear H3]);
    (destruct (has df "Basicity");
     [rewrite H4 by (simpl; auto 6) | clear H4]);
    unfold sub_score, ScoreSpec.sub_score, ScoreSpec.clamp;
    cbn [fsub fneg fadd fabs fmul clip feq]; unfold Qminus; ring.
Qed.

(** A missing chemistry cell makes the quality score missing. *)
Lemma quality_score_missing (df : frame) (r : row) (p : string * Q * Q * Q) :
  In p quality_parameters ->
  has df (parameter_column p) = true ->
  cell r (parameter_column p) = NaN ->
  quality_score df r = NaN.
Proof.
  intros Hp Hh Hc. unfold quality_score.
  assert (N : forall ps,
             fold_left
               (fun acc p =>
                  let '(c, target, slope, weight) := p in
                  if has df c
                  then fadd acc (fmul (sub_score target slope (cell r c))
                                      (Fin weight))
                  else acc) ps NaN = NaN).
  { induction ps as [|[[[c t] sl] w] ps IH]; [reflexivity|].
    cbn [fold_left]. destruct (has df c); exact IH. }
  assert (G : forall ps acc,
             In p ps ->
             fold_left
               (fun acc p =>
                  let '(c, target, slope, weight) := p in
                  if has df c
                  then fadd acc (fmul (sub_score target slope (cell r c))
                                      (Fin weight))
                  else acc) ps acc = NaN).
  { induction ps as [|[[[c t] sl] w] ps IH]; intros acc Hin; [contradiction|].
    cbn [fold_left]. destruct Hin as [<-|Hin]; [|apply IH; exact Hin].
    cbn [parameter_column fst] in Hh, Hc. rewrite Hh, Hc.
    unfold sub_score. cbn [fsub fneg fadd fabs fmul clip].
    destruct acc; cbn [fadd]; apply N. }
  apply G. exact Hp.
Qed.

(** The weighted total of components whose values are numbers. *)
Lemma weighted_total_parts (cs : list (Q * (row -> fnum))) (r : row)
    (parts : list (Q * Q)) :
  Forall2 (fun c p => fst c = fst p /\ snd c r = Fin (snd p)) cs parts ->
  feq (weighted_total cs r) (Fin (ScoreSpec.weighted_sum parts))
  /\ weights cs == ScoreSpec.weight_sum parts.
Proof.
  intros H. unfold weighted_total, weights.
  assert (G : forall a b,
             feq (fold_left
                    (fun acc c => fadd acc (fmul (snd c r) (Fin (fst c))))
                    cs (Fin a))
                 (Fin (a + ScoreSpec.weighted_sum parts))
             /\ fold_left (fun acc c => acc + fst c) cs b
                == b + ScoreSpec.weight_sum parts).
  { induction H as [|c p cs parts [Hw Hv] H IH]; intros a b.
    - cbn [fold_left ScoreSpec.weighted_sum ScoreSpec.weight_sum fold_right
           feq]. split; ring.
    - cbn [fold_left ScoreSpec.weighted_sum ScoreSpec.weight_sum fold_right].
      rewrite Hv, Hw. cbn [fmul fadd].
      destruct (IH (a + snd p * fst p) (b + fst p)) as [I1 I2].
      split.
      + eapply feq_trans; [exact I1|]. cbn [feq].
        fold (ScoreSpec.weighted_sum parts). ring.
      + rewrite I2. fold (ScoreSpec.weight_sum parts). ring. }
  destruct (G 0 0) as [G1 G2]. split.
  - eapply feq_trans; [exact G1|]. cbn [feq]. ring.
  - rewrite G2. ring.
Qed.

Lemma relative_component_parts (d : frame) (c : string) (w m x : Q)
    (r : row) :
  (has d c = true -> mean (col d c) = Fin m /\ cell r c = Fin x) ->
  Forall2 (fun c p => fst c = fst p /\ snd c r = Fin (snd p))
    (relative_component d c w)
    (match (if has d c && Qltb 0 m then Some (m, x) else None) with
     | Some (m, x) => [(w, ScoreSpec.relative m x)]
     | None => []
     end).
Proof.
  intros H. unfold relative_component.
  destruct (has d c); [|constructor].
  destruct (H eq_refl) as [Em Ex]. cbv zeta. rewrite Em.
  unfold fgt. cbn [flt andb].
  destruct (Qltb 0 m) eqn:P; [|constructor].
  constructor; [|constructor]. split; [reflexivity|]. cbn [snd fst].
  rewrite Ex. unfold relative_score. cbn [fdiv].
  assert (Z : Qeq_bool m 0 = false).
  { apply Qltb_lt in P. destruct (Qeq_bool m 0) eqn:Z; [|reflexivity].
    apply Qeq_bool_iff in Z. lra. }
  rewrite Z. reflexivity.
Qed.

Lemma clipped_component_parts (d : frame) (c : string) (w x : Q) (r : row) :
  (has d c = true -> cell r c = Fin x) ->
  Forall2 (fun c p => fst c = fst p /\ snd c r = Fin (snd p))
    (clipped_component d c w)
    (match (if has d c then Some x else None) with
     | Some x => [(w, ScoreSpec.clamp x)]
     | None => []
     end).
Proof.
  intros H. unfold clipped_component.
  destruct (has d c); [|constructor].
  constructor; [|constructor]. split; [reflexivity|]. cbn [snd fst].
  rewrite (H eq_refl). reflexivity.
Qed.

(** The performance score of a record whose cells are numbers is the
    blend that the specification words: the sub-scores that take part,
    weighted, divided by the sum of their weights. *)
Lemma performance_formula (d : frame) (r : row)
    (mc xc mp xp xr xy xq : Q) :
  has d "Quality_Score" = true ->
  (has d "Cost_per_Ton" = true ->
   mean (col d "Cost_per_Ton") = Fin mc /\ cell r "Cost_per_Ton" = Fin xc) ->
  (has d "Specific Power Consumption" = true ->
   mean (col d "Specific Power Consumption") = Fin mp
   /\ cell r "Specific Power Consumption" = Fin xp) ->
  (has d "MN Recovery PLC" = true -> cell r "MN Recovery PLC" = Fin xr) ->
  (has d "Yield_Percentage" = true -> cell r "Yield_Percentage" = Fin xy) ->
  cell r "Quality_Score" = Fin xq ->
  feq (fdiv (weighted_total (performance_components d) r)
            (Fin (weights (performance_components d))))
      (Fin (ScoreSpec.performance
              (if has d "Cost_per_Ton" && Qltb 0 mc
               then Some (mc, xc) else None)
              (if has d "Specific Power Consumption" && Qltb 0 mp
               then Some (mp, xp) else None)
              (if has d "MN Recovery PLC" then Some xr else None)
              (if has d "Yield_Percentage" then Some xy else None)
              xq)).
Proof.
  intros Hq Hc Hp Hr Hy Hx.
  pose proof (performance_weights_pos d Hq) as W.
  assert (F : Forall2 (fun c p => fst c = fst p /\ snd c r = Fin (snd p))
                (performance_components d)
                (ScoreSpec.performance_parts
                   (if has d "Cost_per_Ton" && Qltb 0 mc
                    then Some (mc, xc) else None)
                   (if has d "Specific Power Consumption" && Qltb 0 mp
                    then Some (mp, xp) else None)
                   (if has d "MN Recovery PLC" then Some xr else None)
                   (if has d "Yield_Percentage" then Some xy else None)
                   xq)).
  { unfold performance_components, ScoreSpec.performance_parts.
    repeat apply Forall2_app.
    - apply relative_component_parts. exact Hc.
    - apply relative_component_parts. exact Hp.
    - apply clipped_component_parts. exact Hr.
    - apply clipped_component_parts. exact Hy.
    - unfold plain_component. rewrite Hq.
      constructor; [|constructor]. split; [reflexivity | exact Hx]. }
  destruct (weighted_total_parts _ r _ F) as [T E].
  unfold ScoreSpec.performance, ScoreSpec.blend.
  destruct (weighted_total (performance_components d) r) as [t| | |];
    try contradiction.
  cbn [feq] in T. cbn [fdiv].
  assert (Z : Qeq_bool (weights (performance_components d)) 0 = false).
  { destruct (Qeq_bool _ 0) eqn:Z; [|reflexivity].
    apply Qeq_bool_iff in Z. lra. }
  rewrite Z. cbn [feq]. rewrite T, E. reflexivity.
Qed.

(** The quality score is missing exactly when a chemistry cell that it
    reads is missing. *)
Lemma quality_score_missing_iff (d : frame) (r : row) :
  quality_score d r = NaN
  <-> exists p, In p quality_parameters
                /\ has d (parameter_column p) = true
                /\ cell r (parameter_column p) = NaN.
Proof.
  split.
  - intros E.
    assert (D : forall ps : list (string * Q * Q * Q),
               (exists p, In p ps /\ has d (parameter_column p) = true
                          /\ cell r (parameter_column p) = NaN)
               \/ (forall p, In p ps -> has d (parameter_column p) = true ->
                              isna (cell r (parameter_column p)) = false)).
    { induction ps as [|p ps [(q & H1 & H2)|IH]].
      - right. intros p [].
      - left. exists q. split; [right; exact H1 | exact H2].
      - destruct (has d (parameter_column p)) eqn:Hh.
        + destruct (isna (cell r (parameter_column p))) eqn:Hc.
          * left. exists p. split; [left; reflexivity|].
            split; [exact Hh|].
            destruct (cell r (parameter_column p)); try discriminate.
            reflexivity.
          * right. intros q [<-|Hq] Hq'; [exact Hc | apply IH; assumption].
        + right. intros q [<-|Hq] Hq'; [congruence | apply IH; assumption]. }
    destruct (D quality_parameters) as [H|H]; [exact H|].
    pose proof (quality_score_finite d r H) as F. rewrite E in F.
    contradiction.
  - intros (p & H1 & H2 & H3). apply (quality_score_missing d r p H1 H2 H3).
Qed.

(** *** The scores in double precision *)

Lemma double_sub_score_within (target slope : Q) (x : fnum) :
  within 0 100 (ScoreDoubles.sub_score target slope x).
Proof. unfold ScoreDoubles.sub_score. apply clip_within. lra. Qed.

Lemma double_relative_score_within (m x : fnum) :
  within 0 100 (ScoreDoubles.relative_score m x).
Proof. unfold ScoreDoubles.relative_score. apply clip_within. lra. Qed.

Lemma within_0_0 : within 0 0 (Fin 0).
Proof. split; apply Qle_refl. Qed.

(** The steps of a weighted sum, from the first one on. *)
Ltac weighted_steps sub :=
  first
    [ exact within_0_0
    | eapply dadd_dmul_le;
      [ vm_compute; reflexivity
      | vm_compute; discriminate
      | weighted_steps sub
      | sub
      | vm_compute; reflexivity ] ].

(** On doubles the quality score is within [0, 100] or missing. *)
Lemma double_quality_score_within (d : frame) (r : row) :
  within 0 100 (ScoreDoubles.quality_score d r).
Proof.
  unfold ScoreDoubles.quality_score, quality_parameters.
  cbn [fold_left].
  destruct (has d "Grade MN"), (has d "Grade SI"), (has d "C%"),
    (has d "Basicity");
    (eapply within_weaken;
     [|weighted_steps ltac:(apply double_sub_score_within)];
     vm_compute; discriminate).
Qed.

(** On doubles the performance score is written, and is missing or within
    0 and the double that follows 100. *)
Lemma double_performance_score_within (d : frame)
    (cost_mean power_mean : fnum) (r : row) :
  has d "Quality_Score" = true ->
  within 0 100 (cell r "Quality_Score") ->
  exists v : fnum,
    ScoreDoubles.performance_score d cost_mean power_mean r = Some v
    /\ within 0 (100 + pow2 (-46)) v.
Proof.
  intros Hq Hc.
  unfold ScoreDoubles.performance_score,
    ScoreDoubles.performance_components, ScoreDoubles.relative_component,
    clipped_component, plain_component.
  cbv zeta. rewrite Hq.
  destruct (has d "Cost_per_Ton"), (fgt cost_mean (Fin 0)),
    (has d "Specific Power Consumption"), (fgt power_mean (Fin 0)),
    (has d "MN Recovery PLC"), (has d "Yield_Percentage");
    cbn [app];
    match goal with
    | |- context [ScoreDoubles.weights ?cs] =>
        let W := eval vm_compute in (ScoreDoubles.weights cs) in
        let EW := fresh "EW" in
        assert (EW : ScoreDoubles.weights cs = W)
          by (vm_compute; reflexivity);
        rewrite EW; clear EW
    end;
    match goal with
    | |- context [fgt ?w (Fin 0)] =>
        let G := fresh "G" in
        assert (G : fgt w (Fin 0) = true) by (vm_compute; reflexivity);
        rewrite G; clear G
    end;
    (eexists; split; [reflexivity|]);
    unfold ScoreDoubles.weighted_total; cbn [fold_left fst snd];
    (eapply within_weaken;
     [|eapply ddiv_le;
       [ vm_compute; reflexivity
       | weighted_steps
           ltac:(first [ apply double_relative_score_within
                       | apply clip_within; vm_compute; discriminate
                       | exact Hc ])
       | vm_compute; reflexivity ]];
     vm_compute; discriminate).
Qed.

(** Both scores of every record, on doubles. *)
Lemma double_scores_within (df : frame) (cost_mean power_mean : fnum)
    (q : fnum) (p : option fnum) :
  In (q, p) (ScoreDoubles.scores df cost_mean power_mean) ->
  within 0 100 q
  /\ exists v : fnum, p = Some v /\ within 0 (100 + pow2 (-46)) v.
Proof.
  unfold ScoreDoubles.scores. cbv zeta. intros H.
  apply in_map_iff in H. destruct H as (r & E & Hr).
  injection E as <- <-.
  assert (Q : within 0 100 (cell r "Quality_Score")).
  { unfold ScoreDoubles.quality_metrics in Hr. rewrite rows_assign in Hr.
    apply in_map_iff in Hr. destruct Hr as (r0 & <- & _).
    simpl. apply double_quality_score_within. }
  split; [exact Q|].
  apply double_performance_score_within; [|exact Q].
  apply has_assign_same.
Qed.

(** C7, as the code has it.  Whatever columns the table has,
    [_calculate_metrics] writes a quality score and a performance score
    on every record, and each of them is a number within [0, 100] or is
    missing; it is never infinite.  The quality score is missing exactly
    when a chemistry cell that it reads is missing; otherwise it is a
    number within [0, 100], and for cells that are numbers it is the sum
    of the clamped sub-scores of the chemistry columns present, weighted
    0.4, 0.3, 0.2 and 0.1.  The performance score of a record whose
    cells read are numbers is within [0, 100] and is the weighted sum of
    the clamped sub-scores that take part, divided by the sum of their
    weights.  As the code computes them on doubles, the quality score of
    every record is within [0, 100] or missing, and the performance score
    is written and is missing or within 0 and [100 + 2^-46], the double
    that follows 100. *)
Theorem scores_within_0_100 (df : frame) :
  (has (_calculate_metrics df) "Quality_Score" = true
   /\ has (_calculate_metrics df) "Performance_Score" = true)
  /\ col (_calculate_metrics df) "Quality_Score"
     = map (quality_score (before_scores df)) (rows (before_scores df))
  /\ (let scored := quality_metrics (before_scores df) in
      col (_calculate_metrics df) "Performance_Score"
      = map (fun r => fdiv (weighted_total (performance_components scored) r)
                           (Fin (weights (performance_components scored))))
            (rows scored))
  /\ (forall x : fnum,
        In x (col (_calculate_metrics df) "Quality_Score") -> within 0 100 x)
  /\ (forall x : fnum,
        In x (col (_calculate_metrics df) "Performance_Score") ->
        within 0 100 x)
  /\ (forall (d : frame) (r : row),
        quality_score d r = NaN
        <-> exists p, In p quality_parameters
                      /\ has d (parameter_column p) = true
                      /\ cell r (parameter_column p) = NaN)
  /\ (forall (d : frame) (r : row),
        (forall p, In p quality_parameters ->
                   has d (parameter_column p) = true ->
                   isna (cell r (parameter_column p)) = false) ->
        finite_within 0 100 (quality_score d r))
  /\ (forall (d : frame) (r : row) (x : string -> Q),
        (forall p, In p quality_parameters ->
                   has d (parameter_column p) = true ->
                   cell r (parameter_column p)
                   = Fin (x (parameter_column p))) ->
        feq (quality_score d r) (Fin (ScoreSpec.quality (has d) x)))
  /\ (forall (d : frame) (r : row),
        has d "Quality_Score" = true ->
        within 0 100 (cell r "Quality_Score") ->
        (forall c, In c performance_inputs ->
                   has d c = true -> is_finite (cell r c) = true) ->
        finite_within 0 100
          (fdiv (weighted_total (performance_components d) r)
                (Fin (weights (performance_components d)))))
  /\ (forall (d : frame) (r : row) (mc xc mp xp xr xy xq : Q),
        has d "Quality_Score" = true ->
        (has d "Cost_per_Ton" = true ->
         mean (col d "Cost_per_Ton") = Fin mc
         /\ cell r "Cost_per_Ton" = Fin xc) ->
        (has d "Specific Power Consumption" = true ->
         mean (col d "Specific Power Consumption") = Fin mp
         /\ cell r "Specific Power Consumption" = Fin xp) ->
        (has d "MN Recovery PLC" = true ->
         cell r "MN Recovery PLC" = Fin xr) ->
        (has d "Yield_Percentage" = true ->
         cell r "Yield_Percentage" = Fin xy) ->
        cell r "Quality_Score" = Fin xq ->
        feq (fdiv (weighted_total (performance_components d) r)
                  (Fin (weights (performance_components d))))
            (Fin (ScoreSpec.performance
                    (if has d "Cost_per_Ton" && Qltb 0 mc
                     then Some (mc, xc) else None)
                    (if has d "Specific Power Consumption" && Qltb 0 mp
                     then Some (mp, xp) else None)
                    (if has d "MN Recovery PLC" then Some xr else None)
                    (if has d "Yield_Percentage" then Some xy else None)
                    xq)))
  /\ (forall (d : frame) (cost_mean power_mean q : fnum) (p : option fnum),
        In (q, p) (ScoreDoubles.scores d cost_mean power_mean) ->
        within 0 100 q
        /\ exists v : fnum, p = Some v /\ within 0 (100 + pow2 (-46)) v).
Proof.
  split; [split|].
  - unfold _calculate_metrics.
    rewrite performance_metrics_has by reflexivity.
    apply has_assign_same.
  - apply (performance_column df).
  - split; [apply quality_column|].
    split; [apply (performance_column df)|].
    split.
    { intros x Hx. rewrite quality_column in Hx.
      apply in_map_iff in Hx. destruct Hx as (r & <- & _).
      apply quality_score_within. }
    split.
    { intros x Hx.
      destruct (performance_column df) as [_ E]. rewrite E in Hx.
      apply in_map_iff in Hx. destruct Hx as (r & <- & Hr).
      apply performance_value_within.
      - apply (scored_rows_quality _ _ Hr).
      - apply has_assign_same. }
    split; [apply quality_score_missing_iff|].
    split; [intros d r H; apply quality_score_finite; exact H|].
    split; [apply quality_score_formula|].
    split; [intros d r Hh Hq H; apply performance_value_finite; assumption|].
    split; [apply performance_formula|].
    apply double_scores_within.
Qed.

Lemma scores_within_0_100_witness :
  feq (nth 0 (col (_calculate_metrics Samples.two_furnaces) "Quality_Score")
           NaN)
      (Fin 96.3)
  /\ feq (nth 1 (col (_calculate_metrics Samples.two_furnaces)
                     "Quality_Score") NaN)
         (Fin 94.3)
  /\ within 0 100
       (nth 0 (col (_calculate_metrics Samples.two_furnaces)
                   "Performance_Score") PInf)
  /\ feq (quality_score Samples.two_furnaces
            (nth 0 (rows Samples.two_furnaces) (record "" [])))
         (Fin (0.4 * 95 + 0.3 * 95 + 0.2 * 100 + 0.1 * 98))
  /\ nth 1 (ScoreDoubles.scores (before_scores Examples.cost_and_chemistry)
             (Fin 100) NaN) (NaN, None)
     = (Fin 100, Some (Fin (2932031007402667 # 35184372088832)))
  /\ within 0 (100 + pow2 (-46)) (Fin (2932031007402667 # 35184372088832)).
Proof.
  destruct (scores_within_0_100 Samples.two_furnaces)
    as (_ & Eq & _ & _ & Hp & _ & _ & Hf & _ & _ & Hd).
  split; [|split; [|split; [|split; [|split]]]];
    [| | | |vm_compute; reflexivity|
     destruct (Hd (before_scores Examples.cost_and_chemistry) (Fin 100) NaN
                  (Fin 100)
                  (Some (Fin (2932031007402667 # 35184372088832))))
       as (_ & v & E & Hv);
     [vm_compute; right; left; reflexivity|];
     injection E as <-; exact Hv].
  - rewrite Eq. apply feqb_feq. vm_compute. reflexivity.
  - rewrite Eq. apply feqb_feq. vm_compute. reflexivity.
  - apply Hp. vm_compute. left. reflexivity.
  - eapply feq_trans.
    + apply (Hf Samples.two_furnaces _
               (fun c => match cells [ ("Grade MN", Fin 69);
                                       ("Grade SI", Fin 17);
                                       ("C%", Fin 7);
                                       ("Basicity", Fin 1.3) ] c with
                         | Fin q => q
                         | _ => 0
                         end)).
      intros p Hp' _. simpl in Hp'.
      repeat (destruct Hp' as [<-|Hp']; [reflexivity|]). contradiction.
    + apply feqb_feq. vm_compute. reflexivity.
Defined.

(** C7 as stated fails: a record without a manganese grade, in a table
    that has the column, gets a quality score and a performance score
    that are missing, and so not within [0, 100].  And on doubles a
    record with the chemistry at the four targets and a cost below the
    mean of 100, in a table with no other column that the performance
    score reads, gets the quality score 100 and the performance score
    [45 / (0.3 + 0.15)], which is [100 + 2^-46], above 100. *)
Lemma scores_outside_0_100 :
  (has Examples.missing_grade "Grade MN" = true
   /\ cell (nth 1 (rows Examples.missing_grade) (record "" [])) "Grade MN"
      = NaN
   /\ nth 1 (col (_calculate_metrics Examples.missing_grade) "Quality_Score")
          (Fin 0) = NaN
   /\ nth 1 (col (_calculate_metrics Examples.missing_grade)
                 "Performance_Score") (Fin 0) = NaN
   /\ ~ finite_within 0 100 NaN)
  /\ (feq (mean (col (before_scores Examples.cost_and_chemistry)
                     "Cost_per_Ton"))
          (Fin 100)
      /\ has (before_scores Examples.cost_and_chemistry)
             "Specific Power Consumption" = false
      /\ nth 0 (ScoreDoubles.scores
                  (before_scores Examples.cost_and_chemistry) (Fin 100) NaN)
               (NaN, None)
         = (Fin 100, Some (Fin (7036874417766401 # 70368744177664)))
      /\ (7036874417766401 # 70368744177664) == 100 + pow2 (-46)
      /\ ~ within 0 100 (Fin (7036874417766401 # 70368744177664))).
Proof.
  split.
  - split; [reflexivity|]. split; [reflexivity|].
    split; [vm_compute; reflexivity|].
    split; [vm_compute; reflexivity|].
    intros H. exact H.
  - split; [apply feqb_feq; vm_compute; reflexivity|].
    split; [reflexivity|].
    split; [vm_compute; reflexivity|].
    split; [vm_compute; reflexivity|].
    intros [_ H]. vm_compute in H. apply H. reflexivity.
Qed.

End ScoreColumns.

(** ** Views of a frame through the steps *)

Section Views.

Import CompleteAnalyzer.

Lemma view_assign {A : Type} (p : row -> A) (c : string) (f : row -> fnum)
    (df : frame) :
  ignores p c -> view p (assign c f df) = view p df.
Proof.
  intros H. unfold view. rewrite rows_assign, map_map.
  apply map_ext. intros r. apply H.
Qed.

Ltac split_tests :=
  repeat match goal with
         | |- context [if ?b then _ else _] => destruct b
         end.

Ltac unseen :=
  intros; split_tests;
  repeat (rewrite view_assign by assumption); reflexivity.

Lemma production_metrics_view {A : Type} (p : row -> A) (df : frame) :
  ignores p "Yield_Percentage" -> ignores p "Ore_Efficiency" ->
  ignores p "Coke_Efficiency" ->
  view p (production_metrics df) = view p df.
Proof. unfold production_metrics. unseen. Qed.

Lemma recovery_metrics_view {A : Type} (p : row -> A) (df : frame) :
  ignores p "MN_Recovery_Gap" -> ignores p "SI_Recovery_Gap" ->
  view p (recovery_metrics df) = view p df.
Proof. unfold recovery_metrics. unseen. Qed.

Lemma operational_metrics_view {A : Type} (p : row -> A) (df : frame) :
  ignores p "Operational_Availability" ->
  view p (operational_metrics df) = view p df.
Proof. unfold operational_metrics. unseen. Qed.

Lemma quality_metrics_view {A : Type} (p : row -> A) (df : frame) :
  ignores p "Quality_Score" -> view p (quality_metrics df) = view p df.
Proof. unfold quality_metrics. unseen. Qed.

Lemma performance_metrics_view {A : Type} (p : row -> A) (df : frame) :
  ignores p "Performance_Score" -> view p (performance_metrics df) = view p df.
Proof. unfold performance_metrics. cbv zeta. unseen. Qed.

(** The furnace and the cost per ton of every record of the result, from
    the cost and the production of the input. *)
Lemma cost_per_ton_view (df : frame) :
  has df "Total Cost PLC" = true ->
  has df "Actual Production Qty" = true ->
  has (_calculate_metrics df) "Cost_per_Ton" = true
  /\ view (fun r => (Frame.Furnace r, cell r "Cost_per_Ton"))
          (_calculate_metrics df)
     = map (fun r => (Frame.Furnace r,
                      ratio "Total Cost PLC" "Actual Production Qty" r))
           (rows df).
Proof.
  intros Hc Hq. unfold _calculate_metrics.
  set (df1 := production_metrics df).
  assert (H1 : has df1 "Total Cost PLC" = true)
    by (subst df1; rewrite production_metrics_has by reflexivity; exact Hc).
  assert (H2 : has df1 "Actual Production Qty" = true)
    by (subst df1; rewrite production_metrics_has by reflexivity; exact Hq).
  split.
  - rewrite performance_metrics_has, quality_metrics_has,
      operational_metrics_has, recovery_metrics_has by reflexivity.
    unfold cost_metrics. rewrite H1, H2. simpl andb. cbv iota.
    destruct (has (assign "Cost_per_Ton" _ df1) "Power Cost"
              && has (assign "Cost_per_Ton" _ df1) "Actual Production Qty");
      repeat rewrite has_assign; rewrite ?orb_true_r; reflexivity.
  - rewrite performance_metrics_view, quality_metrics_view,
      operational_metrics_view, recovery_metrics_view
      by (intros r v; reflexivity).
    unfold cost_metrics. rewrite H1, H2. simpl andb. cbv iota.
    assert (E : view (fun r => (Frame.Furnace r, cell r "Cost_per_Ton"))
                     (assign "Cost_per_Ton"
                        (ratio "Total Cost PLC" "Actual Production Qty") df1)
                = map (fun r => (Frame.Furnace r,
                                 ratio "Total Cost PLC" "Actual Production Qty" r))
                      (rows df)).
    { unfold view. rewrite rows_assign, map_map. simpl.
      change (map (fun r => (Frame.Furnace r,
                             ratio "Total Cost PLC" "Actual Production Qty" r))
                  (rows df1))
        with (view (fun r => (Frame.Furnace r,
                              ratio "Total Cost PLC" "Actual Production Qty" r))
                   df1).
      subst df1. rewrite production_metrics_view by (intros r v; reflexivity).
      reflexivity. }
    destruct (has (assign "Cost_per_Ton" _ df1) "Power Cost"
              && has (assign "Cost_per_Ton" _ df1) "Actual Production Qty").
    + rewrite view_assign by (intros r v; reflexivity). exact E.
    + exact E.
Qed.

Lemma has_of_furnace (f : string) (df : frame) (c : string) :
  has (of_furnace f df) c = has df c.
Proof. reflexivity. Qed.

(** The column of the records of one furnace. *)
Lemma col_of_furnace (f : string) (df : frame) (c : string) :
  col (of_furnace f df) c
  = map snd (filter (fun x => String.eqb (fst x) f)
                    (view (fun r => (Frame.Furnace r, cell r c)) df)).
Proof.
  unfold col, of_furnace, view; simpl.
  induction (rows df) as [|r l IH]; simpl; [reflexivity|].
  destruct (String.eqb (Frame.Furnace r) f); simpl; rewrite IH; reflexivity.
Qed.

Lemma filter_map_pairs (f : string) (g : row -> fnum) (l : list row) :
  map snd (filter (fun x => String.eqb (fst x) f)
                  (map (fun r => (Frame.Furnace r, g r)) l))
  = map g (filter (fun r => String.eqb (Frame.Furnace r) f) l).
Proof.
  induction l as [|r l IH]; simpl; [reflexivity|].
  destruct (String.eqb (Frame.Furnace r) f); simpl; rewrite IH; reflexivity.
Qed.

End Views.

(** ** The results of the capacity calculator by furnace *)

Section CapacityLoop.

Import CapacityCalculator CapacityResults.

Lemma get_set_item {V : Type} (d : list (string * V)) (k k' : string)
    (v : V) :
  get_item (set_item k v d) k'
  = if String.eqb k k' then Some v else get_item d k'.
Proof.
  induction d as [|[k0 v0] d IH]; cbn [set_item get_item].
  - reflexivity.
  - destruct (String.eqb k0 k) eqn:E; cbn [get_item].
    + apply String.eqb_eq in E. subst k0.
      destruct (String.eqb k k'); reflexivity.
    + destruct (String.eqb k0 k') eqn:E'; [|exact IH].
      apply String.eqb_eq in E'. subst k0. rewrite String.eqb_sym, E.
      reflexivity.
Qed.

Lemma metrics_loop_lookup (df : frame)
    (capacities : list (string * FurnaceCapacity))
    (acc res : list (string * results)) (f : string) :
  NoDup (map fst capacities) ->
  metrics_loop df capacities acc = Ok res ->
  get_item res f
  = match get_item capacities f with
    | Some capacity =>
        match furnace_results df (with_id f capacity) with
        | Some r => Some r
        | None => get_item acc f
        end
    | None => get_item acc f
    end.
Proof.
  revert acc. induction capacities as [|[g c] l IH]; intros acc Hn.
  - cbn [metrics_loop get_item]. intros H. injection H as <-. reflexivity.
  - cbn [metrics_loop get_item]. inversion Hn as [|? ? Hnot Hn']; subst.
    destruct (negb (has df "Furnace")); [discriminate|].
    assert (Hl : String.eqb g f = true -> get_item l f = None).
    { intros E. apply String.eqb_eq in E. subst g.
      clear -Hnot. induction l as [|[k v] l IH]; [reflexivity|].
      cbn [get_item]. cbn [map fst] in Hnot.
      destruct (String.eqb k f) eqn:E.
      - apply String.eqb_eq in E. subst k. exfalso. apply Hnot. left.
        reflexivity.
      - apply IH. intros H. apply Hnot. right. exact H. }
    destruct (furnace_results df (with_id g c)) as [r|] eqn:Er.
    + destruct (forallb (has df) required_columns); [|discriminate].
      intros H. rewrite (IH _ Hn' H), get_set_item.
      destruct (String.eqb g f) eqn:E.
      * rewrite (Hl eq_refl). apply String.eqb_eq in E. subst g.
        rewrite Er. reflexivity.
      * reflexivity.
    + intros H. rewrite (IH _ Hn' H).
      destruct (String.eqb g f) eqn:E; [|reflexivity].
      rewrite (Hl eq_refl). apply String.eqb_eq in E. subst g.
      rewrite Er. reflexivity.
Qed.

End CapacityLoop.

(** ** Furnace averages of the cost per ton *)

Section FurnaceAverages.

Import CompleteAnalyzer.

Lemma Some_inj {A : Type} (x y : A) : Some x = Some y -> x = y.
Proof. intros H. injection H. auto. Qed.

Lemma analyze_furnace_avg_cost (df : frame) (f : string) :
  avg_cost_per_ton (analyze_furnace df f)
  = mean_or_0 (of_furnace f df) "Cost_per_Ton".
Proof. reflexivity. Qed.

Lemma mean_cost_of_furnace (df : frame) (f : string) :
  has (_calculate_metrics df) "Cost_per_Ton" = true ->
  view (fun r => (Frame.Furnace r, cell r "Cost_per_Ton"))
       (_calculate_metrics df)
  = map (fun r => (Frame.Furnace r,
                   ratio "Total Cost PLC" "Actual Production Qty" r))
        (rows df) ->
  mean_or_0 (of_furnace f (_calculate_metrics df)) "Cost_per_Ton"
  = Spec.mean_of_ratios (Spec.records_of f df).
Proof.
  intros Hh Hv. unfold mean_or_0.
  rewrite has_of_furnace, Hh, col_of_furnace, Hv, filter_map_pairs.
  reflexivity.
Qed.

Lemma analyze_by_furnace_entry (df : frame) (l : list (string * analysis))
    (f : string) (a : analysis) :
  _analyze_by_furnace df = Some l -> In (f, a) l -> a = analyze_furnace df f.
Proof.
  unfold _analyze_by_furnace. intros Hl Hin.
  destruct (forallb (has df) required_columns); [|discriminate].
  apply Some_inj in Hl. subst l. apply in_map_iff in Hin.
  destruct Hin as (g & E & _). congruence.
Qed.

Lemma complete_avg_cost_per_ton (df : frame) (l : list (string * analysis))
    (f : string) (a : analysis) :
  has df "Total Cost PLC" = true ->
  has df "Actual Production Qty" = true ->
  _analyze_by_furnace (_calculate_metrics df) = Some l ->
  In (f, a) l ->
  avg_cost_per_ton a = Spec.mean_of_ratios (Spec.records_of f df).
Proof.
  intros Hc Hq Hl Hin.
  rewrite (analyze_by_furnace_entry _ _ _ _ Hl Hin).
  destruct (cost_per_ton_view df Hc Hq) as [Hh Hv].
  rewrite analyze_furnace_avg_cost.
  apply mean_cost_of_furnace; assumption.
Qed.

Lemma capacity_avg_cost_mt (df : frame)
    (capacity : CapacityCalculator.FurnaceCapacity)
    (res : CapacityCalculator.results) :
  CapacityCalculator.furnace_results df capacity = Some res ->
  CapacityCalculator.avg_cost_mt res
  = Spec.ratio_of_sums
      (Spec.records_of (CapacityCalculator.furnace_id capacity) df).
Proof.
  unfold CapacityCalculator.furnace_results. intros H.
  destruct (rows (of_furnace (CapacityCalculator.furnace_id capacity) df));
    [discriminate|].
  injection H as <-. reflexivity.
Qed.

(** The same on the results that [_calculate_all_metrics] stores: the
    entry of a furnace holds the ratio of the sums over its records. *)
Lemma stored_avg_cost_mt (df : frame)
    (capacities : list (string * CapacityCalculator.FurnaceCapacity))
    (results : list (string * CapacityCalculator.results)) (f : string)
    (res : CapacityCalculator.results) :
  NoDup (map fst capacities) ->
  CapacityResults._calculate_all_metrics df capacities = Ok results ->
  CapacityResults.get_furnace_performance results f = Some res ->
  CapacityCalculator.avg_cost_mt res
  = Spec.ratio_of_sums (Spec.records_of f df).
Proof.
  intros Hn H. unfold CapacityResults.get_furnace_performance,
    CapacityResults._calculate_all_metrics in *.
  rewrite (metrics_loop_lookup _ _ _ _ f Hn H). cbn [get_item].
  destruct (get_item capacities f) as [c|]; [|discriminate].
  destruct (CapacityCalculator.furnace_results df
              (CapacityResults.with_id f c)) as [r|] eqn:E; [|discriminate].
  intros G. injection G as <-.
  apply (capacity_avg_cost_mt _ _ _ E).
Qed.

(** In accurate_analyzer the average is the mean of the ratios of the
    records of the furnace that have a positive production. *)
Lemma accurate_view (df : frame) :
  has df "Total Cost PLC" = true ->
  has df "Actual Production Qty" = true ->
  has (AccurateAnalyzer.analysis_df df) "Cost_per_Ton_Accurate" = true
  /\ view (fun r => (Frame.Furnace r,
                     AccurateAnalyzer.positive "Actual Production Qty" r,
                     cell r "Cost_per_Ton_Accurate"))
          (AccurateAnalyzer.analysis_df df)
     = map (fun r => (Frame.Furnace r,
                      AccurateAnalyzer.positive "Actual Production Qty" r,
                      if AccurateAnalyzer.positive "Actual Production Qty" r
                      then Spec.cost_per_ton r
                      else if has df "Cost_per_Ton_Accurate"
                           then cell r "Cost_per_Ton_Accurate" else NaN))
           (rows df).
Proof.
  intros Hc Hq. unfold AccurateAnalyzer.analysis_df.
  unfold AccurateAnalyzer.operational_availability,
    AccurateAnalyzer.ore_efficiency, AccurateAnalyzer.yield_percentage,
    assign_where.
  split.
  - repeat match goal with
           | |- context [if ?b then assign _ _ _ else _] => destruct b
           end;
      repeat rewrite has_assign;
      unfold AccurateAnalyzer.cost_per_ton, assign_where;
      rewrite Hc, Hq; simpl andb; cbv iota;
      rewrite has_assign, String.eqb_refl, ?orb_true_r; reflexivity.
  - repeat match goal with
           | |- context [if ?b then assign _ _ _ else _] => destruct b
           end;
      repeat (rewrite view_assign by (intros r v; reflexivity));
      unfold AccurateAnalyzer.cost_per_ton, assign_where;
      rewrite Hc, Hq; simpl andb; cbv iota;
      unfold view; rewrite rows_assign, map_map; reflexivity.
Qed.

Lemma produced_of_furnace (f : string) (g : row -> fnum) (l : list row) :
  map (fun x => snd x)
      (filter (fun x => snd (fst x))
         (filter (fun x => String.eqb (fst (fst x)) f)
            (map (fun r => (Frame.Furnace r,
                            AccurateAnalyzer.positive "Actual Production Qty" r,
                            if AccurateAnalyzer.positive "Actual Production Qty" r
                            then Spec.cost_per_ton r else g r)) l)))
  = map Spec.cost_per_ton
        (filter (AccurateAnalyzer.positive "Actual Production Qty")
           (filter (fun r => String.eqb (Frame.Furnace r) f) l)).
Proof.
  induction l as [|r l IH]; simpl; [reflexivity|].
  destruct (String.eqb (Frame.Furnace r) f); simpl; [|exact IH].
  destruct (AccurateAnalyzer.positive "Actual Production Qty" r); simpl;
    rewrite IH; reflexivity.
Qed.

Lemma mean_where_produced_view (f : string) (df : frame) :
  AccurateAnalyzer.mean_where_produced (of_furnace f df) "Cost_per_Ton_Accurate"
  = mean (map (fun x => snd x)
              (filter (fun x => snd (fst x))
                 (filter (fun x => String.eqb (fst (fst x)) f)
                    (view (fun r =>
                             (Frame.Furnace r,
                              AccurateAnalyzer.positive "Actual Production Qty" r,
                              cell r "Cost_per_Ton_Accurate")) df)))).
Proof.
  unfold AccurateAnalyzer.mean_where_produced, of_furnace, view. simpl rows.
  f_equal. induction (rows df) as [|r l IH]; simpl; [reflexivity|].
  destruct (String.eqb (Frame.Furnace r) f); simpl; [|exact IH].
  destruct (AccurateAnalyzer.positive "Actual Production Qty" r); simpl;
    rewrite IH; reflexivity.
Qed.

Lemma accurate_avg_cost_per_ton (df : frame) (f : string) :
  has df "Total Cost PLC" = true ->
  has df "Actual Production Qty" = true ->
  AccurateAnalyzer.avg_cost_per_ton (AccurateAnalyzer.analysis_df df) f
  = Spec.mean_of_ratios
      (filter (AccurateAnalyzer.positive "Actual Production Qty")
              (Spec.records_of f df)).
Proof.
  intros Hc Hq. destruct (accurate_view df Hc Hq) as [Hh Hv].
  unfold AccurateAnalyzer.avg_cost_per_ton. cbv zeta.
  rewrite has_of_furnace, Hh, mean_where_produced_view, Hv,
    produced_of_furnace.
  reflexivity.
Qed.

(** C5, as the code has it.  In complete_analyzer the average cost per
    ton of a furnace is the mean of the cost per ton of its records
    (mean of ratios, the records without a ratio skipped), and in
    accurate_analyzer the mean of the ratios of its records with a
    positive production; in capacity_calculator the average cost that
    [_calculate_all_metrics] stores for a furnace is its total cost
    divided by its total production (ratio of sums). *)
Theorem furnace_average_cost_per_module :
  (forall (df : frame) (l : list (string * analysis)) (f : string)
          (a : analysis),
     has df "Total Cost PLC" = true ->
     has df "Actual Production Qty" = true ->
     _analyze_by_furnace (_calculate_metrics df) = Some l ->
     In (f, a) l ->
     avg_cost_per_ton a = Spec.mean_of_ratios (Spec.records_of f df))
  /\ (forall (df : frame) (f : string),
        has df "Total Cost PLC" = true ->
        has df "Actual Production Qty" = true ->
        AccurateAnalyzer.avg_cost_per_ton (AccurateAnalyzer.analysis_df df) f
        = Spec.mean_of_ratios
            (filter (AccurateAnalyzer.positive "Actual Production Qty")
                    (Spec.records_of f df)))
  /\ (forall (df : frame)
              (capacities : list (string * CapacityCalculator.FurnaceCapacity))
              (results : list (string * CapacityCalculator.results))
              (f : string) (res : CapacityCalculator.results),
        NoDup (map fst capacities) ->
        CapacityResults._calculate_all_metrics df capacities = Ok results ->
        CapacityResults.get_furnace_performance results f = Some res ->
        CapacityCalculator.avg_cost_mt res
        = Spec.ratio_of_sums (Spec.records_of f df)).
Proof.
  split; [|split].
  - apply complete_avg_cost_per_ton.
  - apply accurate_avg_cost_per_ton.
  - apply stored_avg_cost_mt.
Qed.

Lemma furnace_average_cost_per_module_witness :
  (exists (a : analysis) (l : list (string * analysis)),
     _analyze_by_furnace (_calculate_metrics Examples.with_power_cost)
     = Some (("F1", a) :: l)
     /\ avg_cost_per_ton a
        = Spec.mean_of_ratios (Spec.records_of "F1" Examples.with_power_cost))
  /\ (exists (results : list (string * CapacityCalculator.results))
              (res : CapacityCalculator.results),
        CapacityResults._calculate_all_metrics Examples.with_power_cost
          Examples.capacities_F1_F3 = Ok results
        /\ CapacityResults.get_furnace_performance results "F1" = Some res
        /\ CapacityCalculator.avg_cost_mt res
           = Spec.ratio_of_sums
               (Spec.records_of "F1" Examples.with_power_cost)).
Proof.
  destruct furnace_average_cost_per_module as (H1 & _ & H2).
  split.
  - eexists. eexists. split; [vm_compute; reflexivity|].
    eapply (H1 Examples.with_power_cost _ "F1" _ eq_refl eq_refl);
      [vm_compute; reflexivity | left; reflexivity].
  - assert (H : exists (results : list (string * CapacityCalculator.results))
                       (res : CapacityCalculator.results),
                  CapacityResults._calculate_all_metrics
                    Examples.with_power_cost Examples.capacities_F1_F3
                  = Ok results
                  /\ CapacityResults.get_furnace_performance results "F1"
                     = Some res).
    { eexists. eexists. split; vm_compute; reflexivity. }
    destruct H as (results & res & H & G). exists results, res.
    split; [exact H|]. split; [exact G|].
    apply (H2 Examples.with_power_cost Examples.capacities_F1_F3 results
              "F1" res); [|exact H | exact G].
    repeat constructor; simpl; intuition discriminate.
Defined.

(** C5 as stated fails: on one table, whose furnace F1 has the two
    records (cost 100 for 1 ton) and (cost 100 for 4 tons),
    complete_analyzer gives F1 the mean of the ratios, 62.5, and
    capacity_calculator the ratio of the sums, 40. *)
Lemma modules_average_differently :
  exists (l : list (string * analysis)) (a : analysis)
         (results : list (string * CapacityCalculator.results))
         (res : CapacityCalculator.results),
    _analyze_by_furnace (_calculate_metrics Examples.with_power_cost) = Some l
    /\ In ("F1", a) l
    /\ CapacityResults._calculate_all_metrics Examples.with_power_cost
         Examples.capacities_F1_F3 = Ok results
    /\ CapacityResults.get_furnace_performance results "F1" = Some res
    /\ feq (avg_cost_per_ton a) (Fin 62.5)
    /\ feq (CapacityCalculator.avg_cost_mt res) (Fin 40)
    /\ ~ feq (CapacityCalculator.avg_cost_mt res)
             (Spec.mean_of_ratios
                (Spec.records_of "F1" Examples.with_power_cost)).
Proof.
  eexists. eexists. eexists. eexists.
  split; [vm_compute; reflexivity|]. split; [left; reflexivity|].
  split; [vm_compute; reflexivity|].
  split; [vm_compute; reflexivity|].
  split; [apply feqb_feq; vm_compute; reflexivity|].
  split; [apply feqb_feq; vm_compute; reflexivity|].
  intros H. apply feqb_feq in H. vm_compute in H. discriminate.
Qed.

End FurnaceAverages.

(** ** Cost per ton of a record without production *)

Section CostPerTon.

Import CompleteAnalyzer.

(** In complete_analyzer every record gets the quotient, whatever its
    production. *)
Lemma complete_cost_per_ton_column (df : frame) :
  has df "Total Cost PLC" = true ->
  has df "Actual Production Qty" = true ->
  col (_calculate_metrics df) "Cost_per_Ton"
  = map (ratio "Total Cost PLC" "Actual Production Qty") (rows df).
Proof.
  intros Hc Hq. destruct (cost_per_ton_view df Hc Hq) as [_ Hv].
  transitivity
    (map snd (view (fun r => (Frame.Furnace r, cell r "Cost_per_Ton"))
                   (_calculate_metrics df))).
  - unfold col, view. rewrite map_map. reflexivity.
  - rewrite Hv, map_map. reflexivity.
Qed.

(** In accurate_analyzer the quotient is written on the records with a
    positive production, and the others are left missing. *)
Lemma accurate_cost_per_ton_column (df : frame) :
  has df "Total Cost PLC" = true ->
  has df "Actual Production Qty" = true ->
  has df "Cost_per_Ton_Accurate" = false ->
  col (AccurateAnalyzer.analysis_df df) "Cost_per_Ton_Accurate"
  = map (fun r => if fgt (cell r "Actual Production Qty") (Fin 0)
                  then fdiv (cell r "Total Cost PLC")
                            (cell r "Actual Production Qty")
                  else NaN)
        (rows df).
Proof.
  intros Hc Hq Hn. unfold AccurateAnalyzer.analysis_df.
  assert (E : col (AccurateAnalyzer.cost_per_ton df) "Cost_per_Ton_Accurate"
              = map (fun r => if fgt (cell r "Actual Production Qty") (Fin 0)
                              then fdiv (cell r "Total Cost PLC")
                                        (cell r "Actual Production Qty")
                              else NaN) (rows df)).
  { unfold AccurateAnalyzer.cost_per_ton. rewrite Hc, Hq. simpl andb. cbv iota.
    unfold assign_where. rewrite col_assign_same, Hn. reflexivity. }
  rewrite <- E.
  unfold AccurateAnalyzer.operational_availability,
    AccurateAnalyzer.ore_efficiency, AccurateAnalyzer.yield_percentage,
    assign_where.
  repeat match goal with
         | |- context [if ?b then assign _ _ _ else _] => destruct b
         end;
    repeat (rewrite col_assign_other by reflexivity); reflexivity.
Qed.

(** C1 at the failing record.  The third record of the sample table has
    a total cost of 100 and a production of 0.  complete_analyzer gives
    it an infinite cost per ton, the average of its furnace F2 is
    infinite, and the cost rule emits a high-severity finding for F2 that
    carries the infinite value; accurate_analyzer leaves the cost per ton
    of that record missing. *)
Theorem infinite_cost_per_ton_reaches_a_finding :
  nth 2 (col (_calculate_metrics Samples.two_furnaces) "Cost_per_Ton") NaN
  = PInf
  /\ nth 2 (col (AccurateAnalyzer.analysis_df Samples.two_furnaces)
                "Cost_per_Ton_Accurate") PInf
     = NaN
  /\ exists (l : list (string * analysis)) (a : analysis) (i : finding),
       _analyze_by_furnace (_calculate_metrics Samples.two_furnaces) = Some l
       /\ In ("F2", a) l
       /\ avg_cost_per_ton a = PInf
       /\ In i (ComprehensiveInsights._generate_cost_insights
                  Samples.targets l)
       /\ Finding.furnace i = Some "F2"
       /\ severity i = "high"
       /\ In ("Current Cost", DNum PInf) (data i).
Proof.
  split; [vm_compute; reflexivity|].
  split; [vm_compute; reflexivity|].
  eexists. eexists. eexists.
  split; [vm_compute; reflexivity|].
  split; [right; left; reflexivity|].
  split; [reflexivity|].
  split; [vm_compute; left; reflexivity|].
  split; [reflexivity|]. split; [reflexivity|].
  left. reflexivity.
Qed.

End CostPerTon.

(** ** The cost rule *)

Section CostRule.

Lemma unique_key {A B : Type} (l : list (A * B)) (k : A) (a b : B) :
  NoDup (map fst l) -> In (k, a) l -> In (k, b) l -> a = b.
Proof.
  induction l as [|[k' c] l IH]; simpl; intros Hn Ha Hb; [contradiction|].
  inversion Hn as [|? ? Hnot Hn']; subst.
  destruct Ha as [Ha|Ha], Hb as [Hb|Hb].
  - congruence.
  - injection Ha as -> ->. exfalso. apply Hnot.
    apply in_map_iff. exists (k, b). split; [reflexivity | exact Hb].
  - injection Hb as -> ->. exfalso. apply Hnot.
    apply in_map_iff. exists (k, a). split; [reflexivity | exact Ha].
  - apply IH; assumption.
Qed.

Lemma unique_by {A B : Type} (key : A -> B) (l : list A) (x y : A) :
  NoDup (map key l) -> In x l -> In y l -> key x = key y -> x = y.
Proof.
  induction l as [|z l IH]; simpl; intros Hn Hx Hy E; [contradiction|].
  inversion Hn as [|? ? Hnot Hn']; subst.
  destruct Hx as [Hx|Hx], Hy as [Hy|Hy].
  - congruence.
  - subst z. exfalso. apply Hnot. rewrite E. apply in_map. exact Hy.
  - subst z. exfalso. apply Hnot. rewrite <- E. apply in_map. exact Hx.
  - apply IH; assumption.
Qed.

(** The threshold on numbers: the product that the code computes lies
    within a relative [2^-51] of 1.15 times the target, and the rule asks
    for a cost strictly above the computed product. *)
Lemma above_target_Fin (c t : Q) :
  pow2 (-1000) <= t <= pow2 1000 ->
  exists p : Q,
    dmul (Fin t) (literal 1.15) = Fin p
    /\ Qabs (p - t * 1.15) <= t * 1.15 * pow2 (-51)
    /\ (fgt (Fin c) (dmul (Fin t) (literal 1.15)) = true <-> p < c)
    /\ (c == p -> fgt (Fin c) (dmul (Fin t) (literal 1.15)) = false).
Proof.
  intros Ht. destruct (product_1_15_close t Ht) as (p & Ep & Hp).
  exists p. split; [exact Ep|]. split; [exact Hp|]. rewrite Ep.
  split; [apply fgt_Fin|].
  intros E. destruct (fgt (Fin c) (Fin p)) eqn:G; [|reflexivity].
  apply fgt_Fin in G. lra.
Qed.

Lemma comprehensive_cost_rule (tg : ComprehensiveInsights.targets)
    (l : list (string * CompleteAnalyzer.analysis)) (f : string)
    (a : CompleteAnalyzer.analysis) :
  NoDup (map fst l) -> In (f, a) l ->
  (emits "cost" "high" f (ComprehensiveInsights._generate_cost_insights tg l)
   <-> fgt (CompleteAnalyzer.avg_cost_per_ton a)
           (dmul (ComprehensiveInsights.t_Cost_per_Ton tg) (literal 1.15)) = true).
Proof.
  intros Hn Hin. unfold ComprehensiveInsights._generate_cost_insights. split.
  - intros (i & Hi & _ & _ & Hf). apply in_flat_map in Hi.
    destruct Hi as ([g b] & Hgb & Hi).
    unfold ComprehensiveInsights.cost_insight in Hi.
    destruct (fgt (CompleteAnalyzer.avg_cost_per_ton b) _) eqn:E;
      [|contradiction].
    destruct Hi as [<-|[]]. simpl in Hf. injection Hf as ->.
    rewrite (unique_key l f a b Hn Hin Hgb). exact E.
  - intros E. eexists. split.
    + apply in_flat_map. exists (f, a). split; [exact Hin|].
      unfold ComprehensiveInsights.cost_insight. rewrite E. left. reflexivity.
    + simpl. auto.
Qed.

(** The loop of insights_final as one pass over the rows. *)
Lemma furnace_cost_insights_Ok (targets : list (string * fnum))
    (target_cost : fnum) (furnace_summary : list InsightsFinal.furnace_row) :
  InsightsFinal.get targets "cost_per_ton" = Some target_cost ->
  exists out : list finding,
    InsightsFinal.furnace_cost_insights targets furnace_summary = Ok out
    /\ (forall f : string,
          emits "cost" "high" f out
          <-> exists r : InsightsFinal.furnace_row,
                In r furnace_summary /\ InsightsFinal.Furnace r = f
                /\ fgt (InsightsFinal.cost_per_ton_mean r)
                       (dmul target_cost (literal 1.15)) = true).
Proof.
  intros Hg. induction furnace_summary as [|r l IH].
  - exists []. split; [reflexivity|]. intros f. split.
    + intros (i & [] & _).
    + intros (r & [] & _).
  - destruct IH as (out & Hout & Hiff). simpl.
    destruct (isna (InsightsFinal.cost_per_ton_mean r)) eqn:Hna.
    + exists out. split; [exact Hout|]. intros f. rewrite Hiff. split.
      * intros (r' & H1 & H2). exists r'. tauto.
      * intros (r' & [<-|H1] & H2 & H3).
        -- destruct (InsightsFinal.cost_per_ton_mean r); try discriminate.
           unfold fgt in H3. rewrite flt_nan_r in H3. discriminate.
        -- exists r'. tauto.
    + rewrite Hg, Hout. simpl.
      destruct (fgt (InsightsFinal.cost_per_ton_mean r)
                    (dmul target_cost (literal 1.15))) eqn:E.
      * eexists. split; [reflexivity|]. intros f. split.
        -- intros (i & [<-|Hi] & Hc & Hs & Hf).
           ++ simpl in Hf. injection Hf as <-. exists r. simpl. auto.
           ++ destruct (proj1 (Hiff f)) as (r' & H1 & H2 & H3).
              { exists i. auto. }
              exists r'. simpl. auto.
        -- intros (r' & [<-|H1] & H2 & H3).
           ++ eexists. split; [left; reflexivity|]. simpl. subst f. auto.
           ++ destruct (proj2 (Hiff f)) as (i & Hi & Hrest).
              { exists r'. auto. }
              exists i. split; [right; exact Hi | exact Hrest].
      * exists out. split; [reflexivity|]. intros f. rewrite Hiff. split.
        -- intros (r' & H1 & H2). exists r'. simpl. tauto.
        -- intros (r' & [<-|H1] & H2 & H3); [congruence|].
           exists r'. tauto.
Qed.

Lemma cost_driver_no_furnace (df : frame) (i : finding) :
  In i (InsightsFinal.cost_driver_insight df) -> Finding.furnace i = None.
Proof.
  unfold InsightsFinal.cost_driver_insight.
  destruct (filter (has df) InsightsFinal.cost_columns); [contradiction|].
  match goal with |- context [if ?b then _ else _] => destruct b end;
    [|contradiction].
  intros [<-|[]]. reflexivity.
Qed.

Lemma final_cost_rule (targets : list (string * fnum)) (target_cost : fnum)
    (df : frame) (furnace_summary : list InsightsFinal.furnace_row)
    (r : InsightsFinal.furnace_row) :
  InsightsFinal.get targets "cost_per_ton" = Some target_cost ->
  has df "cost_per_ton" = true ->
  NoDup (map InsightsFinal.Furnace furnace_summary) ->
  In r furnace_summary ->
  exists out : list finding,
    InsightsFinal._generate_cost_insights targets df furnace_summary = Ok out
    /\ (emits "cost" "high" (InsightsFinal.Furnace r) out
        <-> fgt (InsightsFinal.cost_per_ton_mean r)
                (dmul target_cost (literal 1.15)) = true).
Proof.
  intros Hg Hh Hn Hin.
  destruct (furnace_cost_insights_Ok targets target_cost furnace_summary Hg)
    as (high & Hhigh & Hiff).
  unfold InsightsFinal._generate_cost_insights. rewrite Hh. simpl negb.
  cbv iota. destruct furnace_summary as [|r0 l]; [contradiction|].
  rewrite Hhigh. simpl bind.
  eexists. split; [reflexivity|]. split.
  - intros (i & Hi & Hc & Hs & Hf). apply in_app_or in Hi.
    destruct Hi as [Hi|Hi].
    + destruct (proj1 (Hiff (InsightsFinal.Furnace r))) as (r' & H1 & H2 & H3).
      { exists i. auto. }
      rewrite <- (unique_by InsightsFinal.Furnace _ r' r Hn H1 Hin H2).
      exact H3.
    + rewrite (cost_driver_no_furnace df i Hi) in Hf. discriminate.
  - intros E.
    destruct (proj2 (Hiff (InsightsFinal.Furnace r))) as (i & Hi & Hrest).
    { exists r. auto. }
    exists i. split; [apply in_or_app; left; exact Hi | exact Hrest].
Qed.

(** C2, as the code has it.  In comprehensive_insights and in
    insights_final (on the average of the furnace summary) the cost rule
    emits its high-severity finding for a furnace if and only if the
    average cost per ton of the furnace is strictly greater than the
    product of the target cost and 1.15 as the code computes it, in
    double precision; at an average equal to the computed product it
    emits none.  The computed product lies within a relative [2^-51] of
    the exact one. *)
Theorem cost_high_rule_strict :
  (forall (tg : ComprehensiveInsights.targets)
          (l : list (string * CompleteAnalyzer.analysis)) (f : string)
          (a : CompleteAnalyzer.analysis),
     NoDup (map fst l) -> In (f, a) l ->
     (emits "cost" "high" f (ComprehensiveInsights._generate_cost_insights tg l)
      <-> fgt (CompleteAnalyzer.avg_cost_per_ton a)
              (dmul (ComprehensiveInsights.t_Cost_per_Ton tg) (literal 1.15))
          = true))
  /\ (forall (targets : list (string * fnum)) (target_cost : fnum)
              (df : frame) (furnace_summary : list InsightsFinal.furnace_row)
              (r : InsightsFinal.furnace_row),
        InsightsFinal.get targets "cost_per_ton" = Some target_cost ->
        has df "cost_per_ton" = true ->
        NoDup (map InsightsFinal.Furnace furnace_summary) ->
        In r furnace_summary ->
        exists out : list finding,
          InsightsFinal._generate_cost_insights targets df furnace_summary
          = Ok out
          /\ (emits "cost" "high" (InsightsFinal.Furnace r) out
              <-> fgt (InsightsFinal.cost_per_ton_mean r)
                      (dmul target_cost (literal 1.15)) = true))
  /\ (forall c t : Q,
        pow2 (-1000) <= t <= pow2 1000 ->
        exists p : Q,
          dmul (Fin t) (literal 1.15) = Fin p
          /\ Qabs (p - t * 1.15) <= t * 1.15 * pow2 (-51)
          /\ (fgt (Fin c) (dmul (Fin t) (literal 1.15)) = true <-> p < c)
          /\ (c == p ->
              fgt (Fin c) (dmul (Fin t) (literal 1.15)) = false)).
Proof.
  split; [|split].
  - apply comprehensive_cost_rule.
  - apply final_cost_rule.
  - apply above_target_Fin.
Qed.

Lemma NoDup_F1_F2 : NoDup ["F1"; "F2"].
Proof.
  constructor.
  - simpl. intros [H|[]]. discriminate.
  - constructor; [simpl; tauto | constructor].
Qed.

Lemma cost_high_rule_strict_witness :
  (~ emits "cost" "high" "F1"
       (ComprehensiveInsights._generate_cost_insights Samples.targets_40000
          Samples.at_the_boundary))
  /\ emits "cost" "high" "F2"
       (ComprehensiveInsights._generate_cost_insights Samples.targets_40000
          Samples.at_the_boundary)
  /\ (exists out : list finding,
        InsightsFinal._generate_cost_insights InsightsFinal.default_targets
          Samples.processed Samples.summary_at_the_boundary = Ok out
        /\ emits "cost" "high" "F2" out
        /\ ~ emits "cost" "high" "F1" out)
  /\ (exists p : Q,
        dmul (Fin 40000) (literal 1.15) = Fin p /\ p == 46000
        /\ fgt (Fin 46000) (dmul (Fin 40000) (literal 1.15)) = false).
Proof.
  destruct cost_high_rule_strict as (H1 & H2 & H3).
  split; [|split; [|split]].
  - intros E.
    apply (H1 Samples.targets_40000 Samples.at_the_boundary "F1" _
              NoDup_F1_F2 (or_introl eq_refl)) in E.
    vm_compute in E. discriminate.
  - apply (H1 Samples.targets_40000 Samples.at_the_boundary "F2" _
              NoDup_F1_F2 (or_intror (or_introl eq_refl))).
    vm_compute. reflexivity.
  - destruct (H2 InsightsFinal.default_targets (Fin 50000) Samples.processed
                 Samples.summary_at_the_boundary
                 (InsightsFinal.mkFurnaceRow "F2" (Fin 57505) (Fin 71) (Fin 45)
                    (Fin 1000))
                 eq_refl eq_refl NoDup_F1_F2
                 (or_intror (or_introl eq_refl))) as (out & Hout & Hiff).
    destruct (H2 InsightsFinal.default_targets (Fin 50000) Samples.processed
                 Samples.summary_at_the_boundary
                 (InsightsFinal.mkFurnaceRow "F1" (Fin 57000) (Fin 73) (Fin 45)
                    (Fin 1000))
                 eq_refl eq_refl NoDup_F1_F2 (or_introl eq_refl))
      as (out' & Hout' & Hiff').
    exists out. split; [exact Hout|]. split.
    + apply Hiff. vm_compute. reflexivity.
    + rewrite Hout in Hout'. injection Hout' as <-. intros E.
      apply Hiff' in E. vm_compute in E. discriminate.
  - destruct (H3 46000 40000) as (p & Ep & _ & _ & Hq).
    { split; vm_compute; discriminate. }
    exists p. split; [exact Ep|].
    assert (E : p == 46000).
    { assert (G : dmul (Fin 40000) (literal 1.15) = Fin 46000)
        by (vm_compute; reflexivity).
      rewrite G in Ep. injection Ep as <-. reflexivity. }
    split; [exact E|]. apply Hq. rewrite E. reflexivity.
Defined.

(** C2 as stated fails: 57500 is 50000 times 1.15, and at an average of
    exactly 57500 against the target of 50000 both generators emit the
    finding, because the product that the code computes is the next
    double below 57500. *)
Lemma cost_finding_at_the_exact_product :
  57500 == 50000 * 1.15
  /\ (exists p : Q,
        dmul (Fin 50000) (literal 1.15) = Fin p
        /\ p == 57500 - pow2 (-37))
  /\ emits "cost" "high" "F1"
       (ComprehensiveInsights._generate_cost_insights Examples.targets_50000
          Examples.at_57500)
  /\ exists out : list finding,
       InsightsFinal._generate_cost_insights InsightsFinal.default_targets
         Samples.processed Examples.summary_at_57500 = Ok out
       /\ emits "cost" "high" "F1" out.
Proof.
  split; [reflexivity|]. split.
  - eexists. split; [vm_compute; reflexivity|]. vm_compute. reflexivity.
  - split.
    + eexists. split; [vm_compute; left; reflexivity|].
      split; [reflexivity|]. split; reflexivity.
    + eexists. split; [vm_compute; reflexivity|].
      eexists. split; [left; reflexivity|].
      split; [reflexivity|]. split; reflexivity.
Qed.

End CostRule.

(** ** The manganese recovery rule *)

Section RecoveryRule.



(** With the targets of [__init__] the generator of insights_final finds
    no target under the keys it builds, and emits nothing. *)
Remark final_recovery_default_targets (df : frame)
    (furnace_summary : list InsightsFinal.furnace_row) :
  InsightsFinal._generate_recovery_insights InsightsFinal.default_targets df
    furnace_summary = [].
Proof.
  unfold InsightsFinal._generate_recovery_insights,
    InsightsFinal.recovery_insights_for. simpl flat_map.
  destruct (has df "MN Recovery PLC"), (has df "SI Recovery PLC");
    destruct furnace_summary; reflexivity.
Qed.







End RecoveryRule.

(** ** Quality deviations *)

Section QualityDeviation.

Import ComprehensiveInsights.

Lemma deviation_title_param (p q : quality_param) (f : string) :
  In p quality_params -> In q quality_params ->
  deviation_title p f = deviation_title q f -> p = q.
Proof.
  unfold deviation_title. simpl. intros Hp Hq E.
  repeat (destruct Hp as [<-|Hp]; [|]); try contradiction;
    repeat (destruct Hq as [<-|Hq]; [|]); try contradiction;
    simpl in E; try reflexivity; discriminate.
Qed.

Lemma deviation_insight_spec (f : string) (a : CompleteAnalyzer.analysis)
    (p : quality_param) (i : finding) :
  In i (deviation_insight f a p) ->
  title i = deviation_title p f /\ Finding.furnace i = Some f
  /\ category i = "quality"
  /\ fgt (analysis_key p a) (Fin 0) = true
  /\ outside (optimal p) (analysis_key p a) = true.
Proof.
  unfold deviation_insight.
  destruct (fgt (analysis_key p a) (Fin 0)); [|contradiction].
  destruct (outside (optimal p) (analysis_key p a)); [|contradiction].
  intros [<-|[]]. simpl. auto.
Qed.

Lemma deviation_insight_fires (f : string) (a : CompleteAnalyzer.analysis)
    (p : quality_param) :
  fgt (analysis_key p a) (Fin 0) = true ->
  outside (optimal p) (analysis_key p a) = true ->
  exists i, In i (deviation_insight f a p)
            /\ title i = deviation_title p f /\ Finding.furnace i = Some f.
Proof.
  intros H1 H2. unfold deviation_insight. rewrite H1, H2.
  eexists. split; [left; reflexivity|]. simpl. auto.
Qed.

Lemma quality_deviation_rule (l : list (string * CompleteAnalyzer.analysis))
    (f : string) (a : CompleteAnalyzer.analysis) (p : quality_param) :
  NoDup (map fst l) -> In (f, a) l -> In p quality_params ->
  (emits_titled (deviation_title p f) f (_generate_quality_insights l)
   <-> fgt (analysis_key p a) (Fin 0) = true
       /\ outside (optimal p) (analysis_key p a) = true).
Proof.
  intros Hn Hin Hp. unfold _generate_quality_insights. split.
  - intros (i & Hi & Ht & Hf). apply in_flat_map in Hi.
    destruct Hi as ([g b] & Hgb & Hi). apply in_app_or in Hi.
    destruct Hi as [Hi|Hi].
    + apply in_flat_map in Hi. destruct Hi as (q & Hq & Hi).
      apply deviation_insight_spec in Hi.
      destruct Hi as (Ht' & Hf' & _ & H1 & H2).
      rewrite Hf in Hf'. injection Hf' as <-.
      rewrite Ht in Ht'.
      rewrite (deviation_title_param p q f Hp Hq Ht').
      rewrite (unique_key l f a b Hn Hin Hgb). auto.
    + unfold quality_score_insight in Hi.
      destruct (flt (CompleteAnalyzer.avg_quality_score b) (Fin 70));
        [|contradiction].
      destruct Hi as [<-|[]]. simpl in Ht. exfalso.
      unfold deviation_title in Ht. simpl in Hp.
      repeat (destruct Hp as [<-|Hp]; [discriminate|]). contradiction.
  - intros [H1 H2].
    destruct (deviation_insight_fires f a p H1 H2) as (i & Hi & Ht & Hf).
    exists i. split; [|auto].
    apply in_flat_map. exists (f, a). split; [exact Hin|].
    apply in_or_app. left. apply in_flat_map. exists p. auto.
Qed.

(** C10.  In [_generate_quality_insights] the deviation finding of a
    parameter for a furnace is emitted exactly when the furnace average
    of the parameter is strictly positive and outside the optimal band.
    An average that is zero, negative or missing gives no deviation
    finding for that parameter, of any severity, although zero is
    outside the optimal band of each of the four parameters. *)
Theorem quality_deviation_needs_positive_average :
  (forall (l : list (string * CompleteAnalyzer.analysis)) (f : string)
          (a : CompleteAnalyzer.analysis) (p : quality_param),
     NoDup (map fst l) -> In (f, a) l -> In p quality_params ->
     (emits_titled (param_name p +++ " Deviation - " +++ f) f
        (_generate_quality_insights l)
      <-> fgt (analysis_key p a) (Fin 0) = true
          /\ outside (optimal p) (analysis_key p a) = true)
     /\ (fgt (analysis_key p a) (Fin 0) = false ->
         ~ emits_titled (param_name p +++ " Deviation - " +++ f) f
             (_generate_quality_insights l)))
  /\ (forall q : Q, q <= 0 -> fgt (Fin q) (Fin 0) = false)
  /\ fgt NaN (Fin 0) = false
  /\ (forall p : quality_param,
        In p quality_params -> outside (optimal p) (Fin 0) = true).
Proof.
  split; [|split; [|split]].
  - intros l f a p Hn Hin Hp.
    pose proof (quality_deviation_rule l f a p Hn Hin Hp) as R.
    split; [exact R|].
    intros H E. apply R in E. destruct E as [E _]. congruence.
  - intros q Hq. apply Qltb_ge. exact Hq.
  - reflexivity.
  - intros p Hp. simpl in Hp.
    repeat (destruct Hp as [<-|Hp]; [reflexivity|]). contradiction.
Qed.

Lemma quality_deviation_needs_positive_average_witness :
  (emits_titled "Grade SI Deviation - F2" "F2"
     (_generate_quality_insights Samples.at_the_boundary)
   <-> fgt (Fin 17) (Fin 0) = true /\ outside (16, 18) (Fin 17) = true)
  /\ ~ emits_titled "Grade MN Deviation - F2" "F2"
         (_generate_quality_insights Samples.at_the_boundary)
  /\ fgt (Fin 0) (Fin 0) = false
  /\ outside (68, 72) (Fin 0) = true.
Proof.
  destruct quality_deviation_needs_positive_average as (H1 & H2 & _ & H4).
  split; [|split; [|split]].
  - apply (H1 Samples.at_the_boundary "F2" _
              (mkParam "Grade SI" CompleteAnalyzer.avg_grade_si (16, 18) (15, 20))
              NoDup_F1_F2 (or_intror (or_introl eq_refl))
              (or_intror (or_introl eq_refl))).
  - apply (H1 Samples.at_the_boundary "F2" _
              (mkParam "Grade MN" CompleteAnalyzer.avg_grade_mn (68, 72) (65, 75))
              NoDup_F1_F2 (or_intror (or_introl eq_refl))
              (or_introl eq_refl)).
    vm_compute. reflexivity.
  - apply (H2 0). vm_compute. discriminate.
  - apply (H4 (mkParam "Grade MN" CompleteAnalyzer.avg_grade_mn (68, 72)
                 (65, 75))).
    left. reflexivity.
Defined.

End QualityDeviation.

(** ** Positions of the extreme values *)

Section Extremes.

Variable better : fnum -> fnum -> bool.
Hypothesis better_asym :
  forall x y, better x y = true -> better y x = false.
Hypothesis better_trans :
  forall x y z, better x y = true -> better y z = true -> better x z = true.
Hypothesis better_negtrans :
  forall x y z, better x z = true -> isna y = false ->
                better x y = true \/ better y z = true.





End Extremes.

Section OrderOfValues.

Lemma flt_asym (x y : fnum) : flt x y = true -> flt y x = false.
Proof.
  destruct x as [a| | |], y as [b| | |]; simpl; trivial; try discriminate.
  intros H. apply Qltb_lt in H. apply Qltb_ge. lra.
Qed.

Lemma flt_trans (x y z : fnum) :
  flt x y = true -> flt y z = true -> flt x z = true.
Proof.
  destruct x as [a| | |], y as [b| | |], z as [c| | |]; simpl; trivial;
    try discriminate.
  intros H1 H2. apply Qltb_lt in H1, H2. apply Qltb_lt. lra.
Qed.

Lemma flt_negtrans (x y z : fnum) :
  flt x z = true -> isna y = false -> flt x y = true \/ flt y z = true.
Proof.
  destruct x as [a| | |], y as [b| | |], z as [c| | |]; simpl; intros H1 H2;
    try discriminate; auto.
  apply Qltb_lt in H1.
  destruct (Qlt_le_dec a b) as [L|G].
  - left. apply Qltb_lt. exact L.
  - right. apply Qltb_lt. lra.
Qed.

Lemma fgt_asym (x y : fnum) : fgt x y = true -> fgt y x = false.
Proof. unfold fgt. apply flt_asym. Qed.

Lemma fgt_trans (x y z : fnum) :
  fgt x y = true -> fgt y z = true -> fgt x z = true.
Proof. unfold fgt. intros H1 H2. apply (flt_trans z y x); assumption. Qed.

Lemma fgt_negtrans (x y z : fnum) :
  fgt x z = true -> isna y = false -> fgt x y = true \/ fgt y z = true.
Proof.
  unfold fgt. intros H1 H2.
  destruct (flt_negtrans z y x H1 H2); auto.
Qed.



End OrderOfValues.

(** ** The comparative ranker *)

Section Comparative.

Import ComprehensiveInsights.
Import CompleteAnalyzer.

















(** In insights_engine the comparison has no guard on the sign of the
    best value, as comprehensive_insights has: two furnaces with the
    same negative average cost get a cost finding that names the first
    of them as the best and as the worst. *)
Remark same_furnace_on_negative_values :
  exists i : finding,
    InsightsEngine._analyze_comparative Samples.engine_table
      Examples.equal_negative_costs = Ok [i]
    /\ In ("best", DNamed "F1" (Fin (-100))) (data i)
    /\ In ("worst", DNamed "F1" (Fin (-100))) (data i).
Proof.
  eexists. split; [vm_compute; reflexivity|].
  split; [left; reflexivity | right; left; reflexivity].
Qed.

End Comparative.

(** ** Unit corrections *)

Section UnitCorrections.

Import FixedAnalyzer.

Lemma col_scale_same (c : string) (k : Q) (df : frame) :
  col (scale c k df) c = map (fun x => fmul x (Fin k)) (col df c).
Proof.
  unfold scale. rewrite col_assign_same. unfold col. rewrite map_map.
  reflexivity.
Qed.

Lemma has_scale (c : string) (k : Q) (df : frame) (c' : string) :
  has df c = true -> has (scale c k df) c' = has df c'.
Proof.
  intros H. unfold scale. rewrite has_assign.
  destruct (String.eqb c' c) eqn:E.
  - apply String.eqb_eq in E. subst c'. rewrite H. reflexivity.
  - apply orb_false_r.
Qed.

Lemma has_fix_recovery (c : string) (df : frame) (c' : string) :
  has (fix_recovery c df) c' = has df c'.
Proof.
  unfold fix_recovery. destruct (has df c) eqn:H; [|reflexivity].
  apply has_scale. exact H.
Qed.

Lemma col_fix_recovery_other (c : string) (df : frame) (c' : string) :
  String.eqb c' c = false -> col (fix_recovery c df) c' = col df c'.
Proof.
  intros E. unfold fix_recovery, scale. destruct (has df c); [|reflexivity].
  apply col_assign_other. exact E.
Qed.

Lemma col_fix_recovery_same (c : string) (df : frame) :
  has df c = true -> col (fix_recovery c df) c = map times100 (col df c).
Proof.
  intros H. unfold fix_recovery. rewrite H. apply col_scale_same.
Qed.

Lemma has_fix_small (c : string) (bound : Q) (df : frame) (c' : string) :
  has (fix_small c bound df) c' = has df c'.
Proof.
  unfold fix_small. destruct (has df c) eqn:H; [|reflexivity].
  destruct (flt _ _); [|reflexivity]. apply has_scale. exact H.
Qed.

Lemma col_fix_small_other (c : string) (bound : Q) (df : frame) (c' : string) :
  String.eqb c' c = false -> col (fix_small c bound df) c' = col df c'.
Proof.
  intros E. unfold fix_small, scale. destruct (has df c); [|reflexivity].
  destruct (flt _ _); [|reflexivity]. apply col_assign_other. exact E.
Qed.

Lemma col_fix_small_same (c : string) (bound : Q) (df : frame) :
  has df c = true ->
  col (fix_small c bound df) c
  = if flt (maximum (col df c)) (Fin bound)
    then map times100 (col df c) else col df c.
Proof.
  intros H. unfold fix_small. rewrite H.
  destruct (flt _ _); [apply col_scale_same | reflexivity].
Qed.

Lemma has_fix_power (df : frame) (c' : string) :
  has (fix_power df) c' = has df c'.
Proof.
  unfold fix_power.
  destruct (has df "Furnace Power Consumption") eqn:H; [|reflexivity].
  destruct (flt _ (Fin 1000)); [|reflexivity]. cbv zeta.
  destruct (flt _ (Fin 100)); [|reflexivity].
  destruct (has (scale _ _ df) "Aux power Consumption") eqn:H'.
  - rewrite has_scale by exact H'. apply has_scale. exact H.
  - apply has_scale. exact H.
Qed.

Lemma col_fix_power_other (df : frame) (c' : string) :
  String.eqb c' "Furnace Power Consumption" = false ->
  String.eqb c' "Aux power Consumption" = false ->
  col (fix_power df) c' = col df c'.
Proof.
  intros E1 E2. unfold fix_power, scale.
  repeat match goal with
         | |- context [if ?b then _ else _] => destruct b
         | |- context [let x := _ in _] => cbv zeta
         end;
    repeat (rewrite col_assign_other by assumption); reflexivity.
Qed.

(** What the corrections do to a recovery column and to the load
    factor. *)
Lemma recovery_column_corrected (df : frame) (c : string) :
  In c [ "MN Recovery PLC"; "SI Recovery PLC"; "MN Recovery Feeding";
         "SI Recovery Feeding" ] ->
  has df c = true ->
  col (unit_corrections df) c = map times100 (col df c).
Proof.
  intros Hc H. unfold unit_corrections. simpl in Hc.
  destruct Hc as [<-|[<-|[<-|[<-|[]]]]];
    rewrite col_fix_power_other by reflexivity;
    rewrite !col_fix_small_other by reflexivity;
    repeat (rewrite col_fix_recovery_other by reflexivity);
    rewrite col_fix_recovery_same;
    repeat (rewrite col_fix_recovery_other by reflexivity);
    repeat rewrite has_fix_recovery; try reflexivity; exact H.
Qed.

Lemma load_factor_corrected (df : frame) :
  has df "Load Factor" = true ->
  col (unit_corrections df) "Load Factor"
  = if flt (maximum (col df "Load Factor")) (Fin 10)
    then map times100 (col df "Load Factor")
    else col df "Load Factor".
Proof.
  intros H. unfold unit_corrections.
  rewrite col_fix_power_other by reflexivity.
  rewrite col_fix_small_other by reflexivity.
  rewrite col_fix_small_same
    by (repeat rewrite has_fix_recovery; exact H).
  repeat (rewrite col_fix_recovery_other by reflexivity).
  reflexivity.
Qed.

Lemma has_unit_corrections (df : frame) (c : string) :
  has (unit_corrections df) c = has df c.
Proof.
  unfold unit_corrections.
  rewrite has_fix_power, !has_fix_small, !has_fix_recovery. reflexivity.
Qed.

Lemma flt_times100 (a b : fnum) : flt (times100 a) (times100 b) = flt a b.
Proof.
  unfold times100.
  destruct a as [p| | |], b as [q| | |]; try reflexivity.
  simpl. destruct (Qltb p q) eqn:E.
  - apply Qltb_lt in E. apply Qltb_lt. lra.
  - apply Qltb_ge in E. apply Qltb_ge. lra.
Qed.

Lemma fmax_times100 (a b : fnum) :
  fmax (times100 a) (times100 b) = times100 (fmax a b).
Proof.
  unfold fmax. rewrite flt_times100. destruct (flt a b); reflexivity.
Qed.

Lemma dropna_times100 (l : list fnum) :
  dropna (map times100 l) = map times100 (dropna l).
Proof.
  unfold dropna. induction l as [|x l IH]; simpl; [reflexivity|].
  rewrite IH. destruct x; reflexivity.
Qed.

Lemma maximum_times100 (l : list fnum) :
  maximum (map times100 l) = times100 (maximum l).
Proof.
  unfold maximum. rewrite dropna_times100.
  destruct (dropna l) as [|x v]; [reflexivity|]. simpl map.
  revert x. induction v as [|y v IH]; intros x; simpl; [reflexivity|].
  rewrite fmax_times100. apply IH.
Qed.

(** A second pass leaves the load factor as the first left it, unless
    the raw maximum is below 0.1. *)
Lemma load_factor_second_pass (df : frame) :
  has df "Load Factor" = true ->
  flt (maximum (col df "Load Factor")) (Fin 0.1) = false ->
  col (unit_corrections (unit_corrections df)) "Load Factor"
  = col (unit_corrections df) "Load Factor".
Proof.
  intros H Hm.
  rewrite (load_factor_corrected (unit_corrections df))
    by (rewrite has_unit_corrections; exact H).
  assert (G : flt (maximum (col (unit_corrections df) "Load Factor")) (Fin 10)
              = false).
  { rewrite (load_factor_corrected df H).
    destruct (flt (maximum (col df "Load Factor")) (Fin 10)) eqn:E;
      [|exact E].
    rewrite maximum_times100.
    destruct (maximum (col df "Load Factor")) as [m| | |];
      try discriminate.
    unfold times100. simpl. apply Qltb_ge.
    simpl in Hm. apply Qltb_ge in Hm. lra. }
  rewrite G. reflexivity.
Qed.

Lemma recovery_second_pass (df : frame) (c : string) :
  In c [ "MN Recovery PLC"; "SI Recovery PLC"; "MN Recovery Feeding";
         "SI Recovery Feeding" ] ->
  has df c = true ->
  col (unit_corrections (unit_corrections df)) c
  = map times100 (map times100 (col df c)).
Proof.
  intros Hc H.
  rewrite (recovery_column_corrected (unit_corrections df) c Hc)
    by (rewrite has_unit_corrections; exact H).
  rewrite (recovery_column_corrected df c Hc H). reflexivity.
Qed.

(** C4, as the code has it.  The unit corrections multiply each recovery
    column by 100 whenever the table has it, without a test, and the load
    factor by 100 only when the largest raw value of the column is below
    10.  They are not idempotent: a second pass multiplies the recovery
    columns by 100 again; it leaves the load factor as the first pass
    left it provided the largest raw value is not below 0.1. *)
Theorem unit_corrections_rescale :
  (forall (df : frame) (c : string),
     In c [ "MN Recovery PLC"; "SI Recovery PLC"; "MN Recovery Feeding";
            "SI Recovery Feeding" ] ->
     has df c = true ->
     col (unit_corrections df) c = map times100 (col df c)
     /\ col (unit_corrections (unit_corrections df)) c
        = map times100 (map times100 (col df c)))
  /\ (forall df : frame,
        has df "Load Factor" = true ->
        col (unit_corrections df) "Load Factor"
        = (if flt (maximum (col df "Load Factor")) (Fin 10)
           then map times100 (col df "Load Factor")
           else col df "Load Factor")
        /\ (flt (maximum (col df "Load Factor")) (Fin 0.1) = false ->
            col (unit_corrections (unit_corrections df)) "Load Factor"
            = col (unit_corrections df) "Load Factor")).
Proof.
  split.
  - intros df c Hc H. split.
    + apply recovery_column_corrected; assumption.
    + apply recovery_second_pass; assumption.
  - intros df H. split.
    + apply load_factor_corrected. exact H.
    + apply load_factor_second_pass. exact H.
Qed.

Lemma unit_corrections_rescale_witness :
  col (unit_corrections Samples.fractions) "MN Recovery PLC"
  = map times100 (col Samples.fractions "MN Recovery PLC")
  /\ col (unit_corrections (unit_corrections Samples.fractions)) "Load Factor"
     = col (unit_corrections Samples.fractions) "Load Factor".
Proof.
  destruct unit_corrections_rescale as [H1 H2].
  split.
  - apply (H1 Samples.fractions "MN Recovery PLC");
      [left; reflexivity | reflexivity].
  - apply (H2 Samples.fractions); [reflexivity | vm_compute; reflexivity].
Defined.

(** C4 as stated fails.  Recoveries given as fractions become 80, 82 and
    81 after one pass and 8000, 8200 and 8100 after two; a recovery
    column already in percent, whose largest value 80 is below no small
    threshold, is multiplied all the same; and a load factor of 0.05
    becomes 5 after one pass and 500 after two. *)
Lemma rescale_not_idempotent :
  same_values
    (col (unit_corrections Samples.fractions) "MN Recovery PLC")
    [Fin 80; Fin 82; Fin 81] = true
  /\ same_values
       (col (unit_corrections (unit_corrections Samples.fractions))
            "MN Recovery PLC")
       [Fin 8000; Fin 8200; Fin 8100] = true
  /\ same_values
       (col (unit_corrections (unit_corrections Samples.fractions))
            "MN Recovery PLC")
       (col (unit_corrections Samples.fractions) "MN Recovery PLC") = false
  /\ flt (maximum (col Samples.percents "MN Recovery PLC")) (Fin 10) = false
  /\ same_values
       (col (unit_corrections Samples.percents) "MN Recovery PLC")
       [Fin 8000] = true
  /\ same_values
       (col (unit_corrections Samples.low_load) "Load Factor") [Fin 5] = true
  /\ same_values
       (col (unit_corrections (unit_corrections Samples.low_load))
            "Load Factor") [Fin 500] = true.
Proof. repeat split; vm_compute; reflexivity. Qed.

End UnitCorrections.

(** ** Multiple critical issues *)

Section CriticalIssues.

Import AdvancedInsights.

Lemma issues_of_app (f : string) (l1 l2 : list insight) :
  issues_of f (l1 ++ l2) = issues_of f l1 ++ issues_of f l2.
Proof. unfold issues_of. apply filter_app. Qed.

Lemma add_issue_keys (f : string) (i : insight)
    (d : list (string * list insight)) (g : string) :
  In g (map fst (add_issue f i d)) <-> g = f \/ In g (map fst d).
Proof.
  induction d as [|[h l] d IH]; simpl.
  - split; [intros [H|[]]; auto | intros [H|[]]; auto].
  - destruct (String.eqb h f) eqn:E; simpl.
    + apply String.eqb_eq in E. subst h. intuition (subst; auto).
    + rewrite IH. tauto.
Qed.

Lemma add_issue_NoDup (f : string) (i : insight)
    (d : list (string * list insight)) :
  NoDup (map fst d) -> NoDup (map fst (add_issue f i d)).
Proof.
  induction d as [|[h l] d IH]; simpl; intros Hn.
  - constructor; [intros [] | constructor].
  - inversion Hn as [|? ? Hnot Hn']; subst.
    destruct (String.eqb h f) eqn:E; simpl.
    + constructor; assumption.
    + constructor; [|apply IH; exact Hn'].
      rewrite add_issue_keys. intros [->|H]; [|contradiction].
      rewrite String.eqb_refl in E. discriminate.
Qed.

Lemma add_issue_In (f : string) (i : insight)
    (d : list (string * list insight)) (g : string) (l : list insight) :
  NoDup (map fst d) ->
  (In (g, l) (add_issue f i d)
   <-> (g <> f /\ In (g, l) d)
       \/ (g = f /\ ((exists l0, In (f, l0) d /\ l = l0 ++ [i])
                     \/ (~ In f (map fst d) /\ l = [i])))).
Proof.
  induction d as [|[h l0] d IH]; simpl; intros Hn.
  - split.
    + intros [H|[]]. injection H as <- <-. right. split; [reflexivity|].
      right. tauto.
    + intros [[_ []]|[-> [(l0 & [] & _)|[_ ->]]]]. left. reflexivity.
  - inversion Hn as [|? ? Hnot Hn']; subst.
    destruct (String.eqb h f) eqn:E; simpl.
    + apply String.eqb_eq in E. subst h. split.
      * intros [H|H].
        -- injection H as <- <-. right. split; [reflexivity|]. left.
           exists l0. auto.
        -- left. split; [|right; exact H]. intros ->. apply Hnot.
           apply in_map_iff. exists (f, l). auto.
      * intros [[Hg [H|H]]|[-> [(l1 & [H|H] & ->)|[H _]]]].
        -- injection H as -> _. congruence.
        -- right. exact H.
        -- injection H as ->. left. reflexivity.
        -- exfalso. apply Hnot. apply in_map_iff. exists (f, l1). auto.
        -- exfalso. apply H. left. reflexivity.
    + assert (Hne : h <> f)
        by (intros ->; rewrite String.eqb_refl in E; discriminate).
      rewrite (IH Hn'). split.
      * intros [H|[[Hg H]|[-> [(l1 & H & ->)|[H ->]]]]].
        -- injection H as <- <-. left. auto.
        -- left. auto.
        -- right. split; [reflexivity|]. left. exists l1. auto.
        -- right. split; [reflexivity|]. right. split; [|reflexivity].
           intros [K|K]; [congruence | contradiction].
      * intros [[Hg [H|H]]|[-> [(l1 & [H|H] & ->)|[H ->]]]].
        -- left. exact H.
        -- right. left. auto.
        -- injection H as K _. congruence.
        -- right. right. split; [reflexivity|]. left. exists l1. auto.
        -- right. right. split; [reflexivity|]. right.
           split; [tauto | reflexivity].
Qed.

Lemma furnace_issues_snoc (l : list insight) (i : insight) :
  furnace_issues (l ++ [i])
  = if is_high i then add_issue (furnace_of i) i (furnace_issues l)
    else furnace_issues l.
Proof. unfold furnace_issues. rewrite fold_left_app. reflexivity. Qed.

Lemma issues_of_snoc (f : string) (l : list insight) (i : insight) :
  issues_of f (l ++ [i])
  = issues_of f l
    ++ (if is_high i && String.eqb (furnace_of i) f then [i] else []).
Proof.
  rewrite issues_of_app. reflexivity.
Qed.

Lemma furnace_issues_table (insights : list insight) :
  issues_table insights (furnace_issues insights).
Proof.
  induction insights as [|i l IH] using rev_ind.
  - split; [constructor|]. intros f x. simpl. split; [contradiction|].
    intros [-> H]. apply H. reflexivity.
  - destruct IH as [Hn Ht]. rewrite furnace_issues_snoc.
    destruct (is_high i) eqn:Hh.
    + split; [apply add_issue_NoDup; exact Hn|].
      intros f x. rewrite (add_issue_In _ _ _ _ _ Hn), issues_of_snoc, Hh.
      simpl andb. split.
      * intros [[Hne H]|[-> [(l0 & H & ->)|[H ->]]]].
        -- apply Ht in H. destruct H as [-> H].
           destruct (String.eqb (furnace_of i) f) eqn:E;
             [apply String.eqb_eq in E; congruence|].
           rewrite app_nil_r. auto.
        -- apply Ht in H. destruct H as [-> _].
           rewrite String.eqb_refl. split; [reflexivity|].
           intros K. apply app_eq_nil in K. destruct K; discriminate.
        -- rewrite String.eqb_refl.
           assert (E : issues_of (furnace_of i) l = []).
           { destruct (issues_of (furnace_of i) l) eqn:E'; [reflexivity|].
             exfalso. apply H. apply in_map_iff.
             exists (furnace_of i, issues_of (furnace_of i) l).
             split; [reflexivity|]. apply Ht. rewrite E'.
             split; [reflexivity | discriminate]. }
           rewrite E. split; [reflexivity | discriminate].
      * intros [-> Hx].
        destruct (String.eqb (furnace_of i) f) eqn:E.
        -- apply String.eqb_eq in E. subst f. right.
           split; [reflexivity|].
           destruct (issues_of (furnace_of i) l) eqn:E'.
           ++ right. split; [|reflexivity]. intros K.
              apply in_map_iff in K. destruct K as ([g l0] & K1 & K2).
              simpl in K1. subst g. apply Ht in K2. destruct K2 as [-> K2].
              apply K2. exact E'.
           ++ left. exists (issues_of (furnace_of i) l).
              split; [|rewrite E'; reflexivity].
              apply Ht. rewrite E'. split; [reflexivity | discriminate].
        -- left. rewrite app_nil_r in *. split.
           ++ intros ->. rewrite String.eqb_refl in E. discriminate.
           ++ apply Ht. auto.
    + split; [exact Hn|]. intros f x. rewrite issues_of_snoc, Hh.
      simpl. rewrite app_nil_r. apply Ht.
Qed.

(** The synthetic insights that refer to a furnace. *)
Lemma critical_of_other_keys (d : list (string * list insight)) (f : string) :
  ~ In f (map fst d) ->
  filter (refers_to f) (flat_map critical_for_entry d) = [].
Proof.
  induction d as [|[g x] d IH]; intros Hnot; [reflexivity|].
  cbn [flat_map]. rewrite filter_app, IH.
  - rewrite app_nil_r. unfold critical_for_entry.
    destruct ((2 <=? List.length x)%nat && negb (String.eqb g "General"));
      [|reflexivity].
    cbn. destruct (String.eqb g f) eqn:E; [|reflexivity].
    apply String.eqb_eq in E. subst g. exfalso. apply Hnot.
    left. reflexivity.
  - intros K. apply Hnot. right. exact K.
Qed.

Lemma critical_of_table (d : list (string * list insight)) (f : string)
    (L : list insight) :
  NoDup (map fst d) ->
  (forall l, In (f, l) d -> l = L) ->
  In f (map fst d) \/ (List.length L < 2)%nat ->
  filter (refers_to f) (flat_map critical_for_entry d)
  = if (2 <=? List.length L)%nat && negb (String.eqb f "General")
    then [critical_insight f L] else [].
Proof.
  induction d as [|[h l] d IH]; intros Hn Hl Hk.
  - cbn [flat_map filter]. destruct Hk as [[]|Hk].
    apply Nat.leb_gt in Hk. rewrite Hk. reflexivity.
  - inversion Hn as [|? ? Hnot Hn']; subst. cbn [flat_map].
    rewrite filter_app.
    destruct (String.eqb h f) eqn:E.
    + apply String.eqb_eq in E. subst h.
      rewrite (Hl l (or_introl eq_refl)).
      rewrite (critical_of_other_keys d f Hnot), app_nil_r.
      unfold critical_for_entry.
      destruct ((2 <=? List.length L)%nat && negb (String.eqb f "General"));
        [|reflexivity].
      cbn. rewrite String.eqb_refl. reflexivity.
    + assert (Hne : h <> f)
        by (intros ->; rewrite String.eqb_refl in E; discriminate).
      rewrite IH.
      * unfold critical_for_entry.
        destruct ((2 <=? List.length l)%nat && negb (String.eqb h "General"));
          [|reflexivity].
        cbn. rewrite E. reflexivity.
      * exact Hn'.
      * intros x Hx. apply Hl. right. exact Hx.
      * destruct Hk as [[Hk|Hk]|Hk]; [contradiction | left; exact Hk |
                                        right; exact Hk].
Qed.

Lemma critical_for (f : string) (insights : list insight) :
  filter (refers_to f) (critical_insights insights)
  = if (2 <=? List.length (issues_of f insights))%nat
       && negb (String.eqb f "General")
    then [critical_insight f (issues_of f insights)] else [].
Proof.
  destruct (furnace_issues_table insights) as [Hn Ht].
  unfold critical_insights. apply critical_of_table; [exact Hn | |].
  - intros l Hl. apply Ht in Hl. tauto.
  - destruct (issues_of f insights) eqn:E.
    + right. simpl. lia.
    + left. apply in_map_iff. exists (f, issues_of f insights).
      split; [reflexivity|]. apply Ht. rewrite E.
      split; [reflexivity | discriminate].
Qed.

Lemma critical_insights_shape (insights : list insight) (c : insight) :
  In c (critical_insights insights) ->
  category c = Some "critical" /\ severity c = Some "high"
  /\ exists f, furnace c = Some f /\ f <> "General"
               /\ c = critical_insight f (issues_of f insights)
               /\ (2 <= List.length (issues_of f insights))%nat.
Proof.
  destruct (furnace_issues_table insights) as [_ Ht].
  unfold critical_insights. intros H. apply in_flat_map in H.
  destruct H as ([f l] & Hd & Hc). unfold critical_for_entry in Hc.
  destruct ((2 <=? List.length l)%nat) eqn:E1; [|contradiction].
  destruct (String.eqb f "General") eqn:E2; [contradiction|].
  destruct Hc as [<-|[]]. apply Ht in Hd. destruct Hd as [-> _].
  split; [reflexivity|]. split; [reflexivity|]. exists f.
  split; [reflexivity|]. split.
  - intros ->. discriminate.
  - split; [reflexivity | apply Nat.leb_le; exact E1].
Qed.

(** *** The lists of the dictionary *)

Lemma bucket_eqb_eq (a b : bucket) : bucket_eqb a b = true <-> a = b.
Proof. destruct a, b; simpl; split; congruence. Qed.

Lemma filter_all {A : Type} (p : A -> bool) (l : list A) :
  (forall x, In x l -> p x = true) -> filter p l = l.
Proof.
  induction l as [|x l IH]; intros H; simpl; [reflexivity|].
  rewrite (H x (or_introl eq_refl)), IH; [reflexivity|].
  intros y Hy. apply H. right. exact Hy.
Qed.

Lemma filter_split {A : Type} (p q : A -> bool) (l : list A) :
  (forall x, p x = true -> q x = true -> False) ->
  Permutation (filter p l ++ filter q l) (filter (fun x => p x || q x) l).
Proof.
  intros D. induction l as [|x l IH]; simpl; [constructor|].
  destruct (p x) eqn:Hp, (q x) eqn:Hq; simpl.
  - exfalso. apply (D x Hp Hq).
  - constructor. exact IH.
  - apply Permutation_sym, Permutation_cons_app, Permutation_sym. exact IH.
  - exact IH.
Qed.

Lemma lists_by_bucket (l : list insight) (bs : list bucket) :
  NoDup bs ->
  Permutation
    (List.concat
       (map (fun b => filter (fun i => bucket_eqb (bucket_of i) b) l) bs))
    (filter (fun i => existsb (bucket_eqb (bucket_of i)) bs) l).
Proof.
  induction bs as [|b bs IH]; intros Hn; simpl.
  - induction l as [|x l IHl]; simpl; [constructor | exact IHl].
  - inversion Hn as [|? ? Hnot Hn']; subst.
    eapply Permutation_trans;
      [apply Permutation_app_head; apply IH; exact Hn'|].
    apply (filter_split (fun i => bucket_eqb (bucket_of i) b)
                        (fun i => existsb (bucket_eqb (bucket_of i)) bs)).
    intros x Hb Hbs. apply bucket_eqb_eq in Hb.
    apply existsb_exists in Hbs. destruct Hbs as (c & Hc & E).
    apply bucket_eqb_eq in E. subst. contradiction.
Qed.

Lemma NoDup_buckets : NoDup buckets.
Proof.
  unfold buckets.
  repeat (constructor; [simpl; intuition discriminate|]). constructor.
Qed.

(** Every insight is in one list of the dictionary before the sort. *)
Lemma categorized_all (l : list insight) :
  Permutation (List.concat (map snd (categorized l))) l.
Proof.
  unfold categorized. rewrite map_map. simpl.
  eapply Permutation_trans; [apply (lists_by_bucket l buckets NoDup_buckets)|].
  rewrite filter_all; [apply Permutation_refl|].
  intros x _. destruct (bucket_of x); reflexivity.
Qed.

(** *** The sort *)

Lemma key_lt_comparable (x y : insight) :
  comparable x y -> exists b, key_lt (sort_key x) (sort_key y) = Ok b.
Proof.
  unfold comparable, key_lt, sort_key. simpl. intros [H|H].
  - apply Nat.eqb_neq in H. rewrite H. simpl. eexists. reflexivity.
  - destruct (severity_order x =? severity_order y)%nat; simpl;
      [|eexists; reflexivity].
    destruct (financial_impact x), (financial_impact y);
      try (eexists; reflexivity).
    + destruct H as [_ H]. specialize (H eq_refl). discriminate.
    + destruct H as [H _]. specialize (H eq_refl). discriminate.
Qed.

Lemma insert_desc_Ok (x : insight) (sorted : list insight) :
  (forall y, In y sorted -> comparable x y) ->
  exists out, insert_desc x sorted = Ok out /\ Permutation out (x :: sorted).
Proof.
  induction sorted as [|y t IH]; intros H; simpl.
  - exists [x]. split; [reflexivity | apply Permutation_refl].
  - destruct (key_lt_comparable x y (H y (or_introl eq_refl))) as (b & E).
    rewrite E. simpl. destruct b.
    + destruct IH as (rest & Er & Pr);
        [intros z Hz; apply H; right; exact Hz|].
      rewrite Er. simpl. exists (y :: rest). split; [reflexivity|].
      eapply Permutation_trans; [apply perm_skip; exact Pr|].
      apply perm_swap.
    + exists (x :: y :: t). split; [reflexivity | apply Permutation_refl].
Qed.

Lemma insert_desc_perm (x : insight) (sorted out : list insight) :
  insert_desc x sorted = Ok out -> Permutation out (x :: sorted).
Proof.
  revert out. induction sorted as [|y t IH]; intros out; simpl.
  - intros H. injection H as <-. apply Permutation_refl.
  - destruct (key_lt (sort_key x) (sort_key y)) as [b|]; [|discriminate].
    simpl. destruct b.
    + destruct (insert_desc x t) as [rest|]; [|discriminate]. simpl.
      intros H. injection H as <-.
      eapply Permutation_trans; [apply perm_skip; apply IH; reflexivity|].
      apply perm_swap.
    + intros H. injection H as <-. apply Permutation_refl.
Qed.

Lemma sort_desc_perm (l out : list insight) :
  sort_desc l = Ok out -> Permutation out l.
Proof.
  revert out. induction l as [|x t IH]; intros out; simpl.
  - intros H. injection H as <-. constructor.
  - destruct (sort_desc t) as [sorted|]; [|discriminate]. simpl.
    intros H. apply insert_desc_perm in H.
    eapply Permutation_trans; [exact H|]. apply perm_skip. apply IH.
    reflexivity.
Qed.

Lemma sort_desc_Ok (l : list insight) :
  (forall x y, In x l -> In y l -> comparable x y) ->
  exists out, sort_desc l = Ok out.
Proof.
  induction l as [|x t IH]; intros H; simpl.
  - exists []. reflexivity.
  - destruct IH as (sorted & Es);
      [intros a b Ha Hb; apply H; right; assumption|].
    rewrite Es. simpl.
    destruct (insert_desc_Ok x sorted) as (out & Eo & _).
    + intros y Hy. apply H; [left; reflexivity|]. right.
      apply (Permutation_in _ (sort_desc_perm _ _ Es) Hy).
    + exists out. exact Eo.
Qed.

Lemma sort_all_perm (bs cats : list (bucket * list insight)) :
  sort_all bs = Ok cats ->
  Forall2 (fun x y => fst x = fst y /\ Permutation (snd y) (snd x)) bs cats.
Proof.
  revert cats. induction bs as [|[b l] bs IH]; intros cats; simpl.
  - intros H. injection H as <-. constructor.
  - destruct (sort_desc l) as [sorted|] eqn:Es; [|discriminate]. simpl.
    destruct (sort_all bs) as [rest|]; [|discriminate]. simpl.
    intros H. injection H as <-. constructor.
    + split; [reflexivity | apply (sort_desc_perm _ _ Es)].
    + apply IH. reflexivity.
Qed.

Lemma sort_all_Ok (bs : list (bucket * list insight)) :
  (forall b l, In (b, l) bs ->
               forall x y, In x l -> In y l -> comparable x y) ->
  exists cats, sort_all bs = Ok cats.
Proof.
  induction bs as [|[b l] bs IH]; intros H; simpl.
  - exists []. reflexivity.
  - destruct (sort_desc_Ok l (H b l (or_introl eq_refl))) as (sorted & Es).
    rewrite Es. simpl.
    destruct IH as (rest & Er);
      [intros c m Hc; apply (H c m); right; exact Hc|].
    rewrite Er. simpl. eexists. reflexivity.
Qed.

Lemma sorted_concat (bs cats : list (bucket * list insight)) :
  Forall2 (fun x y => fst x = fst y /\ Permutation (snd y) (snd x)) bs cats ->
  Permutation (List.concat (map snd cats)) (List.concat (map snd bs)).
Proof.
  induction 1 as [|x y bs cats [_ P] _ IH]; simpl; [constructor|].
  apply Permutation_app; assumption.
Qed.

Lemma sorted_bucket (bs cats : list (bucket * list insight)) (b : bucket)
    (l : list insight) (i : insight) :
  Forall2 (fun x y => fst x = fst y /\ Permutation (snd y) (snd x)) bs cats ->
  In (b, l) bs -> In i l -> In i (bucket_list b cats).
Proof.
  unfold bucket_list.
  induction 1 as [|x y bs cats [E P] _ IH]; simpl; [contradiction|].
  intros [->|Hb] Hi.
  - simpl in E. rewrite <- E. simpl.
    rewrite (proj2 (bucket_eqb_eq b b) eq_refl). simpl.
    apply in_or_app. left.
    apply (Permutation_in _ (Permutation_sym P) Hi).
  - destruct (bucket_eqb (fst y) b); simpl;
      [apply in_or_app; right|]; apply IH; assumption.
Qed.

Lemma bucket_of_high (i : insight) :
  is_high i = true -> category i <> Some "critical" ->
  bucket_of i = Critical_Issues.
Proof.
  intros Hh Hc. unfold bucket_of. rewrite Hh.
  destruct (category i) as [c|]; [|reflexivity].
  destruct (String.eqb c "critical") eqn:E; [|reflexivity].
  apply String.eqb_eq in E. subst c. exfalso. apply Hc. reflexivity.
Qed.

Lemma categorized_keys (l : list insight) :
  map fst (categorized l) = buckets.
Proof. unfold categorized. rewrite map_map. simpl. reflexivity. Qed.

Lemma sorted_keys (bs cats : list (bucket * list insight)) :
  Forall2 (fun x y => fst x = fst y /\ Permutation (snd y) (snd x)) bs cats ->
  map fst cats = map fst bs.
Proof.
  induction 1 as [|x y bs cats [E _] _ IH]; simpl; [reflexivity|].
  rewrite E, IH. reflexivity.
Qed.

Lemma categorized_In (l : list insight) (b : bucket) (m : list insight) :
  In (b, m) (categorized l) ->
  m = filter (fun i => bucket_eqb (bucket_of i) b) l.
Proof.
  unfold categorized. intros H. apply in_map_iff in H.
  destruct H as (c & E & _). injection E as -> <-. reflexivity.
Qed.

Lemma categorized_has (l : list insight) (b : bucket) :
  In (b, filter (fun i => bucket_eqb (bucket_of i) b) l) (categorized l).
Proof.
  unfold categorized. apply in_map_iff. exists b. split; [reflexivity|].
  destruct b; simpl; tauto.
Qed.

(** The function on a list of insights.  [_categorize_insights] keeps
    every insight
    and appends, for each furnace other than one named General that has
    two or more high-severity insights, exactly one synthetic insight of
    category critical and high severity that refers to the furnace; for
    any other furnace it appends none.  When the sort of each list can
    compare its keys, the dictionary returned holds every insight once:
    the high-severity insights of the furnace under the critical issues
    and the synthetic insight under the operations. *)
Theorem multiple_critical_issues :
  (forall insights : list insight,
     fst (_categorize_insights insights)
     = insights ++ critical_insights insights)
  /\ (forall (insights : list insight) (f : string),
        filter (refers_to f) (critical_insights insights)
        = if (2 <=? List.length (issues_of f insights))%nat
             && negb (String.eqb f "General")
          then [critical_insight f (issues_of f insights)] else [])
  /\ (forall (insights : list insight) (c : insight),
        In c (critical_insights insights) ->
        category c = Some "critical" /\ severity c = Some "high"
        /\ exists f, furnace c = Some f /\ f <> "General"
                     /\ (2 <= List.length (issues_of f insights))%nat)
  /\ (forall (insights : list insight) (f : string),
        f <> "General" ->
        (2 <= List.length (issues_of f insights))%nat ->
        (forall x y,
           In x (with_critical insights) -> In y (with_critical insights) ->
           bucket_of x = bucket_of y -> comparable x y) ->
        exists cats : list (bucket * list insight),
          snd (_categorize_insights insights) = Ok cats
          /\ map fst cats = buckets
          /\ Permutation (List.concat (map snd cats))
                         (insights ++ critical_insights insights)
          /\ (forall i, In i (issues_of f insights) ->
                        category i <> Some "critical" ->
                        In i (bucket_list Critical_Issues cats))
          /\ In (critical_insight f (issues_of f insights))
                (bucket_list Operations cats)).
Proof.
  split; [|split; [|split]].
  - reflexivity.
  - intros insights f. apply critical_for.
  - intros insights c Hc.
    destruct (critical_insights_shape insights c Hc)
      as (H1 & H2 & f & H3 & H4 & _ & H5).
    split; [exact H1|]. split; [exact H2|]. exists f. auto.
  - intros insights f Hf Hlen Hcmp.
    destruct (sort_all_Ok (categorized (with_critical insights)))
      as (cats & Ec).
    { intros b l Hb x y Hx Hy. apply categorized_In in Hb. subst l.
      apply filter_In in Hx, Hy.
      destruct Hx as [Hx Bx], Hy as [Hy By].
      apply bucket_eqb_eq in Bx, By. apply Hcmp; congruence. }
    exists cats. pose proof (sort_all_perm _ _ Ec) as F.
    split; [exact Ec|].
    split; [rewrite (sorted_keys _ _ F); apply categorized_keys|].
    split.
    { eapply Permutation_trans; [apply (sorted_concat _ _ F)|].
      apply categorized_all. }
    split.
    + intros i Hi Hc. unfold issues_of in Hi. apply filter_In in Hi.
      destruct Hi as [Hi Hh]. apply andb_prop in Hh. destruct Hh as [Hh _].
      apply (sorted_bucket _ _ Critical_Issues _ i F
               (categorized_has (with_critical insights) Critical_Issues)).
      apply filter_In. split.
      * unfold with_critical. apply in_or_app. left. exact Hi.
      * apply bucket_eqb_eq. apply bucket_of_high; assumption.
    + apply (sorted_bucket _ _ Operations _ _ F
               (categorized_has (with_critical insights) Operations)).
      apply filter_In. split; [|reflexivity].
      unfold with_critical. apply in_or_app. right.
      assert (K : In (critical_insight f (issues_of f insights))
                     (filter (refers_to f) (critical_insights insights))).
      { rewrite critical_for.
        apply Nat.leb_le in Hlen. rewrite Hlen.
        destruct (String.eqb f "General") eqn:E;
          [apply String.eqb_eq in E; contradiction|].
        left. reflexivity. }
      apply filter_In in K. tauto.
Qed.

Lemma multiple_critical_issues_witness :
  filter (refers_to "F1") (critical_insights Samples.two_high_F1)
  = [critical_insight "F1" Samples.two_high_F1]
  /\ exists cats : list (bucket * list insight),
       snd (_categorize_insights Samples.two_high_F1) = Ok cats
       /\ Permutation (List.concat (map snd cats))
                      (Samples.two_high_F1
                         ++ critical_insights Samples.two_high_F1)
       /\ In (critical_insight "F1" Samples.two_high_F1)
             (bucket_list Operations cats).
Proof.
  destruct multiple_critical_issues as (_ & H2 & _ & H4).
  split; [apply (H2 Samples.two_high_F1 "F1")|].
  destruct (H4 Samples.two_high_F1 "F1") as (cats & E & _ & P & _ & K).
  - discriminate.
  - simpl. lia.
  - intros x y Hx Hy _. right.
    simpl in Hx, Hy.
    destruct Hx as [<-|[<-|[<-|[]]]]; destruct Hy as [<-|[<-|[<-|[]]]];
      simpl; tauto.
  - exists cats. split; [exact E|]. split; [exact P | exact K].
Defined.

(** When a list holds two insights of one severity, one with a financial
    impact and one without, the sort has no order for their keys and the
    call ends with the exception: here for a furnace with a high cost and
    a high power consumption. *)
Remark categorize_raises_on_mixed_impact :
  (2 <= List.length (issues_of "F1" Samples.cost_and_power_F1))%nat
  /\ snd (_categorize_insights Samples.cost_and_power_F1) = Raise TypeError.
Proof. split; [simpl; lia | reflexivity]. Qed.

End CriticalIssues.

(* ================================================================== *)
(** * Further properties of the code *)
(* ================================================================== *)

(** ** insights_engine.py: recovery analysis and top insights *)

Section EngineRecovery.

Import EngineRules.

Lemma recovery_loop_without_feeding (targets : list (string * fnum))
    (target : fnum) (df : frame) (fs : list string) :
  has df "MN Feeding" = false ->
  InsightsFinal.get targets "MN Recovery PLC" = Some target ->
  recovery_loop targets df fs
  = if existsb (fun f => flt (mean (col (of_furnace f df) "MN Recovery PLC"))
                             target) fs
    then Raise ValueError else Ok [].
Proof.
  intros Hf Hg. induction fs as [|f fs IH]; [reflexivity|].
  cbn [recovery_loop existsb]. rewrite Hg, has_of_furnace, Hf.
  destruct (flt (mean (col (of_furnace f df) "MN Recovery PLC")) target);
    [reflexivity | exact IH].
Qed.

(** X1.  On a table with the columns [Furnace] and [MN Recovery PLC] but
    without [MN Feeding], [_analyze_recovery] returns no insight at all:
    it raises [ValueError] as soon as the average recovery of one furnace
    is below the target, and returns the empty list otherwise. *)
Theorem recovery_analysis_needs_MN_Feeding (targets : list (string * fnum))
    (target : fnum) (df : frame) :
  has df "MN Recovery PLC" = true ->
  has df "Furnace" = true ->
  has df "MN Feeding" = false ->
  InsightsFinal.get targets "MN Recovery PLC" = Some target ->
  _analyze_recovery targets df
  = if existsb (fun f => flt (mean (col (of_furnace f df) "MN Recovery PLC"))
                             target) (furnaces df)
    then Raise ValueError else Ok [].
Proof.
  intros Hr Hf Hm Hg. unfold _analyze_recovery. rewrite Hr, Hf.
  cbn [negb]. apply recovery_loop_without_feeding; assumption.
Qed.

Lemma recovery_analysis_needs_MN_Feeding_witness :
  _analyze_recovery default_targets Examples.low_recovery = Raise ValueError.
Proof.
  rewrite (recovery_analysis_needs_MN_Feeding default_targets (Fin 80)
             Examples.low_recovery eq_refl eq_refl eq_refl eq_refl).
  reflexivity.
Defined.

End EngineRecovery.

(** ** Sorting in reverse order of a key *)

Section ReverseSort.

Context {A : Type}.
Variable key : A -> nat.

Lemma insert_reverse_perm (lt : A -> A -> bool) (x : A) (l : list A) :
  Permutation (insert_reverse lt x l) (x :: l).
Proof.
  induction l as [|y t IH]; cbn [insert_reverse]; [apply Permutation_refl|].
  destruct (lt x y); [|apply Permutation_refl].
  eapply Permutation_trans; [apply perm_skip, IH | apply perm_swap].
Qed.

Lemma sorted_reverse_perm (lt : A -> A -> bool) (l : list A) :
  Permutation (sorted_reverse lt l) l.
Proof.
  induction l as [|x t IH]; [apply Permutation_refl|].
  unfold sorted_reverse. cbn [fold_right].
  eapply Permutation_trans; [apply insert_reverse_perm|].
  apply perm_skip, IH.
Qed.

Lemma insert_reverse_sorted (x : A) (l : list A) :
  StronglySorted (fun a b => (key b <= key a)%nat) l ->
  StronglySorted (fun a b => (key b <= key a)%nat)
    (insert_reverse (fun a b => (key a <? key b)%nat) x l).
Proof.
  induction l as [|y t IH]; intros H; cbn [insert_reverse].
  - constructor; constructor.
  - inversion H as [|? ? Ht Hy]; subst.
    destruct (key x <? key y)%nat eqn:E.
    + apply Nat.ltb_lt in E. constructor; [apply IH, Ht|].
      apply Forall_forall. intros z Hz.
      apply (Permutation_in _ (insert_reverse_perm _ x t)) in Hz.
      destruct Hz as [<-|Hz]; [lia|].
      rewrite Forall_forall in Hy. apply Hy, Hz.
    + apply Nat.ltb_ge in E. constructor; [exact H|].
      constructor; [exact E|].
      rewrite Forall_forall in Hy |- *. intros z Hz.
      specialize (Hy z Hz). lia.
Qed.

Lemma sorted_reverse_sorted (l : list A) :
  StronglySorted (fun a b => (key b <= key a)%nat)
    (sorted_reverse (fun a b => (key a <? key b)%nat) l).
Proof.
  induction l as [|x t IH]; [constructor|].
  unfold sorted_reverse. cbn [fold_right].
  apply insert_reverse_sorted, IH.
Qed.

(** The sort is stable: the elements of one key keep their order. *)
Lemma insert_reverse_stable (k : nat) (x : A) (l : list A) :
  filter (fun a => (key a =? k)%nat)
    (insert_reverse (fun a b => (key a <? key b)%nat) x l)
  = filter (fun a => (key a =? k)%nat) (x :: l).
Proof.
  induction l as [|y t IH]; [reflexivity|].
  cbn [insert_reverse]. destruct (key x <? key y)%nat eqn:E; [|reflexivity].
  apply Nat.ltb_lt in E.
  cbn [filter] in IH |- *. rewrite IH.
  destruct (key x =? k)%nat eqn:Ex, (key y =? k)%nat eqn:Ey; try reflexivity.
  apply Nat.eqb_eq in Ex, Ey. lia.
Qed.

Lemma sorted_reverse_stable (k : nat) (l : list A) :
  filter (fun a => (key a =? k)%nat)
    (sorted_reverse (fun a b => (key a <? key b)%nat) l)
  = filter (fun a => (key a =? k)%nat) l.
Proof.
  induction l as [|x t IH]; [reflexivity|].
  unfold sorted_reverse. cbn [fold_right].
  rewrite insert_reverse_stable. cbn [filter].
  unfold sorted_reverse in IH. rewrite IH. reflexivity.
Qed.

(** A prefix of a sorted list is sorted and dominates what it leaves. *)
Lemma sorted_prefix (R : A -> A -> Prop) (l : list A) (n : nat) :
  StronglySorted R l ->
  StronglySorted R (firstn n l)
  /\ forall x y : A, In x (firstn n l) -> In y (skipn n l) -> R x y.
Proof.
  revert n. induction l as [|a t IH]; intros n H.
  - rewrite firstn_nil, skipn_nil. split; [constructor|]. intros x y [].
  - destruct n as [|n]; [split; [constructor|intros x y []]|].
    inversion H as [|? ? Ht Ha]; subst.
    destruct (IH n Ht) as [S D]. cbn [firstn skipn]. split.
    + constructor; [exact S|].
      rewrite Forall_forall in Ha |- *. intros z Hz. apply Ha.
      rewrite <- (firstn_skipn n t). apply in_or_app. left. exact Hz.
    + intros x y [<-|Hx] Hy.
      * rewrite Forall_forall in Ha. apply Ha.
        rewrite <- (firstn_skipn n t). apply in_or_app. right. exact Hy.
      * apply D; assumption.
Qed.

Lemma up_to_prefix (limit : Z) (l : list A) :
  exists n : nat,
    up_to limit l = firstn n l
    /\ ((0 <= limit)%Z -> n = Z.to_nat limit)
    /\ ((limit < 0)%Z -> n = (List.length l - Z.to_nat (- limit))%nat).
Proof.
  unfold up_to. destruct (0 <=? limit)%Z eqn:E.
  - apply Z.leb_le in E. eexists. split; [reflexivity|]. split; [reflexivity|lia].
  - apply Z.leb_gt in E. eexists. split; [reflexivity|]. split; [lia|reflexivity].
Qed.

Lemma top_of_sorted (limit : Z) (l : list A) :
  exists rest : list A,
    Permutation
      (up_to limit (sorted_reverse (fun a b => (key a <? key b)%nat) l) ++ rest)
      l
    /\ StronglySorted (fun a b => (key b <= key a)%nat)
         (up_to limit (sorted_reverse (fun a b => (key a <? key b)%nat) l))
    /\ (forall x y : A,
          In x (up_to limit
                  (sorted_reverse (fun a b => (key a <? key b)%nat) l)) ->
          In y rest -> (key y <= key x)%nat)
    /\ ((0 <= limit)%Z ->
        List.length
          (up_to limit (sorted_reverse (fun a b => (key a <? key b)%nat) l))
        = Nat.min (Z.to_nat limit) (List.length l))
    /\ ((limit < 0)%Z ->
        List.length
          (up_to limit (sorted_reverse (fun a b => (key a <? key b)%nat) l))
        = (List.length l - Z.to_nat (- limit))%nat).
Proof.
  set (s := sorted_reverse (fun a b => (key a <? key b)%nat) l).
  assert (Hlen : List.length s = List.length l)
    by (apply Permutation_length, sorted_reverse_perm).
  destruct (up_to_prefix limit s) as (n & -> & Hpos & Hneg).
  destruct (sorted_prefix _ s n (sorted_reverse_sorted l)) as [S D].
  exists (skipn n s). split; [|split; [exact S|split; [exact D|split]]].
  - rewrite firstn_skipn. apply sorted_reverse_perm.
  - intros H. rewrite (Hpos H), length_firstn, Hlen. reflexivity.
  - intros H. rewrite (Hneg H), length_firstn, Hlen. lia.
Qed.

End ReverseSort.

Section TopInsights.

Import EngineRules.

(** X2.  [get_top_insights] returns the [limit] most severe insights, the
    most severe first: what it returns and what it leaves out make up
    the insights, no insight left out is more severe than one returned,
    and the number returned is [limit], or the number of insights when
    there are fewer; a negative [limit] leaves out that many of the
    least severe. *)
Theorem top_insights_are_the_most_severe (insights : list finding)
    (limit : Z) :
  exists rest : list finding,
    Permutation (get_top_insights insights limit ++ rest) insights
    /\ StronglySorted
         (fun a b => (severity_order (severity b)
                      <= severity_order (severity a))%nat)
         (get_top_insights insights limit)
    /\ (forall x y : finding,
          In x (get_top_insights insights limit) -> In y rest ->
          (severity_order (severity y) <= severity_order (severity x))%nat)
    /\ ((0 <= limit)%Z ->
        List.length (get_top_insights insights limit)
        = Nat.min (Z.to_nat limit) (List.length insights))
    /\ ((limit < 0)%Z ->
        List.length (get_top_insights insights limit)
        = (List.length insights - Z.to_nat (- limit))%nat).
Proof.
  apply (top_of_sorted (fun x => severity_order (severity x)) limit insights).
Qed.

End TopInsights.

(** ** Lists by category *)

Section Classes.

Context {A B : Type}.
Variable classify : A -> B.
Variable beq : B -> B -> bool.
Hypothesis beq_eq : forall a b : B, beq a b = true <-> a = b.

Lemma lists_by_class (l : list A) (bs : list B) :
  NoDup bs ->
  Permutation
    (List.concat (map (fun b => filter (fun x => beq (classify x) b) l) bs))
    (filter (fun x => existsb (beq (classify x)) bs) l).
Proof.
  induction bs as [|b bs IH]; intros Hn; simpl.
  - induction l as [|x l IHl]; simpl; [constructor | exact IHl].
  - inversion Hn as [|? ? Hnot Hn']; subst.
    eapply Permutation_trans;
      [apply Permutation_app_head; apply IH; exact Hn'|].
    apply (filter_split (fun x => beq (classify x) b)
                        (fun x => existsb (beq (classify x)) bs)).
    intros x Hb Hbs. apply beq_eq in Hb.
    apply existsb_exists in Hbs. destruct Hbs as (c & Hc & E).
    apply beq_eq in E. subst. contradiction.
Qed.

Lemma lists_by_all_classes (l : list A) (bs : list B) :
  NoDup bs -> (forall b : B, In b bs) ->
  Permutation
    (List.concat (map (fun b => filter (fun x => beq (classify x) b) l) bs))
    l.
Proof.
  intros Hn Hall.
  eapply Permutation_trans; [apply lists_by_class; exact Hn|].
  rewrite filter_all; [apply Permutation_refl|].
  intros x _. apply existsb_exists. exists (classify x).
  split; [apply Hall | apply beq_eq; reflexivity].
Qed.

End Classes.

Lemma concat_perm {A : Type} (l1 l2 : list (list A)) :
  Forall2 (fun x y => Permutation x y) l1 l2 ->
  Permutation (List.concat l1) (List.concat l2).
Proof.
  induction 1 as [|x y l1 l2 P _ IH]; simpl; [constructor|].
  apply Permutation_app; assumption.
Qed.

(** ** insights_final.py: the categories *)

Section FinalCategories.

Import FinalRules.

Lemma final_bucket_eqb_eq (a b : bucket) : bucket_eqb a b = true <-> a = b.
Proof. destruct a, b; simpl; split; intros H; congruence. Qed.

Lemma NoDup_final_buckets : NoDup buckets.
Proof.
  unfold buckets.
  repeat (constructor; [simpl; intuition discriminate|]). constructor.
Qed.

Lemma final_buckets_all (b : bucket) : In b buckets.
Proof. destruct b; simpl; tauto. Qed.

(** X3.  [_categorize_insights] of the final generator puts every insight
    in exactly one list, that of the category its kind is mapped to (the
    operations when the kind is unknown); each list is in descending
    order of severity, and the insights of one severity keep the order
    in which they were generated. *)
Theorem final_categories_partition (insights : list finding) :
  map fst (_categorize_insights insights) = buckets
  /\ Permutation (List.concat (map snd (_categorize_insights insights)))
       insights
  /\ forall (b : bucket) (l : list finding),
       In (b, l) (_categorize_insights insights) ->
       (forall i : finding,
          In i l <-> In i insights /\ category_mapping (category i) = b)
       /\ StronglySorted
            (fun x y => (severity_order (severity y)
                         <= severity_order (severity x))%nat) l
       /\ forall k : nat,
            filter (fun i => (severity_order (severity i) =? k)%nat) l
            = filter (fun i => (severity_order (severity i) =? k)%nat)
                (appended insights b).
Proof.
  unfold _categorize_insights. split; [|split].
  - rewrite map_map. reflexivity.
  - rewrite map_map. cbn [snd].
    eapply Permutation_trans;
      [|apply (lists_by_all_classes (fun i => category_mapping (category i))
                 bucket_eqb final_bucket_eqb_eq insights buckets
                 NoDup_final_buckets final_buckets_all)].
    apply concat_perm. induction buckets as [|b bs IH]; simpl; constructor.
    + apply sorted_reverse_perm.
    + exact IH.
  - intros b l H. apply in_map_iff in H. destruct H as (b' & E & _).
    injection E as <- <-. split; [|split].
    + intros i. split.
      * intros H.
        apply (Permutation_in _ (sorted_reverse_perm _ _)) in H.
        apply filter_In in H. destruct H as [H1 H2].
        split; [exact H1 | apply final_bucket_eqb_eq, H2].
      * intros [H1 H2].
        apply (Permutation_in _ (Permutation_sym (sorted_reverse_perm _ _))).
        apply filter_In. split; [exact H1 | apply final_bucket_eqb_eq, H2].
    + apply (sorted_reverse_sorted (fun i => severity_order (severity i))).
    + intros k.
      apply (sorted_reverse_stable (fun i => severity_order (severity i))).
Qed.

End FinalCategories.

(** ** comprehensive_insights.py: power insights *)

Section ComprehensivePower.

Import CompleteAnalyzer ComprehensiveInsights ComprehensiveRules.






End ComprehensivePower.

(** ** complete_analyzer.py: what the metrics keep, and the groups *)

Section CompleteInvariants.

Import CompleteAnalyzer CompleteAnalyzerGroups.

Ltac split_tests :=
  repeat match goal with
         | |- context [if ?b then _ else _] => destruct b
         end.

Lemma operational_metrics_other (df : frame) (c : string) :
  String.eqb c "Operational_Availability" = false ->
  col (operational_metrics df) c = col df c.
Proof.
  intros H. unfold operational_metrics. split_tests; [|reflexivity].
  apply col_assign_other. exact H.
Qed.

Lemma cost_metrics_view {A : Type} (p : row -> A) (df : frame) :
  ignores p "Cost_per_Ton" -> ignores p "Power_Cost_per_Ton" ->
  view p (cost_metrics df) = view p df.
Proof.
  intros H1 H2. unfold cost_metrics. split_tests;
    repeat (rewrite view_assign by assumption); reflexivity.
Qed.

Lemma furnace_ignores (c : string) : ignores Frame.Furnace c.
Proof. intros r v. reflexivity. Qed.

Lemma calculate_metrics_furnaces (df : frame) :
  view Frame.Furnace (_calculate_metrics df) = view Frame.Furnace df.
Proof.
  unfold _calculate_metrics.
  rewrite performance_metrics_view, quality_metrics_view,
    operational_metrics_view, recovery_metrics_view, cost_metrics_view,
    production_metrics_view by apply furnace_ignores.
  reflexivity.
Qed.

Lemma has_assign_mono (c c' : string) (f : row -> fnum) (df : frame) :
  has df c' = true -> has (assign c f df) c' = true.
Proof. intros H. rewrite has_assign, H. reflexivity. Qed.

Ltac grows :=
  intros; cbv zeta; split_tests; repeat apply has_assign_mono; assumption.

Lemma production_metrics_grows (df : frame) (c : string) :
  has df c = true -> has (production_metrics df) c = true.
Proof. unfold production_metrics. grows. Qed.

Lemma cost_metrics_grows (df : frame) (c : string) :
  has df c = true -> has (cost_metrics df) c = true.
Proof. unfold cost_metrics. grows. Qed.

Lemma recovery_metrics_grows (df : frame) (c : string) :
  has df c = true -> has (recovery_metrics df) c = true.
Proof. unfold recovery_metrics. grows. Qed.

Lemma operational_metrics_grows (df : frame) (c : string) :
  has df c = true -> has (operational_metrics df) c = true.
Proof. unfold operational_metrics. grows. Qed.

Lemma quality_metrics_grows (df : frame) (c : string) :
  has df c = true -> has (quality_metrics df) c = true.
Proof. unfold quality_metrics. grows. Qed.

Lemma performance_metrics_grows (df : frame) (c : string) :
  has df c = true -> has (performance_metrics df) c = true.
Proof. unfold performance_metrics. grows. Qed.

Lemma calculate_metrics_has_mono (df : frame) (c : string) :
  has df c = true -> has (_calculate_metrics df) c = true.
Proof.
  intros H. unfold _calculate_metrics.
  apply performance_metrics_grows, quality_metrics_grows,
    operational_metrics_grows, recovery_metrics_grows, cost_metrics_grows,
    production_metrics_grows, H.
Qed.

(** X6.  [_calculate_metrics] only adds to the table: it keeps the
    records and their furnaces, keeps every column the table has, and
    leaves the cells of every column other than the ten it assigns as
    they are. *)
Theorem calculate_metrics_keeps_the_input (df : frame) :
  view Frame.Furnace (_calculate_metrics df) = view Frame.Furnace df
  /\ (forall c : string,
        has df c = true -> has (_calculate_metrics df) c = true)
  /\ (forall c : string,
        existsb (String.eqb c) derived_columns = false ->
        col (_calculate_metrics df) c = col df c
        /\ has (_calculate_metrics df) c = has df c).
Proof.
  split; [apply calculate_metrics_furnaces|].
  split; [apply calculate_metrics_has_mono|].
  intros c H. unfold derived_columns in H. cbn [existsb] in H.
  repeat (apply orb_false_elim in H; destruct H as [? H]).
  unfold _calculate_metrics. split.
  - rewrite performance_metrics_col, quality_metrics_col,
      operational_metrics_other, recovery_metrics_col, cost_metrics_col,
      production_metrics_col by assumption.
    reflexivity.
  - rewrite performance_metrics_has, quality_metrics_has,
      operational_metrics_has, recovery_metrics_has, cost_metrics_has,
      production_metrics_has by assumption.
    reflexivity.
Qed.

Lemma calculate_metrics_keeps_the_input_witness :
  col (_calculate_metrics Samples.two_furnaces) "Total Cost PLC"
  = col Samples.two_furnaces "Total Cost PLC".
Proof.
  apply (calculate_metrics_keeps_the_input Samples.two_furnaces).
  reflexivity.
Defined.

Lemma unique_In (l : list string) (x : string) : In x (unique l) <-> In x l.
Proof.
  induction l as [|y t IH]; [reflexivity|]. cbn [unique In].
  rewrite filter_In, IH. split.
  - intros [H|[H _]]; [left | right]; exact H.
  - intros [H|H]; [left; exact H|].
    destruct (String.eqb x y) eqn:E.
    + left. symmetry. apply String.eqb_eq, E.
    + right. split; [exact H | reflexivity].
Qed.

Lemma unique_NoDup (l : list string) : NoDup (unique l).
Proof.
  induction l as [|y t IH]; [constructor|]. cbn [unique]. constructor.
  - rewrite filter_In, String.eqb_refl. intros [_ H]. discriminate.
  - apply NoDup_filter, IH.
Qed.

Lemma records_by_furnace (df : frame) :
  Permutation
    (List.concat (map (fun f => rows (of_furnace f df)) (furnaces df)))
    (rows df).
Proof.
  unfold of_furnace. cbn [rows].
  eapply Permutation_trans;
    [apply (lists_by_class Frame.Furnace String.eqb String.eqb_eq (rows df)
              (furnaces df) (unique_NoDup _))|].
  rewrite filter_all; [apply Permutation_refl|].
  intros r Hr. apply existsb_exists. exists (Frame.Furnace r).
  split; [|apply String.eqb_refl].
  apply unique_In, in_map, Hr.
Qed.

Lemma unique_values_In (l : list (option string)) (x : option string) :
  In x (BlankFurnaces.unique l) <-> In x l.
Proof.
  induction l as [|y t IH]; [reflexivity|]. cbn [BlankFurnaces.unique In].
  rewrite filter_In, IH. split.
  - intros [H|[H _]]; [left | right]; exact H.
  - intros [H|H]; [left; exact H|].
    destruct (BlankFurnaces.same_value x y) eqn:E.
    + left. destruct x as [a|], y as [b|]; try discriminate;
        [apply String.eqb_eq in E; subst; reflexivity | reflexivity].
    + right. split; [exact H | reflexivity].
Qed.

Lemma same_value_eq (a b : option string) :
  BlankFurnaces.same_value a b = true <-> a = b.
Proof.
  destruct a as [x|], b as [y|]; cbn [BlankFurnaces.same_value];
    try (split; [discriminate | discriminate]); [|tauto].
  rewrite String.eqb_eq. split; [intros ->; reflexivity|].
  intros H. injection H as ->. reflexivity.
Qed.

Lemma unique_values_NoDup (l : list (option string)) :
  NoDup (BlankFurnaces.unique l).
Proof.
  induction l as [|y t IH]; [constructor|]. cbn [BlankFurnaces.unique].
  constructor.
  - rewrite filter_In. intros [_ H].
    rewrite (proj2 (same_value_eq y y) eq_refl) in H. discriminate.
  - apply NoDup_filter, IH.
Qed.

(** The records of a value are the filled records of that value. *)
Lemma equals_filled (records : list (option string * (string -> fnum)))
    (furnace : option string) :
  filter (fun kc => BlankFurnaces.equals (fst kc) furnace) records
  = filter (fun kc => BlankFurnaces.same_value (fst kc) furnace)
           (filter BlankFurnaces.filled records).
Proof.
  induction records as [|[k c] records IH]; [reflexivity|].
  cbn [filter fst]. unfold BlankFurnaces.filled at 1. cbn [fst].
  destruct k as [x|].
  - cbn [filter fst]. destruct furnace as [y|];
      cbn [BlankFurnaces.equals BlankFurnaces.same_value].
    + destruct (String.eqb x y); rewrite IH; reflexivity.
    + exact IH.
  - cbn [BlankFurnaces.equals]. exact IH.
Qed.

Lemma records_by_value (records : list (option string * (string -> fnum))) :
  Permutation
    (List.concat
       (map (fun furnace =>
               filter (fun kc => BlankFurnaces.equals (fst kc) furnace)
                      records)
            (BlankFurnaces.unique (map fst records))))
    (filter BlankFurnaces.filled records).
Proof.
  erewrite map_ext by (intros furnace; apply equals_filled).
  eapply Permutation_trans;
    [apply (lists_by_class fst BlankFurnaces.same_value same_value_eq
              (filter BlankFurnaces.filled records)
              (BlankFurnaces.unique (map fst records))
              (unique_values_NoDup _))|].
  rewrite filter_all; [apply Permutation_refl|].
  intros kc Hkc. apply existsb_exists. exists (fst kc).
  split; [|apply same_value_eq; reflexivity].
  apply unique_values_In, in_map. apply filter_In in Hkc. tauto.
Qed.

(** The entry of a value counts the records whose cell equals it. *)
Lemma total_records_of_value (t : BlankFurnaces.table)
    (furnace : option string) :
  total_records
    (analyze_furnace (BlankFurnaces.furnace_data furnace t)
                     (BlankFurnaces.text furnace))
  = List.length
      (filter (fun kc => BlankFurnaces.equals (fst kc) furnace)
              (BlankFurnaces.t_records t)).
Proof.
  unfold analyze_furnace. cbv zeta. cbn [total_records].
  unfold of_furnace, BlankFurnaces.furnace_data. cbn [rows].
  rewrite filter_all, length_map; [reflexivity|].
  intros r Hr. apply in_map_iff in Hr. destruct Hr as (kc & <- & _).
  cbn [Frame.Furnace]. apply String.eqb_refl.
Qed.

(** On a table without blank cells the entries are those of the frame. *)
Lemma analyze_filled_frame (df : frame) :
  BlankFurnaces._analyze_by_furnace (BlankFurnaces.of_frame df)
  = option_map (map (fun fa => (Some (fst fa), snd fa)))
               (_analyze_by_furnace df).
Proof.
  unfold BlankFurnaces._analyze_by_furnace, _analyze_by_furnace, has.
  cbn [BlankFurnaces.of_frame BlankFurnaces.t_columns
       BlankFurnaces.t_records].
  destruct (forallb _ required_columns); [|reflexivity].
  cbn [option_map]. f_equal. rewrite !map_map. cbn [fst snd].
  assert (U : forall l : list string,
             BlankFurnaces.unique (map Some l) = map Some (unique l)).
  { induction l as [|x l IH]; [reflexivity|].
    cbn [map BlankFurnaces.unique unique]. rewrite IH. f_equal.
    clear IH. induction (unique l) as [|y u IHu]; [reflexivity|].
    cbn [map filter BlankFurnaces.same_value].
    destruct (String.eqb y x); cbn [negb map]; rewrite IHu; reflexivity. }
  unfold furnaces.
  rewrite <- (map_map Frame.Furnace Some), U, map_map.
  apply map_ext. intros f. cbn [BlankFurnaces.text]. f_equal.
  unfold analyze_furnace. cbv zeta.
  assert (E : of_furnace f
                (BlankFurnaces.furnace_data (Some f)
                   (BlankFurnaces.of_frame df))
              = of_furnace f df).
  { unfold of_furnace, BlankFurnaces.furnace_data, BlankFurnaces.of_frame.
    cbn [columns rows BlankFurnaces.t_columns BlankFurnaces.t_records
         BlankFurnaces.text]. f_equal.
    induction (rows df) as [|r l IH]; [reflexivity|].
    cbn [map filter fst BlankFurnaces.equals].
    destruct (String.eqb (Frame.Furnace r) f) eqn:F.
    - cbn [map filter snd Frame.Furnace]. rewrite String.eqb_refl, IH.
      f_equal. apply String.eqb_eq in F. destruct r as [g c].
      cbn [Frame.Furnace cell] in *. subst g. reflexivity.
    - exact IH. }
  rewrite E. reflexivity.
Qed.

(** X7.  The furnace analysis has one entry for each value of the
    column Furnace and no other, a blank cell being one of the values;
    the entry of a value counts the records whose Furnace cell equals
    it, the entry of the blank value counts none, and every record with
    a Furnace is counted in exactly one entry: the record counts of the
    entries add up to the number of records whose Furnace cell is
    filled.  A record with a blank Furnace cell is counted in no entry. *)
Theorem every_filled_record_in_one_entry (t : BlankFurnaces.table)
    (l : list (option string * analysis)) :
  BlankFurnaces._analyze_by_furnace t = Some l ->
  NoDup (map fst l)
  /\ (forall furnace : option string,
        In furnace (map fst l)
        <-> In furnace (map fst (BlankFurnaces.t_records t)))
  /\ (forall (furnace : option string) (a : analysis),
        In (furnace, a) l ->
        total_records a
        = List.length
            (filter (fun kc => BlankFurnaces.equals (fst kc) furnace)
                    (BlankFurnaces.t_records t)))
  /\ (forall a : analysis, In (None, a) l -> total_records a = 0%nat)
  /\ list_sum (map (fun fa => total_records (snd fa)) l)
     = List.length (filter BlankFurnaces.filled (BlankFurnaces.t_records t)).
Proof.
  unfold BlankFurnaces._analyze_by_furnace.
  destruct (forallb _ required_columns); [|discriminate].
  intros H. apply Some_inj in H. subst l.
  rewrite !map_map. cbn [fst snd]. rewrite map_id.
  assert (C : forall (furnace : option string) (a : analysis),
             In (furnace, a)
                (map (fun furnace =>
                        (furnace,
                         analyze_furnace (BlankFurnaces.furnace_data furnace t)
                                         (BlankFurnaces.text furnace)))
                     (BlankFurnaces.unique
                        (map fst (BlankFurnaces.t_records t)))) ->
             total_records a
             = List.length
                 (filter (fun kc => BlankFurnaces.equals (fst kc) furnace)
                         (BlankFurnaces.t_records t))).
  { intros furnace a Hin. apply in_map_iff in Hin.
    destruct Hin as (k & E & _). injection E as -> <-.
    apply total_records_of_value. }
  split; [apply unique_values_NoDup|].
  split; [intros furnace; apply unique_values_In|].
  split; [exact C|]. split.
  - intros a Hin. rewrite (C None a Hin). clear.
    induction (BlankFurnaces.t_records t) as [|[k c] recs IH];
      [reflexivity|].
    cbn [filter fst]. destruct k; exact IH.
  - rewrite <- (Permutation_length
                  (records_by_value (BlankFurnaces.t_records t))),
      length_concat, map_map.
    f_equal. apply map_ext. intros furnace.
    apply total_records_of_value.
Qed.

Lemma every_filled_record_in_one_entry_witness :
  exists (a b : analysis),
    BlankFurnaces._analyze_by_furnace Examples.blank_furnace
    = Some [ (Some "F1", a); (None, b) ]
    /\ total_records a = 2%nat
    /\ total_records b = 0%nat
    /\ List.length (BlankFurnaces.t_records Examples.blank_furnace) = 3%nat.
Proof.
  eexists. eexists. split; [reflexivity|].
  destruct (every_filled_record_in_one_entry Examples.blank_furnace _
              eq_refl) as (_ & _ & C & B & _).
  split; [|split; [|reflexivity]].
  - rewrite (C (Some "F1") _ (or_introl eq_refl)). reflexivity.
  - apply B. right. left. reflexivity.
Defined.

End CompleteInvariants.

(** ** comprehensive_insights.py: efficiency insights *)

Section Efficiency.

Import CompleteAnalyzer ComprehensiveInsights ComprehensiveRules.

Lemma ore_column_absent (df : frame) :
  has df "Input Qty(Ore PLC)(MT)" = false ->
  has df "Ore_Efficiency" = false ->
  has (_calculate_metrics df) "Ore_Efficiency" = false.
Proof.
  intros Hi Hc. unfold _calculate_metrics.
  rewrite performance_metrics_has, quality_metrics_has,
    operational_metrics_has, recovery_metrics_has, cost_metrics_has
    by reflexivity.
  unfold production_metrics. cbv zeta.
  destruct (has df "Actual Production Qty" && has df "Cake Production Qty").
  - rewrite !(has_assign "Yield_Percentage"), Hi, andb_false_r.
    cbn [String.eqb Ascii.eqb Bool.eqb orb andb].
    destruct (_ && _); rewrite ?has_assign, ?has_assign, Hc; reflexivity.
  - rewrite Hi, andb_false_r.
    destruct (_ && _); rewrite ?has_assign, Hc; reflexivity.
Qed.

Lemma coke_column_absent (df : frame) :
  has df "Input Qty(Coke PLC)(MT)" = false ->
  has df "Coke_Efficiency" = false ->
  has (_calculate_metrics df) "Coke_Efficiency" = false.
Proof.
  intros Hi Hc. unfold _calculate_metrics.
  rewrite performance_metrics_has, quality_metrics_has,
    operational_metrics_has, recovery_metrics_has, cost_metrics_has
    by reflexivity.
  unfold production_metrics. cbv zeta.
  repeat match goal with
         | |- context [if ?b then _ else _] =>
             destruct b eqn:?; rewrite ?has_assign in *
         end;
    rewrite ?has_assign, ?Hi, ?Hc in *;
    cbn [String.eqb Ascii.eqb Bool.eqb orb andb] in *;
    rewrite ?andb_false_r in *; try discriminate; reflexivity.
Qed.

Lemma furnaces_view (df1 df2 : frame) :
  view Frame.Furnace df1 = view Frame.Furnace df2 ->
  furnaces df1 = furnaces df2.
Proof. unfold furnaces, view. intros ->. reflexivity. Qed.

Lemma furnaces_of_metrics (df : frame) :
  furnaces (_calculate_metrics df) = furnaces df.
Proof. apply furnaces_view, calculate_metrics_furnaces. Qed.

Lemma analyze_furnace_ore (df : frame) (f : string) :
  avg_ore_efficiency (analyze_furnace df f)
  = mean_or_0 (of_furnace f df) "Ore_Efficiency".
Proof. reflexivity. Qed.

Lemma analyze_furnace_coke (df : frame) (f : string) :
  avg_coke_efficiency (analyze_furnace df f)
  = mean_or_0 (of_furnace f df) "Coke_Efficiency".
Proof. reflexivity. Qed.

Lemma mean_or_0_absent (df : frame) (f c : string) :
  has df c = false -> mean_or_0 (of_furnace f df) c = Fin 0.
Proof. intros H. unfold mean_or_0. rewrite has_of_furnace, H. reflexivity. Qed.

Lemma ore_insight_without_column (d : frame) (tg : targets) (q : Q)
    (fs : list string) (f : string) :
  has d "Ore_Efficiency" = false ->
  t_Ore_Efficiency tg = Fin q -> 0 < q ->
  In f fs ->
  emits_titled ("Low Ore Efficiency - " +++ f) f
    (_generate_efficiency_insights tg
       (map (fun f => (f, analyze_furnace d f)) fs)).
Proof.
  intros Hc Ht Hq Hf.
  unfold emits_titled, _generate_efficiency_insights.
  eexists. split.
  - apply in_flat_map. exists (f, analyze_furnace d f).
    split; [apply in_map_iff; exists f; split; [reflexivity | exact Hf]|].
    apply in_or_app. left. unfold ore_insight.
    rewrite analyze_furnace_ore, (mean_or_0_absent _ f _ Hc), Ht.
    assert (E : flt (Fin 0) (fmul (Fin q) (Fin 0.9)) = true)
      by (apply flt_Fin; lra).
    rewrite E. left. reflexivity.
  - split; reflexivity.
Qed.

Lemma coke_insight_without_column (d : frame) (tg : targets)
    (fs : list string) :
  has d "Coke_Efficiency" = false ->
  flat_map (coke_insight tg) (map (fun f => (f, analyze_furnace d f)) fs)
  = [].
Proof.
  intros Hc. induction fs as [|g fs IH]; [reflexivity|].
  cbn [map flat_map]. rewrite IH, app_nil_r. unfold coke_insight.
  rewrite analyze_furnace_coke, (mean_or_0_absent _ g _ Hc).
  reflexivity.
Qed.

Lemma analyze_by_furnace_Some (d : frame) (l : list (string * analysis)) :
  _analyze_by_furnace d = Some l ->
  l = map (fun f => (f, analyze_furnace d f)) (furnaces d).
Proof.
  unfold _analyze_by_furnace.
  destruct (forallb (has d) required_columns); [|discriminate].
  intros H. apply Some_inj in H. symmetry. exact H.
Qed.

(** X8.  A table without the ore input column and without an ore
    efficiency of its own gives every furnace an average ore efficiency
    of 0, and for a positive ore target every furnace of the table gets
    the insight of a low ore efficiency; without the coke column no
    furnace gets the one of a low coke efficiency, whose rule asks for a
    positive average. *)
Theorem missing_ore_input_reported_as_low_efficiency (df : frame)
    (l : list (string * analysis)) (tg : targets) (q : Q) :
  _analyze_by_furnace (_calculate_metrics df) = Some l ->
  (has df "Input Qty(Ore PLC)(MT)" = false ->
   has df "Ore_Efficiency" = false ->
   t_Ore_Efficiency tg = Fin q -> 0 < q ->
   forall f : string,
     In f (map Frame.Furnace (rows df)) ->
     emits_titled ("Low Ore Efficiency - " +++ f) f
       (_generate_efficiency_insights tg l))
  /\ (has df "Input Qty(Coke PLC)(MT)" = false ->
      has df "Coke_Efficiency" = false ->
      flat_map (coke_insight tg) l = []).
Proof.
  intros Hl. apply analyze_by_furnace_Some in Hl.
  rewrite furnaces_of_metrics in Hl. subst l.
  split.
  - intros Hi Hc Ht Hq f Hf.
    apply (ore_insight_without_column _ tg q _ f
             (ore_column_absent df Hi Hc) Ht Hq).
    apply unique_In, Hf.
  - intros Hi Hc.
    apply coke_insight_without_column, coke_column_absent; assumption.
Qed.

Lemma missing_ore_input_reported_as_low_efficiency_witness :
  exists l : list (string * analysis),
    _analyze_by_furnace (_calculate_metrics Samples.two_furnaces) = Some l
    /\ emits_titled "Low Ore Efficiency - F2" "F2"
         (_generate_efficiency_insights Samples.targets l)
    /\ flat_map (coke_insight Samples.targets) l = [].
Proof.
  eexists. split; [vm_compute; reflexivity|].
  split.
  - eapply (missing_ore_input_reported_as_low_efficiency
              Samples.two_furnaces _ Samples.targets 0.55);
      [vm_compute; reflexivity | reflexivity | reflexivity | reflexivity
      | reflexivity | right; right; left; reflexivity].
  - eapply (missing_ore_input_reported_as_low_efficiency
              Samples.two_furnaces _ Samples.targets 0.55);
      [vm_compute; reflexivity | reflexivity | reflexivity].
Defined.

End Efficiency.

(** ** comprehensive_insights.py: the categories *)

Section ComprehensiveCategories.

Import AdvancedInsights ComprehensiveRules.

Lemma sort_lists_perm {B : Type} (bs cats : list (B * list insight)) :
  sort_lists bs = Ok cats ->
  Forall2 (fun x y => fst x = fst y /\ Permutation (snd y) (snd x)) bs cats.
Proof.
  revert cats. induction bs as [|[b l] bs IH]; intros cats; simpl.
  - intros H. injection H as <-. constructor.
  - destruct (sort_desc l) as [sorted|] eqn:Es; [|discriminate]. simpl.
    destruct (sort_lists bs) as [rest|]; [|discriminate]. simpl.
    intros H. injection H as <-. constructor.
    + split; [reflexivity | apply (sort_desc_perm _ _ Es)].
    + apply IH. reflexivity.
Qed.

Lemma sort_lists_Ok {B : Type} (bs : list (B * list insight)) :
  (forall b l, In (b, l) bs ->
               forall x y, In x l -> In y l -> comparable x y) ->
  exists cats, sort_lists bs = Ok cats.
Proof.
  induction bs as [|[b l] bs IH]; intros H; simpl.
  - exists []. reflexivity.
  - destruct (sort_desc_Ok l (H b l (or_introl eq_refl))) as (sorted & Es).
    rewrite Es. simpl.
    destruct IH as (rest & Er);
      [intros c m Hc; apply (H c m); right; exact Hc|].
    rewrite Er. simpl. eexists. reflexivity.
Qed.

Lemma comprehensive_bucket_eqb_eq (a b : bucket) :
  bucket_eqb a b = true <-> a = b.
Proof. destruct a, b; simpl; split; intros H; congruence. Qed.

Lemma NoDup_comprehensive_buckets : NoDup buckets.
Proof.
  unfold buckets.
  repeat (constructor; [simpl; intuition discriminate|]). constructor.
Qed.

Lemma comprehensive_buckets_all (b : bucket) : In b buckets.
Proof. destruct b; simpl; tauto. Qed.

Lemma critical_bucket (i : insight) :
  bucket_of i = CRITICAL_ISSUES
  <-> severity i = Some "high" /\ financial_impact i <> None.
Proof.
  unfold bucket_of.
  destruct (severity i) as [s|], (financial_impact i) as [t|];
    cbn [andb]; rewrite ?andb_false_r.
  - destruct (String.eqb s "high") eqn:E; cbn [andb].
    + apply String.eqb_eq in E. subst s.
      split; [intros _; split; [reflexivity | discriminate] | reflexivity].
    + split.
      * repeat match goal with
               | |- context [if ?b then _ else _] => destruct b
               end; discriminate.
      * intros [H _]. injection H as ->. discriminate.
  - split.
    + repeat match goal with
             | |- context [if ?b then _ else _] => destruct b
             end; discriminate.
    + intros [_ H]. contradiction.
  - cbn [String.eqb Ascii.eqb Bool.eqb andb]. split.
    + repeat match goal with
             | |- context [if ?b then _ else _] => destruct b
             end; discriminate.
    + intros [H _]. discriminate.
  - split.
    + repeat match goal with
             | |- context [if ?b then _ else _] => destruct b
             end; discriminate.
    + intros [H _]. discriminate.
Qed.

(** X9.  When every insight that carries a financial impact is of high
    severity, as the insights of the generators are, the sort of
    [_categorize_insights] compares no text with a number: the call
    returns, every insight is in exactly one of the nine lists, and the
    critical issues are the insights with a financial impact. *)
Theorem comprehensive_categories_partition (insights : list insight) :
  (forall i : insight,
     In i insights -> financial_impact i <> None ->
     severity i = Some "high") ->
  exists cats : list (bucket * list insight),
    _categorize_insights insights = Ok cats
    /\ map fst cats = buckets
    /\ Permutation (List.concat (map snd cats)) insights
    /\ forall l : list insight,
         In (CRITICAL_ISSUES, l) cats ->
         forall i : insight,
           In i l <-> In i insights /\ financial_impact i <> None.
Proof.
  intros Hhigh. unfold _categorize_insights.
  destruct (sort_lists_Ok (categorized insights)) as (cats & Ec).
  { intros b l Hin x y Hx Hy. unfold categorized in Hin.
    apply in_map_iff in Hin. destruct Hin as (b' & E & _).
    injection E as <- <-.
    apply filter_In in Hx, Hy. destruct Hx as [Hx Bx], Hy as [Hy By].
    apply comprehensive_bucket_eqb_eq in Bx, By. right.
    destruct (financial_impact x) as [tx|] eqn:Fx,
             (financial_impact y) as [ty|] eqn:Fy.
    - split; discriminate.
    - exfalso.
      assert (Cx : bucket_of x = CRITICAL_ISSUES).
      { apply critical_bucket. split; [apply Hhigh; [exact Hx|] |];
          rewrite Fx; discriminate. }
      assert (Cy : bucket_of y = CRITICAL_ISSUES) by congruence.
      apply critical_bucket in Cy. destruct Cy as [_ Cy]. congruence.
    - exfalso.
      assert (Cy : bucket_of y = CRITICAL_ISSUES).
      { apply critical_bucket. split; [apply Hhigh; [exact Hy|] |];
          rewrite Fy; discriminate. }
      assert (Cx : bucket_of x = CRITICAL_ISSUES) by congruence.
      apply critical_bucket in Cx. destruct Cx as [_ Cx]. congruence.
    - split; reflexivity. }
  exists cats. split; [exact Ec|].
  pose proof (sort_lists_perm _ _ Ec) as F.
  split; [|split].
  - clear Ec. revert F. unfold categorized.
    generalize buckets as bs. intros bs. revert cats.
    induction bs as [|b bs IH]; intros cats F; inversion F; subst;
      [reflexivity|].
    cbn [map]. f_equal.
    + match goal with H : _ /\ _ |- _ => destruct H as [<- _] end.
      reflexivity.
    + apply IH. assumption.
  - eapply Permutation_trans;
      [|apply (lists_by_all_classes bucket_of bucket_eqb
                 comprehensive_bucket_eqb_eq insights buckets
                 NoDup_comprehensive_buckets comprehensive_buckets_all)].
    apply concat_perm. clear Ec. revert F. unfold categorized.
    generalize buckets as bs. intros bs. revert cats.
    induction bs as [|b bs IH]; intros cats F; inversion F; subst;
      cbn [map]; constructor.
    + match goal with H : _ /\ _ |- _ => destruct H as [_ P] end.
      exact P.
    + apply IH. assumption.
  - intros l Hl i.
    assert (P : Permutation l
                  (filter (fun i => bucket_eqb (bucket_of i) CRITICAL_ISSUES)
                          insights)).
    { clear Ec. revert F Hl. unfold categorized.
      assert (Hn := NoDup_comprehensive_buckets). revert Hn.
      generalize buckets as bs. intros bs. revert cats.
      induction bs as [|b bs IH]; intros cats Hn F Hl; inversion F; subst;
        [contradiction|].
      inversion Hn; subst.
      match goal with H : _ /\ _ |- _ => destruct H as [E P] end.
      destruct Hl as [->|Hl].
      - cbn [fst snd] in E, P. subst b. exact P.
      - apply (IH l'); assumption. }
    split.
    + intros Hi. apply (Permutation_in _ P) in Hi.
      apply filter_In in Hi. destruct Hi as [Hi B].
      apply comprehensive_bucket_eqb_eq, critical_bucket in B.
      split; [exact Hi | apply B].
    + intros [Hi Fi].
      apply (Permutation_in _ (Permutation_sym P)).
      apply filter_In. split; [exact Hi|].
      apply comprehensive_bucket_eqb_eq, critical_bucket.
      split; [apply Hhigh; assumption | exact Fi].
Qed.

Lemma comprehensive_categories_partition_witness :
  exists cats : list (bucket * list insight),
    _categorize_insights Samples.cost_and_power_F1 = Ok cats
    /\ map fst cats = buckets.
Proof.
  destruct (comprehensive_categories_partition Samples.cost_and_power_F1)
    as (cats & E & K & _).
  - intros i [<-|[<-|[]]] H; [reflexivity|].
    exfalso. apply H. reflexivity.
  - exists cats. split; assumption.
Defined.

End ComprehensiveCategories.

(** ** accurate_analyzer.py: the analysis *)

Section AccurateSteps.

Import CompleteAnalyzer AccurateAnalyzer AccurateAnalysis.

Lemma has_assign_where (mask : row -> bool) (c c' : string)
    (f : row -> fnum) (df : frame) :
  has (assign_where mask c f df) c' = has df c' || String.eqb c' c.
Proof. unfold assign_where. apply has_assign. Qed.

Lemma col_assign_where_other (mask : row -> bool) (c c' : string)
    (f : row -> fnum) (df : frame) :
  String.eqb c' c = false ->
  col (assign_where mask c f df) c' = col df c'.
Proof. intros H. unfold assign_where. apply col_assign_other, H. Qed.

(** X10.  [_analyze_data] of the accurate analyzer raises
    [UnboundLocalError] exactly on a table that is not empty and has the
    columns [Power Cost] and [Actual Production Qty] but not
    [Total Cost PLC]: the mask of the power cost block is assigned in the
    block of the cost per ton only. *)
Theorem accurate_power_cost_needs_total_cost (df : frame) :
  _analyze_data df = Raises UnboundLocalError
  <-> empty df = false
      /\ has df "Power Cost" = true
      /\ has df "Actual Production Qty" = true
      /\ has df "Total Cost PLC" = false.
Proof.
  unfold _analyze_data. destruct (empty df).
  { split; [discriminate | intros [H _]; discriminate]. }
  unfold production_mask, power_cost_per_ton, cost_per_ton.
  destruct (has df "Total Cost PLC") eqn:Ht,
           (has df "Actual Production Qty") eqn:Hq,
           (has df "Power Cost") eqn:Hp;
    cbn [andb]; rewrite ?has_assign_where, ?Hp, ?Hq;
    cbn [String.eqb Ascii.eqb Bool.eqb orb andb and_then];
    try (split; [|intros (_ & ? & ? & ?); discriminate]);
    try (repeat match goal with
                | |- context [if ?b then _ else _] => destruct b
                end; discriminate).
  split; [intros _; repeat split | reflexivity].
Qed.

Lemma accurate_steps_keep (mask : option (row -> bool)) (d pc : frame)
    (c : string) :
  power_cost_per_ton mask (cost_per_ton d) = Returns pc ->
  String.eqb c "Cost_per_Ton_Accurate" = false ->
  String.eqb c "Power_Cost_per_Ton" = false ->
  String.eqb c "Yield_Percentage" = false ->
  String.eqb c "Ore_Efficiency" = false ->
  has (ore_efficiency (yield_percentage pc)) c = has d c
  /\ col (ore_efficiency (yield_percentage pc)) c = col d c.
Proof.
  intros Hpc H1 H2 H3 H4.
  assert (Hp : has pc c = has d c /\ col pc c = col d c).
  { revert Hpc. unfold power_cost_per_ton, cost_per_ton.
    repeat match goal with
           | |- context [if ?b then _ else _] => destruct b
           end;
      try destruct mask; try discriminate;
      intros E; injection E as <-;
      rewrite ?has_assign_where, ?H1, ?H2, ?orb_false_r;
      rewrite ?col_assign_where_other by assumption;
      rewrite ?col_assign_where_other by assumption; split; reflexivity. }
  destruct Hp as [<- <-].
  unfold ore_efficiency, yield_percentage.
  repeat match goal with
         | |- context [if ?b then _ else _] => destruct b
         end;
    rewrite ?has_assign_where, ?H3, ?H4, ?orb_false_r;
    rewrite ?col_assign_where_other by assumption;
    rewrite ?col_assign_where_other by assumption; split; reflexivity.
Qed.

Lemma analyze_data_Some (df d : frame) :
  _analyze_data df = Returns (Some d) ->
  exists pc : frame,
    power_cost_per_ton (production_mask df) (cost_per_ton df) = Returns pc
    /\ d = operational_availability (ore_efficiency (yield_percentage pc)).
Proof.
  unfold _analyze_data. destruct (empty df); [discriminate|]. cbv zeta.
  destruct (power_cost_per_ton _ _) as [pc|e]; [|discriminate].
  cbn [and_then].
  repeat match goal with
         | |- context [if ?b then _ else _] => destruct b
         end; try discriminate.
  intros E. injection E as <-. exists pc. split; reflexivity.
Qed.

Lemma fillna0_column (df : frame) (c : string) :
  col (fillna0 c df) c
  = map (fun x => if isna x then Fin 0 else x) (col df c).
Proof.
  unfold fillna0. rewrite col_assign_same. unfold col. rewrite map_map.
  reflexivity.
Qed.

(** X11.  In the accurate analyzer every record has an operational
    availability, computed from the breakdown minutes with a missing
    value counted as 0: it is never missing, and it is 100 for a record
    without breakdown minutes. *)
Theorem accurate_availability_never_missing (df d : frame) :
  has df "Total Breakdown Mins" = true ->
  analyzer df = Returns (Some d) ->
  col d "Operational_Availability"
  = map (fun x => availability (if isna x then Fin 0 else x))
        (col df "Total Breakdown Mins")
  /\ (forall x : fnum,
        In x (col d "Operational_Availability") -> isna x = false)
  /\ feq (availability (Fin 0)) (Fin 100).
Proof.
  intros Hb Hd. unfold analyzer in Hd.
  apply analyze_data_Some in Hd. destruct Hd as (pc & Hpc & ->).
  destruct (accurate_steps_keep _ _ _ "Total Breakdown Mins" Hpc
              eq_refl eq_refl eq_refl eq_refl) as [Hh Hc].
  assert (Hclean : has (_clean_data df) "Total Breakdown Mins" = true
                   /\ col (_clean_data df) "Total Breakdown Mins"
                      = map (fun x => if isna x then Fin 0 else x)
                            (col df "Total Breakdown Mins")).
  { unfold _clean_data. rewrite Hb. split; [|apply fillna0_column].
    unfold fillna0. apply has_assign_same. }
  destruct Hclean as [Hch Hcc].
  assert (E : col (operational_availability
                     (ore_efficiency (yield_percentage pc)))
                "Operational_Availability"
              = map (fun x => availability (if isna x then Fin 0 else x))
                    (col df "Total Breakdown Mins")).
  { unfold operational_availability. rewrite Hh, Hch, col_assign_same.
    rewrite <- (map_map (fun x => if isna x then Fin 0 else x) availability),
      <- Hcc, <- Hc.
    unfold col. rewrite map_map. reflexivity. }
  split; [exact E|]. split.
  - rewrite E. intros x Hx. apply in_map_iff in Hx.
    destruct Hx as (y & <- & _).
    destruct y as [a| | |]; reflexivity.
  - vm_compute. reflexivity.
Qed.

Lemma accurate_availability_never_missing_witness :
  exists d : frame,
    analyzer Examples.missing_breakdown = Returns (Some d)
    /\ feq (nth 3 (col d "Operational_Availability") NaN) (Fin 100).
Proof.
  assert (H : exists d : frame,
                analyzer Examples.missing_breakdown = Returns (Some d))
    by (eexists; vm_compute; reflexivity).
  destruct H as (d & H). exists d. split; [exact H|].
  destruct (accurate_availability_never_missing Examples.missing_breakdown d
              eq_refl H) as (E & _).
  rewrite E. vm_compute. reflexivity.
Defined.

End AccurateSteps.

(** ** fixed_analyzer.py: no infinity, and the corrected averages *)

Section FixedPipeline.

Import CompleteAnalyzer AccurateAnalyzer FixedAnalyzer FixedAnalysis.

Lemma no_infinity_assign (c : string) (f : row -> fnum) (df : frame) :
  no_infinity df ->
  (forall r : row, In r (rows df) -> f r <> PInf /\ f r <> NInf) ->
  no_infinity (assign c f df).
Proof.
  intros Hdf Hf r k Hr. rewrite rows_assign in Hr.
  apply in_map_iff in Hr. destruct Hr as (r0 & <- & Hr0).
  cbn [cell set_cell]. destruct (String.eqb k c).
  - apply Hf, Hr0.
  - apply Hdf, Hr0.
Qed.

Lemma no_infinity_assign_where (mask : row -> bool) (c : string)
    (f : row -> fnum) (df : frame) :
  no_infinity df ->
  (forall r : row,
     In r (rows df) -> mask r = true -> f r <> PInf /\ f r <> NInf) ->
  no_infinity (assign_where mask c f df).
Proof.
  intros Hdf Hf. unfold assign_where. apply no_infinity_assign; [exact Hdf|].
  intros r Hr. destruct (mask r) eqn:E; [apply Hf; assumption|].
  destruct (has df c); [apply Hdf, Hr | split; discriminate].
Qed.

Lemma ratio_no_infinity (num den : string) (r : row) :
  cell r num <> PInf /\ cell r num <> NInf ->
  cell r den <> PInf /\ cell r den <> NInf ->
  positive den r = true ->
  exists q : Q, ratio num den r = Fin q \/ ratio num den r = NaN.
Proof.
  unfold positive, ratio. intros [N1 N2] [D1 D2] Hp.
  destruct (cell r den) as [b| | |]; try discriminate; try contradiction.
  apply fgt_Fin in Hp.
  destruct (cell r num) as [a| | |]; try contradiction.
  - exists (a / b). left. cbn [fdiv].
    destruct (Qeq_bool b 0) eqn:E; [|reflexivity].
    apply Qeq_bool_iff in E. lra.
  - exists 0. right. reflexivity.
Qed.

Lemma masked_ratio_no_infinity (num den c : string) (df : frame) :
  no_infinity df -> no_infinity (masked_ratio num den c df).
Proof.
  intros H. unfold masked_ratio. destruct (_ && _); [|exact H].
  apply no_infinity_assign_where; [exact H|]. intros r Hr Hp.
  destruct (ratio_no_infinity num den r (H r num Hr) (H r den Hr) Hp)
    as (q & [-> | ->]); split; discriminate.
Qed.

Lemma yield_no_infinity (df : frame) :
  no_infinity df -> no_infinity (yield_percentage df).
Proof.
  intros H. unfold yield_percentage. destruct (_ && _); [|exact H].
  apply no_infinity_assign_where; [exact H|]. intros r Hr Hp.
  destruct (ratio_no_infinity "Actual Production Qty" "Cake Production Qty" r
              (H r _ Hr) (H r _ Hr) Hp) as (q & [-> | ->]);
    split; discriminate.
Qed.

Lemma total_power_no_infinity (df : frame) :
  no_infinity df -> no_infinity (total_power df).
Proof.
  intros H. unfold total_power.
  destruct (has df "Furnace Power Consumption"); [|exact H].
  destruct (has df "Aux power Consumption");
    (apply no_infinity_assign; [exact H|]); intros r Hr.
  - destruct (H r "Furnace Power Consumption" Hr) as [A1 A2].
    destruct (H r "Aux power Consumption" Hr) as [B1 B2].
    destruct (cell r "Furnace Power Consumption"),
             (cell r "Aux power Consumption");
      try contradiction; split; discriminate.
  - apply H, Hr.
Qed.

Lemma scale_no_infinity (c : string) (k : Q) (df : frame) :
  no_infinity df -> no_infinity (scale c k df).
Proof.
  intros H. unfold scale. apply no_infinity_assign; [exact H|].
  intros r Hr. destruct (H r c Hr) as [A1 A2].
  destruct (cell r c); try contradiction; split; discriminate.
Qed.

Lemma unit_corrections_no_infinity (df : frame) :
  no_infinity df -> no_infinity (unit_corrections df).
Proof.
  assert (R : forall c d, no_infinity d -> no_infinity (fix_recovery c d)).
  { intros c d H. unfold fix_recovery.
    destruct (has d c); [apply scale_no_infinity|]; exact H. }
  assert (S : forall c b d, no_infinity d -> no_infinity (fix_small c b d)).
  { intros c b d H. unfold fix_small.
    destruct (has d c); [|exact H].
    destruct (flt _ _); [apply scale_no_infinity|]; exact H. }
  assert (P : forall d, no_infinity d -> no_infinity (fix_power d)).
  { intros d H. unfold fix_power. cbv zeta.
    repeat match goal with
           | |- context [if ?b then _ else _] => destruct b
           end;
      repeat apply scale_no_infinity; exact H. }
  intros H. unfold unit_corrections.
  apply P, S, S, R, R, R, R, H.
Qed.

(** X12.  The fixed analyzer brings no infinity into the table: when no
    cell of the raw table is infinite, no cell of the corrected table
    and no cell of the analysis table is, whatever the production, cake
    and input quantities are (a ratio is computed only on the records
    with a positive denominator). *)
Theorem fixed_analysis_without_infinity (df : frame) :
  no_infinity df ->
  no_infinity (_clean_and_fix_data df)
  /\ no_infinity (analysis_df (_clean_and_fix_data df)).
Proof.
  intros H.
  assert (C : no_infinity (_clean_and_fix_data df)).
  { unfold _clean_and_fix_data. apply unit_corrections_no_infinity.
    destruct (has df "Unnamed: 0"); exact H. }
  split; [exact C|]. unfold analysis_df. cbv zeta.
  apply masked_ratio_no_infinity, masked_ratio_no_infinity, yield_no_infinity,
    masked_ratio_no_infinity, total_power_no_infinity,
    masked_ratio_no_infinity, masked_ratio_no_infinity, C.
Qed.

Lemma no_infinity_fractions : no_infinity Samples.fractions.
Proof.
  intros r c Hr. cbn [rows Samples.fractions] in Hr.
  repeat (destruct Hr as [<-|Hr];
          [cbn [cell record cells];
           repeat destruct (String.eqb _ c); split; discriminate|]).
  contradiction.
Qed.

Lemma fixed_analysis_without_infinity_witness :
  no_infinity (analysis_df (_clean_and_fix_data Samples.fractions)).
Proof.
  apply (fixed_analysis_without_infinity Samples.fractions).
  exact no_infinity_fractions.
Defined.

Lemma fadd_feq (x y y' : fnum) : feq y y' -> feq (fadd x y) (fadd x y').
Proof.
  destruct x, y, y'; simpl; try tauto. intros H. rewrite H. reflexivity.
Qed.

Lemma times100_fadd (x y : fnum) :
  feq (fadd (times100 x) (times100 y)) (times100 (fadd x y)).
Proof. destruct x, y; simpl; try exact I. ring. Qed.

Lemma total_times100 (v : list fnum) :
  feq (total (map times100 v)) (times100 (total v)).
Proof.
  induction v as [|x v IH]; [simpl; ring|].
  cbn [map total fold_right].
  eapply feq_trans; [apply fadd_feq; exact IH | apply times100_fadd].
Qed.

Lemma fdiv_feq (a a' : fnum) (n : Q) :
  feq a a' -> feq (fdiv a (Fin n)) (fdiv a' (Fin n)).
Proof.
  destruct a as [p| | |], a' as [p'| | |]; simpl; try tauto.
  - intros H. destruct (Qeq_bool n 0).
    + unfold signed_inf.
      assert (C : (0 ?= p) = (0 ?= p'))
        by (apply Qcompare_comp; [reflexivity | exact H]).
      rewrite C. destruct (0 ?= p'); exact I.
    + simpl. rewrite H. reflexivity.
  - intros _. destruct (Qle_bool 0 n); exact I.
  - intros _. destruct (Qle_bool 0 n); exact I.
Qed.

Lemma fdiv_times100 (b : fnum) (n : Q) :
  0 < n -> feq (fdiv (times100 b) (Fin n)) (times100 (fdiv b (Fin n))).
Proof.
  intros Hn.
  assert (E : Qeq_bool n 0 = false).
  { destruct (Qeq_bool n 0) eqn:E; [|reflexivity].
    apply Qeq_bool_iff in E. lra. }
  assert (L : Qle_bool 0 n = true) by (apply Qle_bool_iff; lra).
  destruct b as [p| | |]; simpl; rewrite ?E, ?L; simpl; try exact I.
  field. lra.
Qed.

Lemma mean_times100 (l : list fnum) :
  feq (mean (map times100 l)) (times100 (mean l)).
Proof.
  unfold mean. rewrite dropna_times100.
  destruct (dropna l) as [|y w]; [exact I|].
  cbn [map List.length]. rewrite length_map.
  set (n := inject_Z (Z.of_nat (S (List.length w)))).
  assert (Hn : 0 < n).
  { subst n. unfold Qlt. simpl. lia. }
  change (times100 y :: map times100 w) with (map times100 (y :: w)).
  eapply feq_trans; [apply fdiv_feq, total_times100|].
  apply fdiv_times100, Hn.
Qed.

Lemma of_furnace_aligned (f c : string) (g : fnum -> fnum) (X Y : frame) :
  view Frame.Furnace X = view Frame.Furnace Y ->
  col X c = map g (col Y c) ->
  col (of_furnace f X) c = map g (col (of_furnace f Y) c).
Proof.
  unfold view, col, of_furnace. cbn [rows].
  generalize (rows X) as lx, (rows Y) as ly.
  induction lx as [|x lx IH]; intros [|y ly]; cbn [map filter];
    try discriminate; [reflexivity|].
  intros Hf Hc. injection Hf as Hf1 Hf2. injection Hc as Hc1 Hc2.
  rewrite Hf1. destruct (String.eqb (Frame.Furnace y) f); cbn [map].
  - rewrite Hc1. f_equal. apply IH; assumption.
  - apply IH; assumption.
Qed.

Lemma has_drop (c c' : string) (df : frame) :
  String.eqb c' c = false -> has (drop c df) c' = has df c'.
Proof.
  intros H. unfold has, drop. cbn [columns].
  induction (columns df) as [|k ks IH]; [reflexivity|].
  cbn [filter existsb]. destruct (String.eqb k c) eqn:E; cbn [negb existsb].
  - apply String.eqb_eq in E. subst k. rewrite H. exact IH.
  - rewrite IH. reflexivity.
Qed.

Lemma analysis_df_keeps (df : frame) (c : string) :
  existsb (String.eqb c)
    [ "Cost_per_Ton_Corrected"; "Power_Cost_per_Ton"; "Total_Power_kWh";
      "Power_per_Ton_kWh"; "Yield_Percentage"; "Ore_Efficiency";
      "Coke_Efficiency" ] = false ->
  col (analysis_df df) c = col df c
  /\ view Frame.Furnace (analysis_df df) = view Frame.Furnace df.
Proof.
  intros H. cbn [existsb] in H.
  repeat (apply orb_false_elim in H; destruct H as [? H]).
  assert (M : forall num den k d,
             String.eqb c k = false ->
             col (masked_ratio num den k d) c = col d c
             /\ view Frame.Furnace (masked_ratio num den k d)
                = view Frame.Furnace d).
  { intros num den k d Hk. unfold masked_ratio, assign_where.
    destruct (_ && _); [|split; reflexivity].
    split; [apply col_assign_other, Hk|].
    apply view_assign, furnace_ignores. }
  assert (T : forall d,
             col (total_power d) c = col d c
             /\ view Frame.Furnace (total_power d) = view Frame.Furnace d).
  { intros d. unfold total_power.
    repeat match goal with
           | |- context [if ?b then _ else _] => destruct b
           end;
      split; try reflexivity;
      try (apply col_assign_other; assumption);
      apply view_assign, furnace_ignores. }
  assert (Y : forall d,
             col (yield_percentage d) c = col d c
             /\ view Frame.Furnace (yield_percentage d)
                = view Frame.Furnace d).
  { intros d. unfold yield_percentage, assign_where.
    destruct (_ && _); [|split; reflexivity].
    split; [apply col_assign_other; assumption|].
    apply view_assign, furnace_ignores. }
  unfold analysis_df. cbv zeta.
  repeat match goal with
         | |- context [masked_ratio ?n ?d ?k ?x] =>
             let E1 := fresh in
             let E2 := fresh in
             destruct (M n d k x ltac:(assumption)) as [E1 E2];
             rewrite E1, E2; clear E1 E2
         | |- context [total_power ?x] =>
             let E1 := fresh in
             let E2 := fresh in
             destruct (T x) as [E1 E2]; rewrite E1, E2; clear E1 E2
         | |- context [yield_percentage ?x] =>
             let E1 := fresh in
             let E2 := fresh in
             destruct (Y x) as [E1 E2]; rewrite E1, E2; clear E1 E2
         end.
  split; reflexivity.
Qed.

Lemma clean_and_fix_furnaces (df : frame) :
  view Frame.Furnace (_clean_and_fix_data df) = view Frame.Furnace df.
Proof.
  assert (Sc : forall c k d,
             view Frame.Furnace (scale c k d) = view Frame.Furnace d).
  { intros c k d. unfold scale. apply view_assign, furnace_ignores. }
  assert (R : forall c d,
             view Frame.Furnace (fix_recovery c d) = view Frame.Furnace d).
  { intros c d. unfold fix_recovery. destruct (has d c); [apply Sc|].
    reflexivity. }
  assert (S : forall c b d,
             view Frame.Furnace (fix_small c b d) = view Frame.Furnace d).
  { intros c b d. unfold fix_small. destruct (has d c); [|reflexivity].
    destruct (flt _ _); [apply Sc | reflexivity]. }
  assert (P : forall d, view Frame.Furnace (fix_power d) = view Frame.Furnace d).
  { intros d. unfold fix_power. cbv zeta.
    repeat match goal with
           | |- context [if ?b then _ else _] => destruct b
           end; rewrite ?Sc; reflexivity. }
  unfold _clean_and_fix_data, unit_corrections.
  rewrite P, !S, !R. destruct (has df "Unnamed: 0"); reflexivity.
Qed.

Lemma clean_and_fix_recovery (df : frame) :
  has df "MN Recovery PLC" = true ->
  col (_clean_and_fix_data df) "MN Recovery PLC"
  = map times100 (col df "MN Recovery PLC").
Proof.
  intros H. unfold _clean_and_fix_data.
  rewrite recovery_column_corrected; [|left; reflexivity|].
  - destruct (has df "Unnamed: 0"); reflexivity.
  - destruct (has df "Unnamed: 0"); [|exact H].
    rewrite has_drop by reflexivity. exact H.
Qed.

(** X13.  The average manganese recovery that the fixed analyzer reports
    for a furnace is 100 times the average of the raw column over the
    records of the furnace: the unit correction and the average
    commute. *)
Theorem fixed_average_recovery_is_100_times_raw (df : frame) (f : string) :
  has df "MN Recovery PLC" = true ->
  feq (avg_mn_recovery (analysis_df (_clean_and_fix_data df)) f)
      (times100 (mean (col (of_furnace f df) "MN Recovery PLC"))).
Proof.
  intros H. unfold avg_mn_recovery.
  destruct (analysis_df_keeps (_clean_and_fix_data df) "MN Recovery PLC"
              eq_refl) as [Hc Hv].
  rewrite (of_furnace_aligned f "MN Recovery PLC" times100 _ df).
  - apply mean_times100.
  - rewrite Hv. apply clean_and_fix_furnaces.
  - rewrite Hc. apply clean_and_fix_recovery, H.
Qed.

Lemma fixed_average_recovery_is_100_times_raw_witness :
  feq (avg_mn_recovery (analysis_df (_clean_and_fix_data Samples.fractions))
         "F1")
      (Fin 81).
Proof.
  eapply feq_trans;
    [apply (fixed_average_recovery_is_100_times_raw Samples.fractions "F1");
     reflexivity|].
  vm_compute. reflexivity.
Defined.

End FixedPipeline.

(** ** capacity_calculator.py: results and savings *)

Section Capacity.

Import CapacityCalculator CapacityResults.

(** X14.  The calculator holds results exactly for the furnaces that are
    configured and have at least one record: for them
    [get_furnace_performance] returns the metrics of the furnace, and
    for a furnace without a configured capacity or without a record it
    returns the empty dictionary. *)
Theorem results_for_configured_furnaces_with_records (df : frame)
    (capacities : list (string * FurnaceCapacity))
    (res : list (string * results)) (f : string) :
  NoDup (map fst capacities) ->
  _calculate_all_metrics df capacities = Ok res ->
  get_furnace_performance res f
  = match get_item capacities f with
    | Some capacity => furnace_results df (with_id f capacity)
    | None => None
    end.
Proof.
  intros Hn H. unfold get_furnace_performance, _calculate_all_metrics in *.
  rewrite (metrics_loop_lookup _ _ _ _ f Hn H). cbn [get_item].
  destruct (get_item capacities f) as [c|]; [|reflexivity].
  destruct (furnace_results df (with_id f c)); reflexivity.
Qed.

Lemma results_for_configured_furnaces_with_records_witness :
  exists res : list (string * results),
    _calculate_all_metrics Examples.with_power_cost Examples.capacities_F1_F3
    = Ok res
    /\ get_furnace_performance res "F3" = None
    /\ get_furnace_performance res "F2" = None.
Proof.
  assert (H : exists res : list (string * results),
                _calculate_all_metrics Examples.with_power_cost
                  Examples.capacities_F1_F3 = Ok res)
    by (eexists; vm_compute; reflexivity).
  assert (Hn : NoDup (map fst Examples.capacities_F1_F3)).
  { repeat constructor; simpl; intuition discriminate. }
  destruct H as (res & H). exists res. split; [exact H|].
  split;
    rewrite (results_for_configured_furnaces_with_records _ _ _ _ Hn H);
    reflexivity.
Defined.

Lemma max0_excess (a t : fnum) :
  max0 (fsub a t) = if fgt a t then fsub a t else Fin 0.
Proof.
  unfold max0, fsub, fgt.
  destruct a as [p| | |], t as [q| | |]; cbn [fneg fadd flt]; try reflexivity.
  assert (E : Qltb 0 (p + - q) = Qltb q p).
  { destruct (Qltb q p) eqn:E.
    - apply Qltb_lt in E. apply Qltb_lt. lra.
    - apply Qltb_ge in E. apply Qltb_ge. lra. }
  rewrite E. reflexivity.
Qed.

Lemma max0_not_negative (x : fnum) : not_negative (max0 x).
Proof.
  unfold max0. destruct (fgt x (Fin 0)) eqn:E; [|simpl; lra].
  destruct x as [q| | |]; try discriminate; [|exact I].
  apply fgt_Fin in E. simpl. lra.
Qed.

Lemma set_item_In {V : Type} (d : list (string * V)) (k k' : string)
    (v v' : V) :
  In (k', v') (set_item k v d) -> (k' = k /\ v' = v) \/ In (k', v') d.
Proof.
  induction d as [|[k0 v0] d IH]; cbn [set_item].
  - intros [E|[]]. injection E as <- <-. left. split; reflexivity.
  - destruct (String.eqb k0 k) eqn:E.
    + apply String.eqb_eq in E. subst k0. intros [H|H].
      * injection H as <- <-. left. split; reflexivity.
      * right. right. exact H.
    + intros [H|H]; [right; left; exact H|].
      destruct (IH H) as [H'|H']; [left; exact H' | right; right; exact H'].
Qed.

Lemma savings_entries (df : frame)
    (capacities : list (string * FurnaceCapacity))
    (res : list (string * results)) (f : string) (s : savings) :
  In (f, s) (calculate_potential_savings df capacities res) ->
  exists (capacity : FurnaceCapacity) (perf : results),
    In (f, capacity) capacities /\ get_item res f = Some perf
    /\ s = savings_of df f capacity perf.
Proof.
  unfold calculate_potential_savings.
  assert (G : forall acc : list (string * savings),
             (forall g t, In (g, t) acc ->
                exists capacity perf,
                  In (g, capacity) capacities /\ get_item res g = Some perf
                  /\ t = savings_of df g capacity perf) ->
             forall l,
               (forall x, In x l -> In x capacities) ->
               In (f, s)
                 (fold_left
                    (fun saved fc =>
                       let '(furnace_id, capacity) := fc in
                       match get_item res furnace_id with
                       | None => saved
                       | Some perf =>
                           set_item furnace_id
                             (savings_of df furnace_id capacity perf) saved
                       end) l acc) ->
               exists capacity perf,
                 In (f, capacity) capacities /\ get_item res f = Some perf
                 /\ s = savings_of df f capacity perf).
  { intros acc Hacc l. revert acc Hacc.
    induction l as [|[g c] l IH]; intros acc Hacc Hl; cbn [fold_left].
    - apply Hacc.
    - apply IH; [|intros x Hx; apply Hl; right; exact Hx].
      destruct (get_item res g) as [perf|] eqn:E; [|exact Hacc].
      intros g' t Hin. apply set_item_In in Hin.
      destruct Hin as [[-> ->]|Hin]; [|apply Hacc, Hin].
      exists c, perf. split; [apply Hl; left; reflexivity|].
      split; [exact E | reflexivity]. }
  apply G; [intros g t [] | intros x Hx; exact Hx].
Qed.

(** X15.  The savings that [calculate_potential_savings] reports per ton
    are never negative and never missing: the cost saving is the excess
    of the furnace's cost over its target when the cost is above the
    target and 0 otherwise, and likewise the power saving and the
    recovery gap; savings are reported only for configured furnaces that
    have results. *)
Theorem potential_savings_never_negative (df : frame)
    (capacities : list (string * FurnaceCapacity))
    (res : list (string * results)) (f : string) (s : savings) :
  In (f, s) (calculate_potential_savings df capacities res) ->
  exists (capacity : FurnaceCapacity) (perf : results),
    In (f, capacity) capacities /\ get_item res f = Some perf
    /\ cost_saving_per_ton s
       = (if fgt (avg_cost_mt perf) (target_cost_mt capacity)
          then fsub (avg_cost_mt perf) (target_cost_mt capacity)
          else Fin 0)
    /\ power_saving_per_ton s
       = (if fgt (avg_power_mt perf) (optimal_power_kwh_mt capacity)
          then fsub (avg_power_mt perf) (optimal_power_kwh_mt capacity)
          else Fin 0)
    /\ recovery_gap s
       = (if fgt (target_mn_recovery capacity) (avg_mn_recovery perf)
          then fsub (target_mn_recovery capacity) (avg_mn_recovery perf)
          else Fin 0)
    /\ not_negative (cost_saving_per_ton s)
    /\ not_negative (power_saving_per_ton s)
    /\ not_negative (recovery_gap s).
Proof.
  intros H. destruct (savings_entries _ _ _ _ _ H) as (c & perf & Hc & Hp & ->).
  exists c, perf. unfold savings_of. cbv zeta.
  cbn [cost_saving_per_ton power_saving_per_ton recovery_gap].
  repeat split; try assumption;
    try apply max0_excess; apply max0_not_negative.
Qed.

Lemma potential_savings_never_negative_witness :
  exists (res : list (string * results)) (s : savings),
    _calculate_all_metrics Examples.with_power_cost Examples.capacities_F1_F3
    = Ok res
    /\ In ("F1", s)
         (calculate_potential_savings Examples.with_power_cost
            Examples.capacities_F1_F3 res)
    /\ not_negative (cost_saving_per_ton s).
Proof.
  assert (H : exists (res : list (string * results)) (s : savings),
                _calculate_all_metrics Examples.with_power_cost
                  Examples.capacities_F1_F3 = Ok res
                /\ In ("F1", s)
                     (calculate_potential_savings Examples.with_power_cost
                        Examples.capacities_F1_F3 res)).
  { eexists. eexists. split; [vm_compute; reflexivity|].
    vm_compute. left. reflexivity. }
  destruct H as (res & s & H1 & H2). exists res, s.
  split; [exact H1|]. split; [exact H2|].
  destruct (potential_savings_never_negative _ _ _ _ _ H2)
    as (c & perf & _ & _ & _ & _ & _ & N & _).
  exact N.
Defined.

End Capacity.

(** ** advanced_insights.py: the whole generation *)

Section AdvancedGeneration.

Import CapacityCalculator CapacityResults AdvancedRules.

Lemma power_insights_with_load_factor (df : frame)
    (res : list (string * results))
    (capacities : list (string * FurnaceCapacity)) :
  has df "Load Factor" = true ->
  exists out : list finding,
    _generate_power_insights df res capacities = Returns out.
Proof.
  intros H. induction capacities as [|[f c] l IH];
    cbn [_generate_power_insights]; [eexists; reflexivity|].
  destruct (get_furnace_performance res f) as [perf|]; [|exact IH].
  cbv zeta. unfold avg_load_factor. cbv zeta. rewrite has_of_furnace, H.
  destruct IH as (more & ->). cbn [and_then]. eexists. reflexivity.
Qed.

Lemma power_insights_without_load_factor (df : frame)
    (res : list (string * results))
    (capacities : list (string * FurnaceCapacity)) :
  has df "Load Factor" = false ->
  _generate_power_insights df res capacities
  = if existsb (fun fc => match get_furnace_performance res (fst fc) with
                          | Some _ => true
                          | None => false
                          end) capacities
    then Raises (Builtin TypeError) else Returns [].
Proof.
  intros H. induction capacities as [|[f c] l IH];
    cbn [_generate_power_insights existsb fst]; [reflexivity|].
  destruct (get_furnace_performance res f) as [perf|]; [|exact IH].
  cbv zeta. unfold avg_load_factor. cbv zeta. rewrite has_of_furnace, H.
  reflexivity.
Qed.

(** X16.  [generate_all_insights] of the advanced engine never returns
    when the engine has a capacity for at least one furnace: the recovery
    generator calls a method the calculator does not have and raises
    [AttributeError]; on a table without the column [Load Factor] the
    power generator raises [TypeError] before it, as soon as one of the
    furnaces has results. *)
Theorem advanced_insights_never_returned (amount : fnum -> string)
    (df : frame) (calc_capacities : list (string * FurnaceCapacity))
    (res : list (string * results))
    (capacities : list (string * FurnaceCapacity)) :
  capacities <> [] ->
  generate_all_insights amount df calc_capacities res capacities
  = if has df "Load Factor"
       || negb (existsb (fun fc =>
                           match get_furnace_performance res (fst fc) with
                           | Some _ => true
                           | None => false
                           end) capacities)
    then Raises AttributeError
    else Raises (Builtin TypeError).
Proof.
  intros Hc. unfold generate_all_insights. cbv zeta.
  assert (R : _generate_recovery_insights capacities = Raises AttributeError)
    by (destruct capacities; [contradiction | reflexivity]).
  destruct (has df "Load Factor") eqn:H; cbn [orb].
  - destruct (power_insights_with_load_factor df res capacities H)
      as (out & ->).
    cbn [and_then]. rewrite R. reflexivity.
  - rewrite (power_insights_without_load_factor df res capacities H).
    destruct (existsb _ capacities); cbn [negb and_then]; [reflexivity|].
    rewrite R. reflexivity.
Qed.

Lemma advanced_insights_never_returned_witness :
  exists res : list (string * results),
    _calculate_all_metrics Examples.with_power_cost Examples.capacities_F1_F3
    = Ok res
    /\ generate_all_insights (fun _ => "") Examples.with_power_cost
         Examples.capacities_F1_F3 res Examples.capacities_F1_F3
       = Raises (Builtin TypeError).
Proof.
  assert (H : exists res : list (string * results),
                _calculate_all_metrics Examples.with_power_cost
                  Examples.capacities_F1_F3 = Ok res
                /\ get_furnace_performance res "F1" <> None).
  { eexists. split; [vm_compute; reflexivity|]. vm_compute. discriminate. }
  destruct H as (res & H & H1). exists res. split; [exact H|].
  rewrite (advanced_insights_never_returned (fun _ => "")
             Examples.with_power_cost Examples.capacities_F1_F3 res
             Examples.capacities_F1_F3 ltac:(discriminate)).
  cbn [existsb Examples.capacities_F1_F3 fst].
  destruct (get_furnace_performance res "F1"); [reflexivity|].
  contradiction H1. reflexivity.
Defined.

End AdvancedGeneration.

(** ** advanced_insights.py: the critical issues in a run *)

Section CriticalIssuesInARun.

Import CapacityCalculator CapacityResults AdvancedRules.

Lemma filter_length_le {A : Type} (p q : A -> bool) (l : list A) :
  (forall x, In x l -> p x = true -> q x = true) ->
  (List.length (filter p l) <= List.length (filter q l))%nat.
Proof.
  induction l as [|x l IH]; intros H; [apply Nat.le_refl|].
  cbn [filter].
  assert (IH' : (List.length (filter p l) <= List.length (filter q l))%nat)
    by (apply IH; intros y Hy; apply H; right; exact Hy).
  destruct (p x) eqn:P.
  - rewrite (H x (or_introl eq_refl) P). cbn [List.length]. lia.
  - destruct (q x); cbn [List.length]; lia.
Qed.

Lemma capacity_insight_shape
    (calc_capacities : list (string * FurnaceCapacity))
    (fr : string * results) :
  capacity_insight calc_capacities fr = []
  \/ exists i, capacity_insight calc_capacities fr = [i]
                /\ Finding.furnace i = Some (fst fr)
                /\ category i = "capacity".
Proof.
  destruct fr as [f row]. unfold capacity_insight.
  destruct (flt (capacity_utilization row) (Fin 70)).
  - right. eexists. split; [reflexivity|]. split; reflexivity.
  - destruct (fgt (capacity_utilization row) (Fin 110)).
    + right. eexists. split; [reflexivity|]. split; reflexivity.
    + left. reflexivity.
Qed.

Lemma capacity_insights_of_absent
    (calc_capacities : list (string * FurnaceCapacity))
    (res : list (string * results)) (f : string) :
  ~ In f (map fst res) ->
  filter (names f) (_generate_capacity_insights calc_capacities res) = [].
Proof.
  unfold _generate_capacity_insights.
  induction res as [|fr res IH]; intros Hn; [reflexivity|].
  cbn [flat_map]. rewrite filter_app, IH
    by (intros H; apply Hn; right; exact H).
  rewrite app_nil_r.
  destruct (capacity_insight_shape calc_capacities fr)
    as [->|(i & -> & Hf & _)]; [reflexivity|].
  cbn [filter]. unfold names. rewrite Hf.
  destruct (String.eqb (fst fr) f) eqn:E; [|reflexivity].
  apply String.eqb_eq in E. exfalso. apply Hn. left. exact E.
Qed.

(** The capacity generator has one insight for a furnace at most. *)
Lemma capacity_insights_of_furnace
    (calc_capacities : list (string * FurnaceCapacity))
    (res : list (string * results)) (f : string) :
  NoDup (map fst res) ->
  (List.length
     (filter (names f) (_generate_capacity_insights calc_capacities res))
   <= 1)%nat.
Proof.
  induction res as [|fr res IH]; intros Hn; [cbn; lia|].
  inversion Hn as [|? ? Hnot Hn']; subst.
  unfold _generate_capacity_insights in *. cbn [flat_map].
  rewrite filter_app, length_app.
  destruct (capacity_insight_shape calc_capacities fr)
    as [->|(i & -> & Hf & _)]; [cbn [filter List.length]; apply IH, Hn'|].
  cbn [filter]. unfold names at 1. rewrite Hf.
  destruct (String.eqb (fst fr) f) eqn:E.
  - apply String.eqb_eq in E. subst f.
    pose proof (capacity_insights_of_absent calc_capacities res (fst fr)
                  Hnot) as Z.
    unfold _generate_capacity_insights in Z. rewrite Z. cbn. lia.
  - cbn [List.length]. apply IH, Hn'.
Qed.

(** The comparative insights name no furnace. *)
Lemma compare_all_no_furnace (res : list (string * results))
    (ms : list ((results -> fnum) * string * bool)) :
  forall (out : list finding) (i : finding),
    AdvancedRules.compare_all res ms = Ok out ->
    In i out ->
    Finding.furnace i = None /\ category i = "comparative".
Proof.
  induction ms as [|[[metric name] lower] ms IH]; intros out i H Hi.
  - cbn in H. injection H as <-. contradiction.
  - cbn [AdvancedRules.compare_all] in H.
    destruct (AdvancedRules.compare_metric res (metric, name, lower))
      as [found|] eqn:E; [|discriminate].
    cbn [bind] in H.
    destruct (AdvancedRules.compare_all res ms) as [rest|]; [|discriminate].
    cbn [bind] in H. injection H as <-.
    apply in_app_or in Hi. destruct Hi as [Hi|Hi]; [|apply (IH rest i eq_refl Hi)].
    unfold AdvancedRules.compare_metric in E. cbv zeta in E.
    destruct (if lower then idxmin _ else idxmax _); [|discriminate].
    destruct (if lower then idxmax _ else idxmin _); [|discriminate].
    destruct (nth_error res _) as [b|]; [|discriminate].
    destruct (nth_error res _) as [w|]; [|discriminate].
    destruct lower; [|injection E as <-; contradiction].
    destruct (fgt _ (Fin 20)); injection E as <-; [|contradiction].
    destruct Hi as [<-|[]]. split; reflexivity.
Qed.

Lemma comparative_no_furnace (res : list (string * results))
    (out : list finding) (i : finding) :
  AdvancedRules._generate_comparative_insights res = Ok out ->
  In i out ->
  Finding.furnace i = None /\ category i = "comparative".
Proof.
  unfold AdvancedRules._generate_comparative_insights.
  destruct (List.length res <? 2)%nat.
  - intros H. injection H as <-. contradiction.
  - apply compare_all_no_furnace.
Qed.

(** Without capacities of its own the engine has the capacity and the
    comparative insights only, and no furnace has two of high
    severity. *)
Lemma no_critical_without_capacities (amount : fnum -> string)
    (calc_capacities : list (string * FurnaceCapacity))
    (res : list (string * results)) (comparative : list finding) :
  NoDup (map fst res) ->
  AdvancedRules._generate_comparative_insights res = Ok comparative ->
  AdvancedInsights.critical_insights
    (map (as_insight amount)
         (_generate_capacity_insights calc_capacities res ++ comparative))
  = [].
Proof.
  intros Hn Hc.
  set (l := _generate_capacity_insights calc_capacities res ++ comparative).
  destruct (AdvancedInsights.critical_insights (map (as_insight amount) l))
    as [|c cs] eqn:E; [reflexivity|].
  exfalso.
  destruct (critical_insights_shape (map (as_insight amount) l) c)
    as (_ & _ & f & _ & Hf & _ & Hlen); [rewrite E; left; reflexivity|].
  assert (B : (List.length
                 (AdvancedInsights.issues_of f (map (as_insight amount) l))
               <= 1)%nat).
  { unfold AdvancedInsights.issues_of.
    assert (M : forall (p : AdvancedInsights.insight -> bool)
                       (k : list finding),
               List.length (filter p (map (as_insight amount) k))
               = List.length (filter (fun i => p (as_insight amount i)) k)).
    { intros p k. induction k as [|x k IH]; [reflexivity|].
      cbn [map filter]. destruct (p (as_insight amount x));
        cbn [List.length]; rewrite IH; reflexivity. }
    rewrite M. subst l. rewrite filter_app, length_app.
    assert (Z : filter (fun i =>
                          AdvancedInsights.is_high (as_insight amount i)
                          && String.eqb
                               (AdvancedInsights.furnace_of
                                  (as_insight amount i)) f)
                       comparative = []).
    { clear -Hc Hf. 
      assert (G : forall k, (forall i, In i k -> Finding.furnace i = None) ->
                  filter (fun i =>
                            AdvancedInsights.is_high (as_insight amount i)
                            && String.eqb
                                 (AdvancedInsights.furnace_of
                                    (as_insight amount i)) f) k = []).
      { induction k as [|x k IH]; intros H; [reflexivity|].
        cbn [filter]. unfold AdvancedInsights.furnace_of at 1.
        cbn [as_insight AdvancedInsights.furnace].
        rewrite (H x (or_introl eq_refl)).
        destruct (String.eqb "General" f) eqn:G.
        - apply String.eqb_eq in G. exfalso. apply Hf. symmetry. exact G.
        - rewrite andb_false_r. apply IH. intros i Hi. apply H. right.
          exact Hi. }
      apply G. intros i Hi. apply (comparative_no_furnace res _ i Hc Hi). }
    rewrite Z. cbn [List.length]. rewrite Nat.add_0_r.
    eapply Nat.le_trans;
      [|apply (capacity_insights_of_furnace calc_capacities res f Hn)].
    apply filter_length_le. intros i _ H.
    apply andb_true_iff in H. destruct H as [_ H].
    unfold AdvancedInsights.furnace_of in H.
    cbn [as_insight AdvancedInsights.furnace] in H. unfold names.
    destruct (Finding.furnace i) as [g|]; [exact H|].
    apply String.eqb_eq in H. exfalso. apply Hf. symmetry. exact H. }
  lia.
Qed.

Lemma capacity_insights_category
    (calc_capacities : list (string * FurnaceCapacity))
    (res : list (string * results)) (i : finding) :
  In i (_generate_capacity_insights calc_capacities res) ->
  category i = "capacity".
Proof.
  unfold _generate_capacity_insights. intros H. apply in_flat_map in H.
  destruct H as (fr & _ & H).
  destruct (capacity_insight_shape calc_capacities fr)
    as [E|(j & E & _ & C)]; rewrite E in H; [contradiction|].
  destruct H as [<-|[]]. exact C.
Qed.

(** With a capacity of its own the engine ends with an exception. *)
Lemma run_with_capacities_raises (amount : fnum -> string) (df : frame)
    (calc_capacities : list (string * FurnaceCapacity))
    (res : list (string * results))
    (capacities : list (string * FurnaceCapacity)) :
  capacities <> [] ->
  exists e : exception,
    generate_all_insights amount df calc_capacities res capacities = Raises e
    /\ (has df "Load Factor" = true -> e = AttributeError).
Proof.
  intros Hc. unfold generate_all_insights. cbv zeta.
  assert (R : _generate_recovery_insights capacities = Raises AttributeError)
    by (destruct capacities; [contradiction | reflexivity]).
  destruct (_generate_power_insights df res capacities) as [power|e] eqn:P;
    cbn [and_then].
  - rewrite R. cbn [and_then]. eexists. split; reflexivity.
  - exists e. split; [reflexivity|]. intros H.
    destruct (power_insights_with_load_factor df res capacities H)
      as (out & E).
    rewrite E in P. discriminate.
Qed.

(** C9 on the code.  [_categorize_insights] appends the insight of the
    multiple critical issues of a furnace, but no run of
    [generate_all_insights] reports one.  When the engine has a capacity
    for a furnace, the recovery generator calls a method that the
    calculator does not have, and the run ends with [AttributeError]
    (or with the [TypeError] of the power generator before it) whatever
    the furnaces have accumulated; without capacities only the capacity
    and the comparative generators find anything, no furnace gets two
    insights of high severity, and the dictionary returned holds no
    insight of the category critical. *)
Theorem critical_issues_never_reported (amount : fnum -> string)
    (df : frame) (calc_capacities : list (string * FurnaceCapacity))
    (res : list (string * results))
    (capacities : list (string * FurnaceCapacity)) :
  NoDup (map fst res) ->
  (capacities <> [] ->
   exists e : exception,
     generate_all_insights amount df calc_capacities res capacities
     = Raises e
     /\ (has df "Load Factor" = true -> e = AttributeError))
  /\ (forall cats : list (AdvancedInsights.bucket
                          * list AdvancedInsights.insight),
        generate_all_insights amount df calc_capacities res capacities
        = Returns cats ->
        capacities = []
        /\ forall (b : AdvancedInsights.bucket)
                  (l : list AdvancedInsights.insight)
                  (i : AdvancedInsights.insight),
             In (b, l) cats -> In i l ->
             AdvancedInsights.category i <> Some "critical").
Proof.
  intros Hn. split; [apply run_with_capacities_raises|].
  intros cats H.
  destruct capacities as [|c cs].
  2:{ destruct (run_with_capacities_raises amount df calc_capacities res
                  (c :: cs)) as (e & E & _); [discriminate|].
      rewrite E in H. discriminate. }
  split; [reflexivity|]. intros b l i Hb Hi.
  unfold generate_all_insights in H. cbv zeta in H.
  cbn [_generate_cost_insights flat_map _generate_power_insights
       _generate_recovery_insights _generate_quality_insights
       _generate_operational_insights of_result and_then app] in H.
  destruct (AdvancedRules._generate_comparative_insights res)
    as [comparative|] eqn:C; [|discriminate].
  cbn [of_result and_then] in H.
  unfold AdvancedInsights._categorize_insights in H. cbv zeta in H.
  cbn [snd] in H. unfold AdvancedInsights.with_critical in H.
  rewrite (no_critical_without_capacities amount calc_capacities res
             comparative Hn C), app_nil_r in H.
  destruct (AdvancedInsights.sort_all _) as [cats'|] eqn:S; [|discriminate].
  cbn [of_result] in H. injection H as <-.
  pose proof (sorted_concat _ _ (sort_all_perm _ _ S)) as P.
  assert (Hin : In i (List.concat (map snd cats'))).
  { apply in_concat. exists l. split; [|exact Hi].
    apply in_map_iff. exists (b, l). split; [reflexivity | exact Hb]. }
  apply (Permutation_in _ P) in Hin.
  apply (Permutation_in _ (categorized_all _)) in Hin.
  apply in_map_iff in Hin. destruct Hin as (x & <- & Hx).
  cbn [as_insight AdvancedInsights.category].
  apply in_app_or in Hx. destruct Hx as [Hx|Hx].
  - rewrite (capacity_insights_category _ _ _ Hx). discriminate.
  - destruct (comparative_no_furnace res _ x C Hx) as [_ ->]. discriminate.
Qed.

(** C9 at the failing input.  Furnace F1 works at half of its design
    capacity and at a cost a third above its target: the capacity and the
    cost generator each find a high-severity insight for it, and
    [_categorize_insights] would append the insight of its multiple
    critical issues to them; the run ends with [AttributeError] and
    reports nothing. *)
Lemma critical_issues_never_reported_witness :
  exists (res : list (string * results))
         (found : list AdvancedInsights.insight),
    _calculate_all_metrics Examples.with_load_factor
      Examples.capacities_cost_30 = Ok res
    /\ found
       = map (as_insight (fun _ => ""))
             (_generate_capacity_insights Examples.capacities_cost_30 res
              ++ _generate_cost_insights res Examples.capacities_cost_30)
    /\ (2 <= List.length (AdvancedInsights.issues_of "F1" found))%nat
    /\ filter (AdvancedInsights.refers_to "F1")
              (AdvancedInsights.critical_insights found)
       = [ AdvancedInsights.critical_insight "F1"
             (AdvancedInsights.issues_of "F1" found) ]
    /\ generate_all_insights (fun _ => "") Examples.with_load_factor
         Examples.capacities_cost_30 res Examples.capacities_cost_30
       = Raises AttributeError.
Proof.
  assert (H : exists res : list (string * results),
                _calculate_all_metrics Examples.with_load_factor
                  Examples.capacities_cost_30 = Ok res
                /\ map fst res = ["F1"]
                /\ (2 <=? List.length
                            (AdvancedInsights.issues_of "F1"
                               (map (as_insight (fun _ => ""))
                                    (_generate_capacity_insights
                                       Examples.capacities_cost_30 res
                                     ++ _generate_cost_insights res
                                          Examples.capacities_cost_30))))%nat
                   = true).
  { eexists. split; [vm_compute; reflexivity|].
    split; vm_compute; reflexivity. }
  destruct H as (res & H & K & L). exists res. eexists.
  split; [exact H|]. split; [reflexivity|].
  split; [apply Nat.leb_le; exact L|]. split.
  - rewrite critical_for, L. reflexivity.
  - assert (Hn : NoDup (map fst res)).
    { rewrite K. repeat constructor. simpl. tauto. }
    destruct (critical_issues_never_reported (fun _ => "")
                Examples.with_load_factor Examples.capacities_cost_30 res
                Examples.capacities_cost_30 Hn) as [R _].
    destruct R as (e & E & A); [discriminate|].
    rewrite E, (A eq_refl). reflexivity.
Defined.

End CriticalIssuesInARun.

(** ** processor.py: the scores *)

Section ProcessorScores.

Import Processor.

Lemma fge_Fin (a b : Q) : fge (Fin a) (Fin b) = true <-> b <= a.
Proof.
  unfold fge. cbn [isna negb andb flt]. rewrite negb_true_iff.
  apply Qltb_ge.
Qed.

Lemma band_score_inside (lo hi target slope bound q : Q) :
  lo <= target <= hi -> 0 <= slope ->
  bound <= 100 - (hi - target) * slope ->
  bound <= 100 - (target - lo) * slope ->
  lo <= q <= hi ->
  exists s : Q,
    band_score lo hi target slope (Fin q) = Fin s
    /\ s == 100 - Qabs (q - target) * slope
    /\ bound <= s <= 100.
Proof.
  intros Ht Hs H1 H2 Hq. unfold band_score.
  assert (E1 : fge (Fin q) (Fin lo) = true) by (apply fge_Fin; lra).
  assert (E2 : fle (Fin q) (Fin hi) = true)
    by (unfold fle; apply fge_Fin; lra).
  rewrite E1, E2. cbn [andb fsub fneg fadd fabs fmul].
  eexists. split; [reflexivity|]. split; [reflexivity|].
  assert (A : 0 <= Qabs (q + - target)) by apply Qabs_nonneg.
  assert (B : Qabs (q + - target) <= hi - target \/
              Qabs (q + - target) <= target - lo).
  { destruct (Qlt_le_dec q target) as [L|L].
    - right. rewrite Qabs_neg by lra. lra.
    - left. rewrite Qabs_pos by lra. lra. }
  split; [|nra]. destruct B; nra.
Qed.

Lemma band_score_outside (lo hi target slope : Q) (x : fnum) :
  outside lo hi x -> band_score lo hi target slope x = Fin 0.
Proof.
  intros H. unfold band_score.
  destruct (fge x (Fin lo) && fle x (Fin hi)) eqn:E; [|reflexivity].
  apply andb_true_iff in E. destruct E as [E1 E2].
  destruct x as [a| | |]; try discriminate.
  apply fge_Fin in E1. unfold fle in E2. apply fge_Fin in E2.
  cbn [outside] in H. lra.
Qed.

Lemma count_succ (n : nat) :
  inject_Z (Z.of_nat (S n)) == inject_Z (Z.of_nat n) + 1.
Proof. rewrite Nat2Z.inj_succ, <- Z.add_1_r, inject_Z_plus. reflexivity. Qed.

Lemma total_bounds (lo hi : Q) (v : list fnum) :
  (forall x, In x v -> finite_within lo hi x) ->
  exists s : Q,
    total v = Fin s
    /\ inject_Z (Z.of_nat (List.length v)) * lo <= s
    /\ s <= inject_Z (Z.of_nat (List.length v)) * hi.
Proof.
  induction v as [|x v IH]; intros H.
  - exists 0. split; [reflexivity|].
    change (inject_Z (Z.of_nat (List.length (@nil fnum)))) with 0. lra.
  - destruct IH as (s & Es & L & U);
      [intros y Hy; apply H; right; exact Hy|].
    specialize (H x (or_introl eq_refl)).
    destruct x as [a| | |]; try contradiction. simpl in H.
    exists (a + s). unfold total in *. cbn [fold_right]. rewrite Es.
    split; [reflexivity|]. cbn [List.length]. rewrite count_succ. lra.
Qed.

Lemma mean_within (lo hi : Q) (l : list fnum) :
  (forall x, In x l -> within lo hi x) -> within lo hi (mean l).
Proof.
  intros H. unfold mean.
  assert (F : forall x, In x (dropna l) -> finite_within lo hi x).
  { intros x Hx. unfold dropna in Hx. apply filter_In in Hx.
    destruct Hx as [Hx N]. specialize (H x Hx).
    destruct x; try discriminate; try contradiction. exact H. }
  destruct (dropna l) as [|y w]; [exact I|].
  destruct (total_bounds lo hi (y :: w) F) as (s & -> & L & U).
  set (n := inject_Z (Z.of_nat (List.length (y :: w)))) in *.
  assert (Hn : 0 < n).
  { subst n. cbn [List.length]. rewrite count_succ.
    assert (0 <= inject_Z (Z.of_nat (List.length w))).
    { unfold Qle. simpl. lia. }
    lra. }
  cbn [fdiv]. destruct (Qeq_bool n 0) eqn:E.
  - apply Qeq_bool_iff in E. lra.
  - cbn [within]. split.
    + apply Qle_shift_div_l; [exact Hn|]. lra.
    + apply Qle_shift_div_r; [exact Hn|]. lra.
Qed.

Ltac split_tests :=
  repeat match goal with
         | |- context [if ?b then _ else _] => destruct b
         end.

Lemma ratio_column_other (num den k c : string) (df : frame) :
  String.eqb c k = false ->
  col (ratio_column num den k df) c = col df c
  /\ has (ratio_column num den k df) c = has df c.
Proof.
  intros H. unfold ratio_column. destruct (_ && _); [|split; reflexivity].
  rewrite has_assign, H, orb_false_r.
  split; [apply col_assign_other, H | reflexivity].
Qed.

Lemma cost_metrics_other (df : frame) (c : string) :
  String.eqb c "cost_per_ton" = false ->
  String.eqb c "power_cost_per_ton" = false ->
  col (cost_metrics df) c = col df c /\ has (cost_metrics df) c = has df c.
Proof.
  intros H1 H2. unfold cost_metrics.
  destruct (ratio_column_other "Power Cost" "Actual Production Qty"
              "power_cost_per_ton" c
              (ratio_column "Total Cost PLC" "Actual Production Qty"
                 "cost_per_ton" df) H2) as [E1 E2].
  destruct (ratio_column_other "Total Cost PLC" "Actual Production Qty"
              "cost_per_ton" c df H1) as [E3 E4].
  rewrite E1, E2, E3, E4. split; reflexivity.
Qed.

Lemma efficiency_metrics_other (df : frame) (c : string) :
  String.eqb c "yield_percentage" = false ->
  String.eqb c "ore_efficiency" = false ->
  String.eqb c "coke_efficiency" = false ->
  col (efficiency_metrics df) c = col df c
  /\ has (efficiency_metrics df) c = has df c.
Proof.
  intros H1 H2 H3. unfold efficiency_metrics. cbv zeta.
  set (d := if has df "Actual Production Qty" && has df "Cake Production Qty"
            then _ else df).
  assert (D : col d c = col df c /\ has d c = has df c).
  { subst d. destruct (_ && _); [|split; reflexivity].
    rewrite has_assign, H1, orb_false_r.
    split; [apply col_assign_other, H1 | reflexivity]. }
  destruct D as [D1 D2].
  destruct (ratio_column_other "Actual Production Qty"
              "Input Qty(Coke PLC)(MT)" "coke_efficiency" c
              (ratio_column "Actual Production Qty" "Input Qty(Ore PLC)(MT)"
                 "ore_efficiency" d) H3) as [E1 E2].
  destruct (ratio_column_other "Actual Production Qty"
              "Input Qty(Ore PLC)(MT)" "ore_efficiency" c d H2) as [E3 E4].
  rewrite E1, E2, E3, E4, D1, D2. split; reflexivity.
Qed.

Lemma before_quality_scores (df : frame) (c : string) :
  existsb (String.eqb c)
    [ "cost_per_ton"; "power_cost_per_ton"; "yield_percentage";
      "ore_efficiency"; "coke_efficiency" ] = false ->
  col (efficiency_metrics (cost_metrics df)) c = col df c
  /\ has (efficiency_metrics (cost_metrics df)) c = has df c.
Proof.
  intros H. cbn [existsb] in H.
  repeat (apply orb_false_elim in H; destruct H as [? H]).
  destruct (efficiency_metrics_other (cost_metrics df) c) as [E1 E2];
    try assumption.
  destruct (cost_metrics_other df c) as [E3 E4]; try assumption.
  rewrite E1, E2, E3, E4. split; reflexivity.
Qed.

Lemma quality_scores_other (df : frame) (c : string) :
  String.eqb c "grade_mn_score" = false ->
  String.eqb c "basicity_score" = false ->
  col (quality_scores df) c = col df c
  /\ has (quality_scores df) c = has df c.
Proof.
  intros H1 H2. unfold quality_scores. cbv zeta.
  split_tests; rewrite ?has_assign, ?H1, ?H2, ?orb_false_r;
    rewrite ?col_assign_other by assumption;
    rewrite ?col_assign_other by assumption; split; reflexivity.
Qed.

Lemma performance_score_other (df : frame) (c : string) :
  String.eqb c "performance_score" = false ->
  col (performance_score df) c = col df c.
Proof.
  intros H. unfold performance_score.
  destruct (score_components df); [reflexivity|].
  apply col_assign_other, H.
Qed.

(** X17.  The two quality scores of the processor are never missing:
    the score of the manganese grade is 0 outside the band from 65 to 75
    (also for a missing or infinite grade), and inside it is 100 less 10
    for each point of distance from 70, between 50 and 100; the score of
    the basicity is 0 outside the band from 1.2 to 1.5, and inside it is
    100 less 40 for each unit of distance from 1.35, between 94 and
    100. *)
Theorem processor_quality_scores (df : frame) :
  (has df "Grade MN" = true ->
   col (_calculate_all_metrics df) "grade_mn_score"
   = map grade_mn_score (col df "Grade MN"))
  /\ (has df "Basicity" = true ->
      col (_calculate_all_metrics df) "basicity_score"
      = map basicity_score (col df "Basicity"))
  /\ (forall q : Q,
        65 <= q <= 75 ->
        exists s : Q,
          grade_mn_score (Fin q) = Fin s
          /\ s == 100 - Qabs (q - 70) * 10 /\ 50 <= s <= 100)
  /\ (forall x : fnum, outside 65 75 x -> grade_mn_score x = Fin 0)
  /\ (forall q : Q,
        1.2 <= q <= 1.5 ->
        exists s : Q,
          basicity_score (Fin q) = Fin s
          /\ s == 100 - Qabs (q - 1.35) * 40 /\ 94 <= s <= 100)
  /\ (forall x : fnum, outside 1.2 1.5 x -> basicity_score x = Fin 0).
Proof.
  split; [|split; [|split; [|split; [|split]]]].
  - intros H. unfold _calculate_all_metrics.
    rewrite performance_score_other by reflexivity.
    destruct (before_quality_scores df "Grade MN" eq_refl) as [Ec Eh].
    unfold quality_scores. cbv zeta. rewrite Eh, H.
    match goal with
    | |- col (if ?b then _ else _) _ = _ => destruct b
    end; rewrite ?col_assign_other by reflexivity;
      rewrite col_assign_same, <- Ec; unfold col; rewrite map_map;
      reflexivity.
  - intros H. unfold _calculate_all_metrics.
    rewrite performance_score_other by reflexivity.
    destruct (before_quality_scores df "Basicity" eq_refl) as [Ec Eh].
    unfold quality_scores. cbv zeta.
    set (d := if has _ "Grade MN" then _ else _).
    assert (D : has d "Basicity" = true
                /\ col d "Basicity" = col df "Basicity").
    { subst d. destruct (has _ "Grade MN").
      - rewrite has_assign, Eh, H, col_assign_other by reflexivity.
        split; [reflexivity | exact Ec].
      - rewrite Eh, H. split; [reflexivity | exact Ec]. }
    destruct D as [D1 D2]. rewrite D1, col_assign_same, <- D2.
    unfold col. rewrite map_map. reflexivity.
  - intros q Hq. apply band_score_inside; lra.
  - intros x. apply band_score_outside.
  - intros q Hq. apply band_score_inside; lra.
  - intros x. apply band_score_outside.
Qed.

Lemma processor_quality_scores_witness :
  same_values
    (col (_calculate_all_metrics Examples.grades_in_and_out) "grade_mn_score")
    [ Fin 90; Fin 0; Fin 0; Fin 50 ] = true
  /\ same_values
       (col (_calculate_all_metrics Examples.grades_in_and_out)
            "basicity_score")
       [ Fin 98; Fin 0; Fin 94; Fin 0 ] = true.
Proof.
  destruct (processor_quality_scores Examples.grades_in_and_out)
    as (H1 & H2 & _).
  rewrite (H1 eq_refl), (H2 eq_refl). split; vm_compute; reflexivity.
Defined.

Lemma score_components_within (d : frame) (r : row) (c : row -> fnum) :
  (has d "MN Recovery PLC" = true -> within 0 100 (cell r "MN Recovery PLC")) ->
  In c (score_components d) -> within 0 100 (c r).
Proof.
  intros Hr. unfold score_components. intros H.
  apply in_app_or in H. destruct H as [H|H].
  - destruct (has d "cost_per_ton"); [|contradiction].
    destruct H as [<-|[]]. apply relative_score_within.
  - apply in_app_or in H. destruct H as [H|H].
    + destruct (has d "MN Recovery PLC"); [|contradiction].
      destruct H as [<-|[]]. apply Hr. reflexivity.
    + destruct (has d "Specific Power Consumption"); [|contradiction].
      destruct H as [<-|[]]. apply relative_score_within.
Qed.

(** X18.  The performance score of the processor is the mean of the
    components a record has, and the recovery enters it as it is: on a
    table with the recovery column, the score of every record is within
    0 and 100, or missing, provided the recovery of every record is. *)
Theorem processor_performance_score_bounded (df : frame) :
  has df "MN Recovery PLC" = true ->
  (forall x : fnum, In x (col df "MN Recovery PLC") -> within 0 100 x) ->
  has (_calculate_all_metrics df) "performance_score" = true
  /\ forall x : fnum,
       In x (col (_calculate_all_metrics df) "performance_score") ->
       within 0 100 x.
Proof.
  intros Hh Hr. unfold _calculate_all_metrics.
  set (d := quality_scores (efficiency_metrics (cost_metrics df))).
  assert (D : has d "MN Recovery PLC" = true
              /\ col d "MN Recovery PLC" = col df "MN Recovery PLC").
  { subst d.
    destruct (quality_scores_other (efficiency_metrics (cost_metrics df))
                "MN Recovery PLC" eq_refl eq_refl) as [E1 E2].
    destruct (before_quality_scores df "MN Recovery PLC" eq_refl)
      as [E3 E4].
    rewrite E1, E2, E3, E4. split; [exact Hh | reflexivity]. }
  destruct D as [D1 D2]. unfold performance_score.
  destruct (score_components d) as [|c cs] eqn:E.
  { exfalso. unfold score_components in E. rewrite D1 in E.
    destruct (has d "cost_per_ton"); discriminate. }
  split; [apply has_assign_same|].
  rewrite col_assign_same. intros x Hx. apply in_map_iff in Hx.
  destruct Hx as (r & <- & Hin). apply mean_within.
  intros y Hy. apply in_map_iff in Hy. destruct Hy as (k & <- & Hk).
  apply (score_components_within d r k); [|rewrite E; exact Hk].
  intros _. apply Hr. rewrite <- D2. unfold col. apply in_map_iff.
  exists r. split; [reflexivity | exact Hin].
Qed.

Lemma processor_performance_score_bounded_witness :
  within 0 100
    (nth 0 (col (_calculate_all_metrics Samples.two_furnaces)
              "performance_score") PInf).
Proof.
  apply (processor_performance_score_bounded Samples.two_furnaces).
  - reflexivity.
  - intros x Hx. vm_compute in Hx.
    repeat (destruct Hx as [<-|Hx]; [vm_compute; split; discriminate|]).
    contradiction.
  - vm_compute. left. reflexivity.
Defined.

End ProcessorScores.

(** ** The analysis and the insights by grade *)

Section GradeAnalysis.

Import Grades.

Lemma total_finite (v : list fnum) :
  (forall x, In x v -> exists q : Q, x = Fin q) ->
  exists q : Q, total v = Fin q.
Proof.
  induction v as [|x v IH]; intros H; [exists 0; reflexivity|].
  destruct IH as (s & Es); [intros y Hy; apply H; right; exact Hy|].
  destruct (H x (or_introl eq_refl)) as (a & ->).
  exists (a + s). unfold total in *. cbn [fold_right]. rewrite Es.
  reflexivity.
Qed.

Lemma sum_finite (l : list fnum) :
  (forall x, In x l -> finite_or_missing x) -> exists q : Q, sum l = Fin q.
Proof.
  intros H. unfold sum. apply total_finite. intros x Hx.
  unfold dropna in Hx. apply filter_In in Hx. destruct Hx as [Hx N].
  destruct (H x Hx) as [H1 H2].
  destruct x as [a| | |]; try contradiction; try discriminate.
  exists a. reflexivity.
Qed.

Lemma analyze_by_grade_entry (t : graded) (l : list (string * grade_entry))
    (g : string) (e : grade_entry) :
  _analyze_by_grade t = Ok l -> In (g, e) l -> e = analyze_grade t g.
Proof.
  unfold _analyze_by_grade.
  destruct (unique (map fst (g_records t))) as [|g0 gs].
  - intros H. injection H as <-. intros [].
  - destruct (forallb _ required_columns); [|discriminate].
    intros H. injection H as <-. intros Hin.
    change (In (g, e) (map (fun g => (g, analyze_grade t g)) (g0 :: gs)))
      in Hin.
    apply in_map_iff in Hin. destruct Hin as (g' & E & _). congruence.
Qed.

(** X19.  The average cost per ton of a grade is the total cost of the
    grade divided by its total production, and 0 for a grade whose
    total production is not positive: when the cost and production
    cells of the grade are numbers or missing, the average is a number,
    never an infinity and never missing. *)
Theorem grade_average_cost_is_guarded (t : graded)
    (l : list (string * grade_entry)) (g : string) (e : grade_entry) :
  _analyze_by_grade t = Ok l -> In (g, e) l ->
  avg_cost_per_ton e
  = (if fgt (sum (col (of_grade g t) "Actual Production Qty")) (Fin 0)
     then Float (fdiv (sum (col (of_grade g t) "Total Cost PLC"))
                      (sum (col (of_grade g t) "Actual Production Qty")))
     else Int 0)
  /\ ((forall x, In x (col (of_grade g t) "Actual Production Qty") ->
                 finite_or_missing x) ->
      (forall x, In x (col (of_grade g t) "Total Cost PLC") ->
                 finite_or_missing x) ->
      exists q : Q, as_float (avg_cost_per_ton e) = Fin q).
Proof.
  intros Hl Hin. rewrite (analyze_by_grade_entry t l g e Hl Hin).
  unfold analyze_grade. cbv zeta. cbn [avg_cost_per_ton].
  split; [reflexivity|]. intros Hp Hc.
  destruct (sum_finite _ Hp) as (p & ->).
  destruct (sum_finite _ Hc) as (c & ->).
  destruct (fgt (Fin p) (Fin 0)) eqn:E.
  - apply fgt_Fin in E. cbn [as_float fdiv].
    destruct (Qeq_bool p 0) eqn:Z; [|eexists; reflexivity].
    apply Qeq_bool_iff in Z. lra.
  - eexists. reflexivity.
Qed.

Lemma sorted_reverse_same {A : Type} (lt : A -> A -> bool) (l : list A) :
  (forall x y, In x l -> In y l -> lt x y = false) ->
  sorted_reverse lt l = l.
Proof.
  induction l as [|x l IH]; intros H; [reflexivity|].
  unfold sorted_reverse in *. cbn [fold_right].
  rewrite IH by (intros a b Ha Hb; apply H; right; assumption).
  destruct l as [|y l]; [reflexivity|]. cbn [insert_reverse].
  rewrite (H x y (or_introl eq_refl) (or_intror (or_introl eq_refl))).
  reflexivity.
Qed.

Lemma last_In {A : Type} (l : list A) (d : A) : In (last l d) (d :: l).
Proof.
  induction l as [|x l IH]; [left; reflexivity|].
  destruct l as [|y l]; [right; left; reflexivity|].
  change (last (x :: y :: l) d) with (last (y :: l) d).
  destruct IH as [E|Hin]; [left; exact E | right; right; exact Hin].
Qed.

Lemma idle_grades_raise (es : list grade_entry) :
  (2 <= List.length es)%nat ->
  (forall e, In e es -> avg_cost_per_ton e = Int 0) ->
  _generate_grade_based_insights (map (fun e => (grade e, e)) es)
  = Raises ZeroDivisionError.
Proof.
  intros Hlen Hz. unfold _generate_grade_based_insights. cbv zeta.
  rewrite map_map. cbn [snd]. rewrite map_id.
  assert (L : (1 <? List.length es)%nat = true) by (apply Nat.ltb_lt; lia).
  rewrite L, sorted_reverse_same.
  - destruct es as [|h rest]; [simpl in Hlen; lia|].
    assert (Hh : avg_cost_per_ton h = Int 0)
      by (apply Hz; left; reflexivity).
    assert (Hl : avg_cost_per_ton (last rest h) = Int 0)
      by (apply Hz, last_In).
    rewrite Hh, Hl. reflexivity.
  - intros x y Hx Hy. rewrite (Hz x Hx), (Hz y Hy). reflexivity.
Qed.

(** X20.  When the table has at least two grades and none of them has a
    positive total production, the average costs of the grades are all
    the [int] 0 and [_generate_grade_based_insights] divides 0 by 0: it
    raises [ZeroDivisionError]. *)
Theorem grades_without_production_raise (t : graded)
    (l : list (string * grade_entry)) :
  _analyze_by_grade t = Ok l ->
  (2 <= List.length l)%nat ->
  (forall g : string,
     In g (map fst l) ->
     fgt (sum (col (of_grade g t) "Actual Production Qty")) (Fin 0) = false) ->
  _generate_grade_based_insights l = Raises ZeroDivisionError.
Proof.
  intros Hl Hlen Hidle.
  assert (E : l = map (fun e => (grade e, e)) (map snd l)).
  { rewrite map_map. symmetry.
    rewrite <- (map_id l) at 2. apply map_ext_in. intros [g e] Hin.
    rewrite (analyze_by_grade_entry t l g e Hl Hin). reflexivity. }
  rewrite E. apply idle_grades_raise.
  - rewrite length_map. exact Hlen.
  - intros e He. apply in_map_iff in He. destruct He as ([g e'] & <- & Hin).
    cbn [snd]. rewrite (analyze_by_grade_entry t l g e' Hl Hin).
    unfold analyze_grade. cbv zeta. cbn [avg_cost_per_ton].
    rewrite Hidle; [reflexivity|].
    apply in_map_iff. exists (g, e'). split; [reflexivity | exact Hin].
Qed.

Lemma grades_without_production_raise_witness :
  exists l : list (string * grade_entry),
    _analyze_by_grade Examples.idle_grades = Ok l
    /\ _generate_grade_based_insights l = Raises ZeroDivisionError.
Proof.
  assert (H : exists l : list (string * grade_entry),
                _analyze_by_grade Examples.idle_grades = Ok l
                /\ map fst l = ["HC"; "MC"])
    by (eexists; split; vm_compute; reflexivity).
  destruct H as (l & H & K). exists l. split; [exact H|].
  apply (grades_without_production_raise Examples.idle_grades l H).
  - rewrite <- (length_map fst), K. simpl. lia.
  - rewrite K. intros g [<-|[<-|[]]]; vm_compute; reflexivity.
Defined.

Lemma grade_average_cost_is_guarded_witness :
  exists (l : list (string * grade_entry)) (e : grade_entry),
    _analyze_by_grade Examples.idle_grades = Ok l
    /\ In ("HC", e) l
    /\ avg_cost_per_ton e = Int 0.
Proof.
  assert (H : exists (l : list (string * grade_entry)) (e : grade_entry),
                _analyze_by_grade Examples.idle_grades = Ok l
                /\ In ("HC", e) l).
  { eexists. eexists. split; [vm_compute; reflexivity|].
    left. reflexivity. }
  destruct H as (l & e & H & K). exists l, e.
  split; [exact H|]. split; [exact K|].
  rewrite (proj1 (grade_average_cost_is_guarded _ _ _ _ H K)).
  vm_compute. reflexivity.
Defined.

End GradeAnalysis.

(** ** Cost drivers: breakdown of the costs and the main driver *)

Section CostDriverFacts.

Import CostDrivers.

Lemma drivers_loop_without_cost (key : string -> string) (d : frame)
    (cols : list string) (saved : list (string * driver)) :
  fgt (sum (col d "Total Cost PLC")) (Fin 0) = false ->
  drivers_loop key d cols saved = Ok saved.
Proof.
  intros Ht. induction cols as [|c cols IH]; [reflexivity|].
  cbn [drivers_loop]. rewrite Ht. destruct (has d c); exact IH.
Qed.

Lemma drivers_loop_entries (key : string -> string) (d : frame)
    (cols : list string) :
  forall (saved l : list (string * driver)) (k : string) (v : driver),
    drivers_loop key d cols saved = Ok l ->
    In (k, v) l ->
    In (k, v) saved
    \/ exists c : string,
         In c cols /\ k = key c /\ v = driver_of d c /\ has d c = true.
Proof.
  induction cols as [|c cols IH]; intros saved l k v; cbn [drivers_loop].
  - intros H. injection H as <-. intros Hin. left. exact Hin.
  - destruct (has d c) eqn:Hc.
    + destruct (fgt (sum (col d "Total Cost PLC")) (Fin 0)).
      * destruct (has d "Actual Production Qty"); [|discriminate].
        intros H Hin. destruct (IH _ _ _ _ H Hin) as [Hs|(c' & H1 & H2)].
        -- destruct (set_item_In _ _ _ _ _ Hs) as [[-> ->]|Hs'].
           ++ right. exists c. split; [left; reflexivity|].
              split; [reflexivity|]. split; [reflexivity | exact Hc].
           ++ left. exact Hs'.
        -- right. exists c'. split; [right; exact H1 | exact H2].
      * intros H Hin. destruct (IH _ _ _ _ H Hin) as [Hs|(c' & H1 & H2)].
        -- left. exact Hs.
        -- right. exists c'. split; [right; exact H1 | exact H2].
    + intros H Hin. destruct (IH _ _ _ _ H Hin) as [Hs|(c' & H1 & H2)].
      * left. exact Hs.
      * right. exists c'. split; [right; exact H1 | exact H2].
Qed.

Lemma no_record_of_furnace (df : frame) (f : string) :
  ~ In f (furnaces df) -> rows (of_furnace f df) = [].
Proof.
  intros Hn. unfold of_furnace. cbn [rows].
  destruct (filter (fun r => String.eqb (Furnace r) f) (rows df))
    as [|r rs] eqn:E; [reflexivity|].
  exfalso. apply Hn. apply unique_In.
  assert (Hr : In r (filter (fun r => String.eqb (Furnace r) f) (rows df)))
    by (rewrite E; left; reflexivity).
  apply filter_In in Hr. destruct Hr as [Hr Hf].
  apply String.eqb_eq in Hf. subst f. apply in_map. exact Hr.
Qed.

Lemma drivers_loop_with_cost (key : string -> string) (d : frame)
    (cols : list string) (saved : list (string * driver)) :
  fgt (sum (col d "Total Cost PLC")) (Fin 0) = true ->
  has d "Actual Production Qty" = true ->
  drivers_loop key d cols saved
  = Ok (fold_left (fun b c => set_item (key c) (driver_of d c) b)
                  (filter (has d) cols) saved).
Proof.
  intros Ht Hp. revert saved.
  induction cols as [|c cols IH]; intros saved; [reflexivity|].
  cbn [drivers_loop filter]. rewrite Ht, Hp.
  destruct (has d c); [cbn [fold_left]|]; apply IH.
Qed.

Lemma distinct_filter (key : string -> string) (p : string -> bool)
    (cols : list string) :
  distinct (map key cols) = true -> distinct (map key (filter p cols)) = true.
Proof.
  induction cols as [|c cols IH]; [reflexivity|].
  cbn [map filter distinct]. intros H.
  apply andb_true_iff in H. destruct H as [H1 H2].
  destruct (p c); [|exact (IH H2)].
  cbn [map distinct]. apply andb_true_iff. split; [|exact (IH H2)].
  apply negb_true_iff. apply negb_true_iff in H1.
  destruct (existsb (String.eqb (key c)) (map key (filter p cols))) eqn:E;
    [|reflexivity].
  apply existsb_exists in E. destruct E as (k & Hk & Ek).
  apply in_map_iff in Hk. destruct Hk as (c' & <- & Hc').
  apply filter_In in Hc'. destruct Hc' as [Hc' _].
  rewrite <- H1. symmetry. apply existsb_exists.
  exists (key c'). split; [apply in_map; exact Hc' | exact Ek].
Qed.

Lemma set_item_new {V : Type} (d : list (string * V)) (k : string) (v : V) :
  existsb (String.eqb k) (map fst d) = false ->
  set_item k v d = d ++ [(k, v)].
Proof.
  induction d as [|[k0 v0] d IH]; [reflexivity|].
  cbn [set_item map fst existsb app]. intros H.
  apply orb_false_iff in H. destruct H as [H1 H2].
  rewrite String.eqb_sym, H1, (IH H2). reflexivity.
Qed.

Lemma stored_after {V : Type} (key : string -> string) (val : string -> V)
    (cols : list string) :
  forall saved : list (string * V),
    distinct (map key cols) = true ->
    (forall c, In c cols ->
               existsb (String.eqb (key c)) (map fst saved) = false) ->
    fold_left (fun b c => set_item (key c) (val c) b) cols saved
    = saved ++ map (fun c => (key c, val c)) cols.
Proof.
  induction cols as [|c cols IH]; intros saved Hd Hs.
  - cbn [fold_left map]. rewrite app_nil_r. reflexivity.
  - cbn [fold_left map distinct] in *.
    apply andb_true_iff in Hd. destruct Hd as [H1 H2].
    rewrite set_item_new by (apply Hs; left; reflexivity).
    rewrite IH; [rewrite <- app_assoc; reflexivity | exact H2 |].
    intros c' Hc'. rewrite map_app, existsb_app.
    rewrite (Hs c' (or_intror Hc')). cbn [map fst existsb orb].
    rewrite orb_false_r.
    apply negb_true_iff in H1.
    destruct (String.eqb (key c') (key c)) eqn:E; [|reflexivity].
    apply String.eqb_eq in E. rewrite <- H1. symmetry.
    apply existsb_exists. exists (key c'). split.
    + apply in_map. exact Hc'.
    + rewrite E. apply String.eqb_refl.
Qed.

Lemma stored_in_order {V : Type} (key : string -> string) (val : string -> V)
    (p : string -> bool) (cols : list string) :
  distinct (map key cols) = true ->
  fold_left (fun b c => set_item (key c) (val c) b) (filter p cols) []
  = map (fun c => (key c, val c)) (filter p cols).
Proof.
  intros Hd. rewrite stored_after; [reflexivity | |].
  - apply distinct_filter. exact Hd.
  - intros c _. reflexivity.
Qed.

(** X21.  The cost breakdown of a furnace has one entry for each cost
    column of the table, in the order Ore, Coke, Power Cost, Fluxes,
    Undersize, when the total cost of the furnace is positive; it is
    empty when the total cost is not positive, whatever the cost columns
    hold. *)
Theorem cost_breakdown_entries (furnace_data : frame) :
  has furnace_data "Total Cost PLC" = true ->
  (fgt (sum (col furnace_data "Total Cost PLC")) (Fin 0) = false ->
   _get_cost_breakdown furnace_data = Ok [])
  /\ (fgt (sum (col furnace_data "Total Cost PLC")) (Fin 0) = true ->
      has furnace_data "Actual Production Qty" = true ->
      _get_cost_breakdown furnace_data
      = Ok (map (fun c => (breakdown_key c, driver_of furnace_data c))
                (filter (has furnace_data) cost_columns)))
  /\ map breakdown_key cost_columns
     = [ "Ore"; "Coke"; "Power Cost"; "Fluxes"; "Undersize" ].
Proof.
  intros Hc. unfold _get_cost_breakdown. rewrite Hc.
  split; [|split].
  - intros Ht. apply drivers_loop_without_cost. exact Ht.
  - intros Ht Hp. rewrite (drivers_loop_with_cost _ _ _ _ Ht Hp).
    f_equal. apply stored_in_order. vm_compute. reflexivity.
  - vm_compute. reflexivity.
Qed.

Lemma cost_breakdown_entries_witness :
  exists p o : fnum,
    _get_cost_breakdown Examples.costs_without_production
    = Ok [ ("Ore", {| amount := Fin 90; percentage := o; per_ton := PInf |});
           ("Power Cost",
            {| amount := Fin 60; percentage := p; per_ton := PInf |}) ].
Proof.
  destruct (cost_breakdown_entries Examples.costs_without_production eq_refl)
    as (_ & H & _).
  rewrite (H eq_refl eq_refl). eexists. eexists. vm_compute. reflexivity.
Defined.

Lemma drivers_loop_without_production (key : string -> string) (d : frame)
    (cols : list string) (saved : list (string * driver)) :
  fgt (sum (col d "Total Cost PLC")) (Fin 0) = true ->
  has d "Actual Production Qty" = false ->
  drivers_loop key d cols saved
  = if existsb (has d) cols then Raise KeyError else Ok saved.
Proof.
  intros Ht Hp. induction cols as [|c cols IH]; [reflexivity|].
  cbn [drivers_loop existsb]. rewrite Ht, Hp.
  destruct (has d c); [reflexivity | exact IH].
Qed.

(** X22.  [identify_cost_drivers] of the capacity calculator gives the
    figures of [_get_cost_breakdown] on the records of the furnace,
    under the names of the columns instead of the shortened ones, and
    raises when that raises; for a furnace that has no record it gives
    the empty dictionary. *)
Theorem identify_cost_drivers_same_figures (df : frame) (furnace_id : string) :
  has df "Furnace" = true ->
  (has df "Total Cost PLC" = true ->
   ~ In furnace_id (furnaces df) ->
   identify_cost_drivers df furnace_id = Ok [])
  /\ match _get_cost_breakdown (of_furnace furnace_id df) with
     | Ok l =>
         exists l' : list (string * driver),
           identify_cost_drivers df furnace_id = Ok l'
           /\ map snd l' = map snd l
           /\ map (fun kv => breakdown_key (fst kv)) l' = map fst l
     | Raise e => identify_cost_drivers df furnace_id = Raise e
     end.
Proof.
  intros Hf. unfold identify_cost_drivers, _get_cost_breakdown.
  rewrite Hf. set (d := of_furnace furnace_id df). split.
  - intros Hc Hn.
    assert (E : has d "Total Cost PLC" = true)
      by (subst d; rewrite has_of_furnace; exact Hc).
    rewrite E. apply drivers_loop_without_cost.
    unfold col. subst d. rewrite (no_record_of_furnace df furnace_id Hn).
    reflexivity.
  - destruct (has d "Total Cost PLC"); [|reflexivity].
    destruct (fgt (sum (col d "Total Cost PLC")) (Fin 0)) eqn:Ht.
    + destruct (has d "Actual Production Qty") eqn:Hp.
      * rewrite !(drivers_loop_with_cost _ _ _ _ Ht Hp).
        rewrite !stored_in_order by (vm_compute; reflexivity).
        eexists. split; [reflexivity|].
        rewrite !map_map. cbn [fst snd]. split; reflexivity.
      * rewrite !(drivers_loop_without_production _ _ _ _ Ht Hp).
        destruct (existsb (has d) cost_columns); [reflexivity|].
        exists []. repeat split.
    + rewrite !(drivers_loop_without_cost _ _ _ _ Ht).
      exists []. repeat split.
Qed.

Lemma identify_cost_drivers_same_figures_witness :
  identify_cost_drivers Examples.costs_without_production "F9" = Ok []
  /\ exists l : list (string * driver),
       identify_cost_drivers Examples.costs_without_production "F1" = Ok l
       /\ map fst l = [ "Ore Cost PLC"; "Power Cost" ].
Proof.
  split.
  - apply (identify_cost_drivers_same_figures
             Examples.costs_without_production "F9" eq_refl);
      [reflexivity|].
    vm_compute. intros [H|[]]. discriminate H.
  - eexists. split; vm_compute; reflexivity.
Defined.

(** X23.  The cost per ton of an entry of the breakdown is not guarded
    as the percentage is: for a furnace whose records have costs and a
    total production of 0, every entry with a positive amount has an
    infinite cost per ton. *)
Theorem breakdown_per_ton_is_unguarded (furnace_data : frame)
    (l : list (string * driver)) (k : string) (v : driver) :
  _get_cost_breakdown furnace_data = Ok l ->
  In (k, v) l ->
  feq (sum (col furnace_data "Actual Production Qty")) (Fin 0) ->
  fgt (amount v) (Fin 0) = true ->
  per_ton v = PInf.
Proof.
  unfold _get_cost_breakdown.
  destruct (has furnace_data "Total Cost PLC"); [|discriminate].
  intros Hl Hin Hz Ha.
  destruct (drivers_loop_entries _ _ _ _ _ _ _ Hl Hin)
    as [[]|(c & _ & _ & -> & _)].
  unfold driver_of in *. cbv zeta in *. cbn [amount per_ton] in *.
  destruct (sum (col furnace_data "Actual Production Qty")) as [b| | |];
    try contradiction.
  cbn [feq] in Hz.
  destruct (sum (col furnace_data c)) as [a| | |]; try discriminate.
  - apply fgt_Fin in Ha. unfold fdiv.
    assert (E : Qeq_bool b 0 = true) by (apply Qeq_bool_iff; exact Hz).
    rewrite E. unfold signed_inf.
    assert (L : (0 ?= a) = Lt) by (apply Qlt_alt; exact Ha).
    rewrite L. reflexivity.
  - unfold fdiv.
    assert (E : Qle_bool 0 b = true) by (apply Qle_bool_iff; lra).
    rewrite E. reflexivity.
Qed.

Lemma breakdown_per_ton_is_unguarded_witness :
  exists (l : list (string * driver)) (v : driver),
    _get_cost_breakdown Examples.costs_without_production = Ok l
    /\ In ("Ore", v) l
    /\ per_ton v = PInf.
Proof.
  assert (H : exists (l : list (string * driver)) (v : driver),
                _get_cost_breakdown Examples.costs_without_production = Ok l
                /\ In ("Ore", v) l
                /\ fgt (amount v) (Fin 0) = true).
  { eexists. eexists. split; [vm_compute; reflexivity|].
    split; [left; reflexivity | vm_compute; reflexivity]. }
  destruct H as (l & v & H & K & A). exists l, v.
  split; [exact H|]. split; [exact K|].
  apply (breakdown_per_ton_is_unguarded
           Examples.costs_without_production l "Ore" v H K);
    [vm_compute; reflexivity | exact A].
Defined.

Lemma fgt_irrefl (x : fnum) : fgt x x = false.
Proof.
  destruct (fgt x x) eqn:E; [|reflexivity].
  rewrite (fgt_asym x x E) in E. discriminate E.
Qed.

Lemma fgt_value (x y : fnum) : fgt x y = true -> isna x = false.
Proof. destruct x, y; simpl; trivial; discriminate. Qed.

Lemma main_driver_fold (cost_drivers : list (string * driver)) :
  forall found : option string * fnum,
    isna (snd found) = false ->
    isna (snd (fold_left main_driver_step cost_drivers found)) = false
    /\ fgt (snd found) (snd (fold_left main_driver_step cost_drivers found))
       = false
    /\ (forall e, In e cost_drivers ->
                  fgt (percentage (snd e))
                      (snd (fold_left main_driver_step cost_drivers found))
                  = false)
    /\ (fold_left main_driver_step cost_drivers found = found
        \/ exists pre k v post,
             cost_drivers = pre ++ (k, v) :: post
             /\ fold_left main_driver_step cost_drivers found
                = (Some k, percentage v)
             /\ fgt (percentage v) (snd found) = true
             /\ forall e, In e pre ->
                          fgt (percentage v) (percentage (snd e)) = true
                          \/ percentage (snd e) = NaN).
Proof.
  induction cost_drivers as [|[k0 v0] rest IH]; intros found Hn.
  - cbn [fold_left]. split; [exact Hn|]. split; [apply fgt_irrefl|].
    split; [intros e []|]. left. reflexivity.
  - cbn [fold_left]. unfold main_driver_step at 2 4 6 8 10.
    cbn [fst snd].
    destruct (fgt (percentage v0) (snd found)) eqn:E.
    + destruct (IH (Some k0, percentage v0) (fgt_value _ _ E))
        as (I1 & I2 & I3 & I4).
      cbn [snd] in I2, I4.
      set (r := fold_left main_driver_step rest (Some k0, percentage v0))
        in *.
      split; [exact I1|]. split; [|split].
      * destruct (fgt (snd found) (snd r)) eqn:G; [|reflexivity].
        rewrite (fgt_trans _ _ _ E G) in I2. discriminate I2.
      * intros e [<-|He]; [exact I2 | exact (I3 e He)].
      * right. destruct I4 as [I4|(pre & k & v & post & -> & J1 & J2 & J3)].
        -- exists [], k0, v0, rest. split; [reflexivity|].
           split; [exact I4|]. split; [exact E|]. intros e [].
        -- exists ((k0, v0) :: pre), k, v, post. split; [reflexivity|].
           split; [exact J1|]. split; [exact (fgt_trans _ _ _ J2 E)|].
           intros e [<-|He]; [left; exact J2 | exact (J3 e He)].
    + destruct (IH found Hn) as (I1 & I2 & I3 & I4).
      set (r := fold_left main_driver_step rest found) in *.
      split; [exact I1|]. split; [exact I2|]. split.
      * intros e [<-|He]; [|exact (I3 e He)]. cbn [snd].
        destruct (fgt (percentage v0) (snd r)) eqn:G; [|reflexivity].
        destruct (fgt_negtrans _ (snd found) _ G Hn) as [H|H].
        -- rewrite H in E. discriminate E.
        -- rewrite H in I2. discriminate I2.
      * destruct I4 as [I4|(pre & k & v & post & -> & J1 & J2 & J3)];
          [left; exact I4|].
        right. exists ((k0, v0) :: pre), k, v, post.
        split; [reflexivity|]. split; [exact J1|]. split; [exact J2|].
        intros e [<-|He]; [|exact (J3 e He)]. cbn [snd].
        destruct (isna (percentage v0)) eqn:N.
        -- right. destruct (percentage v0); try discriminate N. reflexivity.
        -- left. destruct (fgt_negtrans _ (percentage v0) _ J2 N) as [H|H];
             [exact H|]. rewrite H in E. discriminate E.
Qed.

(** X24.  The main cost driver that the cost rules name is the first
    entry of the breakdown with the largest percentage: no entry has a
    greater percentage, the entries before it have a smaller or a
    missing one, and its percentage is positive.  When no percentage is
    positive, as for an empty breakdown, no driver is found and the
    percentage stays 0. *)
Theorem main_cost_driver_is_first_largest
    (cost_drivers : list (string * driver)) :
  (forall e : string * driver,
     In e cost_drivers ->
     fgt (percentage (snd e)) (snd (main_cost_driver cost_drivers)) = false)
  /\ match fst (main_cost_driver cost_drivers) with
     | None => snd (main_cost_driver cost_drivers) = Fin 0
     | Some k =>
         exists (pre : list (string * driver)) (v : driver)
                (post : list (string * driver)),
           cost_drivers = pre ++ (k, v) :: post
           /\ snd (main_cost_driver cost_drivers) = percentage v
           /\ fgt (percentage v) (Fin 0) = true
           /\ forall e : string * driver,
                In e pre ->
                fgt (percentage v) (percentage (snd e)) = true
                \/ percentage (snd e) = NaN
     end.
Proof.
  unfold main_cost_driver.
  destruct (main_driver_fold cost_drivers (None, Fin 0) eq_refl)
    as (_ & _ & I3 & I4).
  split; [exact I3|].
  destruct I4 as [->|(pre & k & v & post & E & -> & J2 & J3)].
  - reflexivity.
  - cbn [fst snd]. exists pre, v, post.
    split; [exact E|]. split; [reflexivity|]. split; [exact J2 | exact J3].
Qed.

End CostDriverFacts.
